(** * devcon: the terminal core (characters, cells, lines, pages, history,
      UTF-8 codec and control-sequence parser)

    A shallow embedding of [drivers/devcon/page.c], [page.h], [parser.c] and
    [parser.h].  C integers are [Z] with the wrap-around of their width
    written out; arrays are lists indexed through [Z.to_nat]; the kernel
    allocator is an explicit heap threaded through every function that
    allocates or frees.  Projections carry the name of their struct as a
    prefix ([line_width] is [line->width]). *)

From Stdlib Require Import ZArith List Lia Bool.
From stdpp Require Import base list gmap.

Local Open Scope Z_scope.

(** ** Machine integers *)

Definition u8 (x : Z) : Z := x mod 2 ^ 8.
Definition u32 (x : Z) : Z := x mod 2 ^ 32.
Definition u64 (x : Z) : Z := x mod 2 ^ 64.

(** [LESS_BY(a, b)]: [aa > bb ? aa - bb : 0]. *)
Definition LESS_BY (a b : Z) : Z := if b <? a then a - b else 0.

Definition ENOMEM : Z := 12.
Definition EAGAIN : Z := 11.
Definition EINVAL : Z := 22.
Definition ENOENT : Z := 2.

(** ** The kernel allocator

    [kmalloc], [kzalloc], [krealloc] and [kfree] belong to the kernel, not to
    this repository.  They are modelled by a heap holding the live
    [devcon_character] objects (the only objects whose address is observable,
    through the tag bit of [devcon_char]), a break pointer from which fresh
    addresses are handed out at the allocator's minimum alignment of 8, and
    the list [grants] of the outcomes of the coming allocation requests:
    [true] grants the request, [false] (or an exhausted list) makes the
    allocator return NULL.  Freshly allocated memory reads as zero.  Freeing
    or reading an address that holds no live object is undefined in C; the
    model makes the first a no-op and lets the second read an empty object. *)

Record devcon_character := mk_character {
  character_n : Z;               (* u8 n *)
  character_codepoints : list Z  (* u32 codepoints[]; n + 1 are allocated *)
}.

Record heap := mk_heap {
  chars : gmap Z devcon_character;
  brk : Z;
  grants : list bool
}.

Definition M (A : Type) : Type := heap -> A * heap.

Definition ret {A} (a : A) : M A := fun h => (a, h).

Definition bind {A B} (m : M A) (k : A -> M B) : M B :=
  fun h => let (a, h') := m h in k a h'.

Notation "x <- m ;; k" := (bind m (fun x => k))
  (at level 100, m at next level, right associativity).
Notation "m ;;; k" := (bind m (fun _ => k))
  (at level 100, right associativity).

Definition KMALLOC_MINALIGN : Z := 8.

(** One allocation request: consumes one entry of [grants]. *)
Definition kalloc_request : M bool := fun h =>
  match grants h with
  | [] => (false, h)
  | g :: gs => (g, mk_heap (chars h) (brk h) gs)
  end.

(** [kmalloc(size, GFP_KERNEL)] for an object whose address matters: NULL
    (0) when the request is refused or the address space is exhausted. *)
Definition kmalloc : M Z :=
  ok <- kalloc_request ;;
  fun h =>
    if ok && (brk h + KMALLOC_MINALIGN <=? 2 ^ 64)
    then (brk h, mk_heap (chars h) (brk h + KMALLOC_MINALIGN) (grants h))
    else (0, h).

Definition kfree (p : Z) : M unit := fun h =>
  (tt, mk_heap (delete p (chars h)) (brk h) (grants h)).

Definition heap_read (p : Z) (h : heap) : devcon_character :=
  default (mk_character 0 []) (chars h !! p).

Definition heap_write (p : Z) (c : devcon_character) : M unit := fun h =>
  (tt, mk_heap (<[p := c]> (chars h)) (brk h) (grants h)).

(** ** Arrays

    [array_get] reads, [array_set] writes one element, [array_copy] is
    [memcpy]/[memmove] of a block that was read before any element is
    written, which is the overlap-safe semantics of [memmove]. *)

Definition array_get {A} (d : A) (l : list A) (i : Z) : A :=
  if i <? 0 then d else default d (l !! Z.to_nat i).

Definition array_set {A} (l : list A) (i : Z) (x : A) : list A :=
  if i <? 0 then l else <[Z.to_nat i := x]> l.

Definition array_sub {A} (l : list A) (from num : Z) : list A :=
  take (Z.to_nat num) (drop (Z.to_nat from) l).

Definition array_copy {A} (dst : list A) (at_ : Z) (src : list A) : list A :=
  list_inserts (Z.to_nat at_) src dst.

(** * Characters (page.h, page.c) *)

Record devcon_char := DEVCON_CHAR_INIT { _value : Z (* u64 *) }.

Record devcon_charbuf := mk_charbuf { buf : list Z (* u32 buf[4] *) }.

Definition DEVCON_CHAR_NULL : devcon_char := DEVCON_CHAR_INIT 0.

Definition DEVCON_AGE_NULL : Z := 0.

(** maximum UCS-4 character *)
Definition DEVCON_CHAR_UCS4_MAX : Z := 0x10ffff.
(** mask for valid UCS-4 characters (21bit) *)
Definition DEVCON_CHAR_UCS4_MASK : Z := 0x1fffff.
(** UCS-4 replacement character *)
Definition DEVCON_CHAR_UCS4_REPLACEMENT : Z := 0xfffd.

Definition devcon_char_is_null (ch : devcon_char) : bool :=
  _value ch =? 0.

Definition devcon_char_is_allocated (ch : devcon_char) : bool :=
  negb (devcon_char_is_null ch) && negb (negb (Z.land (_value ch) 0x1 =? 0)).

Definition devcon_char_same (a b : devcon_char) : bool :=
  _value a =? _value b.

Definition devcon_char_pack (v1 v2 v3 : Z) : devcon_char :=
  let u1 := v1 in
  let u2 := v2 in
  let u3 := v3 in
  let packed := 0x01 in
  let packed := Z.lor packed (u64 (Z.shiftl (Z.land u1 DEVCON_CHAR_UCS4_MASK) 43)) in
  let packed := Z.lor packed (u64 (Z.shiftl (Z.land u2 DEVCON_CHAR_UCS4_MASK) 22)) in
  let packed := Z.lor packed (u64 (Z.shiftl (Z.land u3 DEVCON_CHAR_UCS4_MASK) 1)) in
  DEVCON_CHAR_INIT packed.

Definition devcon_char_pack3 (v1 v2 v3 : Z) : devcon_char :=
  devcon_char_pack v1 v2 v3.
Definition devcon_char_pack2 (v1 v2 : Z) : devcon_char :=
  devcon_char_pack3 v1 v2 (DEVCON_CHAR_UCS4_MAX + 1).
Definition devcon_char_pack1 (v1 : Z) : devcon_char :=
  devcon_char_pack2 v1 (DEVCON_CHAR_UCS4_MAX + 1).

(** Returns the number of packed characters and the three slots. *)
Definition devcon_char_unpack (packed : devcon_char) : Z * (Z * Z * Z) :=
  let v1 := Z.land (Z.shiftr (_value packed) 43) DEVCON_CHAR_UCS4_MASK in
  let v2 := Z.land (Z.shiftr (_value packed) 22) DEVCON_CHAR_UCS4_MASK in
  let v3 := Z.land (Z.shiftr (_value packed) 1) DEVCON_CHAR_UCS4_MASK in
  ((if DEVCON_CHAR_UCS4_MAX <? v1 then 0
    else if DEVCON_CHAR_UCS4_MAX <? v2 then 1
    else if DEVCON_CHAR_UCS4_MAX <? v3 then 2
    else 3),
   (v1, v2, v3)).

Definition devcon_char_to_ptr (ch : devcon_char) : Z := _value ch.

Definition devcon_char_from_ptr (c : Z) : devcon_char :=
  DEVCON_CHAR_INIT (u64 c).

(** [devcon_char_alloc(n)]: room for [n] code points and a terminating
    zero; NULL on allocation failure or a misaligned address. *)
Definition devcon_char_alloc (n : Z) : M Z :=
  c <- kmalloc ;;
  if c =? 0 then ret 0
  else if negb (Z.land c 1 =? 0) then (kfree c ;;; ret 0)
  else
    heap_write c (mk_character n
      (array_set (replicate (Z.to_nat (n + 1)) 0) n 0)) ;;;
    ret c.

Definition devcon_char_free (ch : devcon_char) : M devcon_char :=
  if devcon_char_is_allocated ch
  then (kfree (devcon_char_to_ptr ch) ;;; ret DEVCON_CHAR_NULL)
  else ret DEVCON_CHAR_NULL.

(** The tail of [devcon_char_build] shared by the fully packed and the
    allocated case: [t] are the code points of [base], [n] their number. *)
Definition devcon_char_build_alloc (climit : Z) (base : devcon_char)
    (t : list Z) (n : Z) (append_ucs4 : Z) : M devcon_char :=
  (* bail out if soft-limit is reached *)
  if climit <=? n then ret base
  else
    (* allocate new char *)
    c <- devcon_char_alloc (u8 (n + 1)) ;;
    if c =? 0 then ret base
    else fun h =>
      let obj := heap_read c h in
      let cps := array_copy (character_codepoints obj) 0 (array_sub t 0 n) in
      let cps := array_set cps n append_ucs4 in
      (devcon_char_from_ptr c,
       snd (heap_write c (mk_character (character_n obj) cps) h)).

Definition devcon_char_build (base : devcon_char) (append_ucs4 : Z)
    : M devcon_char :=
  (* soft-limit for combining-chars; hard-limit is currently 255 *)
  let climit := 64 in
  (* ignore invalid UCS-4 *)
  if DEVCON_CHAR_UCS4_MAX <? append_ucs4 then ret base
  else if devcon_char_is_null base then ret (devcon_char_pack1 append_ucs4)
  else if negb (devcon_char_is_allocated base) then
    (* unpack and try extending the packed character *)
    let '(n, (b0, b1, b2)) := devcon_char_unpack base in
    if n =? 0 then ret (devcon_char_pack1 append_ucs4)
    else if n =? 1 then
      if climit <? 2 then ret base
      else ret (devcon_char_pack2 b0 append_ucs4)
    else if n =? 2 then
      if climit <? 3 then ret base
      else ret (devcon_char_pack3 b0 b1 append_ucs4)
    else
      (* already fully packed, we need to allocate a new one *)
      devcon_char_build_alloc climit base [b0; b1; b2] n append_ucs4
  else
    (* already an allocated type, we need to allocate a new one *)
    fun h =>
      let c := heap_read (devcon_char_to_ptr base) h in
      devcon_char_build_alloc climit base (character_codepoints c)
        (character_n c) append_ucs4 h.

Definition devcon_char_set (previous : devcon_char) (append_ucs4 : Z)
    : M devcon_char :=
  devcon_char_free previous ;;;
  devcon_char_build DEVCON_CHAR_NULL append_ucs4.

Definition devcon_char_merge (base : devcon_char) (append_ucs4 : Z)
    : M devcon_char :=
  ch <- devcon_char_build base append_ucs4 ;;
  if negb (devcon_char_same ch base)
  then (devcon_char_free base ;;; ret ch)
  else ret ch.

Definition devcon_char_dup (ch : devcon_char) : M devcon_char :=
  if negb (devcon_char_is_allocated ch) then ret ch
  else fun h =>
    let c := heap_read (devcon_char_to_ptr ch) h in
    (newc <- devcon_char_alloc (character_n c) ;;
     if newc =? 0 then ret (devcon_char_pack1 DEVCON_CHAR_UCS4_REPLACEMENT)
     else fun h' =>
       let obj := heap_read newc h' in
       let cps := array_copy (character_codepoints obj) 0
                    (array_sub (character_codepoints c) 0
                       (character_n c)) in
       (devcon_char_from_ptr newc,
        snd (heap_write newc (mk_character (character_n obj) cps) h'))) h.

(** [devcon_char_resolve(ch, &len, b)]: the string the returned pointer
    refers to (the caller's buffer after the call, or the allocated
    storage) and its length.  The caller always passes a buffer. *)
Definition devcon_char_resolve (ch : devcon_char) (b : devcon_charbuf)
    (h : heap) : list Z * Z :=
  let cache := buf b in
  if devcon_char_is_null ch then
    (array_set cache 0 0, 0)
  else if devcon_char_is_allocated ch then
    let c := heap_read (devcon_char_to_ptr ch) h in
    (character_codepoints c, character_n c)
  else
    let '(len, (v1, v2, v3)) := devcon_char_unpack ch in
    let cache := array_set cache 0 v1 in
    let cache := array_set cache 1 v2 in
    let cache := array_set cache 2 v3 in
    (array_set cache len 0, len).

(** true if both resolve to the same string: equal lengths and equal
    code points ([memcmp] over the first [na] code points). *)
Definition devcon_char_equal (a b : devcon_char) (h : heap) : bool :=
  let ca := mk_charbuf [0; 0; 0; 0] in
  let cb := mk_charbuf [0; 0; 0; 0] in
  let (sa, na) := devcon_char_resolve a ca h in
  let (sb, nb) := devcon_char_resolve b cb h in
  (na =? nb) && bool_decide (array_sub sa 0 na = array_sub sb 0 na).

(** * Attributes and cells (page.h, page.c) *)

(** [c256] shares its storage with [red] (anonymous union). *)
Record devcon_color := mk_color {
  color_ccode : Z;
  color_red : Z;
  color_green : Z;
  color_blue : Z
}.

Record devcon_attr := mk_attr {
  attr_fg : devcon_color;       (* foreground color *)
  attr_bg : devcon_color;       (* background color *)
  attr_bold : bool;             (* bold font *)
  attr_italic : bool;           (* italic font *)
  attr_underline : bool;        (* underline text *)
  attr_inverse : bool;          (* inverse fg/bg *)
  attr_protect : bool;          (* protect from erase *)
  attr_blink : bool;            (* blink text *)
  attr_hidden : bool            (* hidden *)
}.

(** The all-zero attribute, which is the default. *)
Definition attr_zero : devcon_attr :=
  mk_attr (mk_color 0 0 0 0) (mk_color 0 0 0 0)
          false false false false false false false.

(** [attr ? *attr : zero]: callers pass NULL for the default. *)
Definition attr_or_zero (attr : option devcon_attr) : devcon_attr :=
  default attr_zero attr.

Record devcon_cell := mk_cell {
  cell_ch : devcon_char;        (* stored char or DEVCON_CHAR_NULL *)
  cell_age : Z;                 (* cell age or DEVCON_AGE_NULL *)
  cell_attr : devcon_attr;      (* cell attributes *)
  cell_cwidth : Z               (* cached wcwidth(ch) *)
}.

(** A cell of zeroed memory. *)
Definition cell_zero : devcon_cell :=
  mk_cell DEVCON_CHAR_NULL 0 attr_zero 0.

(** [for (i = 0; i < num; ++i) body], threading the loop state. *)
Fixpoint for_loop {S} (idx : list Z) (body : Z -> S -> M S) (s : S)
    : M S :=
  match idx with
  | [] => ret s
  | i :: idx' => s' <- body i s ;; for_loop idx' body s'
  end.

Definition devcon_cell_init (cell : devcon_cell) (ch : devcon_char)
    (cwidth : Z) (attr : option devcon_attr) (age : Z) : devcon_cell :=
  mk_cell ch age (attr_or_zero attr) cwidth.

Definition devcon_cell_destroy (cell : devcon_cell) : M unit :=
  devcon_char_free (cell_ch cell) ;;; ret tt.

Definition devcon_cell_set (cell : devcon_cell) (ch : devcon_char)
    (cwidth : Z) (attr : option devcon_attr) (age : Z) : M devcon_cell :=
  ch' <- (if negb (devcon_char_same ch (cell_ch cell))
          then (devcon_char_free (cell_ch cell) ;;; ret ch)
          else ret (cell_ch cell)) ;;
  ret (mk_cell ch' age (attr_or_zero attr) cwidth).

Definition devcon_cell_append (cell : devcon_cell) (ucs4 : Z) (age : Z)
    : M devcon_cell :=
  ch <- devcon_char_merge (cell_ch cell) ucs4 ;;
  ret (mk_cell ch age (cell_attr cell) (cell_cwidth cell)).

(** The array functions take the array and the offset of the first cell
    ([cells + at_] in the source). *)
Definition devcon_cell_init_n (cells : list devcon_cell) (at_ n : Z)
    (attr : option devcon_attr) (age : Z) : list devcon_cell :=
  foldl (fun cs i =>
           array_set cs (at_ + i)
             (devcon_cell_init (array_get cell_zero cs (at_ + i))
                DEVCON_CHAR_NULL 0 attr age))
        cells (seqZ 0 n).

Definition devcon_cell_destroy_n (cells : list devcon_cell) (at_ n : Z)
    : M unit :=
  for_loop (seqZ 0 n)
    (fun i _ => devcon_cell_destroy (array_get cell_zero cells (at_ + i))) tt.

Definition devcon_cell_clear_n (cells : list devcon_cell) (at_ n : Z)
    (attr : option devcon_attr) (age : Z) : M (list devcon_cell) :=
  for_loop (seqZ 0 n)
    (fun i cs =>
       c <- devcon_cell_set (array_get cell_zero cs (at_ + i))
              DEVCON_CHAR_NULL 0 attr age ;;
       ret (array_set cs (at_ + i) c))
    cells.

(** [memset(cells + at_, 0, sizeof(cell) * n)]. *)
Definition cells_memset0 (cells : list devcon_cell) (at_ n : Z)
    : list devcon_cell :=
  foldl (fun cs i => array_set cs (at_ + i) cell_zero) cells (seqZ 0 n).

(** [for (i = 0; i < n; ++i) cells[at_ + i].age = age]. *)
Definition cells_set_age (cells : list devcon_cell) (at_ n : Z) (age : Z)
    : list devcon_cell :=
  foldl (fun cs i =>
           let c := array_get cell_zero cs (at_ + i) in
           array_set cs (at_ + i)
             (mk_cell (cell_ch c) age (cell_attr c) (cell_cwidth c)))
        cells (seqZ 0 n).

(** * Lines (page.h, page.c)

    The [list] member links a line into a history; in the model the
    position of the line in the history's list plays that role. *)

Record devcon_line := mk_line {
  line_width : Z;               (* visible width of line *)
  line_n_cells : Z;             (* # of allocated cells *)
  line_cells : list devcon_cell;(* cell-array *)
  line_age : Z;                 (* line age *)
  line_fill : Z                 (* # of valid cells; starting left *)
}.

Definition line_with_cells (line : devcon_line) (cells : list devcon_cell)
    : devcon_line :=
  mk_line (line_width line) (line_n_cells line) cells (line_age line)
          (line_fill line).

Definition line_with_fill (line : devcon_line) (fill : Z) : devcon_line :=
  mk_line (line_width line) (line_n_cells line) (line_cells line)
          (line_age line) fill.

Definition line_with_age (line : devcon_line) (age : Z) : devcon_line :=
  mk_line (line_width line) (line_n_cells line) (line_cells line)
          age (line_fill line).

(** [SIZE_MAX] and [sizeof(struct devcon_cell)] of a 64-bit kernel. *)
Definition SIZE_MAX : Z := 2 ^ 64 - 1.
Definition sizeof_cell : Z := 32.
Definition sizeof_ptr : Z := 8.

(** [kzalloc(sizeof(struct devcon_line))]: [None] is [-ENOMEM]. *)
Definition devcon_line_new : M (option devcon_line) :=
  ok <- kalloc_request ;;
  if ok then ret (Some (mk_line 0 0 [] 0 0)) else ret None.

Definition devcon_line_free (line : devcon_line) : M unit :=
  devcon_cell_destroy_n (line_cells line) 0 (line_n_cells line).

(** Returns the error code and the line as the call leaves it. *)
Definition devcon_line_reserve (line : devcon_line) (width : Z)
    (attr : option devcon_attr) (age : Z) (protect_width : Z)
    : M (Z * devcon_line) :=
  (* reset existing cells if required *)
  let min_width := Z.min (line_n_cells line) width in
  cells <- (if protect_width <? min_width
            then devcon_cell_clear_n (line_cells line) protect_width
                   (u32 (min_width - protect_width)) attr age
            else ret (line_cells line)) ;;
  let line := line_with_cells line cells in
  (* allocate new cells if required *)
  if line_n_cells line <? width then
    if SIZE_MAX / sizeof_cell <? width then ret (- ENOMEM, line)
    else
      ok <- kalloc_request ;;
      if negb ok then ret (- ENOMEM, line)
      else
        let t := resize (Z.to_nat width) cell_zero (line_cells line) in
        let t :=
          if bool_decide (attr = None) && (age =? 0)
          then cells_memset0 t (line_n_cells line)
                 (u32 (width - line_n_cells line))
          else devcon_cell_init_n t (line_n_cells line)
                 (u32 (width - line_n_cells line)) attr age in
        ret (0, mk_line (line_width line) width t (line_age line)
                  (Z.min (line_fill line) protect_width))
  else
    ret (0, line_with_fill line (Z.min (line_fill line) protect_width)).

Definition devcon_line_set_width (line : devcon_line) (width : Z)
    : devcon_line :=
  let width := if line_n_cells line <? width then line_n_cells line
               else width in
  mk_line width (line_n_cells line) (line_cells line) (line_age line)
          (Z.min (line_fill line) width).

Definition devcon_line_place (line : devcon_line) (from num : Z)
    (head_char : devcon_char) (head_cwidth : Z)
    (attr : option devcon_attr) (age : Z) : M devcon_line :=
  if line_width line <=? from then ret line
  else
    let num := if (u32 (from + num) <? from)
                  || (line_width line <? u32 (from + num))
               then u32 (line_width line - from) else num in
    if num =? 0 then ret line
    else
      let move := u32 (u32 (line_width line - from) - num) in
      let rem := Z.min num move in
      if 0 <? rem then
        (* destroy cells that are knocked off on the right *)
        devcon_cell_destroy_n (line_cells line) (line_width line - rem) rem ;;;
        (* move remaining bulk of cells *)
        let cells := array_copy (line_cells line) (from + num)
                       (array_sub (line_cells line) from move) in
        (* invalidate cells *)
        let cells := cells_set_age cells (from + num) move age in
        (* initialize fresh head-cell *)
        let cells := array_set cells from
                       (devcon_cell_init (array_get cell_zero cells from)
                          head_char head_cwidth attr age) in
        (* initialize fresh tail-cells *)
        let cells := devcon_cell_init_n cells (from + 1) (u32 (num - 1))
                       attr age in
        (* adjust fill-state *)
        ret (mk_line (line_width line) (line_n_cells line) cells
               (line_age line)
               (Z.min (line_width line)
                  (Z.max (u32 (line_fill line + num)) (u32 (from + num)))))
      else
        (* modify head-cell *)
        c <- devcon_cell_set (array_get cell_zero (line_cells line) from)
               head_char head_cwidth attr age ;;
        let cells := array_set (line_cells line) from c in
        (* reset tail-cells *)
        cells <- devcon_cell_clear_n cells (from + 1) (u32 (num - 1))
                   attr age ;;
        (* adjust fill-state *)
        ret (mk_line (line_width line) (line_n_cells line) cells
               (line_age line) (line_width line)).

Definition devcon_line_write (line : devcon_line) (pos_x : Z)
    (ch : devcon_char) (cwidth : Z) (attr : option devcon_attr) (age : Z)
    (insert_mode : bool) : M devcon_line :=
  if line_width line <=? pos_x then ret line
  else
    let len := Z.max 1 cwidth in
    let len := if (u32 (pos_x + len) <? pos_x)
                  || (line_width line <? u32 (pos_x + len))
               then u32 (line_width line - pos_x) else len in
    if len =? 0 then ret line
    else if insert_mode then
      devcon_line_place line pos_x len ch cwidth attr age
    else
      (* modify head-cell *)
      c <- devcon_cell_set (array_get cell_zero (line_cells line) pos_x)
             ch cwidth attr age ;;
      let cells := array_set (line_cells line) pos_x c in
      (* reset tail-cells *)
      cells <- devcon_cell_clear_n cells (pos_x + 1) (u32 (len - 1))
                 attr age ;;
      (* adjust fill-state *)
      ret (mk_line (line_width line) (line_n_cells line) cells
             (line_age line)
             (Z.min (line_width line)
                (Z.max (line_fill line) (u32 (pos_x + len))))).

Definition devcon_line_insert (line : devcon_line) (from num : Z)
    (attr : option devcon_attr) (age : Z) : M devcon_line :=
  devcon_line_place line from num DEVCON_CHAR_NULL 0 attr age.

Definition devcon_line_delete (line : devcon_line) (from num : Z)
    (attr : option devcon_attr) (age : Z) : M devcon_line :=
  if line_width line <=? from then ret line
  else
    let num := if (u32 (from + num) <? from)
                  || (line_width line <? u32 (from + num))
               then u32 (line_width line - from) else num in
    if num =? 0 then ret line
    else
      (* destroy and move as many upfront as possible *)
      let move := u32 (u32 (line_width line - from) - num) in
      let rem := Z.min num move in
      cells <-
        (if 0 <? rem then
           (* destroy to be removed cells *)
           devcon_cell_destroy_n (line_cells line) from rem ;;;
           (* move tail upfront *)
           let cells := array_copy (line_cells line) from
                          (array_sub (line_cells line) (from + num) move) in
           (* invalidate copied cells *)
           let cells := cells_set_age cells from move age in
           (* initialize tail that was moved away *)
           let cells := devcon_cell_init_n cells (line_width line - rem) rem
                          attr age in
           (* reset remaining cells in case the move was too small *)
           if move <? num
           then devcon_cell_clear_n cells (from + move) (u32 (num - move))
                  attr age
           else ret cells
         else
           (* reset cells *)
           devcon_cell_clear_n (line_cells line) from num attr age) ;;
      (* adjust fill-state *)
      let fill :=
        if u32 (from + num) <? line_fill line then u32 (line_fill line - num)
        else if from <? line_fill line then from
        else line_fill line in
      ret (mk_line (line_width line) (line_n_cells line) cells
             (line_age line) fill).

Definition devcon_line_append (line : devcon_line) (pos_x : Z) (ucs4 : Z)
    (age : Z) : M devcon_line :=
  if line_width line <=? pos_x then ret line
  else
    c <- devcon_cell_append (array_get cell_zero (line_cells line) pos_x)
           ucs4 age ;;
    ret (line_with_cells line (array_set (line_cells line) pos_x c)).

Definition devcon_line_erase (line : devcon_line) (from num : Z)
    (attr : option devcon_attr) (age : Z) (keep_protected : bool)
    : M devcon_line :=
  if line_width line <=? from then ret line
  else
    let num := if (u32 (from + num) <? from)
                  || (line_width line <? u32 (from + num))
               then u32 (line_width line - from) else num in
    if num =? 0 then ret line
    else
      let last_protected := 0 in
      r <-
        for_loop (seqZ 0 num)
          (fun i '(cells, last_protected) =>
             let cell := array_get cell_zero cells (from + i) in
             if keep_protected && attr_protect (cell_attr cell) then
               (* only count protected-cells inside the fill-region *)
               ret (cells,
                    if u32 (from + i) <? line_fill line then u32 (from + i)
                    else last_protected)
             else
               c <- devcon_cell_set cell DEVCON_CHAR_NULL 0 attr age ;;
               ret (array_set cells (from + i) c, last_protected))
          (line_cells line, last_protected) ;;
      let '(cells, last_protected) := r in
      let fill :=
        if (from <? line_fill line) && (line_fill line <=? u32 (from + num))
        then Z.max from last_protected
        else line_fill line in
      ret (mk_line (line_width line) (line_n_cells line) cells
             (line_age line) fill).

Definition devcon_line_reset (line : devcon_line)
    (attr : option devcon_attr) (age : Z) : M devcon_line :=
  devcon_line_erase line 0 (line_width line) attr age false.

(** * Histories (page.h, page.c)

    [hist_lines] is the linked list [history->lines], head first: the head is
    the oldest line, the tail the line pushed last. *)

Record devcon_history := mk_history {
  hist_lines : list devcon_line;
  hist_n_lines : Z;
  hist_max_lines : Z
}.

(** [kzalloc]: [None] is [-ENOMEM]. *)
Definition devcon_history_new : M (option devcon_history) :=
  ok <- kalloc_request ;;
  if ok then ret (Some (mk_history [] 0 4096)) else ret None.

(** The loop of [devcon_history_trim]; it ends because every round
    unlinks the first line. *)
Fixpoint history_trim_loop (lines : list devcon_line) (n_lines max : Z)
    : M (list devcon_line * Z) :=
  match lines with
  | [] => ret (lines, n_lines)
  | line :: rest =>
      if max <? n_lines
      then (devcon_line_free line ;;;
            history_trim_loop rest (u32 (n_lines - 1)) max)
      else ret (lines, n_lines)
  end.

Definition devcon_history_trim (history : devcon_history) (max : Z)
    : M devcon_history :=
  r <- history_trim_loop (hist_lines history) (hist_n_lines history) max ;;
  ret (mk_history (fst r) (snd r) (hist_max_lines history)).

Definition devcon_history_clear (history : devcon_history)
    : M devcon_history :=
  devcon_history_trim history 0.

Definition devcon_history_push (history : devcon_history)
    (line : devcon_line) : M devcon_history :=
  let lines := hist_lines history ++ [line] in
  if hist_max_lines history <=? hist_n_lines history then
    match lines with
    | first :: rest =>
        devcon_line_free first ;;;
        ret (mk_history rest (hist_n_lines history)
               (hist_max_lines history))
    | [] => ret history
    end
  else
    ret (mk_history lines (u32 (hist_n_lines history + 1))
           (hist_max_lines history)).

(** Returns the line or [None] (NULL), and the history as the call leaves
    it: a failed reservation has already worked on the last line. *)
Definition devcon_history_pop (history : devcon_history) (new_width : Z)
    (attr : option devcon_attr) (age : Z)
    : M (option devcon_line * devcon_history) :=
  match last (hist_lines history) with
  | None => ret (None, history)
  | Some line =>
      r <- devcon_line_reserve line new_width attr age (line_width line) ;;
      let '(ret_, line) := r in
      if ret_ <? 0 then
        ret (None,
             mk_history (removelast (hist_lines history) ++ [line])
               (hist_n_lines history) (hist_max_lines history))
      else
        let line := devcon_line_set_width line new_width in
        ret (Some line,
             mk_history (removelast (hist_lines history))
               (u32 (hist_n_lines history - 1)) (hist_max_lines history))
  end.

(** * Pages (page.h, page.c)

    [page->lines] is an array of line pointers, each line owned by exactly
    one slot; the model holds the lines themselves.  [page->line_cache] is
    scratch space that every function fills before it reads it, so it is a
    local array here. *)

Record devcon_page := mk_page {
  page_age : Z;                     (* page age *)
  page_lines : list devcon_line;    (* array of line-pointers *)
  page_n_lines : Z;                 (* # of allocated lines *)
  page_width : Z;                   (* width of visible area *)
  page_height : Z;                  (* height of visible area *)
  page_scroll_idx : Z;              (* scrolling-region start index *)
  page_scroll_num : Z;              (* scrolling-region length in lines *)
  page_scroll_fill : Z              (* # of valid scroll-lines *)
}.

Definition line_zero : devcon_line := mk_line 0 0 [] 0 0.

Definition page_with_lines (page : devcon_page) (lines : list devcon_line)
    (scroll_fill : Z) : devcon_page :=
  mk_page (page_age page) lines (page_n_lines page) (page_width page)
          (page_height page) (page_scroll_idx page) (page_scroll_num page)
          scroll_fill.

(** [for (i = 0; i < n; ++i) lines[at_ + i]->age = age]. *)
Definition lines_set_age (lines : list devcon_line) (at_ n : Z) (age : Z)
    : list devcon_line :=
  foldl (fun ls i =>
           array_set ls (at_ + i)
             (line_with_age (array_get line_zero ls (at_ + i)) age))
        lines (seqZ 0 n).

Definition devcon_page_get_cell (page : devcon_page) (x y : Z)
    : option devcon_cell :=
  if page_width page <=? x then None
  else if page_height page <=? y then None
  else if line_width (array_get line_zero (page_lines page) y) <=? x
  then None
  else Some (array_get cell_zero
               (line_cells (array_get line_zero (page_lines page) y)) x).

(** The loop state of the scroll functions: the page's line array, the
    line cache and the history. *)
Definition scroll_state : Type :=
  list devcon_line * list devcon_line * option devcon_history.

(** "reuse the line": [cache[k] = line; devcon_line_reset(line, ...)]. *)
Definition scroll_reuse (lines cache : list devcon_line)
    (history : option devcon_history) (pos k : Z) (line : devcon_line)
    (attr : option devcon_attr) (age : Z) : M scroll_state :=
  line <- devcon_line_reset line attr age ;;
  ret (array_set lines pos line, array_set cache k line, history).

Definition devcon_page_up (page : devcon_page) (new_width num : Z)
    (attr : option devcon_attr) (age : Z)
    (history : option devcon_history)
    : M (devcon_page * option devcon_history) :=
  let num := if page_scroll_num page <? num then page_scroll_num page
             else num in
  if num <? 1 then ret (page, history)
  else
    (* Better safe than sorry: avoid under-allocating lines *)
    let new_width := Z.max new_width (page_width page) in
    let cache := replicate (length (page_lines page)) line_zero in
    r <- for_loop (seqZ 0 num)
           (fun i '(lines, cache, history) =>
              let pos := u32 (page_scroll_idx page + i) in
              let line := array_get line_zero lines pos in
              match history with
              | None => scroll_reuse lines cache history pos i line attr age
              | Some hist =>
                  fresh <- devcon_line_new ;;
                  match fresh with
                  | None =>
                      scroll_reuse lines cache history pos i line attr age
                  | Some fresh =>
                      r <- devcon_line_reserve fresh new_width attr age 0 ;;
                      let '(ret_, fresh) := r in
                      if ret_ <? 0 then
                        devcon_line_free fresh ;;;
                        scroll_reuse lines cache history pos i line attr age
                      else
                        let fresh :=
                          devcon_line_set_width fresh (page_width page) in
                        hist <- devcon_history_push hist line ;;
                        ret (lines, array_set cache i fresh, Some hist)
                  end
              end)
           (page_lines page, cache, history) ;;
    let '(lines, cache, history) := r in
    let lines :=
      if num <? page_scroll_num page then
        let lines :=
          array_copy lines (page_scroll_idx page)
            (array_sub lines (page_scroll_idx page + num)
               (u32 (page_scroll_num page - num))) in
        (* update age of moved lines *)
        lines_set_age lines (page_scroll_idx page)
          (u32 (page_scroll_num page - num)) age
      else lines in
    (* copy remaining lines from cache; age is already updated *)
    let lines :=
      array_copy lines (page_scroll_idx page + page_scroll_num page - num)
        (array_sub cache 0 num) in
    (* update fill *)
    ret (page_with_lines page lines
           (u32 (page_scroll_fill page
                 - Z.min (page_scroll_fill page) num)),
         history).

Definition devcon_page_down (page : devcon_page) (new_width num : Z)
    (attr : option devcon_attr) (age : Z)
    (history : option devcon_history)
    : M (devcon_page * option devcon_history) :=
  let num := if page_scroll_num page <? num then page_scroll_num page
             else num in
  if num <? 1 then ret (page, history)
  else
    (* Better safe than sorry: avoid under-allocating lines *)
    let new_width := Z.max new_width (page_width page) in
    let cache := replicate (length (page_lines page)) line_zero in
    let last_idx :=
      u32 (u32 (page_scroll_idx page + page_scroll_num page) - 1) in
    r <- for_loop (seqZ 0 num)
           (fun i '(lines, cache, history) =>
              let pos := u32 (last_idx - i) in
              let k := u32 (u32 (num - 1) - i) in
              let line := array_get line_zero lines pos in
              match history with
              | None => scroll_reuse lines cache history pos k line attr age
              | Some hist =>
                  r <- devcon_history_pop hist new_width attr age ;;
                  let '(t, hist) := r in
                  match t with
                  | Some t =>
                      devcon_line_free line ;;;
                      ret (lines, array_set cache k t, Some hist)
                  | None =>
                      scroll_reuse lines cache (Some hist) pos k line
                        attr age
                  end
              end)
           (page_lines page, cache, history) ;;
    let '(lines, cache, history) := r in
    let lines :=
      if num <? page_scroll_num page then
        let lines :=
          array_copy lines (page_scroll_idx page + num)
            (array_sub lines (page_scroll_idx page)
               (u32 (page_scroll_num page - num))) in
        (* update age of moved lines *)
        lines_set_age lines (page_scroll_idx page + num)
          (u32 (page_scroll_num page - num)) age
      else lines in
    (* copy remaining lines from cache; age is already updated *)
    let lines :=
      array_copy lines (page_scroll_idx page) (array_sub cache 0 num) in
    (* update fill; but only if there's already content in it *)
    let fill :=
      if 0 <? page_scroll_fill page
      then Z.min (page_scroll_num page) (u32 (page_scroll_fill page + num))
      else page_scroll_fill page in
    ret (page_with_lines page lines fill, history).

Definition devcon_page_scroll_up (page : devcon_page) (num : Z)
    (attr : option devcon_attr) (age : Z)
    (history : option devcon_history)
    : M (devcon_page * option devcon_history) :=
  devcon_page_up page (page_width page) num attr age history.

Definition devcon_page_scroll_down (page : devcon_page) (num : Z)
    (attr : option devcon_attr) (age : Z)
    (history : option devcon_history)
    : M (devcon_page * option devcon_history) :=
  devcon_page_down page (page_width page) num attr age history.

(** * UTF-8 (parser.h, parser.c) *)

Record devcon_utf8 := mk_utf8 {
  utf8_chars : list Z;          (* u32 chars[5] *)
  utf8_ucs4 : Z;                (* u32 *)
  utf8_i_bytes : Z;             (* unsigned int : 3 *)
  utf8_n_bytes : Z;             (* unsigned int : 3 *)
  utf8_valid : bool             (* unsigned int : 1 *)
}.

(** A decoder reset to all zero, which is how it is initialised. *)
Definition utf8_zero : devcon_utf8 := mk_utf8 [0; 0; 0; 0; 0] 0 0 0 false.

(** A 3-bit bit-field. *)
Definition bits3 (x : Z) : Z := x mod 8.

(** The three "start of an n byte sequence" branches, written twice in
    the source: the lead byte's payload and the length, or [None] when the
    byte starts no multi-byte sequence. *)
Definition utf8_lead (byte : Z) : option (Z * Z) :=
  if Z.land byte 0xE0 =? 0xC0 then
    (* start of two byte sequence *)
    Some (Z.land byte 0x1F, 2)
  else if Z.land byte 0xF0 =? 0xE0 then
    (* start of three byte sequence *)
    Some (Z.land byte 0x0F, 3)
  else if Z.land byte 0xF8 =? 0xF0 then
    (* start of four byte sequence *)
    Some (Z.land byte 0x07, 4)
  else None.

(** The tail of [devcon_utf8_decode] after the first [if]: "check whether
    a full sequence (valid or invalid) has been parsed and then return it". *)
Definition utf8_finish (p : devcon_utf8) : devcon_utf8 * list Z :=
  if utf8_valid p then
    (* still parsing? then bail out *)
    if utf8_i_bytes p <? utf8_n_bytes p then (p, [])
    else (mk_utf8 (utf8_chars p) (utf8_ucs4 p) 0 0 false, [utf8_ucs4 p])
  else
    (mk_utf8 (utf8_chars p) (utf8_ucs4 p) 0 0 false,
     array_sub (utf8_chars p) 0 (utf8_i_bytes p)).

(** [devcon_utf8_decode(p, &out_buf, c)]: the new decoder state and the
    returned string ([len] code points read at [out_buf]). *)
Definition devcon_utf8_decode (p : devcon_utf8) (c : Z)
    : devcon_utf8 * list Z :=
  let byte := u8 c in
  if negb (utf8_valid p) || (utf8_n_bytes p <=? utf8_i_bytes p) then
    (* start parsing a fresh new sequence *)
    let '(t, n_bytes, valid) :=
      match utf8_lead byte with
      | Some (t, n_bytes) => (t, n_bytes, true)
      | None => (byte, 1, false)
      end in
    let i_bytes := 1 in
    utf8_finish
      (mk_utf8 (array_set (utf8_chars p) 0 byte)
         (u32 (Z.shiftl t (6 * (n_bytes - i_bytes))))
         i_bytes n_bytes valid)
  else
    (* ..otherwise, try to continue the previous sequence.. *)
    if Z.land byte 0xC0 =? 0x80 then
      (* Valid continuation byte. *)
      let t := Z.land byte 0x3F in
      let chars := array_set (utf8_chars p) (utf8_i_bytes p) byte in
      let i_bytes := bits3 (utf8_i_bytes p + 1) in
      utf8_finish
        (mk_utf8 chars
           (Z.lor (utf8_ucs4 p)
              (u32 (Z.shiftl t (6 * (utf8_n_bytes p - i_bytes)))))
           i_bytes (utf8_n_bytes p) (utf8_valid p))
    else
      match utf8_lead byte with
      | Some (t, n_bytes) =>
          (* New multi-byte sequence. Move to-be-returned data at the end
             and start new sequence. Only return the old sequence. *)
          let chars := array_copy (utf8_chars p) 1
                         (array_sub (utf8_chars p) 0 (utf8_i_bytes p)) in
          let len := utf8_i_bytes p in
          let i_bytes := 1 in
          let chars := array_set chars 0 byte in
          (mk_utf8 chars (u32 (Z.shiftl t (6 * (n_bytes - i_bytes))))
             i_bytes n_bytes true,
           array_sub chars 1 len)
      | None =>
          (* New single byte sequence, append to output and return
             combined sequence. *)
          let chars := array_set (utf8_chars p) (utf8_i_bytes p) byte in
          utf8_finish
            (mk_utf8 chars (utf8_ucs4 p) (bits3 (utf8_i_bytes p + 1))
               (utf8_n_bytes p) false)
      end.

(** [devcon_utf8_encode(out_utf8, g)]: the bytes written to [out_utf8];
    the returned length is the length of this list. *)
Definition devcon_utf8_encode (g : Z) : list Z :=
  if g <? Z.shiftl 1 7 then
    [u8 (Z.land g 0x7f)]
  else if g <? Z.shiftl 1 11 then
    [u8 (Z.lor 0xc0 (Z.land (Z.shiftr g 6) 0x1f));
     u8 (Z.lor 0x80 (Z.land g 0x3f))]
  else if g <? Z.shiftl 1 16 then
    [u8 (Z.lor 0xe0 (Z.land (Z.shiftr g 12) 0x0f));
     u8 (Z.lor 0x80 (Z.land (Z.shiftr g 6) 0x3f));
     u8 (Z.lor 0x80 (Z.land g 0x3f))]
  else if g <? Z.shiftl 1 21 then
    [u8 (Z.lor 0xf0 (Z.land (Z.shiftr g 18) 0x07));
     u8 (Z.lor 0x80 (Z.land (Z.shiftr g 12) 0x3f));
     u8 (Z.lor 0x80 (Z.land (Z.shiftr g 6) 0x3f));
     u8 (Z.lor 0x80 (Z.land g 0x3f))]
  else [].

(** Feeding a byte string to the decoder, one call per byte: the final
    state and what each call returned. *)
Fixpoint utf8_decode_all (p : devcon_utf8) (bytes : list Z)
    : devcon_utf8 * list (list Z) :=
  match bytes with
  | [] => (p, [])
  | c :: rest =>
      let (p', out) := devcon_utf8_decode p c in
      let (p'', outs) := utf8_decode_all p' rest in
      (p'', out :: outs)
  end.

(** * Parser (parser.h, parser.c) *)

Definition DEVCON_PARSER_ARG_MAX : Z := 16.
Definition DEVCON_PARSER_ST_MAX : Z := 4096.

Inductive devcon_seq_type : Set :=
  | DEVCON_SEQ_NONE             (* placeholder, no sequence parsed *)
  | DEVCON_SEQ_IGNORE           (* no-op character *)
  | DEVCON_SEQ_GRAPHIC          (* graphic character *)
  | DEVCON_SEQ_CONTROL          (* control character *)
  | DEVCON_SEQ_ESCAPE           (* escape sequence *)
  | DEVCON_SEQ_CSI              (* control sequence function *)
  | DEVCON_SEQ_DCS              (* device control string *)
  | DEVCON_SEQ_OSC.             (* operating system control *)

(** The value of the enumerator, which the feed functions return. *)
Definition seq_type_value (t : devcon_seq_type) : Z :=
  match t with
  | DEVCON_SEQ_NONE => 0
  | DEVCON_SEQ_IGNORE => 1
  | DEVCON_SEQ_GRAPHIC => 2
  | DEVCON_SEQ_CONTROL => 3
  | DEVCON_SEQ_ESCAPE => 4
  | DEVCON_SEQ_CSI => 5
  | DEVCON_SEQ_DCS => 6
  | DEVCON_SEQ_OSC => 7
  end.

(** these must be kept compatible to (1U << (ch - 0x20)) *)
Definition DEVCON_SEQ_FLAG_SPACE : Z := Z.shiftl 1 0.  (* space *)
Definition DEVCON_SEQ_FLAG_BANG : Z := Z.shiftl 1 1.  (* exclamation mark *)
Definition DEVCON_SEQ_FLAG_DQUOTE : Z := Z.shiftl 1 2.  (* double quote *)
Definition DEVCON_SEQ_FLAG_HASH : Z := Z.shiftl 1 3.  (* hash *)
Definition DEVCON_SEQ_FLAG_CASH : Z := Z.shiftl 1 4.  (* dollar *)
Definition DEVCON_SEQ_FLAG_PERCENT : Z := Z.shiftl 1 5.  (* percent *)
Definition DEVCON_SEQ_FLAG_AND : Z := Z.shiftl 1 6.  (* ampersand *)
Definition DEVCON_SEQ_FLAG_SQUOTE : Z := Z.shiftl 1 7.  (* single quote *)
Definition DEVCON_SEQ_FLAG_POPEN : Z := Z.shiftl 1 8.  (* opening parenthesis *)
Definition DEVCON_SEQ_FLAG_PCLOSE : Z := Z.shiftl 1 9.  (* closing parenthesis *)
Definition DEVCON_SEQ_FLAG_MULT : Z := Z.shiftl 1 10.  (* asterisk *)
Definition DEVCON_SEQ_FLAG_PLUS : Z := Z.shiftl 1 11.  (* plus *)
Definition DEVCON_SEQ_FLAG_COMMA : Z := Z.shiftl 1 12.  (* comma *)
Definition DEVCON_SEQ_FLAG_MINUS : Z := Z.shiftl 1 13.  (* minus *)
Definition DEVCON_SEQ_FLAG_DOT : Z := Z.shiftl 1 14.  (* dot *)
Definition DEVCON_SEQ_FLAG_SLASH : Z := Z.shiftl 1 15.  (* slash *)
Definition DEVCON_SEQ_FLAG_LT : Z := Z.shiftl 1 28.  (* less than *)
Definition DEVCON_SEQ_FLAG_EQUAL : Z := Z.shiftl 1 29.  (* equals *)
Definition DEVCON_SEQ_FLAG_GT : Z := Z.shiftl 1 30.  (* greater than *)
Definition DEVCON_SEQ_FLAG_WHAT : Z := Z.shiftl 1 31.  (* question mark *)

Inductive devcon_cmd : Set :=
  | DEVCON_CMD_NONE             (* placeholder *)
  | DEVCON_CMD_GRAPHIC          (* graphics character *)
  | DEVCON_CMD_BEL              (* bell *)
  | DEVCON_CMD_BS               (* backspace *)
  | DEVCON_CMD_CBT              (* cursor-backward-tabulation *)
  | DEVCON_CMD_CHA              (* cursor-horizontal-absolute *)
  | DEVCON_CMD_CHT              (* cursor-horizontal-forward-tabulation *)
  | DEVCON_CMD_CNL              (* cursor-next-line *)
  | DEVCON_CMD_CPL              (* cursor-previous-line *)
  | DEVCON_CMD_CR               (* carriage-return *)
  | DEVCON_CMD_CUB              (* cursor-backward *)
  | DEVCON_CMD_CUD              (* cursor-down *)
  | DEVCON_CMD_CUF              (* cursor-forward *)
  | DEVCON_CMD_CUP              (* cursor-position *)
  | DEVCON_CMD_CUU              (* cursor-up *)
  | DEVCON_CMD_DA1              (* primary-device-attributes *)
  | DEVCON_CMD_DA2              (* secondary-device-attributes *)
  | DEVCON_CMD_DA3              (* tertiary-device-attributes *)
  | DEVCON_CMD_DC1              (* device-control-1 or XON *)
  | DEVCON_CMD_DC3              (* device-control-3 or XOFF *)
  | DEVCON_CMD_DCH              (* delete-character *)
  | DEVCON_CMD_DECALN           (* screen-alignment-pattern *)
  | DEVCON_CMD_DECANM           (* ansi-mode *)
  | DEVCON_CMD_DECBI            (* back-index *)
  | DEVCON_CMD_DECCARA          (* change-attributes-in-rectangular-area *)
  | DEVCON_CMD_DECCRA           (* copy-rectangular-area *)
  | DEVCON_CMD_DECDC            (* delete-column *)
  | DEVCON_CMD_DECDHL_BH        (* double-width-double-height-line: bottom half *)
  | DEVCON_CMD_DECDHL_TH        (* double-width-double-height-line: top half *)
  | DEVCON_CMD_DECDWL           (* double-width-single-height-line *)
  | DEVCON_CMD_DECEFR           (* enable-filter-rectangle *)
  | DEVCON_CMD_DECELF           (* enable-local-functions *)
  | DEVCON_CMD_DECELR           (* enable-locator-reporting *)
  | DEVCON_CMD_DECERA           (* erase-rectangular-area *)
  | DEVCON_CMD_DECFI            (* forward-index *)
  | DEVCON_CMD_DECFRA           (* fill-rectangular-area *)
  | DEVCON_CMD_DECIC            (* insert-column *)
  | DEVCON_CMD_DECID            (* return-terminal-id *)
  | DEVCON_CMD_DECINVM          (* invoke-macro *)
  | DEVCON_CMD_DECKBD           (* keyboard-language-selection *)
  | DEVCON_CMD_DECKPAM          (* keypad-application-mode *)
  | DEVCON_CMD_DECKPNM          (* keypad-numeric-mode *)
  | DEVCON_CMD_DECLFKC          (* local-function-key-control *)
  | DEVCON_CMD_DECLL            (* load-leds *)
  | DEVCON_CMD_DECLTOD          (* load-time-of-day *)
  | DEVCON_CMD_DECPCTERM        (* pcterm-mode *)
  | DEVCON_CMD_DECPKA           (* program-key-action *)
  | DEVCON_CMD_DECPKFMR         (* program-key-free-memory-report *)
  | DEVCON_CMD_DECRARA          (* reverse-attributes-in-rectangular-area *)
  | DEVCON_CMD_DECRC            (* restore-cursor *)
  | DEVCON_CMD_DECREQTPARM      (* request-terminal-parameters *)
  | DEVCON_CMD_DECRPKT          (* report-key-type *)
  | DEVCON_CMD_DECRQCRA         (* request-checksum-of-rectangular-area *)
  | DEVCON_CMD_DECRQDE          (* request-display-extent *)
  | DEVCON_CMD_DECRQKT          (* request-key-type *)
  | DEVCON_CMD_DECRQLP          (* request-locator-position *)
  | DEVCON_CMD_DECRQM_ANSI      (* request-mode-ansi *)
  | DEVCON_CMD_DECRQM_DEC       (* request-mode-dec *)
  | DEVCON_CMD_DECRQPKFM        (* request-program-key-free-memory *)
  | DEVCON_CMD_DECRQPSR         (* request-presentation-state-report *)
  | DEVCON_CMD_DECRQTSR         (* request-terminal-state-report *)
  | DEVCON_CMD_DECRQUPSS        (* request-user-preferred-supplemental-set *)
  | DEVCON_CMD_DECSACE          (* select-attribute-change-extent *)
  | DEVCON_CMD_DECSASD          (* select-active-status-display *)
  | DEVCON_CMD_DECSC            (* save-cursor *)
  | DEVCON_CMD_DECSCA           (* select-character-protection-attribute *)
  | DEVCON_CMD_DECSCL           (* select-conformance-level *)
  | DEVCON_CMD_DECSCP           (* select-communication-port *)
  | DEVCON_CMD_DECSCPP          (* select-columns-per-page *)
  | DEVCON_CMD_DECSCS           (* select-communication-speed *)
  | DEVCON_CMD_DECSCUSR         (* set-cursor-style *)
  | DEVCON_CMD_DECSDDT          (* select-disconnect-delay-time *)
  | DEVCON_CMD_DECSDPT          (* select-digital-printed-data-type *)
  | DEVCON_CMD_DECSED           (* selective-erase-in-display *)
  | DEVCON_CMD_DECSEL           (* selective-erase-in-line *)
  | DEVCON_CMD_DECSERA          (* selective-erase-rectangular-area *)
  | DEVCON_CMD_DECSFC           (* select-flow-control *)
  | DEVCON_CMD_DECSKCV          (* set-key-click-volume *)
  | DEVCON_CMD_DECSLCK          (* set-lock-key-style *)
  | DEVCON_CMD_DECSLE           (* select-locator-events *)
  | DEVCON_CMD_DECSLPP          (* set-lines-per-page *)
  | DEVCON_CMD_DECSLRM_OR_SC    (* set-left-and-right-margins or save-cursor *)
  | DEVCON_CMD_DECSMBV          (* set-margin-bell-volume *)
  | DEVCON_CMD_DECSMKR          (* select-modifier-key-reporting *)
  | DEVCON_CMD_DECSNLS          (* set-lines-per-screen *)
  | DEVCON_CMD_DECSPP           (* set-port-parameter *)
  | DEVCON_CMD_DECSPPCS         (* select-pro-printer-character-set *)
  | DEVCON_CMD_DECSPRTT         (* select-printer-type *)
  | DEVCON_CMD_DECSR            (* secure-reset *)
  | DEVCON_CMD_DECSRFR          (* select-refresh-rate *)
  | DEVCON_CMD_DECSSCLS         (* set-scroll-speed *)
  | DEVCON_CMD_DECSSDT          (* select-status-display-line-type *)
  | DEVCON_CMD_DECSSL           (* select-setup-language *)
  | DEVCON_CMD_DECST8C          (* set-tab-at-every-8-columns *)
  | DEVCON_CMD_DECSTBM          (* set-top-and-bottom-margins *)
  | DEVCON_CMD_DECSTR           (* soft-terminal-reset *)
  | DEVCON_CMD_DECSTRL          (* set-transmit-rate-limit *)
  | DEVCON_CMD_DECSWBV          (* set-warning-bell-volume *)
  | DEVCON_CMD_DECSWL           (* single-width-single-height-line *)
  | DEVCON_CMD_DECTID           (* select-terminal-id *)
  | DEVCON_CMD_DECTME           (* terminal-mode-emulation *)
  | DEVCON_CMD_DECTST           (* invoke-confidence-test *)
  | DEVCON_CMD_DL               (* delete-line *)
  | DEVCON_CMD_DSR_ANSI         (* device-status-report-ansi *)
  | DEVCON_CMD_DSR_DEC          (* device-status-report-dec *)
  | DEVCON_CMD_ECH              (* erase-character *)
  | DEVCON_CMD_ED               (* erase-in-display *)
  | DEVCON_CMD_EL               (* erase-in-line *)
  | DEVCON_CMD_ENQ              (* enquiry *)
  | DEVCON_CMD_EPA              (* end-of-guarded-area *)
  | DEVCON_CMD_FF               (* form-feed *)
  | DEVCON_CMD_HPA              (* horizontal-position-absolute *)
  | DEVCON_CMD_HPR              (* horizontal-position-relative *)
  | DEVCON_CMD_HT               (* horizontal-tab *)
  | DEVCON_CMD_HTS              (* horizontal-tab-set *)
  | DEVCON_CMD_HVP              (* horizontal-and-vertical-position *)
  | DEVCON_CMD_ICH              (* insert-character *)
  | DEVCON_CMD_IL               (* insert-line *)
  | DEVCON_CMD_IND              (* index *)
  | DEVCON_CMD_LF               (* line-feed *)
  | DEVCON_CMD_LS1R             (* locking-shift-1-right *)
  | DEVCON_CMD_LS2              (* locking-shift-2 *)
  | DEVCON_CMD_LS2R             (* locking-shift-2-right *)
  | DEVCON_CMD_LS3              (* locking-shift-3 *)
  | DEVCON_CMD_LS3R             (* locking-shift-3-right *)
  | DEVCON_CMD_MC_ANSI          (* media-copy-ansi *)
  | DEVCON_CMD_MC_DEC           (* media-copy-dec *)
  | DEVCON_CMD_NEL              (* next-line *)
  | DEVCON_CMD_NP               (* next-page *)
  | DEVCON_CMD_NULL             (* null *)
  | DEVCON_CMD_PP               (* preceding-page *)
  | DEVCON_CMD_PPA              (* page-position-absolute *)
  | DEVCON_CMD_PPB              (* page-position-backward *)
  | DEVCON_CMD_PPR              (* page-position-relative *)
  | DEVCON_CMD_RC               (* restore-cursor *)
  | DEVCON_CMD_REP              (* repeat *)
  | DEVCON_CMD_RI               (* reverse-index *)
  | DEVCON_CMD_RIS              (* reset-to-initial-state *)
  | DEVCON_CMD_RM_ANSI          (* reset-mode-ansi *)
  | DEVCON_CMD_RM_DEC           (* reset-mode-dec *)
  | DEVCON_CMD_S7C1T            (* set-7bit-c1-terminal *)
  | DEVCON_CMD_S8C1T            (* set-8bit-c1-terminal *)
  | DEVCON_CMD_SCS              (* select-character-set *)
  | DEVCON_CMD_SD               (* scroll-down *)
  | DEVCON_CMD_SGR              (* select-graphics-rendition *)
  | DEVCON_CMD_SI               (* shift-in *)
  | DEVCON_CMD_SM_ANSI          (* set-mode-ansi *)
  | DEVCON_CMD_SM_DEC           (* set-mode-dec *)
  | DEVCON_CMD_SO               (* shift-out *)
  | DEVCON_CMD_SPA              (* start-of-protected-area *)
  | DEVCON_CMD_SS2              (* single-shift-2 *)
  | DEVCON_CMD_SS3              (* single-shift-3 *)
  | DEVCON_CMD_ST               (* string-terminator *)
  | DEVCON_CMD_SU               (* scroll-up *)
  | DEVCON_CMD_SUB              (* substitute *)
  | DEVCON_CMD_TBC              (* tab-clear *)
  | DEVCON_CMD_VPA              (* vertical-line-position-absolute *)
  | DEVCON_CMD_VPR              (* vertical-line-position-relative *)
  | DEVCON_CMD_VT               (* vertical-tab *)
  | DEVCON_CMD_XTERM_CLLHP      (* xterm-cursor-lower-left-hp-bugfix *)
  | DEVCON_CMD_XTERM_IHMT       (* xterm-initiate-highlight-mouse-tracking *)
  | DEVCON_CMD_XTERM_MLHP       (* xterm-memory-lock-hp-bugfix *)
  | DEVCON_CMD_XTERM_MUHP       (* xterm-memory-unlock-hp-bugfix *)
  | DEVCON_CMD_XTERM_RPM        (* xterm-restore-private-mode *)
  | DEVCON_CMD_XTERM_RRV        (* xterm-reset-resource-value *)
  | DEVCON_CMD_XTERM_RTM        (* xterm-reset-title-mode *)
  | DEVCON_CMD_XTERM_SACL1      (* xterm-set-ansi-conformance-level-1 *)
  | DEVCON_CMD_XTERM_SACL2      (* xterm-set-ansi-conformance-level-2 *)
  | DEVCON_CMD_XTERM_SACL3      (* xterm-set-ansi-conformance-level-3 *)
  | DEVCON_CMD_XTERM_SDCS       (* xterm-set-default-character-set *)
  | DEVCON_CMD_XTERM_SGFX       (* xterm-sixel-graphics *)
  | DEVCON_CMD_XTERM_SPM        (* xterm-set-private-mode *)
  | DEVCON_CMD_XTERM_SRV        (* xterm-set-resource-value *)
  | DEVCON_CMD_XTERM_STM        (* xterm-set-title-mode *)
  | DEVCON_CMD_XTERM_SUCS       (* xterm-set-utf8-character-set *)
  | DEVCON_CMD_XTERM_WM         (* xterm-window-management *).

(** Charsets.  The enumerators alias each other, and
    [devcon_charset_from_cmd] computes with them, so they are numbers. *)
Definition DEVCON_CHARSET_NONE : Z := 0.
Definition DEVCON_CHARSET_ISO_LATIN1_SUPPLEMENTAL : Z := 1.
Definition DEVCON_CHARSET_BRITISH_NRCS : Z :=
  DEVCON_CHARSET_ISO_LATIN1_SUPPLEMENTAL.
Definition DEVCON_CHARSET_ISO_LATIN2_SUPPLEMENTAL : Z := 2.
Definition DEVCON_CHARSET_AMERICAN_NRCS : Z :=
  DEVCON_CHARSET_ISO_LATIN2_SUPPLEMENTAL.
Definition DEVCON_CHARSET_ISO_LATIN5_SUPPLEMENTAL : Z := 3.
Definition DEVCON_CHARSET_ISO_GREEK_SUPPLEMENTAL : Z := 4.
Definition DEVCON_CHARSET_ISO_HEBREW_SUPPLEMENTAL : Z := 5.
Definition DEVCON_CHARSET_ISO_LATIN_CYRILLIC : Z := 6.
Definition DEVCON_CHARSET_96_N : Z := 7.
Definition DEVCON_CHARSET_DEC_SPECIAL_GRAPHIC : Z := DEVCON_CHARSET_96_N.
Definition DEVCON_CHARSET_DEC_SUPPLEMENTAL : Z := 8.
Definition DEVCON_CHARSET_DEC_TECHNICAL : Z := 9.
Definition DEVCON_CHARSET_CYRILLIC_DEC : Z := 10.
Definition DEVCON_CHARSET_DUTCH_NRCS : Z := 11.
Definition DEVCON_CHARSET_FINNISH_NRCS : Z := 12.
Definition DEVCON_CHARSET_FRENCH_NRCS : Z := 13.
Definition DEVCON_CHARSET_FRENCH_CANADIAN_NRCS : Z := 14.
Definition DEVCON_CHARSET_GERMAN_NRCS : Z := 15.
Definition DEVCON_CHARSET_GREEK_DEC : Z := 16.
Definition DEVCON_CHARSET_GREEK_NRCS : Z := 17.
Definition DEVCON_CHARSET_HEBREW_DEC : Z := 18.
Definition DEVCON_CHARSET_HEBREW_NRCS : Z := 19.
Definition DEVCON_CHARSET_ITALIAN_NRCS : Z := 20.
Definition DEVCON_CHARSET_NORWEGIAN_DANISH_NRCS : Z := 21.
Definition DEVCON_CHARSET_PORTUGUESE_NRCS : Z := 22.
Definition DEVCON_CHARSET_RUSSIAN_NRCS : Z := 23.
Definition DEVCON_CHARSET_SCS_NRCS : Z := 24.
Definition DEVCON_CHARSET_SPANISH_NRCS : Z := 25.
Definition DEVCON_CHARSET_SWEDISH_NRCS : Z := 26.
Definition DEVCON_CHARSET_SWISS_NRCS : Z := 27.
Definition DEVCON_CHARSET_TURKISH_DEC : Z := 28.
Definition DEVCON_CHARSET_TURKISH_NRCS : Z := 29.
Definition DEVCON_CHARSET_94_N : Z := 30.
Definition DEVCON_CHARSET_USERPREF_SUPPLEMENTAL : Z := DEVCON_CHARSET_94_N.
Definition DEVCON_CHARSET_N : Z := 31.

Record devcon_seq := mk_seq {
  seq_type : devcon_seq_type;
  seq_command : devcon_cmd;
  seq_terminator : Z;           (* u32 *)
  seq_intermediates : Z;        (* unsigned int *)
  seq_charset : Z;              (* unsigned int *)
  seq_n_args : Z;               (* unsigned int *)
  seq_args : list Z;            (* int args[DEVCON_PARSER_ARG_MAX] *)
  seq_n_st : Z;                 (* unsigned int *)
  seq_st : list Z               (* char *st *)
}.

(** ** Command parser *)

Definition devcon_parse_host_control (seq : devcon_seq) : devcon_cmd :=
  match seq_terminator seq with
  | 0 (* NUL *) =>
      DEVCON_CMD_NULL
  | 5 (* ENQ *) =>
      DEVCON_CMD_ENQ
  | 7 (* BEL *) =>
      DEVCON_CMD_BEL
  | 8 (* BS *) =>
      DEVCON_CMD_BS
  | 9 (* HT *) =>
      DEVCON_CMD_HT
  | 10 (* LF *) =>
      DEVCON_CMD_LF
  | 11 (* VT *) =>
      DEVCON_CMD_VT
  | 12 (* FF *) =>
      DEVCON_CMD_FF
  | 13 (* CR *) =>
      DEVCON_CMD_CR
  | 14 (* SO *) =>
      DEVCON_CMD_SO
  | 15 (* SI *) =>
      DEVCON_CMD_SI
  | 17 (* DC1 *) =>
      DEVCON_CMD_DC1
  | 19 (* DC3 *) =>
      DEVCON_CMD_DC3
  | 24 (* CAN *) =>
      DEVCON_CMD_NONE
  | 26 (* SUB *) =>
      DEVCON_CMD_SUB
  | 27 (* ESC *) =>
      DEVCON_CMD_NONE
  | 31 (* DEL *) =>
      DEVCON_CMD_NONE
  | 132 (* IND *) =>
      DEVCON_CMD_IND
  | 133 (* NEL *) =>
      DEVCON_CMD_NEL
  | 136 (* HTS *) =>
      DEVCON_CMD_HTS
  | 141 (* RI *) =>
      DEVCON_CMD_RI
  | 142 (* SS2 *) =>
      DEVCON_CMD_SS2
  | 143 (* SS3 *) =>
      DEVCON_CMD_SS3
  | 144 (* DCS *) =>
      DEVCON_CMD_NONE
  | 150 (* SPA *) =>
      DEVCON_CMD_SPA
  | 151 (* EPA *) =>
      DEVCON_CMD_EPA
  | 152 (* SOS *) =>
      DEVCON_CMD_NONE
  | 154 (* DECID *) =>
      DEVCON_CMD_DECID
  | 155 (* CSI *) =>
      DEVCON_CMD_NONE
  | 156 (* ST *) =>
      DEVCON_CMD_ST
  | 157 (* OSC *) =>
      DEVCON_CMD_NONE
  | 158 (* PM *) =>
      DEVCON_CMD_NONE
  | 159 (* APC *) =>
      DEVCON_CMD_NONE
  | _ => DEVCON_CMD_NONE
  end.

(** The designated initialisers of [charset_cmds]; every other element of
    the array is zero. *)
Definition charset_cmds_init : list (Z * (Z * Z)) :=
  [
    (DEVCON_CHARSET_ISO_LATIN1_SUPPLEMENTAL, (65 (* 'A' *), 0));
    (DEVCON_CHARSET_ISO_LATIN2_SUPPLEMENTAL, (66 (* 'B' *), 0));
    (DEVCON_CHARSET_ISO_LATIN5_SUPPLEMENTAL, (77 (* 'M' *), 0));
    (DEVCON_CHARSET_ISO_GREEK_SUPPLEMENTAL, (70 (* 'F' *), 0));
    (DEVCON_CHARSET_ISO_HEBREW_SUPPLEMENTAL, (72 (* 'H' *), 0));
    (DEVCON_CHARSET_ISO_LATIN_CYRILLIC, (76 (* 'L' *), 0));
    (DEVCON_CHARSET_DEC_SPECIAL_GRAPHIC, (48 (* '0' *), 0));
    (DEVCON_CHARSET_DEC_SUPPLEMENTAL,
       (53 (* '5' *), DEVCON_SEQ_FLAG_PERCENT));
    (DEVCON_CHARSET_DEC_TECHNICAL, (62 (* '>' *), 0));
    (DEVCON_CHARSET_CYRILLIC_DEC, (52 (* '4' *), DEVCON_SEQ_FLAG_AND));
    (DEVCON_CHARSET_DUTCH_NRCS, (52 (* '4' *), 0));
    (DEVCON_CHARSET_FINNISH_NRCS, (53 (* '5' *), 0));
    (DEVCON_CHARSET_FRENCH_NRCS, (82 (* 'R' *), 0));
    (DEVCON_CHARSET_FRENCH_CANADIAN_NRCS, (57 (* '9' *), 0));
    (DEVCON_CHARSET_GERMAN_NRCS, (75 (* 'K' *), 0));
    (DEVCON_CHARSET_GREEK_DEC, (63 (* '?' *), DEVCON_SEQ_FLAG_DQUOTE));
    (DEVCON_CHARSET_GREEK_NRCS, (62 (* '>' *), DEVCON_SEQ_FLAG_DQUOTE));
    (DEVCON_CHARSET_HEBREW_DEC, (52 (* '4' *), DEVCON_SEQ_FLAG_DQUOTE));
    (DEVCON_CHARSET_HEBREW_NRCS, (61 (* '=' *), DEVCON_SEQ_FLAG_PERCENT));
    (DEVCON_CHARSET_ITALIAN_NRCS, (89 (* 'Y' *), 0));
    (DEVCON_CHARSET_NORWEGIAN_DANISH_NRCS, (96 (* '`' *), 0));
    (DEVCON_CHARSET_PORTUGUESE_NRCS, (54 (* '6' *), DEVCON_SEQ_FLAG_PERCENT));
    (DEVCON_CHARSET_RUSSIAN_NRCS, (53 (* '5' *), DEVCON_SEQ_FLAG_AND));
    (DEVCON_CHARSET_SCS_NRCS, (51 (* '3' *), DEVCON_SEQ_FLAG_PERCENT));
    (DEVCON_CHARSET_SPANISH_NRCS, (90 (* 'Z' *), 0));
    (DEVCON_CHARSET_SWEDISH_NRCS, (55 (* '7' *), 0));
    (DEVCON_CHARSET_SWISS_NRCS, (61 (* '=' *), 0));
    (DEVCON_CHARSET_TURKISH_DEC, (48 (* '0' *), DEVCON_SEQ_FLAG_PERCENT));
    (DEVCON_CHARSET_TURKISH_NRCS, (50 (* '2' *), DEVCON_SEQ_FLAG_PERCENT));
    (DEVCON_CHARSET_USERPREF_SUPPLEMENTAL, (60 (* '<' *), 0));
    (DEVCON_CHARSET_N + DEVCON_CHARSET_FINNISH_NRCS, (67 (* 'C' *), 0));
    (DEVCON_CHARSET_N + DEVCON_CHARSET_FRENCH_NRCS, (102 (* 'f' *), 0));
    (DEVCON_CHARSET_N + DEVCON_CHARSET_FRENCH_CANADIAN_NRCS,
       (81 (* 'Q' *), 0));
    (DEVCON_CHARSET_N + DEVCON_CHARSET_NORWEGIAN_DANISH_NRCS,
       (69 (* 'E' *), 0));
    (DEVCON_CHARSET_N + DEVCON_CHARSET_SWEDISH_NRCS, (72 (* 'H' *), 0));
    (DEVCON_CHARSET_N + DEVCON_CHARSET_N + DEVCON_CHARSET_NORWEGIAN_DANISH_NRCS,
       (54 (* '6' *), 0))
  ].

Definition charset_cmds : list (Z * Z) :=
  foldl (fun t e => array_set t (fst e) (snd e))
    (replicate
       (Z.to_nat (DEVCON_CHARSET_N + DEVCON_CHARSET_N
                  + DEVCON_CHARSET_NORWEGIAN_DANISH_NRCS + 1)) (0, 0))
    charset_cmds_init.

(** [while (cs >= DEVCON_CHARSET_N) cs -= DEVCON_CHARSET_N;] for an index
    below [3 * DEVCON_CHARSET_N]. *)
Definition charset_fold (cs : Z) : Z :=
  let cs := if DEVCON_CHARSET_N <=? cs then cs - DEVCON_CHARSET_N else cs in
  let cs := if DEVCON_CHARSET_N <=? cs then cs - DEVCON_CHARSET_N else cs in
  cs.

Fixpoint charset_scan (idx : list Z) (raw flags : Z) (require_96 : bool)
    : Z :=
  match idx with
  | [] => - ENOENT
  | i :: idx' =>
      let e := array_get (0, 0) charset_cmds i in
      if (fst e =? raw) && (snd e =? flags) then
        let cs := charset_fold i in
        if negb require_96 || (cs <? DEVCON_CHARSET_96_N)
           || (DEVCON_CHARSET_94_N <=? cs)
        then cs
        else charset_scan idx' raw flags require_96
      else charset_scan idx' raw flags require_96
  end.

Definition devcon_charset_from_cmd (raw flags : Z) (require_96 : bool) : Z :=
  charset_scan (seqZ 0 (Z.of_nat (length charset_cmds))) raw flags
    require_96.

(** [hweight32]: the number of set bits of a 32-bit word. *)
Definition hweight32 (w : Z) : Z :=
  Z.of_nat (length (filter (fun i => Z.testbit w i = true) (seqZ 0 32))).

(** Returns the command and the value of [*cs_out] after the call. *)
Definition devcon_parse_host_escape (seq : devcon_seq) (cs_out : Z)
    : devcon_cmd * Z :=
  let flags := seq_intermediates seq in
  let t := Z.lor DEVCON_SEQ_FLAG_POPEN (Z.lor DEVCON_SEQ_FLAG_PCLOSE
          (Z.lor DEVCON_SEQ_FLAG_MULT (Z.lor DEVCON_SEQ_FLAG_PLUS
          (Z.lor DEVCON_SEQ_FLAG_MINUS (Z.lor DEVCON_SEQ_FLAG_DOT
           DEVCON_SEQ_FLAG_SLASH))))) in
  let not_t := u32 (Z.lnot t) in
  let cs :=
    if hweight32 (Z.land flags t) =? 1 then
      let ft := Z.land flags t in
      if (ft =? DEVCON_SEQ_FLAG_POPEN) || (ft =? DEVCON_SEQ_FLAG_PCLOSE)
         || (ft =? DEVCON_SEQ_FLAG_MULT) || (ft =? DEVCON_SEQ_FLAG_PLUS)
      then devcon_charset_from_cmd (seq_terminator seq)
             (Z.land flags not_t) false
      else if (ft =? DEVCON_SEQ_FLAG_MINUS) || (ft =? DEVCON_SEQ_FLAG_DOT)
              || (ft =? DEVCON_SEQ_FLAG_SLASH)
      then devcon_charset_from_cmd (seq_terminator seq)
             (Z.land flags not_t) true
      else - ENOENT
    else - ENOENT in
  if (hweight32 (Z.land flags t) =? 1) && (0 <=? cs) then
    (DEVCON_CMD_SCS, cs)
  else
  (* looked like a charset-cmd but wasn't; continue *)
  (match seq_terminator seq with
  | 51 (* '3' *) =>
      if flags =? DEVCON_SEQ_FLAG_HASH then DEVCON_CMD_DECDHL_TH
      else DEVCON_CMD_NONE
  | 52 (* '4' *) =>
      if flags =? DEVCON_SEQ_FLAG_HASH then DEVCON_CMD_DECDHL_BH
      else DEVCON_CMD_NONE
  | 53 (* '5' *) =>
      if flags =? DEVCON_SEQ_FLAG_HASH then DEVCON_CMD_DECSWL
      else DEVCON_CMD_NONE
  | 54 (* '6' *) =>
      if flags =? 0 then DEVCON_CMD_DECBI
      else if flags =? DEVCON_SEQ_FLAG_HASH then DEVCON_CMD_DECDWL
      else DEVCON_CMD_NONE
  | 55 (* '7' *) =>
      if flags =? 0 then DEVCON_CMD_DECSC
      else DEVCON_CMD_NONE
  | 56 (* '8' *) =>
      if flags =? 0 then DEVCON_CMD_DECRC
      else if flags =? DEVCON_SEQ_FLAG_HASH then DEVCON_CMD_DECALN
      else DEVCON_CMD_NONE
  | 57 (* '9' *) =>
      if flags =? 0 then DEVCON_CMD_DECFI
      else DEVCON_CMD_NONE
  | 60 (* '<' *) =>
      if flags =? 0 then DEVCON_CMD_DECANM
      else DEVCON_CMD_NONE
  | 61 (* '=' *) =>
      if flags =? 0 then DEVCON_CMD_DECKPAM
      else DEVCON_CMD_NONE
  | 62 (* '>' *) =>
      if flags =? 0 then DEVCON_CMD_DECKPNM
      else DEVCON_CMD_NONE
  | 64 (* '@' *) =>
      if flags =? DEVCON_SEQ_FLAG_PERCENT then DEVCON_CMD_XTERM_SDCS
      else DEVCON_CMD_NONE
  | 68 (* 'D' *) =>
      if flags =? 0 then DEVCON_CMD_IND
      else DEVCON_CMD_NONE
  | 69 (* 'E' *) =>
      if flags =? 0 then DEVCON_CMD_NEL
      else DEVCON_CMD_NONE
  | 70 (* 'F' *) =>
      if flags =? 0 then DEVCON_CMD_XTERM_CLLHP
      else if flags =? DEVCON_SEQ_FLAG_SPACE then DEVCON_CMD_S7C1T
      else DEVCON_CMD_NONE
  | 71 (* 'G' *) =>
      if flags =? DEVCON_SEQ_FLAG_SPACE then DEVCON_CMD_S8C1T
      else if flags =? DEVCON_SEQ_FLAG_PERCENT then DEVCON_CMD_XTERM_SUCS
      else DEVCON_CMD_NONE
  | 72 (* 'H' *) =>
      if flags =? 0 then DEVCON_CMD_HTS
      else DEVCON_CMD_NONE
  | 76 (* 'L' *) =>
      if flags =? DEVCON_SEQ_FLAG_SPACE then DEVCON_CMD_XTERM_SACL1
      else DEVCON_CMD_NONE
  | 77 (* 'M' *) =>
      if flags =? 0 then DEVCON_CMD_RI
      else if flags =? DEVCON_SEQ_FLAG_SPACE then DEVCON_CMD_XTERM_SACL2
      else DEVCON_CMD_NONE
  | 78 (* 'N' *) =>
      if flags =? 0 then DEVCON_CMD_SS2
      else if flags =? DEVCON_SEQ_FLAG_SPACE then DEVCON_CMD_XTERM_SACL3
      else DEVCON_CMD_NONE
  | 79 (* 'O' *) =>
      if flags =? 0 then DEVCON_CMD_SS3
      else DEVCON_CMD_NONE
  | 80 (* 'P' *) =>
      if flags =? 0 then DEVCON_CMD_NONE
      else DEVCON_CMD_NONE
  | 86 (* 'V' *) =>
      if flags =? 0 then DEVCON_CMD_SPA
      else DEVCON_CMD_NONE
  | 87 (* 'W' *) =>
      if flags =? 0 then DEVCON_CMD_EPA
      else DEVCON_CMD_NONE
  | 88 (* 'X' *) =>
      if flags =? 0 then DEVCON_CMD_NONE
      else DEVCON_CMD_NONE
  | 90 (* 'Z' *) =>
      if flags =? 0 then DEVCON_CMD_DECID
      else DEVCON_CMD_NONE
  | 91 (* '[' *) =>
      if flags =? 0 then DEVCON_CMD_NONE
      else DEVCON_CMD_NONE
  | 92 (* '\\' *) =>
      if flags =? 0 then DEVCON_CMD_ST
      else DEVCON_CMD_NONE
  | 93 (* ']' *) =>
      if flags =? 0 then DEVCON_CMD_NONE
      else DEVCON_CMD_NONE
  | 94 (* '^' *) =>
      if flags =? 0 then DEVCON_CMD_NONE
      else DEVCON_CMD_NONE
  | 95 (* '_' *) =>
      if flags =? 0 then DEVCON_CMD_NONE
      else DEVCON_CMD_NONE
  | 99 (* 'c' *) =>
      if flags =? 0 then DEVCON_CMD_RIS
      else DEVCON_CMD_NONE
  | 108 (* 'l' *) =>
      if flags =? 0 then DEVCON_CMD_XTERM_MLHP
      else DEVCON_CMD_NONE
  | 109 (* 'm' *) =>
      if flags =? 0 then DEVCON_CMD_XTERM_MUHP
      else DEVCON_CMD_NONE
  | 110 (* 'n' *) =>
      if flags =? 0 then DEVCON_CMD_LS2
      else DEVCON_CMD_NONE
  | 111 (* 'o' *) =>
      if flags =? 0 then DEVCON_CMD_LS3
      else DEVCON_CMD_NONE
  | 124 (* '|' *) =>
      if flags =? 0 then DEVCON_CMD_LS3R
      else DEVCON_CMD_NONE
  | 125 (* '}' *) =>
      if flags =? 0 then DEVCON_CMD_LS2R
      else DEVCON_CMD_NONE
  | 126 (* '~' *) =>
      if flags =? 0 then DEVCON_CMD_LS1R
      else DEVCON_CMD_NONE
  | _ => DEVCON_CMD_NONE
  end, cs_out).

Definition devcon_parse_host_csi (seq : devcon_seq) : devcon_cmd :=
  let flags := seq_intermediates seq in
  match seq_terminator seq with
  | 65 (* 'A' *) =>
      if flags =? 0 then DEVCON_CMD_CUU
      else DEVCON_CMD_NONE
  | 97 (* 'a' *) =>
      if flags =? 0 then DEVCON_CMD_HPR
      else DEVCON_CMD_NONE
  | 66 (* 'B' *) =>
      if flags =? 0 then DEVCON_CMD_CUD
      else DEVCON_CMD_NONE
  | 98 (* 'b' *) =>
      if flags =? 0 then DEVCON_CMD_REP
      else DEVCON_CMD_NONE
  | 67 (* 'C' *) =>
      if flags =? 0 then DEVCON_CMD_CUF
      else DEVCON_CMD_NONE
  | 99 (* 'c' *) =>
      if flags =? 0 then DEVCON_CMD_DA1
      else if flags =? DEVCON_SEQ_FLAG_GT then DEVCON_CMD_DA2
      else if flags =? DEVCON_SEQ_FLAG_EQUAL then DEVCON_CMD_DA3
      else DEVCON_CMD_NONE
  | 68 (* 'D' *) =>
      if flags =? 0 then DEVCON_CMD_CUB
      else DEVCON_CMD_NONE
  | 100 (* 'd' *) =>
      if flags =? 0 then DEVCON_CMD_VPA
      else DEVCON_CMD_NONE
  | 69 (* 'E' *) =>
      if flags =? 0 then DEVCON_CMD_CNL
      else DEVCON_CMD_NONE
  | 101 (* 'e' *) =>
      if flags =? 0 then DEVCON_CMD_VPR
      else DEVCON_CMD_NONE
  | 70 (* 'F' *) =>
      if flags =? 0 then DEVCON_CMD_CPL
      else DEVCON_CMD_NONE
  | 102 (* 'f' *) =>
      if flags =? 0 then DEVCON_CMD_HVP
      else DEVCON_CMD_NONE
  | 71 (* 'G' *) =>
      if flags =? 0 then DEVCON_CMD_CHA
      else DEVCON_CMD_NONE
  | 103 (* 'g' *) =>
      if flags =? 0 then DEVCON_CMD_TBC
      else if flags =? DEVCON_SEQ_FLAG_MULT then DEVCON_CMD_DECLFKC
      else DEVCON_CMD_NONE
  | 72 (* 'H' *) =>
      if flags =? 0 then DEVCON_CMD_CUP
      else DEVCON_CMD_NONE
  | 104 (* 'h' *) =>
      if flags =? 0 then DEVCON_CMD_SM_ANSI
      else if flags =? DEVCON_SEQ_FLAG_WHAT then DEVCON_CMD_SM_DEC
      else DEVCON_CMD_NONE
  | 73 (* 'I' *) =>
      if flags =? 0 then DEVCON_CMD_CHT
      else DEVCON_CMD_NONE
  | 105 (* 'i' *) =>
      if flags =? 0 then DEVCON_CMD_MC_ANSI
      else if flags =? DEVCON_SEQ_FLAG_WHAT then DEVCON_CMD_MC_DEC
      else DEVCON_CMD_NONE
  | 74 (* 'J' *) =>
      if flags =? 0 then DEVCON_CMD_ED
      else if flags =? DEVCON_SEQ_FLAG_WHAT then DEVCON_CMD_DECSED
      else DEVCON_CMD_NONE
  | 75 (* 'K' *) =>
      if flags =? 0 then DEVCON_CMD_EL
      else if flags =? DEVCON_SEQ_FLAG_WHAT then DEVCON_CMD_DECSEL
      else DEVCON_CMD_NONE
  | 76 (* 'L' *) =>
      if flags =? 0 then DEVCON_CMD_IL
      else DEVCON_CMD_NONE
  | 108 (* 'l' *) =>
      if flags =? 0 then DEVCON_CMD_RM_ANSI
      else if flags =? DEVCON_SEQ_FLAG_WHAT then DEVCON_CMD_RM_DEC
      else DEVCON_CMD_NONE
  | 77 (* 'M' *) =>
      if flags =? 0 then DEVCON_CMD_DL
      else DEVCON_CMD_NONE
  | 109 (* 'm' *) =>
      if flags =? 0 then DEVCON_CMD_SGR
      else if flags =? DEVCON_SEQ_FLAG_GT then DEVCON_CMD_XTERM_SRV
      else DEVCON_CMD_NONE
  | 110 (* 'n' *) =>
      if flags =? 0 then DEVCON_CMD_DSR_ANSI
      else if flags =? DEVCON_SEQ_FLAG_GT then DEVCON_CMD_XTERM_RRV
      else if flags =? DEVCON_SEQ_FLAG_WHAT then DEVCON_CMD_DSR_DEC
      else DEVCON_CMD_NONE
  | 80 (* 'P' *) =>
      if flags =? 0 then DEVCON_CMD_DCH
      else if flags =? DEVCON_SEQ_FLAG_SPACE then DEVCON_CMD_PPA
      else DEVCON_CMD_NONE
  | 112 (* 'p' *) =>
      if flags =? 0 then DEVCON_CMD_DECSSL
      else if flags =? DEVCON_SEQ_FLAG_SPACE then DEVCON_CMD_DECSSCLS
      else if flags =? DEVCON_SEQ_FLAG_BANG then DEVCON_CMD_DECSTR
      else if flags =? DEVCON_SEQ_FLAG_DQUOTE then DEVCON_CMD_DECSCL
      else if flags =? DEVCON_SEQ_FLAG_CASH then DEVCON_CMD_DECRQM_ANSI
      else if flags =? Z.lor DEVCON_SEQ_FLAG_CASH DEVCON_SEQ_FLAG_WHAT then DEVCON_CMD_DECRQM_DEC
      else if flags =? DEVCON_SEQ_FLAG_PCLOSE then DEVCON_CMD_DECSDPT
      else if flags =? DEVCON_SEQ_FLAG_MULT then DEVCON_CMD_DECSPPCS
      else if flags =? DEVCON_SEQ_FLAG_PLUS then DEVCON_CMD_DECSR
      else if flags =? DEVCON_SEQ_FLAG_COMMA then DEVCON_CMD_DECLTOD
      else if flags =? DEVCON_SEQ_FLAG_GT then DEVCON_CMD_XTERM_SPM
      else DEVCON_CMD_NONE
  | 81 (* 'Q' *) =>
      if flags =? DEVCON_SEQ_FLAG_SPACE then DEVCON_CMD_PPR
      else DEVCON_CMD_NONE
  | 113 (* 'q' *) =>
      if flags =? 0 then DEVCON_CMD_DECLL
      else if flags =? DEVCON_SEQ_FLAG_SPACE then DEVCON_CMD_DECSCUSR
      else if flags =? DEVCON_SEQ_FLAG_DQUOTE then DEVCON_CMD_DECSCA
      else if flags =? DEVCON_SEQ_FLAG_CASH then DEVCON_CMD_DECSDDT
      else if flags =? DEVCON_SEQ_FLAG_MULT then DEVCON_CMD_DECSR
      else if flags =? DEVCON_SEQ_FLAG_PLUS then DEVCON_CMD_DECELF
      else if flags =? DEVCON_SEQ_FLAG_COMMA then DEVCON_CMD_DECTID
      else DEVCON_CMD_NONE
  | 82 (* 'R' *) =>
      if flags =? DEVCON_SEQ_FLAG_SPACE then DEVCON_CMD_PPB
      else DEVCON_CMD_NONE
  | 114 (* 'r' *) =>
      if flags =? 0 then DEVCON_CMD_DECSTBM
      else if flags =? DEVCON_SEQ_FLAG_SPACE then DEVCON_CMD_DECSKCV
      else if flags =? DEVCON_SEQ_FLAG_CASH then DEVCON_CMD_DECCARA
      else if flags =? DEVCON_SEQ_FLAG_MULT then DEVCON_CMD_DECSCS
      else if flags =? DEVCON_SEQ_FLAG_PLUS then DEVCON_CMD_DECSMKR
      else if flags =? DEVCON_SEQ_FLAG_WHAT then
        (if seq_n_args seq <=? 1 then DEVCON_CMD_XTERM_RPM
         else if 2 <=? seq_n_args seq then DEVCON_CMD_DECPCTERM
         else DEVCON_CMD_NONE)
      else DEVCON_CMD_NONE
  | 83 (* 'S' *) =>
      if flags =? 0 then DEVCON_CMD_SU
      else if flags =? DEVCON_SEQ_FLAG_WHAT then DEVCON_CMD_XTERM_SGFX
      else DEVCON_CMD_NONE
  | 115 (* 's' *) =>
      if flags =? 0 then DEVCON_CMD_DECSLRM_OR_SC
      else if flags =? DEVCON_SEQ_FLAG_CASH then DEVCON_CMD_DECSPRTT
      else if flags =? DEVCON_SEQ_FLAG_MULT then DEVCON_CMD_DECSFC
      else if flags =? DEVCON_SEQ_FLAG_WHAT then DEVCON_CMD_XTERM_SPM
      else DEVCON_CMD_NONE
  | 84 (* 'T' *) =>
      if flags =? 0 then
        (if 5 <=? seq_n_args seq then DEVCON_CMD_XTERM_IHMT
         else if seq_n_args seq <? 5 then DEVCON_CMD_SD
         else DEVCON_CMD_NONE)
      else if flags =? DEVCON_SEQ_FLAG_GT then DEVCON_CMD_XTERM_RTM
      else DEVCON_CMD_NONE
  | 116 (* 't' *) =>
      if flags =? 0 then DEVCON_CMD_XTERM_WM
      else if flags =? DEVCON_SEQ_FLAG_SPACE then DEVCON_CMD_DECSWBV
      else if flags =? DEVCON_SEQ_FLAG_DQUOTE then DEVCON_CMD_DECSRFR
      else if flags =? DEVCON_SEQ_FLAG_CASH then DEVCON_CMD_DECRARA
      else if flags =? DEVCON_SEQ_FLAG_GT then DEVCON_CMD_XTERM_STM
      else DEVCON_CMD_NONE
  | 85 (* 'U' *) =>
      if flags =? 0 then DEVCON_CMD_NP
      else DEVCON_CMD_NONE
  | 117 (* 'u' *) =>
      if flags =? 0 then DEVCON_CMD_RC
      else if flags =? DEVCON_SEQ_FLAG_SPACE then DEVCON_CMD_DECSMBV
      else if flags =? DEVCON_SEQ_FLAG_DQUOTE then DEVCON_CMD_DECSTRL
      else if flags =? DEVCON_SEQ_FLAG_WHAT then DEVCON_CMD_DECRQUPSS
      else if (array_get 0 (seq_args seq) 0 =? 1) && (flags =? DEVCON_SEQ_FLAG_CASH) then DEVCON_CMD_DECRQTSR
      else if flags =? DEVCON_SEQ_FLAG_MULT then DEVCON_CMD_DECSCP
      else if flags =? DEVCON_SEQ_FLAG_COMMA then DEVCON_CMD_DECRQKT
      else DEVCON_CMD_NONE
  | 86 (* 'V' *) =>
      if flags =? 0 then DEVCON_CMD_PP
      else DEVCON_CMD_NONE
  | 118 (* 'v' *) =>
      if flags =? DEVCON_SEQ_FLAG_SPACE then DEVCON_CMD_DECSLCK
      else if flags =? DEVCON_SEQ_FLAG_DQUOTE then DEVCON_CMD_DECRQDE
      else if flags =? DEVCON_SEQ_FLAG_CASH then DEVCON_CMD_DECCRA
      else if flags =? DEVCON_SEQ_FLAG_COMMA then DEVCON_CMD_DECRPKT
      else DEVCON_CMD_NONE
  | 87 (* 'W' *) =>
      if (array_get 0 (seq_args seq) 0 =? 5) && (flags =? DEVCON_SEQ_FLAG_WHAT) then DEVCON_CMD_DECST8C
      else DEVCON_CMD_NONE
  | 119 (* 'w' *) =>
      if flags =? DEVCON_SEQ_FLAG_CASH then DEVCON_CMD_DECRQPSR
      else if flags =? DEVCON_SEQ_FLAG_SQUOTE then DEVCON_CMD_DECEFR
      else if flags =? DEVCON_SEQ_FLAG_PLUS then DEVCON_CMD_DECSPP
      else DEVCON_CMD_NONE
  | 88 (* 'X' *) =>
      if flags =? 0 then DEVCON_CMD_ECH
      else DEVCON_CMD_NONE
  | 120 (* 'x' *) =>
      if flags =? 0 then DEVCON_CMD_DECREQTPARM
      else if flags =? DEVCON_SEQ_FLAG_CASH then DEVCON_CMD_DECFRA
      else if flags =? DEVCON_SEQ_FLAG_MULT then DEVCON_CMD_DECSACE
      else if flags =? DEVCON_SEQ_FLAG_PLUS then DEVCON_CMD_DECRQPKFM
      else DEVCON_CMD_NONE
  | 121 (* 'y' *) =>
      if flags =? 0 then DEVCON_CMD_DECTST
      else if flags =? DEVCON_SEQ_FLAG_MULT then DEVCON_CMD_DECRQCRA
      else if flags =? DEVCON_SEQ_FLAG_PLUS then DEVCON_CMD_DECPKFMR
      else DEVCON_CMD_NONE
  | 90 (* 'Z' *) =>
      if flags =? 0 then DEVCON_CMD_CBT
      else DEVCON_CMD_NONE
  | 122 (* 'z' *) =>
      if flags =? DEVCON_SEQ_FLAG_CASH then DEVCON_CMD_DECERA
      else if flags =? DEVCON_SEQ_FLAG_SQUOTE then DEVCON_CMD_DECELR
      else if flags =? DEVCON_SEQ_FLAG_MULT then DEVCON_CMD_DECINVM
      else if flags =? DEVCON_SEQ_FLAG_PLUS then DEVCON_CMD_DECPKA
      else DEVCON_CMD_NONE
  | 64 (* '@' *) =>
      if flags =? 0 then DEVCON_CMD_ICH
      else DEVCON_CMD_NONE
  | 96 (* '`' *) =>
      if flags =? 0 then DEVCON_CMD_HPA
      else DEVCON_CMD_NONE
  | 123 (* '{' *) =>
      if flags =? DEVCON_SEQ_FLAG_CASH then DEVCON_CMD_DECSERA
      else if flags =? DEVCON_SEQ_FLAG_SQUOTE then DEVCON_CMD_DECSLE
      else DEVCON_CMD_NONE
  | 124 (* '|' *) =>
      if flags =? DEVCON_SEQ_FLAG_CASH then DEVCON_CMD_DECSCPP
      else if flags =? DEVCON_SEQ_FLAG_SQUOTE then DEVCON_CMD_DECRQLP
      else if flags =? DEVCON_SEQ_FLAG_MULT then DEVCON_CMD_DECSNLS
      else DEVCON_CMD_NONE
  | 125 (* '}' *) =>
      if flags =? DEVCON_SEQ_FLAG_SPACE then DEVCON_CMD_DECKBD
      else if flags =? DEVCON_SEQ_FLAG_CASH then DEVCON_CMD_DECSASD
      else if flags =? DEVCON_SEQ_FLAG_SQUOTE then DEVCON_CMD_DECIC
      else DEVCON_CMD_NONE
  | 126 (* '~' *) =>
      if flags =? DEVCON_SEQ_FLAG_SPACE then DEVCON_CMD_DECTME
      else if flags =? DEVCON_SEQ_FLAG_CASH then DEVCON_CMD_DECSSDT
      else if flags =? DEVCON_SEQ_FLAG_SQUOTE then DEVCON_CMD_DECDC
      else DEVCON_CMD_NONE
  | _ => DEVCON_CMD_NONE
  end.

(** ** State machine *)

Inductive parser_state : Set :=
  | STATE_NONE                  (* placeholder *)
  | STATE_GROUND                (* initial state and ground *)
  | STATE_ESC                   (* ESC sequence was started *)
  | STATE_ESC_INT               (* intermediate escape characters *)
  | STATE_CSI_ENTRY             (* starting CSI sequence *)
  | STATE_CSI_PARAM             (* CSI parameters *)
  | STATE_CSI_INT               (* intermediate CSI characters *)
  | STATE_CSI_IGNORE            (* CSI error; ignore this CSI sequence *)
  | STATE_DCS_ENTRY             (* starting DCS sequence *)
  | STATE_DCS_PARAM             (* DCS parameters *)
  | STATE_DCS_INT               (* intermediate DCS characters *)
  | STATE_DCS_PASS              (* DCS data passthrough *)
  | STATE_DCS_IGNORE            (* DCS error; ignore this DCS sequence *)
  | STATE_OSC_STRING            (* parsing OSC sequence *)
  | STATE_ST_IGNORE             (* unimplemented seq; ignore until ST *)
  | STATE_N.

Inductive parser_action : Set :=
  | ACTION_NONE                 (* placeholder *)
  | ACTION_CLEAR                (* clear parameters *)
  | ACTION_IGNORE               (* ignore the character entirely *)
  | ACTION_PRINT                (* print the character on the console *)
  | ACTION_EXECUTE              (* execute single control character (C0/C1) *)
  | ACTION_COLLECT              (* collect intermediate character *)
  | ACTION_PARAM                (* collect parameter character *)
  | ACTION_ESC_DISPATCH         (* dispatch escape sequence *)
  | ACTION_CSI_DISPATCH         (* dispatch csi sequence *)
  | ACTION_DCS_START            (* start of DCS data *)
  | ACTION_DCS_COLLECT          (* collect DCS data *)
  | ACTION_DCS_CONSUME          (* consume DCS terminator *)
  | ACTION_DCS_DISPATCH         (* dispatch dcs sequence *)
  | ACTION_OSC_START            (* start of OSC data *)
  | ACTION_OSC_COLLECT          (* collect OSC data *)
  | ACTION_OSC_CONSUME          (* consume OSC terminator *)
  | ACTION_OSC_DISPATCH         (* dispatch osc sequence *)
  | ACTION_N.

Record devcon_parser := mk_parser {
  parser_seq : devcon_seq;
  parser_st_alloc : Z;          (* size_t *)
  parser_state_ : parser_state  (* unsigned int state *)
}.

(** [devcon_parser_new]: two zeroed allocations; [None] is [-ENOMEM]. *)
Definition devcon_parser_new : M (option devcon_parser) :=
  ok <- kalloc_request ;;
  if negb ok then ret None
  else
    let st_alloc := 64 in
    ok <- kalloc_request ;;
    if negb ok then ret None
    else
      ret (Some (mk_parser
                   (mk_seq DEVCON_SEQ_NONE DEVCON_CMD_NONE 0 0 0 0
                      (replicate (Z.to_nat DEVCON_PARSER_ARG_MAX) 0) 0
                      (replicate (Z.to_nat (st_alloc + 1)) 0))
                   st_alloc STATE_NONE)).

Definition parser_with_seq (parser : devcon_parser) (seq : devcon_seq)
    : devcon_parser :=
  mk_parser seq (parser_st_alloc parser) (parser_state_ parser).

Definition parser_clear (parser : devcon_parser) : devcon_parser :=
  let seq := parser_seq parser in
  let args :=
    foldl (fun a i => array_set a i (-1)) (seq_args seq)
      (seqZ 0 DEVCON_PARSER_ARG_MAX) in
  parser_with_seq parser
    (mk_seq (seq_type seq) DEVCON_CMD_NONE 0 0 DEVCON_CHARSET_NONE 0 args
       0 (array_set (seq_st seq) 0 0)).

Definition seq_dispatch (seq : devcon_seq) (type : devcon_seq_type)
    (command : devcon_cmd) (raw : Z) (charset : Z) : devcon_seq :=
  mk_seq type command raw (seq_intermediates seq) charset
    (seq_n_args seq) (seq_args seq) (seq_n_st seq) (seq_st seq).

Definition parser_ignore (parser : devcon_parser) (raw : Z)
    : devcon_parser * Z :=
  let parser := parser_clear parser in
  let seq := seq_dispatch (parser_seq parser) DEVCON_SEQ_IGNORE
               DEVCON_CMD_NONE raw DEVCON_CHARSET_NONE in
  (parser_with_seq parser seq, seq_type_value (seq_type seq)).

Definition parser_print (parser : devcon_parser) (raw : Z)
    : devcon_parser * Z :=
  let parser := parser_clear parser in
  let seq := seq_dispatch (parser_seq parser) DEVCON_SEQ_GRAPHIC
               DEVCON_CMD_GRAPHIC raw DEVCON_CHARSET_NONE in
  (parser_with_seq parser seq, seq_type_value (seq_type seq)).

Definition parser_execute (parser : devcon_parser) (raw : Z)
    : devcon_parser * Z :=
  let parser := parser_clear parser in
  let seq := seq_dispatch (parser_seq parser) DEVCON_SEQ_CONTROL
               DEVCON_CMD_GRAPHIC raw DEVCON_CHARSET_NONE in
  let seq := seq_dispatch seq (seq_type seq)
               (devcon_parse_host_control seq) (seq_terminator seq)
               (seq_charset seq) in
  (parser_with_seq parser seq, seq_type_value (seq_type seq)).

Definition parser_collect (parser : devcon_parser) (raw : Z)
    : devcon_parser :=
  let seq := parser_seq parser in
  if (0x20 <=? raw) && (raw <=? 0x3f) then
    parser_with_seq parser
      (mk_seq (seq_type seq) (seq_command seq) (seq_terminator seq)
         (Z.lor (seq_intermediates seq) (u32 (Z.shiftl 1 (raw - 0x20))))
         (seq_charset seq) (seq_n_args seq) (seq_args seq) (seq_n_st seq)
         (seq_st seq))
  else parser.

Definition seq_with_args (seq : devcon_seq) (n_args : Z) (args : list Z)
    : devcon_seq :=
  mk_seq (seq_type seq) (seq_command seq) (seq_terminator seq)
    (seq_intermediates seq) (seq_charset seq) n_args args (seq_n_st seq)
    (seq_st seq).

Definition parser_param (parser : devcon_parser) (raw : Z)
    : devcon_parser :=
  let seq := parser_seq parser in
  if raw =? 59 (* ';' *) then
    if seq_n_args seq <? DEVCON_PARSER_ARG_MAX then
      parser_with_seq parser
        (seq_with_args seq (u32 (seq_n_args seq + 1)) (seq_args seq))
    else parser
  else if DEVCON_PARSER_ARG_MAX <=? seq_n_args seq then parser
  else if (48 (* '0' *) <=? raw) && (raw <=? 57 (* '9' *)) then
    let new := array_get 0 (seq_args seq) (seq_n_args seq) in
    let new := if new <? 0 then 0 else new in
    let new := new * 10 + raw - 48 (* '0' *) in
    (* clamp: "We simply use 2^16 as maximum here" *)
    let new := if 0xffff <? new then 0xffff else new in
    parser_with_seq parser
      (seq_with_args seq (seq_n_args seq)
         (array_set (seq_args seq) (seq_n_args seq) new))
  else parser.

Definition parser_esc (parser : devcon_parser) (raw : Z)
    : devcon_parser * Z :=
  let seq := seq_dispatch (parser_seq parser) DEVCON_SEQ_ESCAPE
               DEVCON_CMD_NONE raw DEVCON_CHARSET_NONE in
  let (command, charset) := devcon_parse_host_escape seq (seq_charset seq) in
  let seq := seq_dispatch seq (seq_type seq) command (seq_terminator seq)
               charset in
  (parser_with_seq parser seq, seq_type_value (seq_type seq)).

Definition parser_csi (parser : devcon_parser) (raw : Z)
    : devcon_parser * Z :=
  (* parser->seq is cleared during CSI-ENTER state, thus there's no need
     to clear invalid fields here. *)
  let seq := parser_seq parser in
  let seq :=
    if seq_n_args seq <? DEVCON_PARSER_ARG_MAX then
      if (0 <? seq_n_args seq)
         || (0 <=? array_get 0 (seq_args seq) (seq_n_args seq))
      then seq_with_args seq (u32 (seq_n_args seq + 1)) (seq_args seq)
      else seq
    else seq in
  let seq := seq_dispatch seq DEVCON_SEQ_CSI DEVCON_CMD_NONE raw
               DEVCON_CHARSET_NONE in
  let seq := seq_dispatch seq (seq_type seq) (devcon_parse_host_csi seq)
               (seq_terminator seq) (seq_charset seq) in
  (parser_with_seq parser seq, seq_type_value (seq_type seq)).

(** perform state transition and dispatch related actions *)
Definition parser_transition (parser : devcon_parser) (raw : Z)
    (state : parser_state) (action : parser_action) : devcon_parser * Z :=
  let parser :=
    match state with
    | STATE_NONE => parser
    | _ => mk_parser (parser_seq parser) (parser_st_alloc parser) state
    end in
  match action with
  | ACTION_NONE => (parser, seq_type_value DEVCON_SEQ_NONE)
  | ACTION_CLEAR => (parser_clear parser, seq_type_value DEVCON_SEQ_NONE)
  | ACTION_IGNORE => parser_ignore parser raw
  | ACTION_PRINT => parser_print parser raw
  | ACTION_EXECUTE => parser_execute parser raw
  | ACTION_COLLECT =>
      (parser_collect parser raw, seq_type_value DEVCON_SEQ_NONE)
  | ACTION_PARAM =>
      (parser_param parser raw, seq_type_value DEVCON_SEQ_NONE)
  | ACTION_ESC_DISPATCH => parser_esc parser raw
  | ACTION_CSI_DISPATCH => parser_csi parser raw
  | ACTION_DCS_START            (* not implemented *)
  | ACTION_DCS_COLLECT          (* not implemented *)
  | ACTION_DCS_CONSUME          (* not implemented *)
  | ACTION_DCS_DISPATCH         (* not implemented *)
  | ACTION_OSC_START            (* not implemented *)
  | ACTION_OSC_COLLECT          (* not implemented *)
  | ACTION_OSC_CONSUME          (* not implemented *)
  | ACTION_OSC_DISPATCH         (* not implemented *)
      => (parser, seq_type_value DEVCON_SEQ_NONE)
  | ACTION_N =>
      (* WARN(1, "invalid vte-parser action") *)
      (parser, seq_type_value DEVCON_SEQ_NONE)
  end.

(** [case lo ... hi:] *)
Definition in_range (lo hi raw : Z) : bool := (lo <=? raw) && (raw <=? hi).

Definition parser_feed_to_state (parser : devcon_parser) (raw : Z)
    : devcon_parser * Z :=
  let go := parser_transition parser raw in
  match parser_state_ parser with
  | STATE_NONE
      (* During initialization, parser->state is cleared. Treat this as
         STATE_GROUND. We will then never get to STATE_NONE again. *)
  | STATE_GROUND =>
      if in_range 0x00 0x1f raw         (* C0 *)
         || in_range 0x80 0x9b raw      (* C1 \ { ST } *)
         || in_range 0x9d 0x9f raw
      then go STATE_NONE ACTION_EXECUTE
      else if raw =? 0x9c               (* ST *)
      then go STATE_NONE ACTION_IGNORE
      else go STATE_NONE ACTION_PRINT
  | STATE_ESC =>
      if in_range 0x00 0x1f raw         (* C0 *)
      then go STATE_NONE ACTION_EXECUTE
      else if in_range 0x20 0x2f raw
      then go STATE_ESC_INT ACTION_COLLECT
      else if in_range 0x30 0x4f raw
              || in_range 0x51 0x57 raw
              || in_range 0x59 0x5a raw
              || (raw =? 0x5c)
              || in_range 0x60 0x7e raw
      then go STATE_GROUND ACTION_ESC_DISPATCH
      else if raw =? 0x50               (* 'P' *)
      then go STATE_DCS_ENTRY ACTION_CLEAR
      else if raw =? 0x5b               (* '[' *)
      then go STATE_CSI_ENTRY ACTION_CLEAR
      else if raw =? 0x5d               (* ']' *)
      then go STATE_OSC_STRING ACTION_CLEAR
      else if (raw =? 0x58) || (raw =? 0x5e) || (raw =? 0x5f)
      then go STATE_ST_IGNORE ACTION_NONE
      else if raw =? 0x7f               (* DEL *)
      then go STATE_NONE ACTION_IGNORE
      else if raw =? 0x9c               (* ST *)
      then go STATE_GROUND ACTION_IGNORE
      else go STATE_ESC_INT ACTION_COLLECT
  | STATE_ESC_INT =>
      if in_range 0x00 0x1f raw         (* C0 *)
      then go STATE_NONE ACTION_EXECUTE
      else if in_range 0x20 0x2f raw
      then go STATE_NONE ACTION_COLLECT
      else if in_range 0x30 0x7e raw
      then go STATE_GROUND ACTION_ESC_DISPATCH
      else if raw =? 0x7f               (* DEL *)
      then go STATE_NONE ACTION_IGNORE
      else if raw =? 0x9c               (* ST *)
      then go STATE_GROUND ACTION_IGNORE
      else go STATE_NONE ACTION_COLLECT
  | STATE_CSI_ENTRY =>
      if in_range 0x00 0x1f raw         (* C0 *)
      then go STATE_NONE ACTION_EXECUTE
      else if in_range 0x20 0x2f raw
      then go STATE_CSI_INT ACTION_COLLECT
      else if raw =? 0x3a               (* ':' *)
      then go STATE_CSI_IGNORE ACTION_NONE
      else if in_range 0x30 0x39 raw    (* ['0' - '9'] *)
              || (raw =? 0x3b)          (* ';' *)
      then go STATE_CSI_PARAM ACTION_PARAM
      else if in_range 0x3c 0x3f raw    (* ['<' - '?'] *)
      then go STATE_CSI_PARAM ACTION_COLLECT
      else if in_range 0x40 0x7e raw    (* ['@' - '~'] *)
      then go STATE_GROUND ACTION_CSI_DISPATCH
      else if raw =? 0x7f               (* DEL *)
      then go STATE_NONE ACTION_IGNORE
      else if raw =? 0x9c               (* ST *)
      then go STATE_GROUND ACTION_IGNORE
      else go STATE_CSI_IGNORE ACTION_NONE
  | STATE_CSI_PARAM =>
      if in_range 0x00 0x1f raw         (* C0 *)
      then go STATE_NONE ACTION_EXECUTE
      else if in_range 0x20 0x2f raw
      then go STATE_CSI_INT ACTION_COLLECT
      else if in_range 0x30 0x39 raw    (* ['0' - '9'] *)
              || (raw =? 0x3b)          (* ';' *)
      then go STATE_NONE ACTION_PARAM
      else if (raw =? 0x3a)             (* ':' *)
              || in_range 0x3c 0x3f raw (* ['<' - '?'] *)
      then go STATE_CSI_IGNORE ACTION_NONE
      else if in_range 0x40 0x7e raw    (* ['@' - '~'] *)
      then go STATE_GROUND ACTION_CSI_DISPATCH
      else if raw =? 0x7f               (* DEL *)
      then go STATE_NONE ACTION_IGNORE
      else if raw =? 0x9c               (* ST *)
      then go STATE_GROUND ACTION_IGNORE
      else go STATE_CSI_IGNORE ACTION_NONE
  | STATE_CSI_INT =>
      if in_range 0x00 0x1f raw         (* C0 *)
      then go STATE_NONE ACTION_EXECUTE
      else if in_range 0x20 0x2f raw
      then go STATE_NONE ACTION_COLLECT
      else if in_range 0x30 0x3f raw    (* ['0' - '?'] *)
      then go STATE_CSI_IGNORE ACTION_NONE
      else if in_range 0x40 0x7e raw    (* ['@' - '~'] *)
      then go STATE_GROUND ACTION_CSI_DISPATCH
      else if raw =? 0x7f               (* DEL *)
      then go STATE_NONE ACTION_IGNORE
      else if raw =? 0x9c               (* ST *)
      then go STATE_GROUND ACTION_IGNORE
      else go STATE_CSI_IGNORE ACTION_NONE
  | STATE_CSI_IGNORE =>
      if in_range 0x00 0x1f raw         (* C0 *)
      then go STATE_NONE ACTION_EXECUTE
      else if in_range 0x20 0x3f raw    (* [' ' - '?'] *)
      then go STATE_NONE ACTION_NONE
      else if in_range 0x40 0x7e raw    (* ['@' - '~'] *)
      then go STATE_GROUND ACTION_NONE
      else if raw =? 0x7f               (* DEL *)
      then go STATE_NONE ACTION_IGNORE
      else if raw =? 0x9c               (* ST *)
      then go STATE_GROUND ACTION_IGNORE
      else go STATE_NONE ACTION_NONE
  | STATE_DCS_ENTRY =>
      if in_range 0x00 0x1f raw         (* C0 *)
      then go STATE_NONE ACTION_IGNORE
      else if in_range 0x20 0x2f raw
      then go STATE_DCS_INT ACTION_COLLECT
      else if raw =? 0x3a               (* ':' *)
      then go STATE_DCS_IGNORE ACTION_NONE
      else if in_range 0x30 0x39 raw    (* ['0' - '9'] *)
              || (raw =? 0x3b)          (* ';' *)
      then go STATE_DCS_PARAM ACTION_PARAM
      else if in_range 0x3c 0x3f raw    (* ['<' - '?'] *)
      then go STATE_DCS_PARAM ACTION_COLLECT
      else if in_range 0x40 0x7e raw    (* ['@' - '~'] *)
      then go STATE_DCS_PASS ACTION_DCS_CONSUME
      else if raw =? 0x7f               (* DEL *)
      then go STATE_NONE ACTION_IGNORE
      else if raw =? 0x9c               (* ST *)
      then go STATE_GROUND ACTION_IGNORE
      else go STATE_DCS_PASS ACTION_DCS_CONSUME
  | STATE_DCS_PARAM =>
      if in_range 0x00 0x1f raw         (* C0 *)
      then go STATE_NONE ACTION_IGNORE
      else if in_range 0x20 0x2f raw
      then go STATE_DCS_INT ACTION_COLLECT
      else if in_range 0x30 0x39 raw    (* ['0' - '9'] *)
              || (raw =? 0x3b)          (* ';' *)
      then go STATE_NONE ACTION_PARAM
      else if (raw =? 0x3a)             (* ':' *)
              || in_range 0x3c 0x3f raw (* ['<' - '?'] *)
      then go STATE_DCS_IGNORE ACTION_NONE
      else if in_range 0x40 0x7e raw    (* ['@' - '~'] *)
      then go STATE_DCS_PASS ACTION_DCS_CONSUME
      else if raw =? 0x7f               (* DEL *)
      then go STATE_NONE ACTION_IGNORE
      else if raw =? 0x9c               (* ST *)
      then go STATE_GROUND ACTION_IGNORE
      else go STATE_DCS_PASS ACTION_DCS_CONSUME
  | STATE_DCS_INT =>
      if in_range 0x00 0x1f raw         (* C0 *)
      then go STATE_NONE ACTION_IGNORE
      else if in_range 0x20 0x2f raw
      then go STATE_NONE ACTION_COLLECT
      else if in_range 0x30 0x3f raw    (* ['0' - '?'] *)
      then go STATE_DCS_IGNORE ACTION_NONE
      else if in_range 0x40 0x7e raw    (* ['@' - '~'] *)
      then go STATE_DCS_PASS ACTION_DCS_CONSUME
      else if raw =? 0x7f               (* DEL *)
      then go STATE_NONE ACTION_IGNORE
      else if raw =? 0x9c               (* ST *)
      then go STATE_GROUND ACTION_IGNORE
      else go STATE_DCS_PASS ACTION_DCS_CONSUME
  | STATE_DCS_PASS =>
      if in_range 0x00 0x7e raw         (* ASCII \ { DEL } *)
      then go STATE_NONE ACTION_DCS_COLLECT
      else if raw =? 0x7f               (* DEL *)
      then go STATE_NONE ACTION_IGNORE
      else if raw =? 0x9c               (* ST *)
      then go STATE_GROUND ACTION_DCS_DISPATCH
      else go STATE_NONE ACTION_DCS_COLLECT
  | STATE_DCS_IGNORE =>
      if in_range 0x00 0x7f raw         (* ASCII *)
      then go STATE_NONE ACTION_IGNORE
      else if raw =? 0x9c               (* ST *)
      then go STATE_GROUND ACTION_NONE
      else go STATE_NONE ACTION_NONE
  | STATE_OSC_STRING =>
      if in_range 0x00 0x06 raw         (* C0 \ { BEL } *)
         || in_range 0x08 0x1f raw
      then go STATE_NONE ACTION_IGNORE
      else if in_range 0x20 0x7f raw    (* [' ' - DEL] *)
      then go STATE_NONE ACTION_OSC_COLLECT
      else if (raw =? 0x07)             (* BEL *)
              || (raw =? 0x9c)          (* ST *)
      then go STATE_GROUND ACTION_OSC_DISPATCH
      else go STATE_NONE ACTION_OSC_COLLECT
  | STATE_ST_IGNORE =>
      if in_range 0x00 0x7f raw         (* ASCII *)
      then go STATE_NONE ACTION_IGNORE
      else if raw =? 0x9c               (* ST *)
      then go STATE_GROUND ACTION_IGNORE
      else go STATE_NONE ACTION_NONE
  | STATE_N =>
      (* WARN(1, "bad vte-parser state") *)
      (parser, - EINVAL)
  end.

(** [devcon_parser_feed(parser, &seq_out, raw)]: the parser after the call,
    [*seq_out] ([None] is NULL) and the returned value. *)
Definition devcon_parser_feed (parser : devcon_parser) (raw : Z)
    : devcon_parser * option devcon_seq * Z :=
  let go := parser_transition parser raw in
  let (parser, ret_) :=
    if raw =? 0x18                      (* CAN *)
    then go STATE_GROUND ACTION_IGNORE
    else if raw =? 0x1a                 (* SUB *)
    then go STATE_GROUND ACTION_EXECUTE
    else if in_range 0x80 0x8f raw      (* C1 \ {DCS, SOS, CSI, ST, OSC,
                                           PM, APC} *)
            || in_range 0x91 0x97 raw
            || in_range 0x99 0x9a raw
    then go STATE_GROUND ACTION_EXECUTE
    else if raw =? 0x1b                 (* ESC *)
    then go STATE_ESC ACTION_CLEAR
    else if (raw =? 0x98)               (* SOS *)
            || (raw =? 0x9e)            (* PM *)
            || (raw =? 0x9f)            (* APC *)
    then go STATE_ST_IGNORE ACTION_NONE
    else if raw =? 0x90                 (* DCS *)
    then go STATE_DCS_ENTRY ACTION_CLEAR
    else if raw =? 0x9d                 (* OSC *)
    then go STATE_OSC_STRING ACTION_CLEAR
    else if raw =? 0x9b                 (* CSI *)
    then go STATE_CSI_ENTRY ACTION_CLEAR
    else parser_feed_to_state parser raw in
  if ret_ <=? 0 then (parser, None, ret_)
  else (parser, Some (parser_seq parser), ret_).

(** Feeding a stream of UCS-4 values, one call each: the final parser and
    what every call handed back. *)
Fixpoint parser_feed_all (parser : devcon_parser) (raws : list Z)
    : devcon_parser * list (option devcon_seq * Z) :=
  match raws with
  | [] => (parser, [])
  | raw :: rest =>
      let '(parser', seq_out, ret_) := devcon_parser_feed parser raw in
      let (parser'', outs) := parser_feed_all parser' rest in
      (parser'', (seq_out, ret_) :: outs)
  end.

(** * Histories, continued (page.c) *)

(** The loop of [devcon_history_peek], [list_for_each_entry_reverse]:
    [rev_lines] are the lines still to look at, the newest first.  Returns
    them as the loop leaves them and the count. *)
Fixpoint history_peek_loop (rev_lines : list devcon_line)
    (num max reserve_width : Z) (attr : option devcon_attr) (age : Z)
    : M (list devcon_line * Z) :=
  match rev_lines with
  | [] => ret ([], num)
  | line :: rest =>
      if max <=? num then ret (rev_lines, num)
      else
        r <- devcon_line_reserve line reserve_width attr age
               (line_width line) ;;
        let '(ret_, line) := r in
        if ret_ <? 0 then ret (line :: rest, num)
        else
          r <- history_peek_loop rest (u32 (num + 1)) max reserve_width
                 attr age ;;
          ret (line :: fst r, snd r)
  end.

(** Returns the number of lines and the history as the call leaves it. *)
Definition devcon_history_peek (history : devcon_history)
    (max reserve_width : Z) (attr : option devcon_attr) (age : Z)
    : M (Z * devcon_history) :=
  r <- history_peek_loop (rev (hist_lines history)) 0 max reserve_width
         attr age ;;
  ret (snd r,
       mk_history (rev (fst r)) (hist_n_lines history)
         (hist_max_lines history)).

(** * Pages, continued (page.c) *)

(** [page->lines[y]] after an operation on that line. *)
Definition page_with_line (page : devcon_page) (y : Z) (line : devcon_line)
    : devcon_page :=
  page_with_lines page (array_set (page_lines page) y line)
    (page_scroll_fill page).

Definition page_with_scroll (page : devcon_page) (scroll_idx scroll_num : Z)
    : devcon_page :=
  mk_page (page_age page) (page_lines page) (page_n_lines page)
          (page_width page) (page_height page) scroll_idx scroll_num
          (page_scroll_fill page).

Definition devcon_page_write (page : devcon_page) (pos_x pos_y : Z)
    (ch : devcon_char) (cwidth : Z) (attr : option devcon_attr) (age : Z)
    (insert_mode : bool) : M devcon_page :=
  if page_height page <=? pos_y then ret page
  else
    line <- devcon_line_write (array_get line_zero (page_lines page) pos_y)
              pos_x ch cwidth attr age insert_mode ;;
    ret (page_with_line page pos_y line).

Definition devcon_page_insert_cells (page : devcon_page)
    (from_x from_y num : Z) (attr : option devcon_attr) (age : Z)
    : M devcon_page :=
  if page_height page <=? from_y then ret page
  else
    line <- devcon_line_insert
              (array_get line_zero (page_lines page) from_y)
              from_x num attr age ;;
    ret (page_with_line page from_y line).

Definition devcon_page_delete_cells (page : devcon_page)
    (from_x from_y num : Z) (attr : option devcon_attr) (age : Z)
    : M devcon_page :=
  if page_height page <=? from_y then ret page
  else
    line <- devcon_line_delete
              (array_get line_zero (page_lines page) from_y)
              from_x num attr age ;;
    ret (page_with_line page from_y line).

Definition devcon_page_append (page : devcon_page) (pos_x pos_y : Z)
    (ucs4 : Z) (age : Z) : M devcon_page :=
  if page_height page <=? pos_y then ret page
  else
    line <- devcon_line_append
              (array_get line_zero (page_lines page) pos_y)
              pos_x ucs4 age ;;
    ret (page_with_line page pos_y line).

(** [for (i = from_y; i <= to_y && i < page->height; ++i)]: the rows
    [from_y], [from_y + 1], ... up to the smaller of [to_y] and
    [height - 1]. *)
Definition devcon_page_erase (page : devcon_page)
    (from_x from_y to_x to_y : Z) (attr : option devcon_attr) (age : Z)
    (keep_protected : bool) : M devcon_page :=
  lines <-
    for_loop (seqZ from_y (Z.min (to_y + 1) (page_height page) - from_y))
      (fun i lines =>
         let from := if i =? from_y then from_x else 0 in
         let to := if i =? to_y then to_x else page_width page in
         line <- devcon_line_erase (array_get line_zero lines i) from
                   (LESS_BY to from) attr age keep_protected ;;
         ret (array_set lines i line))
      (page_lines page) ;;
  ret (page_with_lines page lines (page_scroll_fill page)).

Definition devcon_page_reset (page : devcon_page)
    (attr : option devcon_attr) (age : Z) : M devcon_page :=
  devcon_page_erase page 0 0 (u32 (page_width page - 1))
    (u32 (page_height page - 1)) attr age false.

Definition devcon_page_set_scroll_region (page : devcon_page) (idx num : Z)
    : devcon_page :=
  if page_height page <? 1 then page_with_scroll page 0 0
  else
    let scroll_idx := Z.min idx (u32 (page_height page - 1)) in
    page_with_scroll page scroll_idx
      (Z.min num (u32 (page_height page - scroll_idx))).

Definition devcon_page_insert_lines (page : devcon_page) (pos_y num : Z)
    (attr : option devcon_attr) (age : Z) : M devcon_page :=
  if page_height page <=? pos_y then ret page
  else
    let num := if page_height page <=? num then page_height page
               else num in
    (* remember scroll-region *)
    let scroll_idx := page_scroll_idx page in
    let scroll_num := page_scroll_num page in
    (* set scroll-region temporarily so we can reuse scroll_down() *)
    let page :=
      page_with_scroll page pos_y
        (if u32 (scroll_idx + scroll_num) <=? pos_y then 1
         else if scroll_idx <=? pos_y
              then u32 (scroll_num - u32 (pos_y - scroll_idx))
              else u32 (scroll_num + u32 (scroll_idx - pos_y))) in
    r <- devcon_page_scroll_down page num attr age None ;;
    (* reset scroll-region *)
    ret (page_with_scroll (fst r) scroll_idx scroll_num).

Definition devcon_page_delete_lines (page : devcon_page) (pos_y num : Z)
    (attr : option devcon_attr) (age : Z) : M devcon_page :=
  if page_height page <=? pos_y then ret page
  else
    let num := if page_height page <=? num then page_height page
               else num in
    (* remember scroll-region *)
    let scroll_idx := page_scroll_idx page in
    let scroll_num := page_scroll_num page in
    (* set scroll-region temporarily so we can reuse scroll_up() *)
    let page :=
      page_with_scroll page pos_y
        (if u32 (scroll_idx + scroll_num) <=? pos_y then 1
         else if scroll_idx <? pos_y
              then u32 (scroll_num - u32 (pos_y - scroll_idx))
              else u32 (scroll_num + u32 (scroll_idx - pos_y))) in
    r <- devcon_page_scroll_up page num attr age None ;;
    (* reset scroll-region *)
    ret (page_with_scroll (fst r) scroll_idx scroll_num).

(** * Colours (page.h, page.c) *)

Definition DEVCON_CCODE_DEFAULT : Z := 0.  (* default fg/bg color *)
Definition DEVCON_CCODE_256 : Z := 1.      (* 256color code *)
Definition DEVCON_CCODE_RGB : Z := 2.      (* color is specified as RGB *)
Definition DEVCON_CCODE_BLACK : Z := 3.
Definition DEVCON_CCODE_RED : Z := 4.
Definition DEVCON_CCODE_GREEN : Z := 5.
Definition DEVCON_CCODE_YELLOW : Z := 6.
Definition DEVCON_CCODE_BLUE : Z := 7.
Definition DEVCON_CCODE_MAGENTA : Z := 8.
Definition DEVCON_CCODE_CYAN : Z := 9.
Definition DEVCON_CCODE_WHITE : Z := 10.
Definition DEVCON_CCODE_LIGHT_BLACK : Z := DEVCON_CCODE_BLACK + 8.
Definition DEVCON_CCODE_LIGHT_RED : Z := DEVCON_CCODE_RED + 8.
Definition DEVCON_CCODE_LIGHT_GREEN : Z := DEVCON_CCODE_GREEN + 8.
Definition DEVCON_CCODE_LIGHT_YELLOW : Z := DEVCON_CCODE_YELLOW + 8.
Definition DEVCON_CCODE_LIGHT_BLUE : Z := DEVCON_CCODE_BLUE + 8.
Definition DEVCON_CCODE_LIGHT_MAGENTA : Z := DEVCON_CCODE_MAGENTA + 8.
Definition DEVCON_CCODE_LIGHT_CYAN : Z := DEVCON_CCODE_CYAN + 8.
Definition DEVCON_CCODE_LIGHT_WHITE : Z := DEVCON_CCODE_WHITE + 8.
Definition DEVCON_CCODE_N : Z := DEVCON_CCODE_LIGHT_WHITE + 1.

(** [color->c256], which shares its storage with [red]. *)
Definition color_c256 (color : devcon_color) : Z := color_red color.

(** [u8 devcon_default_palette[18][3]], row after row, as the code reads
    it through a [u8] pointer. *)
Definition devcon_default_palette : list Z :=
  [   0;   0;   0    (* black *)
  ; 205;   0;   0    (* red *)
  ;   0; 205;   0    (* green *)
  ; 205; 205;   0    (* yellow *)
  ;   0;   0; 238    (* blue *)
  ; 205;   0; 205    (* magenta *)
  ;   0; 205; 205    (* cyan *)
  ; 229; 229; 229    (* light grey *)
  ; 127; 127; 127    (* dark grey *)
  ; 255;   0;   0    (* light red *)
  ;   0; 255;   0    (* light green *)
  ; 255; 255;   0    (* light yellow *)
  ;  92;  92; 255    (* light blue *)
  ; 255;   0; 255    (* light magenta *)
  ;   0; 255; 255    (* light cyan *)
  ; 255; 255; 255    (* white *)
  ; 229; 229; 229    (* foreground: light grey *)
  ;   0;   0;   0    (* background: black *)
  ].

Definition bval : list Z := [0x00; 0x5f; 0x87; 0xaf; 0xd7; 0xff].

(** [is_fg] is the test [color == &attr->fg]; [palette] is [None] for
    NULL. *)
Definition devcon_color_to_argb32 (color : devcon_color) (is_fg : bool)
    (attr : devcon_attr) (palette : option (list Z)) : Z :=
  let palette := default devcon_default_palette palette in
  let entry t :=
    (array_get 0 palette (t * 3 + 0), array_get 0 palette (t * 3 + 1),
     array_get 0 palette (t * 3 + 2)) in
  let '(r, g, b) :=
    if color_ccode color =? DEVCON_CCODE_RGB then
      (color_red color, color_green color, color_blue color)
    else if color_ccode color =? DEVCON_CCODE_256 then
      let t := color_c256 color in
      if t <? 16 then entry t
      else if t <? 232 then
        let t := u32 (t - 16) in
        let b := array_get 0 bval (t mod 6) in
        let t := t / 6 in
        let g := array_get 0 bval (t mod 6) in
        let t := t / 6 in
        let r := array_get 0 bval (t mod 6) in
        (r, g, b)
      else
        let t := u32 ((t - 232) * 10 + 8) in
        (t, t, t)
    else if (DEVCON_CCODE_BLACK <=? color_ccode color)
            && (color_ccode color <=? DEVCON_CCODE_LIGHT_WHITE) then
      let t := color_ccode color - DEVCON_CCODE_BLACK in
      (* bold causes light colors (only for foreground colors) *)
      let t := if (t <? 8) && attr_bold attr && is_fg then t + 8 else t in
      entry t
    else
      entry (16 + (if is_fg then 0 else 1)) in
  Z.lor (Z.lor (Z.lor (u32 (Z.shiftl 0xff 24)) (u32 (Z.shiftl r 16)))
           (u32 (Z.shiftl g 8))) b.

(** [devcon_attr_to_argb32(attr, &fg, &bg, palette)]: the values stored
    to [*fg] and [*bg]. *)
Definition devcon_attr_to_argb32 (attr : devcon_attr)
    (palette : option (list Z)) : Z * Z :=
  let f := devcon_color_to_argb32 (attr_fg attr) true attr palette in
  let b := devcon_color_to_argb32 (attr_bg attr) false attr palette in
  if attr_inverse attr then (b, f) else (f, b).

(** * Pages: reserving memory (page.c) *)

(** The first loop of [devcon_page_reserve], with its early return: the
    error code of the call that failed (0 when none did) and the lines as
    the loop leaves them. *)
Fixpoint page_reserve_lines (idx : list Z) (page : devcon_page) (cols : Z)
    (attr : option devcon_attr) (age : Z) (lines : list devcon_line)
    : M (Z * list devcon_line) :=
  match idx with
  | [] => ret (0, lines)
  | i :: idx =>
      (* lines below page->height have at least page->width cells *)
      if (cols <? page_width page) && (i <? page_height page) then
        page_reserve_lines idx page cols attr age lines
      else
        r <- devcon_line_reserve (array_get line_zero lines i) cols attr age
               (if i <? page_height page then page_width page else 0) ;;
        let '(ret_, line) := r in
        let lines := array_set lines i line in
        if ret_ <? 0 then ret (ret_, lines)
        else page_reserve_lines idx page cols attr age lines
  end.

(** [while (page->n_lines < rows)]: [n] is the number of lines that are
    missing; the error code, the line array and [n_lines]. *)
Fixpoint page_reserve_new (n : nat) (cols : Z) (attr : option devcon_attr)
    (age : Z) (lines : list devcon_line) (n_lines : Z)
    : M (Z * list devcon_line * Z) :=
  match n with
  | O => ret (0, lines, n_lines)
  | S n =>
      fresh <- devcon_line_new ;;
      match fresh with
      | None => ret (- ENOMEM, lines, n_lines)
      | Some line =>
          r <- devcon_line_reserve line cols attr age 0 ;;
          let '(ret_, line) := r in
          if ret_ <? 0 then
            devcon_line_free line ;;;
            ret (ret_, lines, n_lines)
          else
            page_reserve_new n cols attr age (lines ++ [line])
              (u32 (n_lines + 1))
      end
  end.

Definition page_with_n_lines (page : devcon_page)
    (lines : list devcon_line) (n_lines : Z) : devcon_page :=
  mk_page (page_age page) lines n_lines (page_width page)
          (page_height page) (page_scroll_idx page) (page_scroll_num page)
          (page_scroll_fill page).

(** Returns the error code and the page as the call leaves it; the two
    [krealloc] calls are one allocation request each. *)
Definition devcon_page_reserve (page : devcon_page) (cols rows : Z)
    (attr : option devcon_attr) (age : Z) : M (Z * devcon_page) :=
  let min_lines := Z.min (page_n_lines page) rows in
  r <- page_reserve_lines (seqZ 0 min_lines) page cols attr age
         (page_lines page) ;;
  let '(ret_, lines) := r in
  let page := page_with_n_lines page lines (page_n_lines page) in
  if ret_ <? 0 then ret (ret_, page)
  else if page_n_lines page <? rows then
    if SIZE_MAX / sizeof_ptr <? rows then ret (- ENOMEM, page)
    else
      ok <- kalloc_request ;;
      if negb ok then ret (- ENOMEM, page)
      else
        ok <- kalloc_request ;;
        if negb ok then ret (- ENOMEM, page)
        else
          r <- page_reserve_new (Z.to_nat (rows - page_n_lines page)) cols
                 attr age lines (page_n_lines page) ;;
          let '(ret_, lines, n_lines) := r in
          ret (ret_, page_with_n_lines page lines n_lines)
  else ret (0, page).

(** * Specification vocabulary and sample inputs *)

(** ** Line bounds *)

(** The bounds of a line: [0 <= fill <= width <= n_cells]. *)
Definition line_inv (l : devcon_line) : Prop :=
  0 <= line_fill l /\ line_fill l <= line_width l /\
  line_width l <= line_n_cells l.

(** A value of type [unsigned int]. *)
Definition is_u32 (x : Z) : Prop := 0 <= x < 2 ^ 32.

(** The operations on a line, with their arguments. *)
Inductive line_op : Type :=
  | op_reserve (width : Z) (attr : option devcon_attr) (age : Z)
      (protect_width : Z)
  | op_set_width (width : Z)
  | op_write (pos_x : Z) (ch : devcon_char) (cwidth : Z)
      (attr : option devcon_attr) (age : Z) (insert_mode : bool)
  | op_place (from num : Z) (head_char : devcon_char) (head_cwidth : Z)
      (attr : option devcon_attr) (age : Z)
  | op_insert (from num : Z) (attr : option devcon_attr) (age : Z)
  | op_delete (from num : Z) (attr : option devcon_attr) (age : Z)
  | op_erase (from num : Z) (attr : option devcon_attr) (age : Z)
      (keep_protected : bool)
  | op_reset (attr : option devcon_attr) (age : Z)
  | op_append (pos_x : Z) (ucs4 : Z) (age : Z).

(** The [unsigned int] arguments are in range. *)
Definition line_op_ok (o : line_op) : Prop :=
  match o with
  | op_reserve width _ _ protect_width => is_u32 width /\ is_u32 protect_width
  | op_set_width width => is_u32 width
  | op_write pos_x _ cwidth _ _ _ => is_u32 pos_x /\ is_u32 cwidth
  | op_place from num _ head_cwidth _ _ =>
      is_u32 from /\ is_u32 num /\ is_u32 head_cwidth
  | op_insert from num _ _ => is_u32 from /\ is_u32 num
  | op_delete from num _ _ => is_u32 from /\ is_u32 num
  | op_erase from num _ _ _ => is_u32 from /\ is_u32 num
  | op_reset _ _ => True
  | op_append pos_x ucs4 _ => is_u32 pos_x /\ is_u32 ucs4
  end.

Definition line_op_run (o : line_op) (l : devcon_line) : M devcon_line :=
  match o with
  | op_reserve width attr age protect_width =>
      r <- devcon_line_reserve l width attr age protect_width ;;
      ret (snd r)
  | op_set_width width => ret (devcon_line_set_width l width)
  | op_write pos_x ch cwidth attr age insert_mode =>
      devcon_line_write l pos_x ch cwidth attr age insert_mode
  | op_place from num head_char head_cwidth attr age =>
      devcon_line_place l from num head_char head_cwidth attr age
  | op_insert from num attr age => devcon_line_insert l from num attr age
  | op_delete from num attr age => devcon_line_delete l from num attr age
  | op_erase from num attr age keep_protected =>
      devcon_line_erase l from num attr age keep_protected
  | op_reset attr age => devcon_line_reset l attr age
  | op_append pos_x ucs4 age => devcon_line_append l pos_x ucs4 age
  end.

(** The line after each operation of a sequence. *)
Fixpoint line_trace (ops : list line_op) (l : devcon_line) (h : heap)
    : list devcon_line :=
  match ops with
  | [] => []
  | o :: ops' =>
      let (l', h') := line_op_run o l h in
      l' :: line_trace ops' l' h'
  end.

(** ** Sample lines *)

Definition attr_protected : devcon_attr :=
  mk_attr (mk_color 0 0 0 0) (mk_color 0 0 0 0)
          false false false false true false false.

(** A cell holding the single code point [c], of width 1. *)
Definition cell_of (c : Z) (attr : devcon_attr) (age : Z) : devcon_cell :=
  mk_cell (devcon_char_pack1 c) age attr 1.

(** An erased cell. *)
Definition cell_blank (attr : option devcon_attr) (age : Z) : devcon_cell :=
  mk_cell DEVCON_CHAR_NULL age (attr_or_zero attr) 0.

(** Width 5, contents ABCDE, fill 5, the C at index 2 protected. *)
Definition line_ABCDE (age : Z) : devcon_line :=
  mk_line 5 5
    [cell_of 65 attr_zero age; cell_of 66 attr_zero age;
     cell_of 67 attr_protected age; cell_of 68 attr_zero age;
     cell_of 69 attr_zero age]
    0 5.

(** ** Parser vocabulary *)

(** The bound on the argument counter that every action keeps. *)
Definition n_args_ok (p : devcon_parser) : Prop :=
  0 <= seq_n_args (parser_seq p) <= DEVCON_PARSER_ARG_MAX.

(** The parser as [devcon_parser_new] returns it: zeroed, with room for
    [st_alloc + 1] string bytes. *)
Definition parser_zero : devcon_parser :=
  mk_parser
    (mk_seq DEVCON_SEQ_NONE DEVCON_CMD_NONE 0 0 0 0 (replicate 16 0) 0
       (replicate 65 0))
    64 STATE_NONE.

(** ESC [ 1 ; 2 H *)
Definition stream_cup : list Z := [0x1B; 0x5B; 0x31; 0x3B; 0x32; 0x48].

(** ESC [ 1 ; 1 ; 1 ; 1 ; 1 ; 1 T: six parameters. *)
Definition stream_six_T : list Z :=
  [0x1B; 0x5B; 0x31; 0x3B; 0x31; 0x3B; 0x31; 0x3B; 0x31; 0x3B; 0x31; 0x3B;
   0x31; 0x54].

(** ESC [ followed by twenty times "1;" and the final T. *)
Definition stream_twenty_T : list Z :=
  [0x1B; 0x5B] ++ concat (replicate 20 [0x31; 0x3B]) ++ [0x54].

(** What the last call of a feed run handed back. *)
Definition last_seq (outs : list (option devcon_seq * Z))
    : option devcon_seq :=
  match last outs with
  | Some (Some s, _) => Some s
  | _ => None
  end.
(** The fields of a dispatched CUP sequence with the parameters 1 and 2. *)
Definition is_cup_1_2 (s : devcon_seq) : Prop :=
  seq_type s = DEVCON_SEQ_CSI /\
  seq_command s = DEVCON_CMD_CUP /\
  seq_n_args s = 2 /\
  array_get 0 (seq_args s) 0 = 1 /\
  array_get 0 (seq_args s) 1 = 2 /\
  seq_intermediates s = 0.

(** ** Sample heaps and histories *)

(** A heap without live characters that grants the next 64 requests. *)
Definition heap_granting : heap := mk_heap ∅ 8 (replicate 64 true).

(** A heap whose allocator refuses every request. *)
Definition heap_exhausted : heap := mk_heap ∅ 8 [].

(** A line of width 2 showing "AB", and a history holding just it. *)
Definition line_AB : devcon_line :=
  mk_line 2 2 [cell_of 65 attr_zero 1; cell_of 66 attr_zero 1] 0 2.

Definition history_AB : devcon_history := mk_history [line_AB] 1 8.

(** ** Character vocabulary *)

(** [devcon_char_merge] for each code point of a list in turn. *)
Fixpoint merge_all (ch : devcon_char) (l : list Z) : M devcon_char :=
  match l with
  | [] => ret ch
  | c :: l' => ch' <- devcon_char_merge ch c ;; merge_all ch' l'
  end.

(** A valid UCS-4 code point. *)
Definition is_ucs4 (c : Z) : Prop := 0 <= c <= DEVCON_CHAR_UCS4_MAX.

(** The allocator grants the next [k] requests: the outcomes are [true],
    and the break pointer is non-null, aligned and leaves room. *)
Definition heap_grants (k : nat) (h : heap) : Prop :=
  take k (grants h) = replicate k true /\
  0 < brk h /\ brk h mod 2 = 0 /\
  brk h + KMALLOC_MINALIGN * Z.of_nat k <= 2 ^ 64.

(** [ch] holds the code points [l] in heap [h]: null for none, packed for
    one to three, and for more a live allocation below the break pointer
    with the count and the zero-terminated code points. *)
Definition char_holds (h : heap) (ch : devcon_char) (l : list Z) : Prop :=
  match l with
  | [] => ch = DEVCON_CHAR_NULL
  | [a] => ch = devcon_char_pack1 a
  | [a; b] => ch = devcon_char_pack2 a b
  | [a; b; c] => ch = devcon_char_pack3 a b c
  | _ =>
      devcon_char_is_allocated ch = true /\
      0 < _value ch < brk h /\
      chars h !! _value ch
      = Some (mk_character (Z.of_nat (length l)) (l ++ [0]))
  end.
(** ** Sample characters *)

(** A client buffer ([struct devcon_charbuf]) of zeros. *)
Definition charbuf_zero : devcon_charbuf := mk_charbuf [0; 0; 0; 0].

(** LATIN CAPITAL LETTER A and the combining marks from U+0300 on. *)
Definition base_A : Z := 0x41.
Definition marks_from_0300 (k : Z) : list Z := seqZ 0x300 k.

(** A base with four combining marks: one more than a packed word holds. *)
Definition A_with_marks : list Z := [0x41; 0x301; 0x302; 0x303; 0x304].

(** ** Sample line operations *)

(** A sequence of line operations that uses each of them. *)
Definition sample_line_ops : list line_op :=
  [ op_reserve 5 None 1 0;
    op_set_width 5;
    op_write 0 (devcon_char_pack1 0x41) 1 None 1 false;
    op_write 1 (devcon_char_pack1 0x42) 1 (Some attr_protected) 1 false;
    op_insert 0 2 None 2;
    op_place 4 1 (devcon_char_pack1 0x43) 1 None 2;
    op_append 4 0x301 3;
    op_erase 0 5 None 4 true;
    op_delete 1 2 None 5;
    op_reset None 6;
    op_set_width 3 ].

(** ** Page vocabulary *)


(** A line of a page [w] cells wide: within its bounds and of that width. *)
Definition line_ok (w : Z) (l : devcon_line) : Prop :=
  line_inv l /\ line_width l = w.




(** ** Sample page *)

(** A line of width 3 showing the letter [c] three times. *)
Definition line_of (c : Z) : devcon_line :=
  mk_line 3 3
    [cell_of c attr_zero 1; cell_of c attr_zero 1; cell_of c attr_zero 1]
    0 3.

(** Five lines A to E of three columns, the scroll region on the lines 1
    to 3. *)
Definition page_A_to_E : devcon_page :=
  mk_page 1 [line_of 65; line_of 66; line_of 67; line_of 68; line_of 69]
    5 3 5 1 3 3.


(** ** History vocabulary *)

(** The counter of a history agrees with its list. *)
Definition history_counted (history : devcon_history) : Prop :=
  hist_n_lines history = Z.of_nat (length (hist_lines history)).

(** [k] calls of [devcon_history_pop] with the same arguments: what each
    returned, and the history left. *)
Fixpoint pop_many (k : nat) (history : devcon_history) (new_width : Z)
    (attr : option devcon_attr) (age : Z)
    : M (list (option devcon_line) * devcon_history) :=
  match k with
  | O => ret ([], history)
  | S k' =>
      r <- devcon_history_pop history new_width attr age ;;
      r' <- pop_many k' (snd r) new_width attr age ;;
      ret (fst r :: fst r', snd r')
  end.

(** ** Sample allocated character *)

(** The character built from [A_with_marks], which needs an allocation,
    and the heap holding it. *)
Definition char_A_marks : devcon_char :=
  fst (merge_all DEVCON_CHAR_NULL A_with_marks heap_granting).
Definition heap_A_marks : heap :=
  snd (merge_all DEVCON_CHAR_NULL A_with_marks heap_granting).

(** ** Line vocabulary *)

(** What [devcon_line_erase] makes of one cell of its range. *)
Definition erase_cell (keep_protected : bool) (attr : option devcon_attr)
    (age : Z) (c : devcon_cell) : devcon_cell :=
  if keep_protected && attr_protect (cell_attr c) then c
  else cell_blank attr age.

(** A cell that was moved: its age is the age of the move. *)
Definition cell_moved (age : Z) (c : devcon_cell) : devcon_cell :=
  mk_cell (cell_ch c) age (cell_attr c) (cell_cwidth c).

(** ** Page vocabulary, continued *)

(** The cell array of a line has [n_cells] cells, and the line is within
    its bounds. *)
Definition line_allocated (l : devcon_line) : Prop :=
  line_inv l /\
  line_n_cells l = Z.of_nat (length (line_cells l)) /\
  line_n_cells l < 2 ^ 32.

(** A line after [devcon_line_reset]: its visible cells blank. *)
Definition line_blank (attr : option devcon_attr) (age : Z)
    (l : devcon_line) : devcon_line :=
  mk_line (line_width l) (line_n_cells l)
    (replicate (Z.to_nat (line_width l)) (cell_blank attr age)
       ++ drop (Z.to_nat (line_width l)) (line_cells l))
    (line_age l) 0.

(** The visible lines of a page exist, are allocated and are as wide as
    the page. *)
Definition page_allocated (p : devcon_page) : Prop :=
  0 <= page_height p <= Z.of_nat (length (page_lines p)) /\
  Forall (fun l => line_allocated l /\ line_width l = page_width p)
    (take (Z.to_nat (page_height p)) (page_lines p)).

(** The cells that [devcon_page_erase] visits: from [from_x] on the line
    [from_y] up to, but not including, [to_x] on the line [to_y]. *)
Definition erased_at (from_x from_y to_x to_y x y : Z) : bool :=
  (from_y <=? y) && (y <=? to_y)
  && (if y =? from_y then from_x <=? x else true)
  && (if y =? to_y then x <? to_x else true).

(** ** UTF-8 vocabulary *)

(** A decoder between two sequences: nothing is pending. Its buffer is the
    array [chars[5]]. *)
Definition utf8_idle (p : devcon_utf8) : Prop :=
  utf8_valid p = false /\ length (utf8_chars p) = 5%nat.

(** "A", e-acute, the euro sign and an emoji: one code point for each
    length of encoding. *)
Definition sample_codepoints : list Z := [0x41; 0xE9; 0x20AC; 0x1F600].

(** ** Parser vocabulary, continued *)

(** The number that a string of decimal digits denotes. *)
Definition decimal (ds : list Z) : Z := foldl (fun a d => a * 10 + d) 0 ds.

(** The characters ['0'] to ['9'] of a string of digits. *)
Definition digit_chars (ds : list Z) : list Z := map (fun d => 48 + d) ds.

(** The parser has seen ESC [ and, possibly, parameters. *)
Definition in_csi_params (p : devcon_parser) : Prop :=
  parser_state_ p = STATE_CSI_ENTRY \/ parser_state_ p = STATE_CSI_PARAM.

(** The parser after ESC [ 1 ;: in the parameters of a CSI sequence, the
    second parameter not yet begun. *)
Definition parser_csi_1 : devcon_parser :=
  fst (parser_feed_all parser_zero [0x1B; 0x5B; 0x31; 0x3B]).

(** ** Colour vocabulary *)

(** An opaque ARGB32 value with the given channels. *)
Definition argb32 (r g b : Z) : Z :=
  0xff * 2 ^ 24 + r * 2 ^ 16 + g * 2 ^ 8 + b.

(** The attributes with the given colours and boldness, nothing else
    set. *)
Definition attr_colors (fg bg : devcon_color) (bold inverse : bool)
    : devcon_attr :=
  mk_attr fg bg bold false false inverse false false false.

(** The attributes [a] with another foreground colour and boldness. *)
Definition attr_with_fg (a : devcon_attr) (fg : devcon_color) (bold : bool)
    : devcon_attr :=
  mk_attr fg (attr_bg a) bold (attr_italic a) (attr_underline a)
    (attr_inverse a) (attr_protect a) (attr_blink a) (attr_hidden a).

(** A named colour. *)
Definition color_named (ccode : Z) : devcon_color := mk_color ccode 0 0 0.

(** The visible part of the line [l'] is that of [l]. *)
Definition same_visible (width : Z) (l l' : devcon_line) : Prop :=
  line_width l' = line_width l /\
  take (Z.to_nat width) (line_cells l')
  = take (Z.to_nat width) (line_cells l).

(** * Properties *)

(** ** Machine integers and line bounds *)

Lemma u32_range x : 0 <= u32 x < 2 ^ 32.
Proof. unfold u32. apply Z.mod_pos_bound. lia. Qed.

Lemma u32_eq x : u32 x = x - 2 ^ 32 * (x / 2 ^ 32).
Proof. unfold u32. rewrite Z.mod_eq; lia. Qed.

Lemma u32_small x : 0 <= x < 2 ^ 32 -> u32 x = x.
Proof. unfold u32. apply Z.mod_small. Qed.

(** Replace every [u32 x] by a variable [v] with [v = x - 2^32 * k] and
    [0 <= v < 2^32], which is all that linear arithmetic needs. *)
Ltac u32_abstract :=
  repeat match goal with
         | |- context [u32 ?x] =>
             let v := fresh "v" in
             let k := fresh "k" in
             pose proof (u32_range x);
             pose proof (u32_eq x);
             generalize dependent (x / 2 ^ 32); intros k;
             generalize dependent (u32 x); intros v; intros
         | H : context [u32 ?x] |- _ =>
             let v := fresh "v" in
             let k := fresh "k" in
             pose proof (u32_range x);
             pose proof (u32_eq x);
             generalize dependent (x / 2 ^ 32); intros k;
             generalize dependent (u32 x); intros v; intros
         end.

Ltac zbool :=
  repeat match goal with
         | H : (_ || _) = true |- _ => apply orb_true_iff in H; destruct H
         | H : (_ || _) = false |- _ => apply orb_false_iff in H; destruct H
         | H : (_ && _) = true |- _ => apply andb_true_iff in H; destruct H
         | H : (_ && _) = false |- _ => apply andb_false_iff in H; destruct H
         | H : (_ <? _) = true |- _ => apply Z.ltb_lt in H
         | H : (_ <? _) = false |- _ => apply Z.ltb_ge in H
         | H : (_ <=? _) = true |- _ => apply Z.leb_le in H
         | H : (_ <=? _) = false |- _ => apply Z.leb_gt in H
         | H : (_ =? _) = true |- _ => apply Z.eqb_eq in H
         | H : (_ =? _) = false |- _ => apply Z.eqb_neq in H
         end.

(** The numeric fields of a line do not depend on the cells: project a
    monadic result onto them. *)
Lemma for_loop_fst_inv {S} (P : S -> Prop) idx (body : Z -> S -> M S) :
  (forall i s h, P s -> P (fst (body i s h))) ->
  forall s h, P s -> P (fst (for_loop idx body s h)).
Proof.
  intros Hbody. induction idx as [|i idx IH]; intros s h Hs; simpl.
  - exact Hs.
  - unfold bind. specialize (Hbody i s h Hs).
    destruct (body i s h) as [s' h']. by apply IH.
Qed.

Lemma line_set_width_inv l width :
  line_inv l -> is_u32 width -> line_inv (devcon_line_set_width l width).
Proof.
  unfold line_inv, is_u32, devcon_line_set_width. intros (?&?&?) ?.
  destruct (line_n_cells l <? width) eqn:E; zbool; simpl; lia.
Qed.

Ltac line_fields :=
  unfold bind, ret; repeat case_match; simplify_eq;
  cbn [fst snd line_fill line_width line_n_cells line_with_cells
       line_with_fill] in *;
  zbool; u32_abstract; unfold is_u32 in *; lia.

Lemma line_reserve_inv l width attr age pw h :
  line_inv l -> is_u32 width -> is_u32 pw ->
  line_inv (snd (fst (devcon_line_reserve l width attr age pw h))).
Proof.
  unfold line_inv, is_u32, devcon_line_reserve.
  intros (?&?&?) ? ?. line_fields.
Qed.

Lemma line_place_inv l from num hc hw attr age h :
  line_inv l -> is_u32 from -> is_u32 num ->
  line_inv (fst (devcon_line_place l from num hc hw attr age h)).
Proof.
  unfold line_inv, is_u32, devcon_line_place.
  intros (?&?&?) ? ?. line_fields.
Qed.

Lemma line_write_inv l pos_x ch cwidth attr age ins h :
  line_inv l -> is_u32 pos_x -> is_u32 cwidth ->
  line_inv (fst (devcon_line_write l pos_x ch cwidth attr age ins h)).
Proof.
  intros Hl Hx Hw. unfold devcon_line_write.
  destruct (line_width l <=? pos_x) eqn:E1; [exact Hl |].
  match goal with
  | |- context [if ?len =? 0 then _ else _] => set (n := len)
  end.
  destruct (n =? 0) eqn:E2; [exact Hl |].
  destruct ins.
  - apply line_place_inv; [exact Hl | exact Hx |].
    subst n. unfold is_u32 in *. destruct Hl as (?&?&?).
    repeat case_match; zbool; u32_abstract; lia.
  - subst n. unfold line_inv, is_u32 in *. destruct Hl as (?&?&?).
    line_fields.
Qed.

Lemma line_delete_inv l from num attr age h :
  line_inv l -> is_u32 from -> is_u32 num ->
  line_inv (fst (devcon_line_delete l from num attr age h)).
Proof.
  unfold line_inv, is_u32, devcon_line_delete.
  intros (?&?&?) ? ?. line_fields.
Qed.

Lemma line_append_inv l pos_x ucs4 age h :
  line_inv l -> line_inv (fst (devcon_line_append l pos_x ucs4 age h)).
Proof.
  unfold line_inv, devcon_line_append. intros (?&?&?). line_fields.
Qed.

Lemma line_erase_inv l from num attr age keep h :
  line_inv l ->
  line_inv (fst (devcon_line_erase l from num attr age keep h)).
Proof.
  intros Hl. unfold devcon_line_erase.
  destruct (line_width l <=? from) eqn:E1; [exact Hl |].
  match goal with
  | |- context [if ?len =? 0 then _ else _] => set (n := len)
  end.
  destruct (n =? 0) eqn:E2; [exact Hl |].
  unfold bind.
  match goal with
  | |- context [for_loop ?idx ?body ?s0 h] =>
      pose proof (for_loop_fst_inv
                    (fun st : list devcon_cell * Z =>
                       0 <= snd st <= line_fill l) idx body) as Hloop;
      destruct (for_loop idx body s0 h) as [[cells lp] h'] eqn:Eloop
  end.
  assert (Hlp : 0 <= lp <= line_fill l).
  { change lp with (snd (fst (cells, lp, h'))). rewrite <- Eloop.
    apply Hloop; [| destruct Hl; simpl; lia].
    intros i [cs p] h0 Hp. simpl in Hp.
    destruct (keep && attr_protect
                (cell_attr (array_get cell_zero cs (from + i)))).
    - unfold ret. simpl. case_match; zbool; u32_abstract; lia.
    - unfold bind, ret. case_match. simpl. exact Hp. }
  unfold ret, line_inv in *. destruct Hl as (?&?&?).
  cbn [fst line_fill line_width line_n_cells].
  case_match; zbool; lia.
Qed.

Lemma line_reset_inv l attr age h :
  line_inv l -> line_inv (fst (devcon_line_reset l attr age h)).
Proof. apply line_erase_inv. Qed.

Lemma line_op_run_inv o l h :
  line_inv l -> line_op_ok o -> line_inv (fst (line_op_run o l h)).
Proof.
  intros Hl Ho. destruct o; simpl in Ho; simpl.
  - unfold bind, ret.
    pose proof (line_reserve_inv l width attr age protect_width h Hl
                  (proj1 Ho) (proj2 Ho)) as Hr.
    by destruct (devcon_line_reserve l width attr age protect_width h)
      as [[r l'] h'].
  - by apply line_set_width_inv.
  - apply line_write_inv; tauto.
  - apply line_place_inv; tauto.
  - apply line_place_inv; tauto.
  - apply line_delete_inv; tauto.
  - apply line_erase_inv; tauto.
  - by apply line_reset_inv.
  - by apply line_append_inv.
Qed.

(** C4: from a line within its bounds, every operation of any sequence
    of reserve, set_width, write, place, insert, delete, erase, reset and
    append leaves [0 <= fill <= width <= n_cells], whatever the allocator
    answers. *)
Theorem line_bounds_after_each_operation (ops : list line_op)
    (l : devcon_line) (h : heap)
    (Hl : line_inv l) (Hops : Forall line_op_ok ops) :
  Forall line_inv (line_trace ops l h).
Proof.
  revert l h Hl. induction Hops as [|o ops Ho Hops IH]; intros l h Hl.
  - constructor.
  - simpl. pose proof (line_op_run_inv o l h Hl Ho) as H1.
    destruct (line_op_run o l h) as [l' h'].
    constructor; [exact H1 | by apply IH].
Qed.

Lemma line_bounds_after_each_operation_witness :
  (line_inv line_zero /\ Forall line_op_ok sample_line_ops) /\
  Forall line_inv (line_trace sample_line_ops line_zero heap_granting).
Proof.
  assert (H1 : line_inv line_zero) by (unfold line_inv; simpl; lia).
  assert (H2 : Forall line_op_ok sample_line_ops)
    by (repeat constructor; unfold is_u32; simpl; lia).
  split; [done |].
  exact (line_bounds_after_each_operation sample_line_ops line_zero
           heap_granting H1 H2).
Defined.

(** A new line ([devcon_line_new]) is within its bounds. *)
Lemma line_new_inv h l :
  fst (devcon_line_new h) = Some l -> line_inv l.
Proof.
  unfold devcon_line_new, bind, ret.
  destruct (kalloc_request h) as [[] h']; simpl; intros [= <-].
  unfold line_inv. simpl. lia.
Qed.

(** C1, evaluated: erasing all of ABCDE while keeping the protected C
    clears the four other cells and keeps the C, but leaves [fill] at 2,
    the index of the protected cell, and not at 3: the kept cell lies
    outside the fill region. *)
Theorem line_erase_protect_ABCDE (age age' : Z) (attr : option devcon_attr)
    (h : heap) :
  devcon_line_erase (line_ABCDE age) 0 5 attr age' true h
  = (mk_line 5 5
       [cell_blank attr age'; cell_blank attr age';
        cell_of 67 attr_protected age;
        cell_blank attr age'; cell_blank attr age']
       0 2,
     h).
Proof. reflexivity. Qed.

(** ** The parser *)

Lemma parser_clear_n_args p : seq_n_args (parser_seq (parser_clear p)) = 0.
Proof. reflexivity. Qed.

Lemma parser_param_n_args_ok p raw :
  n_args_ok p -> n_args_ok (parser_param p raw).
Proof.
  unfold n_args_ok, parser_param, DEVCON_PARSER_ARG_MAX, u32. intros H.
  repeat case_match; simpl; try lia.
  rewrite Z.mod_small; lia.
Qed.

Lemma parser_csi_n_args_ok p raw :
  n_args_ok p -> n_args_ok (fst (parser_csi p raw)).
Proof.
  unfold n_args_ok, parser_csi, DEVCON_PARSER_ARG_MAX, u32. intros H.
  repeat case_match; simpl; try lia.
  all: rewrite Z.mod_small; lia.
Qed.

Lemma parser_transition_n_args_ok p raw st act :
  n_args_ok p -> n_args_ok (fst (parser_transition p raw st act)).
Proof.
  intros H. unfold parser_transition.
  match goal with
  | |- context [parser_collect ?q _] => set (p' := q)
  end.
  assert (Hst : n_args_ok p') by (subst p'; destruct st; exact H).
  clearbody p'.
  destruct act; simpl; try exact Hst;
    try (unfold n_args_ok, DEVCON_PARSER_ARG_MAX; simpl; lia).
  - unfold parser_collect. destruct (_ && _); exact Hst.
  - by apply parser_param_n_args_ok.
  - unfold parser_esc. destruct (devcon_parse_host_escape _ _). exact Hst.
  - by apply parser_csi_n_args_ok.
Qed.

Lemma parser_feed_to_state_n_args_ok p raw :
  n_args_ok p -> n_args_ok (fst (parser_feed_to_state p raw)).
Proof.
  intros H. unfold parser_feed_to_state.
  destruct (parser_state_ p);
    repeat match goal with
           | |- context [if ?b then _ else _] => destruct b
           end;
    solve [ by apply parser_transition_n_args_ok | exact H ].
Qed.

Lemma devcon_parser_feed_n_args_ok p raw :
  n_args_ok p -> n_args_ok (fst (fst (devcon_parser_feed p raw))).
Proof.
  intros H.
  assert (Hout : forall e : devcon_parser * Z,
             n_args_ok (fst e) ->
             n_args_ok (fst (fst (let (parser, ret_) := e in
                                  if ret_ <=? 0 then (parser, None, ret_)
                                  else (parser, Some (parser_seq parser),
                                        ret_))))).
  { intros [q r] Hq. simpl in *. by destruct (r <=? 0). }
  unfold devcon_parser_feed. apply Hout.
  repeat match goal with
         | |- context [if ?b then _ else _] => destruct b
         end;
    solve [ by apply parser_transition_n_args_ok
          | by apply parser_feed_to_state_n_args_ok ].
Qed.

Lemma devcon_parser_feed_seq_out p raw s :
  snd (fst (devcon_parser_feed p raw)) = Some s ->
  s = parser_seq (fst (fst (devcon_parser_feed p raw))).
Proof.
  unfold devcon_parser_feed.
  destruct (if raw =? 24 then _ else _) as [q r].
  destruct (r <=? 0); simpl; congruence.
Qed.

Lemma devcon_parser_new_zero h gs :
  grants h = true :: true :: gs ->
  fst (devcon_parser_new h) = Some parser_zero.
Proof.
  intros Hg. unfold devcon_parser_new, bind, kalloc_request.
  rewrite Hg. reflexivity.
Qed.

Lemma parser_feed_all_n_args_ok raws : forall p,
  n_args_ok p ->
  n_args_ok (fst (parser_feed_all p raws)) /\
  Forall (fun o => forall s, fst o = Some s ->
                   seq_n_args s <= DEVCON_PARSER_ARG_MAX)
         (snd (parser_feed_all p raws)).
Proof.
  induction raws as [|raw rest IH]; intros p H; simpl.
  - split; [exact H | constructor].
  - pose proof (devcon_parser_feed_n_args_ok p raw H) as H1.
    pose proof (devcon_parser_feed_seq_out p raw) as H2.
    destruct (devcon_parser_feed p raw) as [[p1 so] r]. simpl in *.
    destruct (IH p1 H1) as [IH1 IH2].
    destruct (parser_feed_all p1 rest) as [p2 outs]. simpl in *.
    split; [exact IH1 |].
    constructor; [| exact IH2].
    simpl. intros s Hs. rewrite (H2 s Hs). apply H1.
Qed.

(** C10: whatever stream is fed, [n_args] stays within
    [DEVCON_PARSER_ARG_MAX] = 16, in the parser and in every sequence handed
    out; once sixteen parameters are counted [parser_param] changes nothing
    any more, neither for a semicolon nor for a digit, and the CSI dispatch
    leaves the counter at the bound. *)
Theorem parser_n_args_bounded (raws : list Z) (p : devcon_parser)
    (H : n_args_ok p) :
  n_args_ok (fst (parser_feed_all p raws)) /\
  Forall (fun o => forall s, fst o = Some s ->
                   seq_n_args s <= DEVCON_PARSER_ARG_MAX)
         (snd (parser_feed_all p raws)) /\
  (seq_n_args (parser_seq p) = DEVCON_PARSER_ARG_MAX ->
   forall raw, parser_param p raw = p) /\
  (seq_n_args (parser_seq p) = DEVCON_PARSER_ARG_MAX ->
   forall raw,
     seq_n_args (parser_seq (fst (parser_csi p raw)))
     = DEVCON_PARSER_ARG_MAX).
Proof.
  destruct (parser_feed_all_n_args_ok raws p H) as [H1 H2].
  repeat split; try exact H1; try exact H2; try apply H1.
  - intros Hn raw. unfold parser_param. rewrite Hn.
    by destruct (raw =? 59).
  - intros Hn raw. unfold parser_csi.
    replace (seq_n_args (parser_seq p) <? DEVCON_PARSER_ARG_MAX) with false
      by (rewrite Hn; reflexivity).
    exact Hn.
Qed.

Lemma parser_n_args_bounded_witness :
  n_args_ok parser_zero /\
  n_args_ok (fst (parser_feed_all parser_zero stream_twenty_T)).
Proof.
  assert (H : n_args_ok parser_zero).
  { unfold n_args_ok, DEVCON_PARSER_ARG_MAX. simpl. lia. }
  split; [exact H |].
  exact (proj1 (parser_n_args_bounded stream_twenty_T parser_zero H)).
Defined.

Lemma length_16 {A} (l : list A) :
  length l = 16%nat ->
  exists a0 a1 a2 a3 a4 a5 a6 a7 a8 a9 a10 a11 a12 a13 a14 a15,
    l = [a0; a1; a2; a3; a4; a5; a6; a7; a8; a9; a10; a11; a12; a13; a14;
         a15].
Proof.
  intros H.
  do 16 (destruct l as [|? l]; [discriminate H|]).
  destruct l; [| discriminate H].
  by repeat eexists.
Qed.

(** C6: fed to a parser whose argument array has its sixteen slots (a
    new or cleared parser in particular), the values 0x1B 0x5B 0x31 0x3B
    0x32 0x48 hand back nothing on the first five calls, and on the last
    call the sequence of type CSI, command CUP, two arguments 1 and 2, no
    intermediates. *)
Theorem parser_feed_csi_cup (p : devcon_parser)
    (H : length (seq_args (parser_seq p)) = 16%nat) :
  exists s,
    map fst (snd (parser_feed_all p stream_cup))
    = [None; None; None; None; None; Some s] /\
    map snd (snd (parser_feed_all p stream_cup))
    = [0; 0; 0; 0; 0; seq_type_value DEVCON_SEQ_CSI] /\
    is_cup_1_2 s.
Proof.
  destruct p as [[ty cmd term inter cs na args nst st] alloc state].
  simpl in H. apply length_16 in H.
  destruct H as (a0 & a1 & a2 & a3 & a4 & a5 & a6 & a7 & a8 & a9 & a10
                 & a11 & a12 & a13 & a14 & a15 & ->).
  eexists. split; [vm_compute; reflexivity |].
  split; [vm_compute; reflexivity |].
  unfold is_cup_1_2. by vm_compute.
Qed.

Lemma parser_feed_csi_cup_witness :
  length (seq_args (parser_seq parser_zero)) = 16%nat /\
  exists s,
    map fst (snd (parser_feed_all parser_zero stream_cup))
    = [None; None; None; None; None; Some s] /\
    map snd (snd (parser_feed_all parser_zero stream_cup))
    = [0; 0; 0; 0; 0; seq_type_value DEVCON_SEQ_CSI] /\
    is_cup_1_2 s.
Proof.
  split; [reflexivity |].
  apply (parser_feed_csi_cup parser_zero). reflexivity.
Defined.

(** C7, as the code has it: for a CSI sequence with final character 'T'
    and no intermediates the resolver returns XTERM-IHMT exactly when
    there are at least five arguments, and SD exactly when there are fewer
    than five. *)
Theorem parse_host_csi_T_by_arg_count (seq : devcon_seq)
    (Hterm : seq_terminator seq = 84)
    (Hflags : seq_intermediates seq = 0) :
  (devcon_parse_host_csi seq = DEVCON_CMD_XTERM_IHMT
   <-> 5 <= seq_n_args seq) /\
  (devcon_parse_host_csi seq = DEVCON_CMD_SD <-> seq_n_args seq < 5).
Proof.
  unfold devcon_parse_host_csi. rewrite Hterm, Hflags. simpl.
  destruct (Z.leb_spec 5 (seq_n_args seq)) as [Hn | Hn].
  - split; split; intros; try done; lia.
  - destruct (Z.ltb_spec (seq_n_args seq) 5); [| lia].
    split; split; intros; try done; lia.
Qed.

Lemma parse_host_csi_T_by_arg_count_witness :
  (seq_terminator (seq_with_args (seq_dispatch (parser_seq parser_zero)
       DEVCON_SEQ_CSI DEVCON_CMD_NONE 84 0) 5 (replicate 16 1)) = 84 /\
   seq_intermediates (seq_with_args (seq_dispatch (parser_seq parser_zero)
       DEVCON_SEQ_CSI DEVCON_CMD_NONE 84 0) 5 (replicate 16 1)) = 0) /\
  devcon_parse_host_csi
    (seq_with_args (seq_dispatch (parser_seq parser_zero)
       DEVCON_SEQ_CSI DEVCON_CMD_NONE 84 0) 5 (replicate 16 1))
  = DEVCON_CMD_XTERM_IHMT.
Proof.
  split; [split; reflexivity |].
  apply (parse_host_csi_T_by_arg_count
           (seq_with_args (seq_dispatch (parser_seq parser_zero)
              DEVCON_SEQ_CSI DEVCON_CMD_NONE 84 0) 5 (replicate 16 1)));
    [reflexivity | reflexivity | simpl; lia].
Defined.

(** C7 as stated fails: ESC [ 1;1;1;1;1;1 T is a CSI sequence with final
    'T', no intermediates and six arguments, which is not "exactly 5", yet
    the resolver returns XTERM-IHMT and not SD. *)
Lemma parse_host_csi_T_six_args :
  exists s,
    last_seq (snd (parser_feed_all parser_zero stream_six_T)) = Some s /\
    seq_type s = DEVCON_SEQ_CSI /\
    seq_terminator s = 84 /\
    seq_intermediates s = 0 /\
    seq_n_args s = 6 /\
    devcon_parse_host_csi s = DEVCON_CMD_XTERM_IHMT /\
    ~ (devcon_parse_host_csi s = DEVCON_CMD_XTERM_IHMT
       <-> seq_n_args s = 5) /\
    devcon_parse_host_csi s <> DEVCON_CMD_SD.
Proof.
  eexists. split; [vm_compute; reflexivity |].
  repeat split; try (vm_compute; congruence).
  intros [Hc _]. specialize (Hc eq_refl). vm_compute in Hc. discriminate Hc.
Qed.

(** ** Cell arrays *)

Lemma for_loop_fst_elem_inv {S} (P : S -> Prop) idx
    (body : Z -> S -> M S) :
  (forall i s h, i ∈ idx -> P s -> P (fst (body i s h))) ->
  forall s h, P s -> P (fst (for_loop idx body s h)).
Proof.
  induction idx as [|i idx IH]; intros Hbody s h Hs; simpl.
  - exact Hs.
  - unfold bind.
    pose proof (Hbody i s h (list_elem_of_here _ _) Hs) as H1.
    destruct (body i s h) as [s' h']. apply IH; [| exact H1].
    intros j s0 h0 Hj. apply Hbody. by apply list_elem_of_further.
Qed.

Lemma array_set_length {A} (l : list A) i x :
  length (array_set l i x) = length l.
Proof. unfold array_set. destruct (i <? 0); [done | apply length_insert]. Qed.

Lemma array_set_take_ge {A} (l : list A) i x (k : nat) :
  Z.of_nat k <= i -> take k (array_set l i x) = take k l.
Proof.
  intros H. unfold array_set. destruct (Z.ltb_spec i 0); [done |].
  apply take_insert_ge. lia.
Qed.

(** Clearing [n] cells from offset [at_] leaves the cells before [at_] and
    the length of the array alone. *)
Lemma devcon_cell_clear_n_prefix cells at_ n attr age h :
  0 <= at_ ->
  take (Z.to_nat at_) (fst (devcon_cell_clear_n cells at_ n attr age h))
  = take (Z.to_nat at_) cells /\
  length (fst (devcon_cell_clear_n cells at_ n attr age h)) = length cells.
Proof.
  intros Hat. unfold devcon_cell_clear_n.
  apply (for_loop_fst_elem_inv
           (fun cs => take (Z.to_nat at_) cs = take (Z.to_nat at_) cells /\
                      length cs = length cells)); [| done].
  intros i cs h0 Hi [H1 H2]. apply elem_of_seqZ in Hi.
  unfold bind, ret. destruct (devcon_cell_set _ _ _ _ _ h0) as [c h1].
  simpl. rewrite array_set_take_ge by lia.
  by rewrite array_set_length.
Qed.

(** ** Histories *)


Lemma removelast_snoc {A} (l : list A) x : removelast (l ++ [x]) = l.
Proof. apply removelast_last. Qed.



(** ** Bit arithmetic *)

(** A property checked on every value below a bound holds below it. *)
Lemma forall_below (P : Z -> bool) (N : Z) :
  forallb P (seqZ 0 N) = true -> forall x, 0 <= x < N -> P x = true.
Proof.
  intros H x Hx. rewrite forallb_forall in H. apply H.
  apply list_elem_of_In, elem_of_seqZ. lia.
Qed.

Lemma testbit_below (k lo n : Z) :
  0 <= k -> 0 <= lo < 2 ^ k -> k <= n -> Z.testbit lo n = false.
Proof.
  intros Hk Hlo Hn. rewrite <- (Z.mod_small lo (2 ^ k) Hlo).
  apply Z.mod_pow2_bits_high. lia.
Qed.

(** Or-ing a value below [2^k] into a multiple of [2^k] adds it. *)
Lemma lor_add (a lo k : Z) :
  0 <= k -> 0 <= lo < 2 ^ k -> a mod 2 ^ k = 0 -> Z.lor a lo = a + lo.
Proof.
  intros Hk Hlo Ha.
  assert (Hland : Z.land a lo = 0).
  { apply Z.bits_inj'. intros n Hn. rewrite Z.land_spec, Z.bits_0.
    destruct (Z.lt_ge_cases n k) as [Hlt | Hge].
    - rewrite <- (Z.mod_pow2_bits_low a k n) by lia.
      by rewrite Ha, Z.bits_0.
    - rewrite (testbit_below k lo n) by lia. apply andb_false_r. }
  rewrite <- Z.lxor_lor by exact Hland.
  symmetry. by apply Z.add_nocarry_lxor.
Qed.

Lemma land_mask (x k : Z) : 0 <= k -> Z.land x (2 ^ k - 1) = x mod 2 ^ k.
Proof.
  intros Hk. rewrite <- Z.land_ones by lia. f_equal.
  rewrite Z.ones_equiv. lia.
Qed.

Lemma u8_small x : 0 <= x < 256 -> u8 x = x.
Proof. unfold u8. apply Z.mod_small. Qed.

(** ** UTF-8 *)

(** The classification of lead and continuation bytes, checked on every
    payload. *)
Lemma utf8_lead_2 x : 0 <= x < 32 -> utf8_lead (192 + x) = Some (x, 2).
Proof.
  intros H.
  pose proof (forall_below
                (fun x => match utf8_lead (192 + x) with
                          | Some (t, n) => (t =? x) && (n =? 2)
                          | None => false
                          end) 32 ltac:(vm_compute; reflexivity) x H) as E.
  simpl in E. destruct (utf8_lead (192 + x)) as [[t n]|]; [| done].
  apply andb_true_iff in E as [E1 E2].
  apply Z.eqb_eq in E1, E2. by subst.
Qed.

Lemma utf8_lead_3 x : 0 <= x < 16 -> utf8_lead (224 + x) = Some (x, 3).
Proof.
  intros H.
  pose proof (forall_below
                (fun x => match utf8_lead (224 + x) with
                          | Some (t, n) => (t =? x) && (n =? 3)
                          | None => false
                          end) 16 ltac:(vm_compute; reflexivity) x H) as E.
  simpl in E. destruct (utf8_lead (224 + x)) as [[t n]|]; [| done].
  apply andb_true_iff in E as [E1 E2].
  apply Z.eqb_eq in E1, E2. by subst.
Qed.

Lemma utf8_lead_4 x : 0 <= x < 8 -> utf8_lead (240 + x) = Some (x, 4).
Proof.
  intros H.
  pose proof (forall_below
                (fun x => match utf8_lead (240 + x) with
                          | Some (t, n) => (t =? x) && (n =? 4)
                          | None => false
                          end) 8 ltac:(vm_compute; reflexivity) x H) as E.
  simpl in E. destruct (utf8_lead (240 + x)) as [[t n]|]; [| done].
  apply andb_true_iff in E as [E1 E2].
  apply Z.eqb_eq in E1, E2. by subst.
Qed.

Lemma utf8_lead_ascii b : 0 <= b < 128 -> utf8_lead b = None.
Proof.
  intros H.
  pose proof (forall_below
                (fun b => match utf8_lead b with
                          | Some _ => false
                          | None => true
                          end) 128 ltac:(vm_compute; reflexivity) b H) as E.
  simpl in E. by destruct (utf8_lead b).
Qed.

Lemma utf8_continuation y :
  0 <= y < 64 ->
  (Z.land (128 + y) 0xC0 =? 0x80) = true /\ Z.land (128 + y) 0x3F = y.
Proof.
  intros H.
  pose proof (forall_below
                (fun y => (Z.land (128 + y) 0xC0 =? 0x80)
                          && (Z.land (128 + y) 0x3F =? y))
                64 ltac:(vm_compute; reflexivity) y H) as E.
  simpl in E. apply andb_true_iff in E as [E1 E2].
  apply Z.eqb_eq in E2. done.
Qed.

(** The bytes the encoder writes, as arithmetic. *)
Lemma lor_lead x :
  0 <= x < 64 ->
  Z.lor 0x80 x = 128 + x /\
  (x < 32 -> Z.lor 0xc0 x = 192 + x) /\
  (x < 16 -> Z.lor 0xe0 x = 224 + x) /\
  (x < 8 -> Z.lor 0xf0 x = 240 + x).
Proof.
  intros H.
  pose proof (forall_below
                (fun x => (Z.lor 0x80 x =? 128 + x)
                          && ((32 <=? x) || (Z.lor 0xc0 x =? 192 + x))
                          && ((16 <=? x) || (Z.lor 0xe0 x =? 224 + x))
                          && ((8 <=? x) || (Z.lor 0xf0 x =? 240 + x)))
                64 ltac:(vm_compute; reflexivity) x H) as E.
  simpl in E.
  repeat (apply andb_true_iff in E as [E ?]).
  repeat match goal with
         | H : (_ || _) = true |- _ => apply orb_true_iff in H
         end.
  repeat split; intros; repeat match goal with
    | H : _ \/ _ |- _ => destruct H
    | H : (_ <=? _) = true |- _ => apply Z.leb_le in H
    | H : (_ =? _) = true |- _ => apply Z.eqb_eq in H
    end; lia.
Qed.

Lemma shiftr_land_mask g s k :
  0 <= s -> 0 <= k ->
  Z.land (Z.shiftr g s) (2 ^ k - 1) = (g / 2 ^ s) mod 2 ^ k.
Proof. intros. by rewrite land_mask, Z.shiftr_div_pow2. Qed.
Lemma encode_1 g : 0 <= g < 2 ^ 7 -> devcon_utf8_encode g = [g].
Proof.
  intros H. unfold devcon_utf8_encode.
  change (Z.shiftl 1 7) with (2 ^ 7).
  destruct (Z.ltb_spec g (2 ^ 7)); [| lia].
  change 0x7f with (2 ^ 7 - 1). rewrite land_mask by lia.
  rewrite Z.mod_small by lia. rewrite u8_small by lia. done.
Qed.

Lemma encode_2 g :
  2 ^ 7 <= g < 2 ^ 11 ->
  devcon_utf8_encode g = [192 + g / 2 ^ 6; 128 + g mod 2 ^ 6].
Proof.
  intros H. unfold devcon_utf8_encode.
  change (Z.shiftl 1 7) with (2 ^ 7). change (Z.shiftl 1 11) with (2 ^ 11).
  destruct (Z.ltb_spec g (2 ^ 7)); [lia |].
  destruct (Z.ltb_spec g (2 ^ 11)); [| lia].
  change 0x1f with (2 ^ 5 - 1). change 0x3f with (2 ^ 6 - 1).
  rewrite shiftr_land_mask, land_mask by lia.
  assert (Hq : 0 <= g / 2 ^ 6 < 32).
  { split; [apply Z.div_pos; lia | apply Z.div_lt_upper_bound; lia]. }
  assert (Hr : 0 <= g mod 2 ^ 6 < 64) by (apply Z.mod_pos_bound; lia).
  rewrite (Z.mod_small (g / 2 ^ 6)) by lia.
  destruct (lor_lead (g / 2 ^ 6) ltac:(lia)) as (_ & E1 & _).
  destruct (lor_lead (g mod 2 ^ 6) ltac:(lia)) as (E2 & _).
  rewrite E1, E2 by lia. rewrite !u8_small by lia. done.
Qed.

Lemma encode_3 g :
  2 ^ 11 <= g < 2 ^ 16 ->
  devcon_utf8_encode g
  = [224 + g / 2 ^ 12; 128 + (g / 2 ^ 6) mod 2 ^ 6; 128 + g mod 2 ^ 6].
Proof.
  intros H. unfold devcon_utf8_encode.
  change (Z.shiftl 1 7) with (2 ^ 7). change (Z.shiftl 1 11) with (2 ^ 11).
  change (Z.shiftl 1 16) with (2 ^ 16).
  destruct (Z.ltb_spec g (2 ^ 7)); [lia |].
  destruct (Z.ltb_spec g (2 ^ 11)); [lia |].
  destruct (Z.ltb_spec g (2 ^ 16)); [| lia].
  change 0x0f with (2 ^ 4 - 1). change 0x3f with (2 ^ 6 - 1).
  rewrite !shiftr_land_mask, land_mask by lia.
  assert (Hq : 0 <= g / 2 ^ 12 < 16).
  { split; [apply Z.div_pos; lia | apply Z.div_lt_upper_bound; lia]. }
  assert (Hm : 0 <= (g / 2 ^ 6) mod 2 ^ 6 < 64)
    by (apply Z.mod_pos_bound; lia).
  assert (Hr : 0 <= g mod 2 ^ 6 < 64) by (apply Z.mod_pos_bound; lia).
  rewrite (Z.mod_small (g / 2 ^ 12)) by lia.
  destruct (lor_lead (g / 2 ^ 12) ltac:(lia)) as (_ & _ & E1 & _).
  destruct (lor_lead ((g / 2 ^ 6) mod 2 ^ 6) ltac:(lia)) as (E2 & _).
  destruct (lor_lead (g mod 2 ^ 6) ltac:(lia)) as (E3 & _).
  rewrite E1, E2, E3 by lia. rewrite !u8_small by lia. done.
Qed.

Lemma encode_4 g :
  2 ^ 16 <= g < 2 ^ 21 ->
  devcon_utf8_encode g
  = [240 + g / 2 ^ 18; 128 + (g / 2 ^ 12) mod 2 ^ 6;
     128 + (g / 2 ^ 6) mod 2 ^ 6; 128 + g mod 2 ^ 6].
Proof.
  intros H. unfold devcon_utf8_encode.
  change (Z.shiftl 1 7) with (2 ^ 7). change (Z.shiftl 1 11) with (2 ^ 11).
  change (Z.shiftl 1 16) with (2 ^ 16). change (Z.shiftl 1 21) with (2 ^ 21).
  destruct (Z.ltb_spec g (2 ^ 7)); [lia |].
  destruct (Z.ltb_spec g (2 ^ 11)); [lia |].
  destruct (Z.ltb_spec g (2 ^ 16)); [lia |].
  destruct (Z.ltb_spec g (2 ^ 21)); [| lia].
  change 0x07 with (2 ^ 3 - 1). change 0x3f with (2 ^ 6 - 1).
  rewrite !shiftr_land_mask, land_mask by lia.
  assert (Hq : 0 <= g / 2 ^ 18 < 8).
  { split; [apply Z.div_pos; lia | apply Z.div_lt_upper_bound; lia]. }
  assert (Hm1 : 0 <= (g / 2 ^ 12) mod 2 ^ 6 < 64)
    by (apply Z.mod_pos_bound; lia).
  assert (Hm2 : 0 <= (g / 2 ^ 6) mod 2 ^ 6 < 64)
    by (apply Z.mod_pos_bound; lia).
  assert (Hr : 0 <= g mod 2 ^ 6 < 64) by (apply Z.mod_pos_bound; lia).
  rewrite (Z.mod_small (g / 2 ^ 18)) by lia.
  destruct (lor_lead (g / 2 ^ 18) ltac:(lia)) as (_ & _ & _ & E1).
  destruct (lor_lead ((g / 2 ^ 12) mod 2 ^ 6) ltac:(lia)) as (E2 & _).
  destruct (lor_lead ((g / 2 ^ 6) mod 2 ^ 6) ltac:(lia)) as (E3 & _).
  destruct (lor_lead (g mod 2 ^ 6) ltac:(lia)) as (E4 & _).
  rewrite E1, E2, E3, E4 by lia. rewrite !u8_small by lia. done.
Qed.

(** The accumulator after the last continuation byte: the payloads,
    shifted into place, add up. *)
Lemma ucs4_join (hi lo : Z) :
  0 <= hi < 2 ^ 26 -> 0 <= lo < 2 ^ 6 ->
  Z.lor (hi * 2 ^ 6) lo = hi * 2 ^ 6 + lo.
Proof. intros. apply (lor_add _ _ 6); [lia | lia | apply Z.mod_mul; lia]. Qed.

(** One call of the decoder on a byte whose class is known; the counters
    are numerals and are evaluated. *)
Ltac decode_eval :=
  repeat match goal with
         | |- context [bits3 (?a + ?b)] =>
             let v := eval vm_compute in (bits3 (a + b)) in
             progress change (bits3 (a + b)) with v
         | |- context [6 * (?a - ?b)] =>
             let v := eval vm_compute in (6 * (a - b)) in
             progress change (6 * (a - b)) with v
         | |- context [if ?a <? ?b then _ else _] =>
             let v := eval vm_compute in (a <? b) in
             progress change (a <? b) with v
         end;
  cbv iota.

Ltac decode_step :=
  unfold devcon_utf8_decode at 1;
  cbn [utf8_valid utf8_i_bytes utf8_n_bytes utf8_chars utf8_ucs4 utf8_zero
       negb orb Z.leb Z.compare Pos.compare Pos.compare_cont];
  rewrite u8_small by lia;
  first [ rewrite utf8_lead_2 by lia
        | rewrite utf8_lead_3 by lia
        | rewrite utf8_lead_4 by lia
        | rewrite utf8_lead_ascii by lia
        | match goal with
          | |- context [Z.land (128 + ?b) 192] =>
              let E1 := fresh in
              let E2 := fresh in
              destruct (utf8_continuation b ltac:(lia)) as [E1 E2];
              rewrite E1, E2; clear E1 E2
          end ];
  unfold utf8_finish;
  cbn [utf8_valid utf8_i_bytes utf8_n_bytes utf8_chars utf8_ucs4];
  decode_eval.

Lemma decode_1 a :
  0 <= a < 128 -> snd (utf8_decode_all utf8_zero [a]) = [[a]].
Proof.
  intros Ha. unfold utf8_decode_all. decode_step. reflexivity.
Qed.

Lemma decode_2 a b :
  0 <= a < 32 -> 0 <= b < 64 ->
  snd (utf8_decode_all utf8_zero [192 + a; 128 + b])
  = [[]; [a * 2 ^ 6 + b]].
Proof.
  intros Ha Hb. unfold utf8_decode_all. do 2 decode_step.
  cbn [fst snd]. rewrite !Z.shiftl_mul_pow2 by lia.
  rewrite !u32_small by lia.
  change (2 ^ 0) with 1. rewrite Z.mul_1_r.
  rewrite ucs4_join by lia. done.
Qed.

Lemma ucs4_join3 a b c :
  0 <= a < 16 -> 0 <= b < 64 -> 0 <= c < 64 ->
  Z.lor (Z.lor (a * 2 ^ 12) (b * 2 ^ 6)) c
  = (a * 2 ^ 6 + b) * 2 ^ 6 + c.
Proof.
  intros. replace (a * 2 ^ 12) with ((a * 2 ^ 6) * 2 ^ 6) by lia.
  rewrite (lor_add _ (b * 2 ^ 6) 12);
    [| lia | lia
     | replace (a * 2 ^ 6 * 2 ^ 6) with (a * 2 ^ 12) by lia;
       apply Z.mod_mul; lia].
  replace (a * 2 ^ 6 * 2 ^ 6 + b * 2 ^ 6) with ((a * 2 ^ 6 + b) * 2 ^ 6)
    by lia.
  apply ucs4_join; lia.
Qed.

Lemma ucs4_join4 a b c d :
  0 <= a < 8 -> 0 <= b < 64 -> 0 <= c < 64 -> 0 <= d < 64 ->
  Z.lor (Z.lor (Z.lor (a * 2 ^ 18) (b * 2 ^ 12)) (c * 2 ^ 6)) d
  = ((a * 2 ^ 6 + b) * 2 ^ 6 + c) * 2 ^ 6 + d.
Proof.
  intros.
  rewrite (lor_add (a * 2 ^ 18) (b * 2 ^ 12) 18);
    [| lia | lia | apply Z.mod_mul; lia].
  replace (a * 2 ^ 18 + b * 2 ^ 12) with ((a * 2 ^ 6 + b) * 2 ^ 12) by lia.
  rewrite (lor_add _ (c * 2 ^ 6) 12);
    [| lia | lia | apply Z.mod_mul; lia].
  replace ((a * 2 ^ 6 + b) * 2 ^ 12 + c * 2 ^ 6)
    with (((a * 2 ^ 6 + b) * 2 ^ 6 + c) * 2 ^ 6) by lia.
  apply ucs4_join; lia.
Qed.

Lemma decode_3 a b c :
  0 <= a < 16 -> 0 <= b < 64 -> 0 <= c < 64 ->
  snd (utf8_decode_all utf8_zero [224 + a; 128 + b; 128 + c])
  = [[]; []; [(a * 2 ^ 6 + b) * 2 ^ 6 + c]].
Proof.
  intros Ha Hb Hc. unfold utf8_decode_all. do 3 decode_step.
  cbn [fst snd]. rewrite !Z.shiftl_mul_pow2 by lia.
  rewrite !u32_small by lia.
  change (2 ^ 0) with 1. rewrite Z.mul_1_r.
  rewrite ucs4_join3 by lia. done.
Qed.

Lemma decode_4 a b c d :
  0 <= a < 8 -> 0 <= b < 64 -> 0 <= c < 64 -> 0 <= d < 64 ->
  snd (utf8_decode_all utf8_zero [240 + a; 128 + b; 128 + c; 128 + d])
  = [[]; []; []; [((a * 2 ^ 6 + b) * 2 ^ 6 + c) * 2 ^ 6 + d]].
Proof.
  intros Ha Hb Hc Hd. unfold utf8_decode_all. do 4 decode_step.
  cbn [fst snd]. rewrite !Z.shiftl_mul_pow2 by lia.
  rewrite !u32_small by lia.
  change (2 ^ 0) with 1. rewrite Z.mul_1_r.
  rewrite ucs4_join4 by lia. done.
Qed.

(** C9: for every [g] below [2^21] the bytes of [devcon_utf8_encode g],
    fed one at a time to a zeroed decoder, return nothing on every byte but
    the last and exactly the one code point [g] on the last. *)
Theorem utf8_encode_decode (g : Z) (Hg : 0 <= g < 2 ^ 21) :
  devcon_utf8_encode g <> [] /\
  snd (utf8_decode_all utf8_zero (devcon_utf8_encode g))
  = replicate (length (devcon_utf8_encode g) - 1) [] ++ [[g]].
Proof.
  destruct (Z.lt_ge_cases g (2 ^ 7)) as [H7 | H7];
    [| destruct (Z.lt_ge_cases g (2 ^ 11)) as [H11 | H11];
       [| destruct (Z.lt_ge_cases g (2 ^ 16)) as [H16 | H16]]].
  - rewrite encode_1 by lia. split; [done |]. apply decode_1. lia.
  - rewrite encode_2 by lia. split; [done |].
    rewrite decode_2;
      [| split; [apply Z.div_pos; lia | apply Z.div_lt_upper_bound; lia]
       | apply Z.mod_pos_bound; lia].
    simpl. do 3 f_equal. rewrite (Z.div_mod g (2 ^ 6)) at 3 by lia. lia.
  - rewrite encode_3 by lia. split; [done |].
    rewrite decode_3;
      [| split; [apply Z.div_pos; lia | apply Z.div_lt_upper_bound; lia]
       | apply Z.mod_pos_bound; lia
       | apply Z.mod_pos_bound; lia].
    simpl. do 4 f_equal.
    pose proof (Z.div_mod g (2 ^ 6) ltac:(lia)).
    pose proof (Z.div_mod (g / 2 ^ 6) (2 ^ 6) ltac:(lia)).
    replace (g / 2 ^ 12) with (g / 2 ^ 6 / 2 ^ 6)
      by (rewrite Z.div_div by lia; f_equal).
    lia.
  - rewrite encode_4 by lia. split; [done |].
    rewrite decode_4;
      [| split; [apply Z.div_pos; lia | apply Z.div_lt_upper_bound; lia]
       | apply Z.mod_pos_bound; lia
       | apply Z.mod_pos_bound; lia
       | apply Z.mod_pos_bound; lia].
    simpl. do 5 f_equal.
    pose proof (Z.div_mod g (2 ^ 6) ltac:(lia)).
    pose proof (Z.div_mod (g / 2 ^ 6) (2 ^ 6) ltac:(lia)).
    pose proof (Z.div_mod (g / 2 ^ 6 / 2 ^ 6) (2 ^ 6) ltac:(lia)).
    replace (g / 2 ^ 12) with (g / 2 ^ 6 / 2 ^ 6) in *
      by (rewrite Z.div_div by lia; f_equal).
    replace (g / 2 ^ 18) with (g / 2 ^ 6 / 2 ^ 6 / 2 ^ 6) in *
      by (rewrite !Z.div_div by lia; f_equal).
    lia.
Qed.

Lemma utf8_encode_decode_witness :
  0 <= 0x20AC < 2 ^ 21 /\
  snd (utf8_decode_all utf8_zero (devcon_utf8_encode 0x20AC))
  = replicate (length (devcon_utf8_encode 0x20AC) - 1) [] ++ [[0x20AC]].
Proof.
  split; [lia |]. apply (utf8_encode_decode 0x20AC). lia.
Defined.

(** ** Characters *)

(** The packed word as a sum: the three slots do not overlap. *)
Lemma devcon_char_pack_sum v1 v2 v3 :
  0 <= v1 < 2 ^ 21 -> 0 <= v2 < 2 ^ 21 -> 0 <= v3 < 2 ^ 21 ->
  _value (devcon_char_pack v1 v2 v3)
  = v1 * 2 ^ 43 + v2 * 2 ^ 22 + v3 * 2 + 1.
Proof.
  intros H1 H2 H3. unfold devcon_char_pack, DEVCON_CHAR_UCS4_MASK, u64.
  cbn [_value].
  change 0x1fffff with (2 ^ 21 - 1).
  rewrite !land_mask by lia.
  rewrite (Z.mod_small v1), (Z.mod_small v2), (Z.mod_small v3) by lia.
  rewrite !Z.shiftl_mul_pow2 by lia. rewrite !Z.mod_small by lia.
  rewrite <- !Z.lor_assoc. rewrite (Z.lor_comm 1).
  rewrite <- !Z.lor_assoc.
  change (2 ^ 1) with 2.
  rewrite (lor_add (v3 * 2) 1 1); [| lia | lia | apply Z.mod_mul; lia].
  rewrite (lor_add (v2 * 2 ^ 22) _ 22);
    [| lia | lia | apply Z.mod_mul; lia].
  rewrite (lor_add (v1 * 2 ^ 43) _ 43);
    [| lia | lia | apply Z.mod_mul; lia].
  lia.
Qed.

Lemma devcon_char_unpack_pack v1 v2 v3 :
  0 <= v1 < 2 ^ 21 -> 0 <= v2 < 2 ^ 21 -> 0 <= v3 < 2 ^ 21 ->
  devcon_char_unpack (devcon_char_pack v1 v2 v3)
  = ((if DEVCON_CHAR_UCS4_MAX <? v1 then 0
      else if DEVCON_CHAR_UCS4_MAX <? v2 then 1
      else if DEVCON_CHAR_UCS4_MAX <? v3 then 2
      else 3),
     (v1, v2, v3)).
Proof.
  intros H1 H2 H3. unfold devcon_char_unpack.
  rewrite devcon_char_pack_sum by done. unfold DEVCON_CHAR_UCS4_MASK.
  change 0x1fffff with (2 ^ 21 - 1).
  rewrite !shiftr_land_mask by lia.
  set (x := v1 * 2 ^ 43 + v2 * 2 ^ 22 + v3 * 2 + 1).
  assert (E1 : (x / 2 ^ 43) mod 2 ^ 21 = v1).
  { subst x. replace (v1 * 2 ^ 43 + v2 * 2 ^ 22 + v3 * 2 + 1)
      with ((v2 * 2 ^ 22 + v3 * 2 + 1) + v1 * 2 ^ 43) by lia.
    rewrite Z.div_add by lia. rewrite Z.div_small by lia.
    rewrite Z.mod_small; lia. }
  assert (E2 : (x / 2 ^ 22) mod 2 ^ 21 = v2).
  { subst x. replace (v1 * 2 ^ 43 + v2 * 2 ^ 22 + v3 * 2 + 1)
      with ((v3 * 2 + 1) + (v1 * 2 ^ 21 + v2) * 2 ^ 22) by lia.
    rewrite Z.div_add by lia. rewrite Z.div_small by lia.
    rewrite Z.add_0_l, Z.add_comm, Z.mod_add by lia.
    rewrite Z.mod_small; lia. }
  assert (E3 : (x / 2 ^ 1) mod 2 ^ 21 = v3).
  { subst x. replace (v1 * 2 ^ 43 + v2 * 2 ^ 22 + v3 * 2 + 1)
      with (1 + (v1 * 2 ^ 42 + v2 * 2 ^ 21 + v3) * 2 ^ 1) by lia.
    rewrite Z.div_add by lia. rewrite Z.div_small by lia.
    rewrite Z.add_0_l.
    replace (v1 * 2 ^ 42 + v2 * 2 ^ 21 + v3)
      with (v3 + (v1 * 2 ^ 21 + v2) * 2 ^ 21) by lia.
    rewrite Z.mod_add by lia. rewrite Z.mod_small; lia. }
  by rewrite E1, E2, E3.
Qed.

(** A packed word is neither null nor an allocation. *)
Lemma devcon_char_pack_tag v1 v2 v3 :
  0 <= v1 < 2 ^ 21 -> 0 <= v2 < 2 ^ 21 -> 0 <= v3 < 2 ^ 21 ->
  devcon_char_is_null (devcon_char_pack v1 v2 v3) = false /\
  devcon_char_is_allocated (devcon_char_pack v1 v2 v3) = false.
Proof.
  intros H1 H2 H3.
  unfold devcon_char_is_allocated, devcon_char_is_null.
  rewrite devcon_char_pack_sum by done.
  assert (E : Z.land (v1 * 2 ^ 43 + v2 * 2 ^ 22 + v3 * 2 + 1) 1 = 1).
  { change 1 with (2 ^ 1 - 1) at 2. rewrite land_mask by lia.
    replace (v1 * 2 ^ 43 + v2 * 2 ^ 22 + v3 * 2 + 1)
      with (1 + (v1 * 2 ^ 42 + v2 * 2 ^ 21 + v3) * 2 ^ 1) by lia.
    rewrite Z.mod_add by lia. done. }
  rewrite E. split; [apply Z.eqb_neq; lia |].
  destruct (_ =? 0); done.
Qed.

Lemma is_ucs4_range c :
  is_ucs4 c -> 0 <= c < 2 ^ 21 /\ (DEVCON_CHAR_UCS4_MAX <? c) = false.
Proof.
  unfold is_ucs4, DEVCON_CHAR_UCS4_MAX. intros H.
  split; [lia | apply Z.ltb_ge; lia].
Qed.

Lemma devcon_char_unpack_pack1 a :
  is_ucs4 a ->
  devcon_char_unpack (devcon_char_pack1 a)
  = (1, (a, DEVCON_CHAR_UCS4_MAX + 1, DEVCON_CHAR_UCS4_MAX + 1)).
Proof.
  intros [Ha Ea]%is_ucs4_range.
  unfold devcon_char_pack1, devcon_char_pack2, devcon_char_pack3.
  rewrite devcon_char_unpack_pack by (unfold DEVCON_CHAR_UCS4_MAX; lia).
  by rewrite Ea.
Qed.

Lemma devcon_char_unpack_pack2 a b :
  is_ucs4 a -> is_ucs4 b ->
  devcon_char_unpack (devcon_char_pack2 a b)
  = (2, (a, b, DEVCON_CHAR_UCS4_MAX + 1)).
Proof.
  intros [Ha Ea]%is_ucs4_range [Hb Eb]%is_ucs4_range.
  unfold devcon_char_pack2, devcon_char_pack3.
  rewrite devcon_char_unpack_pack by (unfold DEVCON_CHAR_UCS4_MAX; lia).
  by rewrite Ea, Eb.
Qed.

Lemma devcon_char_unpack_pack3 a b c :
  is_ucs4 a -> is_ucs4 b -> is_ucs4 c ->
  devcon_char_unpack (devcon_char_pack3 a b c) = (3, (a, b, c)).
Proof.
  intros [Ha Ea]%is_ucs4_range [Hb Eb]%is_ucs4_range
         [Hc Ec]%is_ucs4_range.
  unfold devcon_char_pack3.
  rewrite devcon_char_unpack_pack by done.
  by rewrite Ea, Eb, Ec.
Qed.

Lemma devcon_char_pack_tag1 a :
  is_ucs4 a ->
  devcon_char_is_null (devcon_char_pack1 a) = false /\
  devcon_char_is_allocated (devcon_char_pack1 a) = false.
Proof.
  intros [Ha _]%is_ucs4_range.
  unfold devcon_char_pack1, devcon_char_pack2, devcon_char_pack3.
  apply devcon_char_pack_tag; unfold DEVCON_CHAR_UCS4_MAX; lia.
Qed.

Lemma devcon_char_pack_tag2 a b :
  is_ucs4 a -> is_ucs4 b ->
  devcon_char_is_null (devcon_char_pack2 a b) = false /\
  devcon_char_is_allocated (devcon_char_pack2 a b) = false.
Proof.
  intros [Ha _]%is_ucs4_range [Hb _]%is_ucs4_range.
  unfold devcon_char_pack2, devcon_char_pack3.
  apply devcon_char_pack_tag; unfold DEVCON_CHAR_UCS4_MAX; lia.
Qed.

Lemma devcon_char_pack_tag3 a b c :
  is_ucs4 a -> is_ucs4 b -> is_ucs4 c ->
  devcon_char_is_null (devcon_char_pack3 a b c) = false /\
  devcon_char_is_allocated (devcon_char_pack3 a b c) = false.
Proof.
  intros [Ha _]%is_ucs4_range [Hb _]%is_ucs4_range [Hc _]%is_ucs4_range.
  by apply devcon_char_pack_tag.
Qed.

(** Merging into a character that owns no allocation frees nothing. *)
Lemma devcon_char_merge_unallocated base x h :
  devcon_char_is_allocated base = false ->
  devcon_char_merge base x h = devcon_char_build base x h.
Proof.
  intros Hb. unfold devcon_char_merge, bind.
  destruct (devcon_char_build base x h) as [ch h'].
  destruct (negb (devcon_char_same ch base)); [| done].
  unfold devcon_char_free. by rewrite Hb.
Qed.

Lemma heap_grants_S k h : heap_grants (S k) h -> heap_grants k h.
Proof.
  unfold heap_grants, KMALLOC_MINALIGN. intros (Hg & ? & ? & ?).
  split; [| lia].
  apply (f_equal (take k)) in Hg.
  rewrite take_take, take_replicate in Hg.
  by rewrite !Nat.min_l in Hg by lia.
Qed.

(** A granted [kmalloc]: the break pointer, which then advances. *)
Lemma kmalloc_granted k h :
  heap_grants (S k) h ->
  exists gs,
    grants h = true :: gs /\
    kmalloc h = (brk h, mk_heap (chars h) (brk h + KMALLOC_MINALIGN) gs) /\
    heap_grants k (mk_heap (chars h) (brk h + KMALLOC_MINALIGN) gs).
Proof.
  unfold heap_grants, KMALLOC_MINALIGN. intros (Hg & H0 & H2 & Hroom).
  destruct (grants h) as [|g gs] eqn:Eg; [done |].
  simpl in Hg. injection Hg as -> Hg.
  exists gs. split; [done |]. split.
  - unfold kmalloc, bind, kalloc_request. rewrite Eg. simpl.
    unfold KMALLOC_MINALIGN.
    destruct (Z.leb_spec (brk h + 8) (2 ^ 64)); [done | lia].
  - simpl. repeat split; try done; try lia.
    rewrite Z.add_mod, H2 by lia. done.
Qed.

(** The code points of the new allocation: those of the base, the
    appended one and the terminating zero. *)
Lemma build_codepoints (l rest : list Z) (x : Z) :
  array_set
    (array_copy
       (array_set (replicate (Z.to_nat (Z.of_nat (length l) + 1 + 1)) 0)
          (Z.of_nat (length l) + 1) 0)
       0 (array_sub (l ++ rest) 0 (Z.of_nat (length l))))
    (Z.of_nat (length l)) x
  = l ++ [x; 0].
Proof.
  unfold array_set, array_copy, array_sub.
  destruct (Z.ltb_spec (Z.of_nat (length l) + 1) 0); [lia |].
  destruct (Z.ltb_spec (Z.of_nat (length l)) 0); [lia |].
  rewrite insert_replicate. rewrite Nat2Z.id.
  change (Z.to_nat 0) with 0%nat. rewrite drop_0.
  rewrite take_app_length.
  replace (Z.to_nat (Z.of_nat (length l) + 1 + 1)) with (length l + 2)%nat
    by lia.
  rewrite replicate_add.
  rewrite list_inserts_0_r by (by rewrite length_replicate).
  rewrite insert_app_r_alt by lia. rewrite Nat.sub_diag. done.
Qed.

Lemma devcon_char_build_alloc_granted base l rest x h k :
  heap_grants (S k) h -> (length l < 64)%nat ->
  exists gs,
    grants h = true :: gs /\
    devcon_char_build_alloc 64 base (l ++ rest) (Z.of_nat (length l)) x h
    = (DEVCON_CHAR_INIT (brk h),
       mk_heap
         (<[brk h := mk_character (Z.of_nat (length l) + 1) (l ++ [x; 0])]>
            (chars h))
         (brk h + KMALLOC_MINALIGN) gs) /\
    heap_grants k
      (mk_heap
         (<[brk h := mk_character (Z.of_nat (length l) + 1) (l ++ [x; 0])]>
            (chars h))
         (brk h + KMALLOC_MINALIGN) gs).
Proof.
  intros Hg Hlen.
  destruct (kmalloc_granted k h Hg) as (gs & Egs & Ek & Hg').
  destruct Hg as (_ & Hpos & Heven & Hroom).
  exists gs. split; [done |]. split; [| exact Hg'].
  unfold devcon_char_build_alloc.
  destruct (Z.leb_spec 64 (Z.of_nat (length l))); [lia |].
  unfold u8. rewrite Z.mod_small by lia.
  unfold devcon_char_alloc, bind. rewrite Ek.
  destruct (Z.eqb_spec (brk h) 0); [lia |].
  assert (Eland : Z.land (brk h) 1 = 0).
  { change 1 with (2 ^ 1 - 1). rewrite land_mask by lia. exact Heven. }
  rewrite Eland. simpl negb. cbv iota.
  unfold heap_write, ret, kfree. simpl.
  destruct (Z.eqb_spec (brk h) 0); [lia |].
  unfold heap_read. simpl. rewrite lookup_insert_eq. simpl.
  rewrite build_codepoints. rewrite insert_insert_eq.
  unfold devcon_char_from_ptr, u64, KMALLOC_MINALIGN in *.
  rewrite Z.mod_small by lia. done.
Qed.

Lemma devcon_char_is_allocated_ptr p :
  0 < p -> p mod 2 = 0 ->
  devcon_char_is_allocated (DEVCON_CHAR_INIT p) = true.
Proof.
  intros Hp He. unfold devcon_char_is_allocated, devcon_char_is_null.
  simpl. destruct (Z.eqb_spec p 0); [lia |].
  change 1 with (2 ^ 1 - 1). rewrite land_mask by lia.
  change (2 ^ 1) with 2. by rewrite He.
Qed.

Lemma char_holds_long h ch l :
  (4 <= length l)%nat ->
  char_holds h ch l
  = (devcon_char_is_allocated ch = true /\
     0 < _value ch < brk h /\
     chars h !! _value ch
     = Some (mk_character (Z.of_nat (length l)) (l ++ [0]))).
Proof.
  destruct l as [|? [|? [|? [|? ?]]]]; simpl; intros; try lia; done.
Qed.

(** One merge below the limit, with memory granted, appends the code
    point. *)
Lemma devcon_char_merge_holds h ch l x k :
  char_holds h ch l -> Forall is_ucs4 l -> is_ucs4 x ->
  (length l < 64)%nat -> heap_grants (S k) h ->
  char_holds (snd (devcon_char_merge ch x h))
    (fst (devcon_char_merge ch x h)) (l ++ [x]) /\
  heap_grants k (snd (devcon_char_merge ch x h)).
Proof.
  intros Hch Hl Hx Hlen Hg.
  pose proof (heap_grants_S k h Hg) as Hg1.
  destruct (is_ucs4_range x Hx) as [Hxr Hxm].
  destruct l as [|a [|b [|c [|d l']]]]; simpl in Hch.
  - (* null *)
    subst ch. rewrite devcon_char_merge_unallocated by done.
    unfold devcon_char_build. rewrite Hxm. simpl. done.
  - (* one code point, packed *)
    subst ch. apply Forall_cons in Hl as [Ha _].
    destruct (devcon_char_pack_tag1 a Ha) as [En Ea].
    rewrite devcon_char_merge_unallocated by done.
    unfold devcon_char_build.
    rewrite Hxm, En, Ea, devcon_char_unpack_pack1 by done. simpl. done.
  - (* two code points, packed *)
    subst ch. apply Forall_cons in Hl as [Ha Hl].
    apply Forall_cons in Hl as [Hb _].
    destruct (devcon_char_pack_tag2 a b Ha Hb) as [En Ea].
    rewrite devcon_char_merge_unallocated by done.
    unfold devcon_char_build.
    rewrite Hxm, En, Ea, devcon_char_unpack_pack2 by done. simpl. done.
  - (* three code points: the packed word is full *)
    subst ch. apply Forall_cons in Hl as [Ha Hl].
    apply Forall_cons in Hl as [Hb Hl]. apply Forall_cons in Hl as [Hc _].
    destruct (devcon_char_pack_tag3 a b c Ha Hb Hc) as [En Ea].
    rewrite devcon_char_merge_unallocated by done.
    unfold devcon_char_build.
    rewrite Hxm, En, Ea, devcon_char_unpack_pack3 by done.
    cbn [negb Z.eqb].
    destruct (devcon_char_build_alloc_granted (devcon_char_pack3 a b c)
                [a; b; c] [] x h k Hg ltac:(simpl; lia))
      as (gs & Egs & Eb & Hg').
    change ([a; b; c] ++ []) with [a; b; c] in Eb.
    change (Z.of_nat (length [a; b; c])) with 3 in Eb.
    change (3 =? 1)%positive with false. change (3 =? 2)%positive with false.
    cbv iota. rewrite Eb. cbn [fst snd].
    split; [| exact Hg'].
    destruct Hg as (_ & Hpos & Heven & _).
    simpl. split; [by apply devcon_char_is_allocated_ptr |].
    split; [unfold KMALLOC_MINALIGN; lia |].
    by rewrite lookup_insert_eq.
  - (* allocated *)
    destruct Hch as (Halloc & Hq & Hobj).
    set (l := a :: b :: c :: d :: l') in *.
    assert (Hnull : devcon_char_is_null ch = false).
    { unfold devcon_char_is_allocated in Halloc.
      by destruct (devcon_char_is_null ch). }
    destruct (devcon_char_build_alloc_granted ch l [0] x h k Hg Hlen)
      as (gs & Egs & Eb & Hg').
    destruct Hg as (_ & Hpos & Heven & _).
    unfold devcon_char_merge, bind, devcon_char_build.
    rewrite Hxm, Hnull, Halloc. cbn [negb].
    unfold heap_read, devcon_char_to_ptr. rewrite Hobj.
    change (devcon_char_build_alloc 64 ch _ _ x h)
      with (devcon_char_build_alloc 64 ch (l ++ [0]) (Z.of_nat (length l))
              x h).
    rewrite Eb.
    unfold devcon_char_same. cbn [_value].
    destruct (Z.eqb_spec (brk h) (_value ch)); [lia |].
    cbn [negb]. unfold devcon_char_free. rewrite Halloc.
    unfold kfree, ret, bind, devcon_char_to_ptr.
    cbn [fst snd _value chars brk grants].
    split; [| exact Hg'].
    rewrite char_holds_long by (rewrite length_app; subst l; simpl; lia).
    cbn [_value chars brk].
    split; [by apply devcon_char_is_allocated_ptr |].
    split; [unfold KMALLOC_MINALIGN; lia |].
    rewrite lookup_delete_ne by lia. rewrite lookup_insert_eq.
    rewrite length_app, Nat2Z.inj_add, <- app_assoc. done.
Qed.

Lemma merge_all_holds l : forall l0 ch h,
  char_holds h ch l0 -> Forall is_ucs4 l0 -> Forall is_ucs4 l ->
  (length l0 + length l <= 64)%nat -> heap_grants (length l) h ->
  char_holds (snd (merge_all ch l h)) (fst (merge_all ch l h)) (l0 ++ l).
Proof.
  induction l as [|x l IH]; intros l0 ch h Hch Hl0 Hl Hlen Hg.
  - simpl. by rewrite app_nil_r.
  - apply Forall_cons in Hl as [Hx Hl]. simpl in Hlen, Hg.
    destruct (devcon_char_merge_holds h ch l0 x (length l) Hch Hl0 Hx
                ltac:(lia) Hg) as [Hch' Hg'].
    simpl. unfold bind.
    destruct (devcon_char_merge ch x h) as [ch' h']. simpl in Hch', Hg'.
    replace (l0 ++ x :: l) with ((l0 ++ [x]) ++ l)
      by (by rewrite <- app_assoc).
    apply IH; try done.
    + apply Forall_app. split; [done | by constructor].
    + rewrite length_app. simpl. lia.
Qed.

(** What [devcon_char_resolve] returns for a character holding [l]: the
    length of [l], and a string that starts with [l] and a zero. *)
Lemma devcon_char_resolve_holds h ch l b :
  char_holds h ch l -> Forall is_ucs4 l -> length (buf b) = 4%nat ->
  snd (devcon_char_resolve ch b h) = Z.of_nat (length l) /\
  take (S (length l)) (fst (devcon_char_resolve ch b h)) = l ++ [0].
Proof.
  intros Hch Hl Hb. destruct b as [cache]. simpl in Hb.
  destruct cache as [|c0 [|c1 [|c2 [|c3 [|]]]]]; try done.
  unfold devcon_char_resolve. cbn [buf].
  destruct l as [|x [|y [|z [|w l']]]]; simpl in Hch.
  - subst ch. done.
  - subst ch. apply Forall_cons in Hl as [Hx _].
    destruct (devcon_char_pack_tag1 x Hx) as [-> ->].
    by rewrite devcon_char_unpack_pack1.
  - subst ch. apply Forall_cons in Hl as [Hx Hl].
    apply Forall_cons in Hl as [Hy _].
    destruct (devcon_char_pack_tag2 x y Hx Hy) as [-> ->].
    by rewrite devcon_char_unpack_pack2.
  - subst ch. apply Forall_cons in Hl as [Hx Hl].
    apply Forall_cons in Hl as [Hy Hl]. apply Forall_cons in Hl as [Hz _].
    destruct (devcon_char_pack_tag3 x y z Hx Hy Hz) as [-> ->].
    by rewrite devcon_char_unpack_pack3.
  - destruct Hch as (Halloc & _ & Hobj).
    assert (Hnull : devcon_char_is_null ch = false).
    { unfold devcon_char_is_allocated in Halloc.
      by destruct (devcon_char_is_null ch). }
    rewrite Hnull, Halloc. unfold heap_read, devcon_char_to_ptr.
    rewrite Hobj. cbn [default character_codepoints character_n fst snd].
    split; [done |].
    apply take_ge. rewrite length_app. simpl. lia.
Qed.

(** At the soft limit of 64 code points, and for a value that is no code
    point, a merge returns the character and leaves the heap as they are. *)
Lemma devcon_char_merge_rejected h ch l x :
  char_holds h ch l -> Forall is_ucs4 l ->
  length l = 64%nat \/ DEVCON_CHAR_UCS4_MAX < x ->
  devcon_char_merge ch x h = (ch, h).
Proof.
  intros Hch Hl Hcase.
  assert (Hsame : forall c, devcon_char_same c c = true)
    by (intros c; apply Z.eqb_refl).
  unfold devcon_char_merge, bind.
  assert (Hb : devcon_char_build ch x h = (ch, h)).
  { unfold devcon_char_build.
    destruct (Z.ltb_spec DEVCON_CHAR_UCS4_MAX x) as [Hx | Hx]; [done |].
    destruct Hcase as [Hlen | Hx']; [| lia].
    rewrite char_holds_long in Hch by lia.
    destruct Hch as (Halloc & _ & Hobj).
    assert (Hnull : devcon_char_is_null ch = false).
    { unfold devcon_char_is_allocated in Halloc.
      by destruct (devcon_char_is_null ch). }
    rewrite Hnull, Halloc. cbn [negb].
    unfold heap_read, devcon_char_to_ptr. rewrite Hobj.
    cbn [default character_codepoints character_n].
    unfold devcon_char_build_alloc. rewrite Hlen. done. }
  rewrite Hb. by rewrite Hsame.
Qed.

(** C3: merging up to 64 valid code points one at a time into the null
    character, with the allocator granting the requests, and resolving the
    result returns the length of the sequence and a string made of the
    sequence, in order, followed by a zero. *)
Theorem char_merge_resolve_roundtrip (l : list Z) (h : heap)
    (b : devcon_charbuf)
    (Hlen : (length l <= 64)%nat) (Hl : Forall is_ucs4 l)
    (Hg : heap_grants (length l) h) (Hb : length (buf b) = 4%nat) :
  let ch := fst (merge_all DEVCON_CHAR_NULL l h) in
  let h' := snd (merge_all DEVCON_CHAR_NULL l h) in
  snd (devcon_char_resolve ch b h') = Z.of_nat (length l) /\
  take (S (length l)) (fst (devcon_char_resolve ch b h')) = l ++ [0].
Proof.
  intros ch h'. apply devcon_char_resolve_holds; [| done | done].
  apply (merge_all_holds l [] DEVCON_CHAR_NULL h); try done.
Qed.

Lemma char_merge_resolve_roundtrip_witness :
  ((length A_with_marks <= 64)%nat /\
   Forall is_ucs4 A_with_marks /\
   heap_grants (length A_with_marks) heap_granting /\
   length (buf charbuf_zero) = 4%nat) /\
  take 6
    (fst (devcon_char_resolve
            (fst (merge_all DEVCON_CHAR_NULL A_with_marks heap_granting))
            charbuf_zero
            (snd (merge_all DEVCON_CHAR_NULL A_with_marks heap_granting))))
  = A_with_marks ++ [0].
Proof.
  assert (H1 : (length A_with_marks <= 64)%nat) by (simpl; lia).
  assert (H2 : Forall is_ucs4 A_with_marks)
    by (repeat constructor; unfold DEVCON_CHAR_UCS4_MAX; lia).
  assert (H3 : heap_grants (length A_with_marks) heap_granting)
    by (unfold heap_grants, KMALLOC_MINALIGN; simpl; repeat split; lia).
  assert (H4 : length (buf charbuf_zero) = 4%nat) by reflexivity.
  split; [done |].
  exact (proj2 (char_merge_resolve_roundtrip A_with_marks heap_granting
                  charbuf_zero H1 H2 H3 H4)).
Defined.

(** C2, as the code has it: the soft limit of 64 counts the base code
    point.  From a character holding one base code point, 63 merges of
    valid marks are all accepted (resolve returns the base and the 63
    marks, 64 code points); the 64th merge returns the character unchanged
    and the length stays 64. *)
Theorem char_combining_soft_limit (base : Z) (marks : list Z) (x : Z)
    (h : heap) (b : devcon_charbuf)
    (Hbase : is_ucs4 base) (Hmarks : Forall is_ucs4 marks)
    (Hlen : length marks = 63%nat)
    (Hg : heap_grants 63 h) (Hb : length (buf b) = 4%nat) :
  let ch := fst (merge_all (devcon_char_pack1 base) marks h) in
  let h' := snd (merge_all (devcon_char_pack1 base) marks h) in
  snd (devcon_char_resolve ch b h') = 64 /\
  take 65 (fst (devcon_char_resolve ch b h')) = base :: marks ++ [0] /\
  devcon_char_merge ch x h' = (ch, h') /\
  snd (devcon_char_resolve (fst (devcon_char_merge ch x h')) b
         (snd (devcon_char_merge ch x h'))) = 64.
Proof.
  intros ch h'.
  assert (Hall : Forall is_ucs4 (base :: marks)) by (by constructor).
  assert (Hch : char_holds h' ch ([base] ++ marks)).
  { apply merge_all_holds; try done.
    - by constructor.
    - simpl. lia.
    - by rewrite Hlen. }
  simpl in Hch.
  destruct (devcon_char_resolve_holds h' ch (base :: marks) b Hch Hall Hb)
    as [Hn Hs].
  simpl in Hn, Hs. rewrite Hlen in Hn, Hs.
  assert (Hrej : devcon_char_merge ch x h' = (ch, h')).
  { apply (devcon_char_merge_rejected h' ch (base :: marks)); try done.
    left. simpl. lia. }
  rewrite Hrej. done.
Qed.

Lemma char_combining_soft_limit_witness :
  (is_ucs4 base_A /\ Forall is_ucs4 (marks_from_0300 63) /\
   length (marks_from_0300 63) = 63%nat /\
   heap_grants 63 heap_granting /\ length (buf charbuf_zero) = 4%nat) /\
  snd (devcon_char_resolve
         (fst (merge_all (devcon_char_pack1 base_A) (marks_from_0300 63)
                 heap_granting))
         charbuf_zero
         (snd (merge_all (devcon_char_pack1 base_A) (marks_from_0300 63)
                 heap_granting)))
  = 64.
Proof.
  assert (H1 : is_ucs4 base_A)
    by (unfold is_ucs4, base_A, DEVCON_CHAR_UCS4_MAX; lia).
  assert (H2 : Forall is_ucs4 (marks_from_0300 63)).
  { apply Forall_seqZ. intros c Hc.
    unfold is_ucs4, DEVCON_CHAR_UCS4_MAX. lia. }
  assert (H3 : length (marks_from_0300 63) = 63%nat) by reflexivity.
  assert (H4 : heap_grants 63 heap_granting)
    by (unfold heap_grants, KMALLOC_MINALIGN; simpl; repeat split; lia).
  assert (H5 : length (buf charbuf_zero) = 4%nat) by reflexivity.
  split; [done |].
  exact (proj1 (char_combining_soft_limit base_A (marks_from_0300 63) 0x400
                  heap_granting charbuf_zero H1 H2 H3 H4 H5)).
Defined.

(** C2 as stated fails: with 64 distinct valid marks merged onto the base
    and every allocation granted, the character resolves to 64 code points
    and not 65, because the 64th merge already returned it unchanged. *)
Lemma char_merge_64_marks_not_65 :
  let r63 := merge_all (devcon_char_pack1 base_A) (marks_from_0300 63)
               heap_granting in
  let r64 := merge_all (devcon_char_pack1 base_A) (marks_from_0300 64)
               heap_granting in
  NoDup (marks_from_0300 64) /\
  Forall is_ucs4 (marks_from_0300 64) /\
  devcon_char_merge (fst r63) (0x300 + 63) (snd r63) = r63 /\
  snd (devcon_char_resolve (fst r64) charbuf_zero (snd r64)) = 64 /\
  snd (devcon_char_resolve (fst r64) charbuf_zero (snd r64)) <> 65.
Proof.
  intros r63 r64.
  split; [apply NoDup_seqZ |].
  split; [apply Forall_seqZ; intros c Hc;
          unfold is_ucs4, DEVCON_CHAR_UCS4_MAX; lia |].
  split; [by vm_compute |].
  split; [by vm_compute |].
  by vm_compute.
Qed.

(** ** Scrolling *)

(** A loop invariant indexed by the loop counter. *)
Lemma for_loop_seqZ_inv {St} (P : Z -> St -> heap -> Prop)
    (body : Z -> St -> M St) (k : nat) :
  forall i0 s h,
  (forall i s h, i0 <= i < i0 + Z.of_nat k -> P i s h ->
     P (i + 1) (fst (body i s h)) (snd (body i s h))) ->
  P i0 s h ->
  P (i0 + Z.of_nat k)
    (fst (for_loop (seqZ i0 (Z.of_nat k)) body s h))
    (snd (for_loop (seqZ i0 (Z.of_nat k)) body s h)).
Proof.
  induction k as [|k IH]; intros i0 s h Hbody Hs.
  - simpl. by rewrite Z.add_0_r.
  - rewrite seqZ_cons by lia. simpl for_loop. unfold bind.
    pose proof (Hbody i0 s h ltac:(lia) Hs) as H1.
    destruct (body i0 s h) as [s' h']. simpl in H1.
    replace (Z.pred (Z.of_nat (S k))) with (Z.of_nat k) by lia.
    replace (i0 + Z.of_nat (S k)) with (Z.succ i0 + Z.of_nat k) by lia.
    apply IH; [| by replace (Z.succ i0) with (i0 + 1) by lia].
    intros i s0 h0 Hi. apply Hbody. lia.
Qed.

(** A loop whose body keeps a property of the heap keeps it. *)
Lemma for_loop_snd_inv {St} (Q : heap -> Prop) idx
    (body : Z -> St -> M St) :
  (forall i s h, Q h -> Q (snd (body i s h))) ->
  forall s h, Q h -> Q (snd (for_loop idx body s h)).
Proof.
  intros Hbody. induction idx as [|i idx IH]; intros s h Hh; simpl.
  - exact Hh.
  - unfold bind. specialize (Hbody i s h Hh).
    destruct (body i s h) as [s' h']. by apply IH.
Qed.

Lemma array_sub_app {A} (a b c : list A) :
  array_sub (a ++ b ++ c) (Z.of_nat (length a)) (Z.of_nat (length b)) = b.
Proof.
  unfold array_sub. rewrite !Nat2Z.id.
  rewrite drop_app_length. by rewrite take_app_length.
Qed.

Lemma array_copy_app {A} (a b c src : list A) :
  length src = length b ->
  array_copy (a ++ b ++ c) (Z.of_nat (length a)) src = a ++ src ++ c.
Proof.
  intros H. unfold array_copy. rewrite Nat2Z.id.
  rewrite <- (Nat.add_0_r (length a)).
  rewrite list_inserts_app_r. by rewrite list_inserts_0_r.
Qed.

Lemma array_get_app_middle {A} (d : A) (a c : list A) x :
  array_get d (a ++ x :: c) (Z.of_nat (length a)) = x.
Proof.
  unfold array_get. destruct (Z.ltb_spec (Z.of_nat (length a)) 0); [lia |].
  rewrite Nat2Z.id. by rewrite list_lookup_middle.
Qed.

Lemma array_set_app_middle {A} (a c : list A) x y :
  array_set (a ++ x :: c) (Z.of_nat (length a)) y = a ++ y :: c.
Proof.
  unfold array_set. destruct (Z.ltb_spec (Z.of_nat (length a)) 0); [lia |].
  rewrite Nat2Z.id. rewrite insert_app_r_alt by lia.
  by rewrite Nat.sub_diag.
Qed.

(** The age loop rewrites the lines of its range and no other. *)
Lemma lines_set_age_app (a b c : list devcon_line) age :
  lines_set_age (a ++ b ++ c) (Z.of_nat (length a)) (Z.of_nat (length b))
    age
  = a ++ map (fun l => line_with_age l age) b ++ c.
Proof.
  unfold lines_set_age. revert c.
  induction b as [|x b IH] using rev_ind; intros c.
  - done.
  - rewrite length_app. simpl length.
    replace (length b + 1)%nat with (S (length b)) by lia.
    rewrite seqZ_S, foldl_app. simpl foldl.
    rewrite <- (app_assoc b [x] c). simpl app. rewrite IH.
    rewrite Z.add_0_l.
    replace (Z.of_nat (length a) + Z.of_nat (length b))
      with (Z.of_nat (length (a ++ map (fun l => line_with_age l age) b)))
      by (rewrite length_app, length_map; lia).
    rewrite (app_assoc a _ (x :: c)).
    rewrite array_get_app_middle, array_set_app_middle.
    rewrite map_app. simpl map. rewrite <- !app_assoc. done.
Qed.

(** *** The allocator's answers are used by allocations only *)

Lemma devcon_char_free_grants ch h :
  grants (snd (devcon_char_free ch h)) = grants h.
Proof. unfold devcon_char_free. by destruct (devcon_char_is_allocated ch). Qed.







(** *** Moving the lines of the scroll region *)

(** The line shuffle of [devcon_page_up]: [rest] moves to the top of the
    region and gets the new age, [src] (the cache) fills the bottom. *)
Lemma move_up_lines (L pre top rest post src : list devcon_line)
    (idx num m age : Z) :
  L = pre ++ top ++ rest ++ post ->
  idx = Z.of_nat (length pre) -> m = Z.of_nat (length top) ->
  num = m + Z.of_nat (length rest) -> num < 2 ^ 32 ->
  length src = length top ->
  array_copy
    (if m <? num then
       lines_set_age
         (array_copy L idx (array_sub L (idx + m) (u32 (num - m))))
         idx (u32 (num - m)) age
     else L)
    (idx + num - m) src
  = pre ++ map (fun l => line_with_age l age) rest ++ src ++ post.
Proof.
  intros -> -> -> -> Hnum Hsrc.
  set (f := fun l => line_with_age l age).
  set (X := drop (length rest) (top ++ rest)).
  assert (HX : length X = length top).
  { subst X. rewrite length_drop, length_app. lia. }
  assert (E : (if Z.of_nat (length top)
                    <? Z.of_nat (length top) + Z.of_nat (length rest)
               then
                 lines_set_age
                   (array_copy (pre ++ top ++ rest ++ post)
                      (Z.of_nat (length pre))
                      (array_sub (pre ++ top ++ rest ++ post)
                         (Z.of_nat (length pre) + Z.of_nat (length top))
                         (u32 (Z.of_nat (length top)
                               + Z.of_nat (length rest)
                               - Z.of_nat (length top)))))
                   (Z.of_nat (length pre))
                   (u32 (Z.of_nat (length top) + Z.of_nat (length rest)
                         - Z.of_nat (length top))) age
               else pre ++ top ++ rest ++ post)
              = pre ++ map f rest ++ X ++ post).
  { destruct (Z.ltb_spec (Z.of_nat (length top))
                (Z.of_nat (length top) + Z.of_nat (length rest))).
    - rewrite u32_small by lia.
      replace (Z.of_nat (length top) + Z.of_nat (length rest)
               - Z.of_nat (length top)) with (Z.of_nat (length rest))
        by lia.
      replace (Z.of_nat (length pre) + Z.of_nat (length top))
        with (Z.of_nat (length (pre ++ top)))
        by (rewrite length_app; lia).
      replace (array_sub (pre ++ top ++ rest ++ post)
                 (Z.of_nat (length (pre ++ top)))
                 (Z.of_nat (length rest))) with rest
        by (rewrite (app_assoc pre top (rest ++ post));
            by rewrite array_sub_app).
      replace (pre ++ top ++ rest ++ post)
        with (pre ++ take (length rest) (top ++ rest) ++ X ++ post)
        by (by subst X;
            rewrite (app_assoc (take _ _)), take_drop, <- app_assoc).
      rewrite array_copy_app
        by (rewrite length_take, length_app; lia).
      by rewrite lines_set_age_app.
    - destruct rest; [| simpl in *; lia].
      subst X. simpl. by rewrite app_nil_r. }
  rewrite E.
  replace (Z.of_nat (length pre)
           + (Z.of_nat (length top) + Z.of_nat (length rest))
           - Z.of_nat (length top))
    with (Z.of_nat (length (pre ++ map f rest)))
    by (rewrite length_app, length_map; lia).
  rewrite (app_assoc pre (map f rest)).
  rewrite array_copy_app by lia. by rewrite <- app_assoc.
Qed.

(** The line shuffle of [devcon_page_down]: [rest] moves to the bottom of
    the region and gets the new age, [src] (the cache) fills the top. *)
Lemma move_down_lines (L pre rest mid post src : list devcon_line)
    (idx num m age : Z) :
  L = pre ++ rest ++ mid ++ post ->
  idx = Z.of_nat (length pre) -> m = Z.of_nat (length mid) ->
  num = m + Z.of_nat (length rest) -> num < 2 ^ 32 ->
  length src = length mid ->
  array_copy
    (if m <? num then
       lines_set_age
         (array_copy L (idx + m) (array_sub L idx (u32 (num - m))))
         (idx + m) (u32 (num - m)) age
     else L)
    idx src
  = pre ++ src ++ map (fun l => line_with_age l age) rest ++ post.
Proof.
  intros -> -> -> -> Hnum Hsrc.
  set (f := fun l => line_with_age l age).
  set (Y := take (length mid) (rest ++ mid)).
  assert (HY : length Y = length mid).
  { subst Y. rewrite length_take, length_app. lia. }
  assert (E : (if Z.of_nat (length mid)
                    <? Z.of_nat (length mid) + Z.of_nat (length rest)
               then
                 lines_set_age
                   (array_copy (pre ++ rest ++ mid ++ post)
                      (Z.of_nat (length pre) + Z.of_nat (length mid))
                      (array_sub (pre ++ rest ++ mid ++ post)
                         (Z.of_nat (length pre))
                         (u32 (Z.of_nat (length mid)
                               + Z.of_nat (length rest)
                               - Z.of_nat (length mid)))))
                   (Z.of_nat (length pre) + Z.of_nat (length mid))
                   (u32 (Z.of_nat (length mid) + Z.of_nat (length rest)
                         - Z.of_nat (length mid))) age
               else pre ++ rest ++ mid ++ post)
              = pre ++ Y ++ map f rest ++ post).
  { destruct (Z.ltb_spec (Z.of_nat (length mid))
                (Z.of_nat (length mid) + Z.of_nat (length rest))).
    - rewrite u32_small by lia.
      replace (Z.of_nat (length mid) + Z.of_nat (length rest)
               - Z.of_nat (length mid)) with (Z.of_nat (length rest))
        by lia.
      rewrite array_sub_app.
      replace (Z.of_nat (length pre) + Z.of_nat (length mid))
        with (Z.of_nat (length (pre ++ Y)))
        by (rewrite length_app; lia).
      replace (pre ++ rest ++ mid ++ post)
        with ((pre ++ Y) ++ drop (length mid) (rest ++ mid) ++ post)
        by (by subst Y;
            rewrite <- (app_assoc pre), (app_assoc (take _ _)), take_drop,
              <- app_assoc).
      rewrite array_copy_app
        by (rewrite length_drop, length_app; lia).
      rewrite lines_set_age_app. by rewrite <- app_assoc.
    - destruct rest; [| simpl in *; lia].
      subst Y. simpl. by rewrite take_ge by lia. }
  rewrite E. by rewrite array_copy_app by lia.
Qed.



(** Popping a line that is as wide as requested needs no memory and
    returns the line as it was pushed. *)
Lemma devcon_history_pop_fits history rest t w attr age h :
  hist_lines history = rest ++ [t] -> line_ok w t ->
  devcon_history_pop history w attr age h
  = ((Some t,
      mk_history rest (u32 (hist_n_lines history - 1))
        (hist_max_lines history)), h).
Proof.
  intros Hl [(Hf0 & Hfw & Hwn) <-].
  unfold devcon_history_pop. rewrite Hl, last_snoc, removelast_snoc.
  unfold devcon_line_reserve, bind.
  rewrite (Z.min_r (line_n_cells t)) by lia. rewrite Z.ltb_irrefl.
  unfold ret at 1. cbn [line_with_cells line_n_cells].
  destruct (Z.ltb_spec (line_n_cells t) (line_width t)); [lia |].
  unfold ret at 1. change (0 <? 0) with false. cbv iota.
  unfold ret, devcon_line_set_width, line_with_fill, line_with_cells.
  cbn [line_n_cells line_width line_fill line_cells line_age].
  destruct (Z.ltb_spec (line_n_cells t) (line_width t)); [lia |].
  rewrite !Z.min_l by lia. by destruct t.
Qed.


(** *** Up, then down *)






(** * Further properties of the code *)

(** ** Histories: trim, push, pop and peek *)




(** X2: [devcon_history_push] keeps the counter in step with the
    list and within [max_lines]: the line is linked at the tail, and once
    the history is full the oldest line is dropped for it. *)
Theorem history_push_bounded (history : devcon_history)
    (line : devcon_line) (h : heap)
    (Hc : history_counted history)
    (Hle : hist_n_lines history <= hist_max_lines history)
    (Hmax : is_u32 (hist_max_lines history)) :
  let hh := fst (devcon_history_push history line h) in
  history_counted hh /\
  hist_n_lines hh <= hist_max_lines hh /\
  hist_max_lines hh = hist_max_lines history /\
  hist_lines hh
  = if hist_max_lines history <=? hist_n_lines history
    then drop 1 (hist_lines history ++ [line])
    else hist_lines history ++ [line].
Proof.
  intros hh. subst hh. unfold devcon_history_push, history_counted in *.
  unfold is_u32 in Hmax.
  destruct (Z.leb_spec (hist_max_lines history) (hist_n_lines history)).
  - destruct (hist_lines history ++ [line]) as [|first rest] eqn:E.
    { by destruct (hist_lines history). }
    unfold bind. destruct (devcon_line_free first h) as [u h1].
    unfold ret. simpl.
    apply (f_equal length) in E. rewrite length_app in E. simpl in E.
    repeat split; lia.
  - unfold ret. simpl. rewrite length_app. simpl.
    rewrite u32_small by lia. repeat split; lia.
Qed.

Lemma history_push_bounded_witness :
  (history_counted history_AB /\
   hist_n_lines history_AB <= hist_max_lines history_AB /\
   is_u32 (hist_max_lines history_AB)) /\
  hist_n_lines (fst (devcon_history_push history_AB line_AB heap_granting))
  <= hist_max_lines
       (fst (devcon_history_push history_AB line_AB heap_granting)).
Proof.
  assert (H1 : history_counted history_AB) by reflexivity.
  assert (H2 : hist_n_lines history_AB <= hist_max_lines history_AB)
    by (simpl; lia).
  assert (H3 : is_u32 (hist_max_lines history_AB))
    by (unfold is_u32; simpl; lia).
  split; [done |].
  exact (proj1 (proj2 (history_push_bounded history_AB line_AB
                         heap_granting H1 H2 H3))).
Defined.

(** X3: a line pushed into a history that is not full comes back
    unchanged from [devcon_history_pop] called with the line's own width,
    without any allocation, and the history is as it was before the
    push. *)
Theorem history_push_pop (history : devcon_history) (line : devcon_line)
    (attr : option devcon_attr) (age : Z) (h : heap)
    (Hc : history_counted history)
    (Hlt : hist_n_lines history < hist_max_lines history)
    (Hmax : is_u32 (hist_max_lines history))
    (Hl : line_inv line) :
  let r := devcon_history_push history line h in
  devcon_history_pop (fst r) (line_width line) attr age (snd r)
  = ((Some line, history), h).
Proof.
  intros r. subst r. unfold devcon_history_push, history_counted in *.
  unfold is_u32 in Hmax.
  destruct (Z.leb_spec (hist_max_lines history) (hist_n_lines history));
    [lia |].
  unfold ret. cbn [fst snd].
  rewrite (devcon_history_pop_fits _ (hist_lines history) line
             (line_width line)) by done.
  cbn [hist_n_lines hist_max_lines].
  rewrite (u32_small (hist_n_lines history + 1)) by lia.
  replace (hist_n_lines history + 1 - 1) with (hist_n_lines history) by lia.
  rewrite u32_small by lia. by destruct history.
Qed.

Lemma history_push_pop_witness :
  (history_counted history_AB /\
   hist_n_lines history_AB < hist_max_lines history_AB /\
   is_u32 (hist_max_lines history_AB) /\ line_inv line_AB) /\
  devcon_history_pop
    (fst (devcon_history_push history_AB line_AB heap_exhausted))
    (line_width line_AB) None 0
    (snd (devcon_history_push history_AB line_AB heap_exhausted))
  = ((Some line_AB, history_AB), heap_exhausted).
Proof.
  assert (H1 : history_counted history_AB) by reflexivity.
  assert (H2 : hist_n_lines history_AB < hist_max_lines history_AB)
    by (simpl; lia).
  assert (H3 : is_u32 (hist_max_lines history_AB))
    by (unfold is_u32; simpl; lia).
  assert (H4 : line_inv line_AB) by (unfold line_inv; simpl; lia).
  split; [done |].
  exact (history_push_pop history_AB line_AB None 0 heap_exhausted
           H1 H2 H3 H4).
Defined.

(** A reservation within the allocated cells needs no memory. *)
Lemma devcon_line_reserve_within line width attr age pw h :
  width <= line_n_cells line ->
  fst (fst (devcon_line_reserve line width attr age pw h)) = 0 /\
  line_n_cells (snd (fst (devcon_line_reserve line width attr age pw h)))
  = line_n_cells line /\
  line_width (snd (fst (devcon_line_reserve line width attr age pw h)))
  = line_width line.
Proof.
  intros Hw. unfold devcon_line_reserve, bind.
  destruct ((if pw <? Z.min (line_n_cells line) width
             then devcon_cell_clear_n (line_cells line) pw
                    (u32 (Z.min (line_n_cells line) width - pw)) attr age
             else ret (line_cells line)) h) as [cells h1].
  cbn [line_with_cells line_n_cells].
  destruct (Z.ltb_spec (line_n_cells line) width); [lia |].
  by unfold ret.
Qed.

(** A successful reservation leaves at least the requested cells. *)
Lemma devcon_line_reserve_enough line width attr age pw h :
  0 <= fst (fst (devcon_line_reserve line width attr age pw h)) ->
  width <= line_n_cells
             (snd (fst (devcon_line_reserve line width attr age pw h))).
Proof.
  unfold devcon_line_reserve, bind.
  destruct ((if pw <? Z.min (line_n_cells line) width
             then devcon_cell_clear_n (line_cells line) pw
                    (u32 (Z.min (line_n_cells line) width - pw)) attr age
             else ret (line_cells line)) h) as [cells h1].
  cbn [line_with_cells line_n_cells].
  destruct (Z.ltb_spec (line_n_cells line) width).
  - destruct (SIZE_MAX / sizeof_cell <? width);
      [unfold ret, ENOMEM; simpl; lia |].
    destruct (kalloc_request h1) as [[] h2]; unfold ret, ENOMEM; simpl; lia.
  - unfold ret. simpl. lia.
Qed.

Lemma history_peek_loop_enough rev_lines : forall num max w attr age h,
  0 <= num <= max -> max < 2 ^ 32 ->
  let r := fst (history_peek_loop rev_lines num max w attr age h) in
  num <= snd r <= max /\
  snd r - num <= Z.of_nat (length rev_lines) /\
  length (fst r) = length rev_lines /\
  Forall (fun l => w <= line_n_cells l)
    (take (Z.to_nat (snd r - num)) (fst r)).
Proof.
  induction rev_lines as [|line rest IH]; intros num max w attr age h Hn Hm;
    simpl.
  - unfold ret. simpl. rewrite Z.sub_diag. repeat split; try lia.
    constructor.
  - destruct (Z.leb_spec max num).
    { unfold ret. simpl. rewrite Z.sub_diag.
      repeat split; try lia. constructor. }
    unfold bind.
    pose proof (devcon_line_reserve_enough line w attr age (line_width line)
                  h) as He.
    destruct (devcon_line_reserve line w attr age (line_width line) h)
      as [[ret_ line'] h1]. simpl in He.
    destruct (Z.ltb_spec ret_ 0).
    { unfold ret. simpl. rewrite Z.sub_diag.
      repeat split; try lia. constructor. }
    assert (E : u32 (num + 1) = num + 1) by (rewrite u32_small; lia).
    specialize (IH (u32 (num + 1)) max w attr age h1
                  ltac:(rewrite E; lia) Hm).
    destruct (history_peek_loop rest (u32 (num + 1)) max w attr age h1)
      as [[ls k] h2]. unfold ret. simpl in *. rewrite E in IH.
    destruct IH as (I1 & I2 & I3 & I4).
    repeat split; try lia.
    replace (Z.to_nat (k - num)) with (S (Z.to_nat (k - (num + 1))))
      by lia.
    simpl. constructor; [lia | done].
Qed.

Lemma pop_many_succeeds k : forall history w attr age h,
  (k <= length (hist_lines history))%nat ->
  Forall (fun l => w <= line_n_cells l)
    (drop (length (hist_lines history) - k) (hist_lines history)) ->
  Forall is_Some (fst (fst (pop_many k history w attr age h))) /\
  length (fst (fst (pop_many k history w attr age h))) = k.
Proof.
  induction k as [|k IH]; intros history w attr age h Hk Hall; simpl.
  - split; [constructor | done].
  - destruct (hist_lines history) as [|l0 ls0] eqn:El using rev_ind;
      [simpl in Hk; lia |].
    clear IHls0. rewrite length_app in Hk, Hall. simpl in Hk, Hall.
    replace (length ls0 + 1 - S k)%nat with (length ls0 - k)%nat in Hall
      by lia.
    rewrite drop_app_le in Hall by lia.
    apply Forall_app in Hall as [Hrest Hl0].
    rewrite Forall_singleton in Hl0.
    unfold bind, devcon_history_pop. rewrite El, last_snoc, removelast_snoc.
    unfold bind.
    destruct (devcon_line_reserve_within l0 w attr age (line_width l0) h
                Hl0) as (E0 & _).
    destruct (devcon_line_reserve l0 w attr age (line_width l0) h)
      as [[ret_ l1] h1]. simpl in E0. subst ret_.
    change (0 <? 0) with false. cbv iota. unfold ret. cbn [fst snd].
    set (hh1 := mk_history ls0 (u32 (hist_n_lines history - 1))
                  (hist_max_lines history)).
    specialize (IH hh1 w attr age h1 ltac:(simpl; lia) Hrest).
    destruct (pop_many k hh1 w attr age h1) as [[outs hh] h2].
    unfold ret. simpl in *. destruct IH as [I1 I2].
    split; [constructor; [by eexists | done] | by rewrite I2].
Qed.

(** X4: the number returned by [devcon_history_peek] is at most
    [max] and at most the number of lines, no line is linked or unlinked,
    and that many calls of [devcon_history_pop] with the same width then
    all return a line, whatever the allocator answers. *)
Theorem history_peek_guarantees_pops (history : devcon_history)
    (max w : Z) (attr : option devcon_attr) (age : Z) (h h' : heap)
    (Hmax : is_u32 max) :
  let r := devcon_history_peek history max w attr age h in
  let k := fst (fst r) in
  0 <= k <= max /\
  k <= Z.of_nat (length (hist_lines history)) /\
  length (hist_lines (snd (fst r))) = length (hist_lines history) /\
  hist_n_lines (snd (fst r)) = hist_n_lines history /\
  Forall is_Some
    (fst (fst (pop_many (Z.to_nat k) (snd (fst r)) w attr age h'))) /\
  length (fst (fst (pop_many (Z.to_nat k) (snd (fst r)) w attr age h')))
  = Z.to_nat k.
Proof.
  intros r k. subst r k. unfold devcon_history_peek, bind.
  unfold is_u32 in Hmax.
  pose proof (history_peek_loop_enough (rev (hist_lines history)) 0 max w
                attr age h ltac:(lia) ltac:(lia)) as H.
  destruct (history_peek_loop _ 0 max w attr age h) as [[ls k] h1].
  unfold ret. simpl in *. rewrite Z.sub_0_r, length_rev in H.
  destruct H as (H1 & H2 & H3 & H4).
  rewrite length_rev.
  split; [lia |]. split; [lia |]. split; [done |]. split; [done |].
  apply pop_many_succeeds; simpl.
  - rewrite length_rev. lia.
  - rewrite length_rev, skipn_rev.
    replace (length ls - (length ls - Z.to_nat k))%nat with (Z.to_nat k)
      by lia.
    by apply Forall_rev.
Qed.

Lemma history_peek_guarantees_pops_witness :
  is_u32 3 /\
  Forall is_Some
    (fst (fst (pop_many
                 (Z.to_nat
                    (fst (fst (devcon_history_peek history_AB 3 4 None 0
                                 heap_granting))))
                 (snd (fst (devcon_history_peek history_AB 3 4 None 0
                              heap_granting)))
                 4 None 0 heap_exhausted))).
Proof.
  assert (H1 : is_u32 3) by (unfold is_u32; lia).
  split; [done |].
  exact (proj1 (proj2 (proj2 (proj2 (proj2
           (history_peek_guarantees_pops history_AB 3 4 None 0
              heap_granting heap_exhausted H1)))))).
Defined.

(** ** Characters: equality, duplication, replacement *)

Lemma devcon_char_resolve_prefix h ch l b :
  char_holds h ch l -> Forall is_ucs4 l -> length (buf b) = 4%nat ->
  snd (devcon_char_resolve ch b h) = Z.of_nat (length l) /\
  array_sub (fst (devcon_char_resolve ch b h)) 0 (Z.of_nat (length l)) = l.
Proof.
  intros Hch Hl Hb.
  destruct (devcon_char_resolve_holds h ch l b Hch Hl Hb) as [Hn Hs].
  split; [done |]. unfold array_sub. rewrite Nat2Z.id. simpl drop.
  apply (f_equal (take (length l))) in Hs.
  rewrite take_take, take_app_length in Hs.
  by rewrite Nat.min_l in Hs by lia.
Qed.

(** X5: [devcon_char_equal] compares contents, not
    representations: two characters holding valid code points are equal
    exactly when they hold the same sequence. *)
Theorem char_equal_iff_same_codepoints (h : heap) (a b : devcon_char)
    (la lb : list Z)
    (Ha : char_holds h a la) (Hb : char_holds h b lb)
    (Hla : Forall is_ucs4 la) (Hlb : Forall is_ucs4 lb) :
  devcon_char_equal a b h = true <-> la = lb.
Proof.
  unfold devcon_char_equal.
  destruct (devcon_char_resolve_prefix h a la (mk_charbuf [0; 0; 0; 0])
              Ha Hla eq_refl) as [Hna Hsa].
  destruct (devcon_char_resolve_prefix h b lb (mk_charbuf [0; 0; 0; 0])
              Hb Hlb eq_refl) as [Hnb Hsb].
  destruct (devcon_char_resolve a _ h) as [sa na].
  destruct (devcon_char_resolve b _ h) as [sb nb].
  simpl in *. subst na nb. split.
  - intros [Hn He]%andb_prop. apply Z.eqb_eq in Hn.
    apply bool_decide_eq_true in He.
    rewrite Hsa in He. rewrite Hn, Hsb in He. done.
  - intros ->. rewrite Z.eqb_refl. simpl. apply bool_decide_eq_true.
    by rewrite Hsa, Hsb.
Qed.

Lemma char_equal_iff_same_codepoints_witness :
  (char_holds heap_granting (devcon_char_pack2 0x41 0x301) [0x41; 0x301] /\
   char_holds heap_granting (devcon_char_pack1 0x41) [0x41] /\
   Forall is_ucs4 [0x41; 0x301] /\ Forall is_ucs4 [0x41]) /\
  (devcon_char_equal (devcon_char_pack2 0x41 0x301) (devcon_char_pack1 0x41)
     heap_granting = true
   <-> [0x41; 0x301] = [0x41]).
Proof.
  assert (H1 : char_holds heap_granting (devcon_char_pack2 0x41 0x301)
                 [0x41; 0x301]) by reflexivity.
  assert (H2 : char_holds heap_granting (devcon_char_pack1 0x41) [0x41])
    by reflexivity.
  assert (H3 : Forall is_ucs4 [0x41; 0x301])
    by (repeat constructor; unfold DEVCON_CHAR_UCS4_MAX; lia).
  assert (H4 : Forall is_ucs4 [0x41])
    by (repeat constructor; unfold DEVCON_CHAR_UCS4_MAX; lia).
  split; [exact (conj H1 (conj H2 (conj H3 H4))) |].
  exact (char_equal_iff_same_codepoints heap_granting _ _ _ _ H1 H2 H3 H4).
Defined.

(** The code points of a duplicate: those of the original and the
    terminating zero. *)
Lemma dup_codepoints (l : list Z) :
  array_copy
    (array_set (replicate (Z.to_nat (Z.of_nat (length l) + 1)) 0)
       (Z.of_nat (length l)) 0)
    0 (array_sub (l ++ [0]) 0 (Z.of_nat (length l)))
  = l ++ [0].
Proof.
  unfold array_set, array_copy, array_sub.
  destruct (Z.ltb_spec (Z.of_nat (length l)) 0); [lia |].
  rewrite insert_replicate. rewrite Nat2Z.id.
  change (Z.to_nat 0) with 0%nat. rewrite drop_0, take_app_length.
  replace (Z.to_nat (Z.of_nat (length l) + 1)) with (length l + 1)%nat
    by lia.
  rewrite replicate_add.
  by rewrite list_inserts_0_r by (by rewrite length_replicate).
Qed.

(** X6: with memory granted, [devcon_char_dup] gives a character
    holding the same code points which shares no storage with the
    original: both hold them afterwards, and freeing the original leaves
    the duplicate intact. *)
Theorem char_dup_independent (h : heap) (ch : devcon_char) (l : list Z)
    (Hch : char_holds h ch l) (Hl : Forall is_ucs4 l)
    (Hg : heap_grants 1 h) :
  let r := devcon_char_dup ch h in
  char_holds (snd r) (fst r) l /\
  char_holds (snd r) ch l /\
  char_holds (snd (devcon_char_free ch (snd r))) (fst r) l.
Proof.
  intros r. subst r. unfold devcon_char_dup.
  destruct l as [|a [|b [|c [|d l']]]].
  - simpl in Hch. subst ch. done.
  - simpl in Hch. subst ch. apply Forall_cons in Hl as [Ha _].
    destruct (devcon_char_pack_tag1 a Ha) as [_ E].
    unfold devcon_char_free. rewrite E. done.
  - simpl in Hch. subst ch. apply Forall_cons in Hl as [Ha Hl].
    apply Forall_cons in Hl as [Hb _].
    destruct (devcon_char_pack_tag2 a b Ha Hb) as [_ E].
    unfold devcon_char_free. rewrite E. done.
  - simpl in Hch. subst ch. apply Forall_cons in Hl as [Ha Hl].
    apply Forall_cons in Hl as [Hb Hl]. apply Forall_cons in Hl as [Hc _].
    destruct (devcon_char_pack_tag3 a b c Ha Hb Hc) as [_ E].
    unfold devcon_char_free. rewrite E. done.
  - set (l := a :: b :: c :: d :: l') in *.
    assert (Hlong : (4 <= length l)%nat) by (subst l; simpl; lia).
    rewrite char_holds_long in Hch by done.
    destruct Hch as (Halloc & Hq & Hobj).
    rewrite Halloc. cbn [negb].
    assert (Hread : heap_read (devcon_char_to_ptr ch) h
                    = mk_character (Z.of_nat (length l)) (l ++ [0])).
    { unfold heap_read, devcon_char_to_ptr. by rewrite Hobj. }
    rewrite Hread. cbn [character_n character_codepoints].
    destruct (kmalloc_granted 0 h Hg) as (gs & Egs & Ek & _).
    destruct Hg as (_ & Hpos & Heven & Hroom).
    unfold devcon_char_alloc, bind. rewrite Ek.
    destruct (Z.eqb_spec (brk h) 0); [lia |].
    assert (Eland : Z.land (brk h) 1 = 0).
    { change 1 with (2 ^ 1 - 1). rewrite land_mask by lia. exact Heven. }
    rewrite Eland. change (negb (0 =? 0)) with false. cbv iota.
    unfold heap_write, ret. cbn [fst snd chars brk grants].
    destruct (Z.eqb_spec (brk h) 0); [lia |].
    unfold heap_read. cbn [chars]. rewrite lookup_insert_eq.
    cbn [default character_n character_codepoints]. unfold id.
    cbn [character_n character_codepoints chars brk grants].
    rewrite dup_codepoints, insert_insert_eq.
    unfold devcon_char_from_ptr, u64, KMALLOC_MINALIGN in *.
    rewrite Z.mod_small by lia.
    cbn [fst snd]. rewrite !char_holds_long by done.
    cbn [_value chars brk].
    assert (Hd : devcon_char_is_allocated (DEVCON_CHAR_INIT (brk h)) = true)
      by (by apply devcon_char_is_allocated_ptr).
    split; [| split].
    + split; [done |]. split; [lia |]. by rewrite lookup_insert_eq.
    + split; [done |]. split; [lia |].
      rewrite lookup_insert_ne by lia. done.
    + unfold devcon_char_free. rewrite Halloc.
      unfold kfree, ret, bind, devcon_char_to_ptr. cbn [fst snd chars brk].
      split; [done |]. split; [lia |].
      rewrite lookup_delete_ne by lia. by rewrite lookup_insert_eq.
Qed.

Lemma char_A_marks_holds :
  char_holds heap_A_marks char_A_marks A_with_marks /\
  Forall is_ucs4 A_with_marks /\ heap_grants 1 heap_A_marks.
Proof.
  split; [| split].
  - repeat split; vm_compute; reflexivity.
  - repeat constructor; unfold DEVCON_CHAR_UCS4_MAX; lia.
  - repeat split; vm_compute; (reflexivity || discriminate).
Defined.

Lemma char_dup_independent_witness :
  (char_holds heap_A_marks char_A_marks A_with_marks /\
   Forall is_ucs4 A_with_marks /\ heap_grants 1 heap_A_marks) /\
  char_holds
    (snd (devcon_char_free char_A_marks
            (snd (devcon_char_dup char_A_marks heap_A_marks))))
    (fst (devcon_char_dup char_A_marks heap_A_marks)) A_with_marks.
Proof.
  split; [exact char_A_marks_holds |].
  exact (proj2 (proj2 (char_dup_independent heap_A_marks char_A_marks
                         A_with_marks
                         (proj1 char_A_marks_holds)
                         (proj1 (proj2 char_A_marks_holds))
                         (proj2 (proj2 char_A_marks_holds))))).
Defined.

(** A refused [kmalloc] returns NULL and leaves the objects alone. *)
Lemma kmalloc_refused h :
  hd false (grants h) = false ->
  fst (kmalloc h) = 0 /\ chars (snd (kmalloc h)) = chars h /\
  brk (snd (kmalloc h)) = brk h.
Proof.
  unfold kmalloc, bind, kalloc_request.
  destruct (grants h) as [|g gs]; simpl; [done |]. by intros ->.
Qed.

(** X7: when the allocator refuses the copy,
    [devcon_char_dup] of an allocated character returns the packed
    replacement character U+FFFD and leaves the live objects as they
    were. *)
Theorem char_dup_refused (h : heap) (ch : devcon_char)
    (Halloc : devcon_char_is_allocated ch = true)
    (Hg : hd false (grants h) = false) :
  fst (devcon_char_dup ch h)
  = devcon_char_pack1 DEVCON_CHAR_UCS4_REPLACEMENT /\
  chars (snd (devcon_char_dup ch h)) = chars h /\
  brk (snd (devcon_char_dup ch h)) = brk h.
Proof.
  unfold devcon_char_dup. rewrite Halloc. cbn [negb].
  unfold devcon_char_alloc, bind.
  destruct (kmalloc_refused h Hg) as (E1 & E2 & E3).
  destruct (kmalloc h) as [c h1]. simpl in E1, E2, E3. subst c.
  change (0 =? 0) with true. cbv iota. unfold ret. cbn [fst snd].
  change (0 =? 0) with true. by cbv iota.
Qed.

Lemma char_dup_refused_witness :
  (devcon_char_is_allocated char_A_marks = true /\
   hd false (grants (mk_heap (chars heap_A_marks) (brk heap_A_marks) []))
   = false) /\
  fst (devcon_char_dup char_A_marks
         (mk_heap (chars heap_A_marks) (brk heap_A_marks) []))
  = devcon_char_pack1 DEVCON_CHAR_UCS4_REPLACEMENT.
Proof.
  assert (H1 : devcon_char_is_allocated char_A_marks = true)
    by (vm_compute; reflexivity).
  assert (H2 : hd false (grants (mk_heap (chars heap_A_marks)
                                   (brk heap_A_marks) [])) = false)
    by reflexivity.
  split; [exact (conj H1 H2) |].
  exact (proj1 (char_dup_refused _ char_A_marks H1 H2)).
Defined.

(** X8: [devcon_char_set] with a valid code point never allocates:
    whatever the previous character was, the result is the packed single
    code point, which resolves to that code point and a zero, and the
    storage of an allocated previous character is released. *)
Theorem char_set_single (h : heap) (previous : devcon_char) (c : Z)
    (b : devcon_charbuf)
    (Hc : is_ucs4 c) (Hb : length (buf b) = 4%nat) :
  let r := devcon_char_set previous c h in
  fst r = devcon_char_pack1 c /\
  snd (devcon_char_resolve (fst r) b (snd r)) = 1 /\
  take 2 (fst (devcon_char_resolve (fst r) b (snd r))) = [c; 0] /\
  chars (snd r)
  = (if devcon_char_is_allocated previous
     then delete (_value previous) (chars h) else chars h) /\
  grants (snd r) = grants h.
Proof.
  intros r. subst r. unfold devcon_char_set, bind.
  assert (Hf : chars (snd (devcon_char_free previous h))
               = (if devcon_char_is_allocated previous
                  then delete (_value previous) (chars h) else chars h) /\
               grants (snd (devcon_char_free previous h)) = grants h).
  { unfold devcon_char_free.
    by destruct (devcon_char_is_allocated previous). }
  destruct (devcon_char_free previous h) as [u h1]. cbn [snd] in Hf.
  destruct (is_ucs4_range c Hc) as [_ Em].
  unfold devcon_char_build. rewrite Em.
  change (devcon_char_is_null DEVCON_CHAR_NULL) with true. cbv iota.
  unfold ret. cbn [fst snd].
  destruct (devcon_char_resolve_holds h1 (devcon_char_pack1 c) [c] b
              eq_refl ltac:(by constructor) Hb) as [Hn Hs].
  destruct Hf as [Hf1 Hf2]. done.
Qed.

Lemma char_set_single_witness :
  (is_ucs4 0x42 /\ length (buf charbuf_zero) = 4%nat) /\
  chars (snd (devcon_char_set char_A_marks 0x42 heap_A_marks)) = ∅.
Proof.
  assert (H1 : is_ucs4 0x42) by (unfold is_ucs4, DEVCON_CHAR_UCS4_MAX; lia).
  assert (H2 : length (buf charbuf_zero) = 4%nat) by reflexivity.
  split; [exact (conj H1 H2) |].
  pose proof (proj1 (proj2 (proj2 (proj2
                (char_set_single heap_A_marks char_A_marks 0x42
                   charbuf_zero H1 H2))))) as E.
  rewrite E. vm_compute. reflexivity.
Defined.

(** X9: merging a valid code point into an allocated
    character below the limit, with memory granted, moves the character to
    fresh storage at the break pointer and releases the old storage: the
    old address holds no object afterwards, and no other object is
    touched. *)
Theorem char_merge_replaces_storage (h : heap) (ch : devcon_char)
    (l : list Z) (x : Z)
    (Hch : char_holds h ch l) (Hx : is_ucs4 x)
    (Hlen : (4 <= length l < 64)%nat) (Hg : heap_grants 1 h) :
  let r := devcon_char_merge ch x h in
  _value (fst r) = brk h /\
  chars (snd r)
  = <[brk h := mk_character (Z.of_nat (length l) + 1) (l ++ [x; 0])]>
      (delete (_value ch) (chars h)) /\
  chars (snd r) !! _value ch = None.
Proof.
  intros r. subst r.
  rewrite char_holds_long in Hch by lia.
  destruct Hch as (Halloc & Hq & Hobj).
  destruct (is_ucs4_range x Hx) as [Hxr Hxm].
  assert (Hnull : devcon_char_is_null ch = false).
  { unfold devcon_char_is_allocated in Halloc.
    by destruct (devcon_char_is_null ch). }
  destruct (devcon_char_build_alloc_granted ch l [0] x h 0 Hg ltac:(lia))
    as (gs & Egs & Eb & _).
  destruct Hg as (_ & Hpos & Heven & _).
  unfold devcon_char_merge, bind, devcon_char_build.
  rewrite Hxm, Hnull, Halloc. cbn [negb].
  assert (Hread : heap_read (devcon_char_to_ptr ch) h
                  = mk_character (Z.of_nat (length l)) (l ++ [0])).
  { unfold heap_read, devcon_char_to_ptr. by rewrite Hobj. }
  rewrite Hread. cbn [character_n character_codepoints]. rewrite Eb.
  unfold devcon_char_same. cbn [_value].
  destruct (Z.eqb_spec (brk h) (_value ch)); [lia |].
  cbn [negb]. unfold devcon_char_free. rewrite Halloc.
  unfold kfree, ret, bind, devcon_char_to_ptr.
  cbn [fst snd _value chars brk grants].
  split; [done |]. split.
  - by rewrite delete_insert_ne by lia.
  - apply lookup_delete_eq.
Qed.

Lemma char_merge_replaces_storage_witness :
  (char_holds heap_A_marks char_A_marks A_with_marks /\ is_ucs4 0x305 /\
   (4 <= length A_with_marks < 64)%nat /\ heap_grants 1 heap_A_marks) /\
  chars (snd (devcon_char_merge char_A_marks 0x305 heap_A_marks))
    !! _value char_A_marks = None.
Proof.
  assert (H1 : char_holds heap_A_marks char_A_marks A_with_marks)
    by exact (proj1 char_A_marks_holds).
  assert (H2 : is_ucs4 0x305)
    by (unfold is_ucs4, DEVCON_CHAR_UCS4_MAX; lia).
  assert (H3 : (4 <= length A_with_marks < 64)%nat) by (simpl; lia).
  assert (H4 : heap_grants 1 heap_A_marks)
    by exact (proj2 (proj2 char_A_marks_holds)).
  split; [exact (conj H1 (conj H2 (conj H3 H4))) |].
  exact (proj2 (proj2 (char_merge_replaces_storage heap_A_marks
                         char_A_marks A_with_marks 0x305 H1 H2 H3 H4))).
Defined.

(** ** Lines: what the operations do to the cells *)

(** A loop that rewrites the elements of a range one by one. *)
Lemma foldl_range_app {A} (d : A) (f : A -> A) (a b c : list A) :
  foldl (fun cs i =>
           array_set cs (Z.of_nat (length a) + i)
             (f (array_get d cs (Z.of_nat (length a) + i))))
    (a ++ b ++ c) (seqZ 0 (Z.of_nat (length b)))
  = a ++ map f b ++ c.
Proof.
  revert c. induction b as [|x b IH] using rev_ind; intros c.
  - done.
  - rewrite length_app. simpl length.
    replace (length b + 1)%nat with (S (length b)) by lia.
    rewrite seqZ_S, foldl_app. simpl foldl.
    rewrite <- (app_assoc b [x] c). simpl app. rewrite IH.
    rewrite Z.add_0_l.
    replace (Z.of_nat (length a) + Z.of_nat (length b))
      with (Z.of_nat (length (a ++ map f b)))
      by (rewrite length_app, length_map; lia).
    rewrite (app_assoc a _ (x :: c)).
    rewrite array_get_app_middle, array_set_app_middle.
    rewrite map_app. simpl map. rewrite <- !app_assoc. done.
Qed.

Lemma cells_set_age_app (a b c : list devcon_cell) age :
  cells_set_age (a ++ b ++ c) (Z.of_nat (length a)) (Z.of_nat (length b))
    age
  = a ++ map (cell_moved age) b ++ c.
Proof. apply (foldl_range_app cell_zero (cell_moved age)). Qed.

Lemma devcon_cell_init_n_app (a b c : list devcon_cell) attr age :
  devcon_cell_init_n (a ++ b ++ c) (Z.of_nat (length a))
    (Z.of_nat (length b)) attr age
  = a ++ replicate (length b) (cell_blank attr age) ++ c.
Proof.
  unfold devcon_cell_init_n.
  rewrite (foldl_range_app cell_zero (fun _ => cell_blank attr age)).
  do 2 f_equal. induction b; simpl; by f_equal.
Qed.

(** [devcon_cell_set] always leaves the cell it was asked for. *)
Lemma devcon_cell_set_result cell ch cwidth attr age h :
  fst (devcon_cell_set cell ch cwidth attr age h)
  = mk_cell ch age (attr_or_zero attr) cwidth.
Proof.
  unfold devcon_cell_set, bind, devcon_char_same.
  destruct (Z.eqb_spec (_value ch) (_value (cell_ch cell))) as [E | E];
    cbn [negb].
  - unfold ret. simpl. f_equal.
    destruct ch, (cell_ch cell). simpl in E. by subst.
  - destruct (devcon_char_free (cell_ch cell) h). done.
Qed.

(** A monadic loop that rewrites the elements of a range one by one,
    each to a value that does not depend on the heap. *)
Lemma for_loop_range_app {A} (d : A) (f : A -> A) (g : A -> M A)
    (a b c : list A) h :
  (forall x h, fst (g x h) = f x) ->
  fst (for_loop (seqZ 0 (Z.of_nat (length b)))
         (fun i cs =>
            x <- g (array_get d cs (Z.of_nat (length a) + i)) ;;
            ret (array_set cs (Z.of_nat (length a) + i) x))
         (a ++ b ++ c) h)
  = a ++ map f b ++ c.
Proof.
  intros Hg.
  pose proof (for_loop_seqZ_inv
    (fun i cs (_ : heap) =>
       cs = a ++ map f (take (Z.to_nat i) b) ++ drop (Z.to_nat i) b ++ c)
    (fun i cs =>
       x <- g (array_get d cs (Z.of_nat (length a) + i)) ;;
       ret (array_set cs (Z.of_nat (length a) + i) x))
    (length b) 0 (a ++ b ++ c) h) as Hloop.
  cbv beta in Hloop. rewrite Z.add_0_l, Nat2Z.id in Hloop.
  rewrite firstn_all, drop_all in Hloop. apply Hloop; [| done].
  clear Hloop. intros i cs h0 Hi ->. unfold bind, ret.
  specialize (Hg (array_get d
                    (a ++ map f (take (Z.to_nat i) b)
                       ++ drop (Z.to_nat i) b ++ c)
                    (Z.of_nat (length a) + i)) h0).
  destruct (g _ h0) as [x h1]. simpl in *. subst x.
  destruct (lookup_lt_is_Some_2 b (Z.to_nat i) ltac:(lia)) as [y Hy].
  rewrite (drop_S _ _ _ Hy).
  replace (Z.of_nat (length a) + i)
    with (Z.of_nat (length (a ++ map f (take (Z.to_nat i) b))))
    by (rewrite length_app, length_map, length_take; lia).
  rewrite (app_assoc a), <- app_comm_cons.
  rewrite array_get_app_middle, array_set_app_middle.
  replace (Z.to_nat (i + 1)) with (S (Z.to_nat i)) by lia.
  rewrite (take_S_r _ _ _ Hy), map_app. simpl.
  by rewrite <- !app_assoc.
Qed.

Lemma devcon_cell_clear_n_app (a b c : list devcon_cell) attr age h :
  fst (devcon_cell_clear_n (a ++ b ++ c) (Z.of_nat (length a))
         (Z.of_nat (length b)) attr age h)
  = a ++ replicate (length b) (cell_blank attr age) ++ c.
Proof.
  unfold devcon_cell_clear_n.
  rewrite (for_loop_range_app cell_zero (fun _ => cell_blank attr age)
             (fun x => devcon_cell_set x DEVCON_CHAR_NULL 0 attr age)).
  - do 2 f_equal. induction b; simpl; by f_equal.
  - intros x h0. apply devcon_cell_set_result.
Qed.

(** The erase loop on the range [b] of [a ++ b ++ c]. *)
Lemma devcon_line_erase_app line (a b c : list devcon_cell) from num
    attr age keep h :
  line_cells line = a ++ b ++ c ->
  from = Z.of_nat (length a) -> num = Z.of_nat (length b) ->
  from + num <= line_width line -> line_width line < 2 ^ 32 ->
  let line' := fst (devcon_line_erase line from num attr age keep h) in
  line_cells line' = a ++ map (erase_cell keep attr age) b ++ c /\
  line_width line' = line_width line /\
  line_n_cells line' = line_n_cells line /\
  line_age line' = line_age line /\
  (keep = false ->
   line_fill line'
   = if (from <? line_fill line) && (line_fill line <=? from + num)
     then from else line_fill line).
Proof.
  intros Hcells -> -> Hfit Hw line'. subst line'.
  unfold devcon_line_erase.
  destruct (Z.leb_spec (line_width line) (Z.of_nat (length a))).
  { destruct b; [| simpl in *; lia]. unfold ret. simpl.
    repeat split; try done. intros _.
    rewrite Z.add_0_r.
    destruct (Z.ltb_spec (Z.of_nat (length a)) (line_fill line));
      destruct (Z.leb_spec (line_fill line) (Z.of_nat (length a)));
      simpl; lia. }
  rewrite (u32_small (Z.of_nat (length a) + Z.of_nat (length b))) by lia.
  replace ((Z.of_nat (length a) + Z.of_nat (length b) <? Z.of_nat (length a))
           || (line_width line
               <? Z.of_nat (length a) + Z.of_nat (length b)))
    with false
    by (symmetry; apply orb_false_intro; apply Z.ltb_ge; lia).
  destruct (Z.eqb_spec (Z.of_nat (length b)) 0) as [E0 | E0].
  { destruct b; [| simpl in *; lia]. unfold ret. simpl.
    repeat split; try done. intros _.
    rewrite Z.add_0_r.
    destruct (Z.ltb_spec (Z.of_nat (length a)) (line_fill line));
      destruct (Z.leb_spec (line_fill line) (Z.of_nat (length a)));
      simpl; lia. }
  unfold bind. rewrite Hcells.
  match goal with
  | |- context [for_loop (seqZ 0 (Z.of_nat (length b))) ?body ?s0 h] =>
      pose proof (for_loop_seqZ_inv
        (fun i (st : list devcon_cell * Z) (_ : heap) =>
           fst st = a ++ map (erase_cell keep attr age)
                            (take (Z.to_nat i) b)
                       ++ drop (Z.to_nat i) b ++ c /\
           (keep = false -> snd st = 0))
        body (length b) 0 s0 h) as Hloop
  end.
  lapply Hloop; clear Hloop.
  2: { intros i [cs lp] h0 Hi [Hcs Hlp]. simpl in Hcs. subst cs.
       cbv beta iota.
       destruct (lookup_lt_is_Some_2 b (Z.to_nat i) ltac:(lia)) as [y Hy].
       rewrite (drop_S _ _ _ Hy).
       replace (Z.of_nat (length a) + i)
         with (Z.of_nat (length (a ++ map (erase_cell keep attr age)
                                          (take (Z.to_nat i) b))))
         by (rewrite length_app, length_map, length_take; lia).
       rewrite (app_assoc a), <- app_comm_cons.
       rewrite array_get_app_middle.
       replace (Z.to_nat (i + 1)) with (S (Z.to_nat i)) by lia.
       rewrite (take_S_r _ _ _ Hy), map_app. simpl map.
       destruct (keep && attr_protect (cell_attr y)) eqn:Ek.
       - assert (Ey : erase_cell keep attr age y = y)
           by (unfold erase_cell; by rewrite Ek).
         rewrite Ey. unfold ret. cbn [fst snd].
         split; [by rewrite <- !app_assoc |].
         intros ->. simpl in Ek. discriminate Ek.
       - assert (Ey : erase_cell keep attr age y = cell_blank attr age)
           by (unfold erase_cell; by rewrite Ek).
         rewrite Ey. unfold bind.
         pose proof (devcon_cell_set_result y DEVCON_CHAR_NULL 0 attr age
                       h0) as Hset.
         destruct (devcon_cell_set y DEVCON_CHAR_NULL 0 attr age h0)
           as [x h1]. simpl in Hset. subst x. unfold ret. cbn [fst snd].
         rewrite array_set_app_middle.
         split; [by rewrite <- !app_assoc | done]. }
  intros Hloop. lapply Hloop; clear Hloop.
  2: { simpl. done. }
  destruct (for_loop _ _ _ h) as [[cs lp] h1]. cbn [fst snd].
  rewrite Z.add_0_l, Nat2Z.id, firstn_all, drop_all.
  intros [-> Hlp]. unfold ret. cbn [fst snd line_cells line_width
    line_n_cells line_age line_fill].
  repeat split; try done.
  intros Hk. rewrite (Hlp Hk). rewrite u32_small by lia.
  destruct ((Z.of_nat (length a) <? line_fill line)
            && (line_fill line
                <=? Z.of_nat (length a) + Z.of_nat (length b)));
    [lia | done].
Qed.

(** X10: [devcon_line_erase] on a range inside the line blanks
    exactly the cells of the range (those that are not protected, when
    protected cells are kept) with the given attributes and age, leaves
    every other cell, the width, the allocation and the line age alone,
    and without protection moves [fill] back to the start of the range
    when the range starts inside the filled part and reaches its end. *)
Theorem line_erase_cells (line : devcon_line) (a b c : list devcon_cell)
    (from num : Z) (attr : option devcon_attr) (age : Z) (keep : bool)
    (h : heap)
    (Hcells : line_cells line = a ++ b ++ c)
    (Hfrom : from = Z.of_nat (length a))
    (Hnum : num = Z.of_nat (length b))
    (Hfit : from + num <= line_width line)
    (Hw : line_width line < 2 ^ 32) :
  let line' := fst (devcon_line_erase line from num attr age keep h) in
  line_cells line' = a ++ map (erase_cell keep attr age) b ++ c /\
  line_width line' = line_width line /\
  line_n_cells line' = line_n_cells line /\
  line_age line' = line_age line /\
  (keep = false ->
   line_fill line'
   = if (from <? line_fill line) && (line_fill line <=? from + num)
     then from else line_fill line).
Proof. by apply devcon_line_erase_app. Qed.

Lemma line_erase_cells_witness :
  (line_cells (line_ABCDE 1)
   = [cell_of 65 attr_zero 1]
       ++ [cell_of 66 attr_zero 1; cell_of 67 attr_protected 1]
       ++ [cell_of 68 attr_zero 1; cell_of 69 attr_zero 1] /\
   1 = Z.of_nat (length [cell_of 65 attr_zero 1]) /\
   2 = Z.of_nat (length [cell_of 66 attr_zero 1;
                         cell_of 67 attr_protected 1]) /\
   1 + 2 <= line_width (line_ABCDE 1) /\
   line_width (line_ABCDE 1) < 2 ^ 32) /\
  line_cells (fst (devcon_line_erase (line_ABCDE 1) 1 2 None 2 true
                     heap_granting))
  = [cell_of 65 attr_zero 1]
      ++ map (erase_cell true None 2)
           [cell_of 66 attr_zero 1; cell_of 67 attr_protected 1]
      ++ [cell_of 68 attr_zero 1; cell_of 69 attr_zero 1].
Proof.
  assert (H1 : line_cells (line_ABCDE 1)
               = [cell_of 65 attr_zero 1]
                   ++ [cell_of 66 attr_zero 1; cell_of 67 attr_protected 1]
                   ++ [cell_of 68 attr_zero 1; cell_of 69 attr_zero 1])
    by reflexivity.
  assert (H2 : 1 = Z.of_nat (length [cell_of 65 attr_zero 1]))
    by reflexivity.
  assert (H3 : 2 = Z.of_nat (length [cell_of 66 attr_zero 1;
                                     cell_of 67 attr_protected 1]))
    by reflexivity.
  assert (H4 : 1 + 2 <= line_width (line_ABCDE 1)) by (simpl; lia).
  assert (H5 : line_width (line_ABCDE 1) < 2 ^ 32) by (simpl; lia).
  split; [exact (conj H1 (conj H2 (conj H3 (conj H4 H5)))) |].
  exact (proj1 (line_erase_cells (line_ABCDE 1) _ _ _ 1 2 None 2 true
                  heap_granting H1 H2 H3 H4 H5)).
Defined.

Lemma map_erase_cell_unprotected attr age (l : list devcon_cell) :
  map (erase_cell false attr age) l
  = replicate (length l) (cell_blank attr age).
Proof. induction l; simpl; by f_equal. Qed.

(** X11: [devcon_line_reset] leaves a line of the same width with
    every visible cell blank in the given attributes and age and with
    [fill] zero; cells beyond the width are not touched. *)
Theorem line_reset_blank (line : devcon_line) (vis hid : list devcon_cell)
    (attr : option devcon_attr) (age : Z) (h : heap)
    (Hcells : line_cells line = vis ++ hid)
    (Hvis : line_width line = Z.of_nat (length vis))
    (Hinv : line_inv line) (Hw : line_width line < 2 ^ 32) :
  fst (devcon_line_reset line attr age h)
  = mk_line (line_width line) (line_n_cells line)
      (replicate (length vis) (cell_blank attr age) ++ hid)
      (line_age line) 0.
Proof.
  unfold devcon_line_reset.
  destruct (devcon_line_erase_app line [] vis hid 0 (line_width line)
              attr age false h Hcells eq_refl Hvis ltac:(lia) Hw)
    as (Hc & Hwd & Hn & Ha & Hf).
  specialize (Hf eq_refl).
  destruct (fst (devcon_line_erase line 0 (line_width line) attr age false
                   h)) as [w n cs ag fl].
  simpl in *. subst w n ag. f_equal.
  - rewrite Hc. simpl. by rewrite map_erase_cell_unprotected.
  - destruct Hinv as (H0 & H1 & H2). rewrite Hf.
    destruct (0 <? line_fill line) eqn:E1; simpl;
      [| apply Z.ltb_ge in E1; lia].
    destruct (_ <=? _) eqn:E2; [done | apply Z.leb_gt in E2; lia].
Qed.

Lemma line_reset_blank_witness :
  (line_cells line_AB = line_cells line_AB ++ [] /\
   line_width line_AB = Z.of_nat (length (line_cells line_AB)) /\
   line_inv line_AB /\ line_width line_AB < 2 ^ 32) /\
  fst (devcon_line_reset line_AB None 5 heap_granting)
  = mk_line 2 2 [cell_blank None 5; cell_blank None 5] 0 0.
Proof.
  assert (H1 : line_cells line_AB = line_cells line_AB ++ [])
    by reflexivity.
  assert (H2 : line_width line_AB = Z.of_nat (length (line_cells line_AB)))
    by reflexivity.
  assert (H3 : line_inv line_AB) by (unfold line_inv; simpl; lia).
  assert (H4 : line_width line_AB < 2 ^ 32) by (simpl; lia).
  split; [exact (conj H1 (conj H2 (conj H3 H4))) |].
  exact (line_reset_blank line_AB _ [] None 5 heap_granting H1 H2 H3 H4).
Defined.

(** [devcon_line_write] without insert mode, on a line cut at the
    position of the character. *)
Lemma devcon_line_write_app (line : devcon_line) (a : list devcon_cell)
    (c0 : devcon_cell) (tail rest : list devcon_cell) (pos_x : Z)
    (ch : devcon_char) (cwidth : Z) (attr : option devcon_attr) (age : Z)
    (h : heap)
    (Hcells : line_cells line = a ++ c0 :: tail ++ rest)
    (Hpos : pos_x = Z.of_nat (length a))
    (Hlen : Z.max 1 cwidth = 1 + Z.of_nat (length tail))
    (Hfit : pos_x + Z.max 1 cwidth <= line_width line)
    (Hw : line_width line < 2 ^ 32) :
  fst (devcon_line_write line pos_x ch cwidth attr age false h)
  = mk_line (line_width line) (line_n_cells line)
      (a ++ mk_cell ch age (attr_or_zero attr) cwidth
         :: replicate (length tail) (cell_blank attr age) ++ rest)
      (line_age line)
      (Z.min (line_width line)
         (Z.max (line_fill line) (pos_x + Z.max 1 cwidth))).
Proof.
  subst pos_x. unfold devcon_line_write.
  destruct (Z.leb_spec (line_width line) (Z.of_nat (length a))); [lia |].
  rewrite (u32_small (Z.of_nat (length a) + Z.max 1 cwidth)) by lia.
  replace ((Z.of_nat (length a) + Z.max 1 cwidth <? Z.of_nat (length a))
           || (line_width line <? Z.of_nat (length a) + Z.max 1 cwidth))
    with false
    by (symmetry; apply orb_false_intro; apply Z.ltb_ge; lia).
  destruct (Z.eqb_spec (Z.max 1 cwidth) 0); [lia |].
  unfold bind. rewrite Hcells, array_get_app_middle.
  pose proof (devcon_cell_set_result c0 ch cwidth attr age h) as Hset.
  destruct (devcon_cell_set c0 ch cwidth attr age h) as [x h1].
  simpl in Hset. subst x. rewrite array_set_app_middle.
  rewrite (u32_small (Z.max 1 cwidth - 1)) by lia.
  replace (Z.max 1 cwidth - 1) with (Z.of_nat (length tail)) by lia.
  set (c1 := mk_cell ch age (attr_or_zero attr) cwidth).
  replace (Z.of_nat (length a) + 1)
    with (Z.of_nat (length (a ++ [c1])))
    by (rewrite length_app; simpl; lia).
  replace (a ++ c1 :: tail ++ rest) with ((a ++ [c1]) ++ tail ++ rest)
    by (by rewrite <- app_assoc).
  pose proof (devcon_cell_clear_n_app (a ++ [c1]) tail rest attr age h1)
    as Hclr.
  destruct (devcon_cell_clear_n _ _ _ attr age h1) as [cs h2].
  simpl in Hclr. subst cs. unfold ret. cbn [fst].
  rewrite u32_small by lia. by rewrite <- app_assoc.
Qed.

(** X12: [devcon_line_write] without insert mode, for a character
    that fits into the line, sets the cell at the position to the
    character with its width, attributes and age, blanks the further
    cells a wide character covers, leaves every other cell alone, and
    extends [fill] to the end of the character. *)
Theorem line_write_cells (line : devcon_line) (a : list devcon_cell)
    (c0 : devcon_cell) (tail rest : list devcon_cell) (pos_x : Z)
    (ch : devcon_char) (cwidth : Z) (attr : option devcon_attr) (age : Z)
    (h : heap)
    (Hcells : line_cells line = a ++ c0 :: tail ++ rest)
    (Hpos : pos_x = Z.of_nat (length a))
    (Hlen : Z.max 1 cwidth = 1 + Z.of_nat (length tail))
    (Hfit : pos_x + Z.max 1 cwidth <= line_width line)
    (Hw : line_width line < 2 ^ 32) :
  fst (devcon_line_write line pos_x ch cwidth attr age false h)
  = mk_line (line_width line) (line_n_cells line)
      (a ++ mk_cell ch age (attr_or_zero attr) cwidth
         :: replicate (length tail) (cell_blank attr age) ++ rest)
      (line_age line)
      (Z.min (line_width line)
         (Z.max (line_fill line) (pos_x + Z.max 1 cwidth))).
Proof.
  by apply (devcon_line_write_app line a c0 tail rest).
Qed.

Lemma line_write_cells_witness :
  (line_cells line_AB
   = [cell_of 65 attr_zero 1] ++ cell_of 66 attr_zero 1 :: [] ++ [] /\
   1 = Z.of_nat (length [cell_of 65 attr_zero 1]) /\
   Z.max 1 1 = 1 + Z.of_nat (length (@nil devcon_cell)) /\
   1 + Z.max 1 1 <= line_width line_AB /\
   line_width line_AB < 2 ^ 32) /\
  line_cells (fst (devcon_line_write line_AB 1 (devcon_char_pack1 90) 1
                     None 7 false heap_granting))
  = [cell_of 65 attr_zero 1; cell_of 90 attr_zero 7].
Proof.
  assert (H1 : line_cells line_AB
               = [cell_of 65 attr_zero 1]
                   ++ cell_of 66 attr_zero 1 :: [] ++ []) by reflexivity.
  assert (H2 : 1 = Z.of_nat (length [cell_of 65 attr_zero 1]))
    by reflexivity.
  assert (H3 : Z.max 1 1 = 1 + Z.of_nat (length (@nil devcon_cell)))
    by reflexivity.
  assert (H4 : 1 + Z.max 1 1 <= line_width line_AB) by (simpl; lia).
  assert (H5 : line_width line_AB < 2 ^ 32) by (simpl; lia).
  split; [exact (conj H1 (conj H2 (conj H3 (conj H4 H5)))) |].
  exact (f_equal line_cells
           (line_write_cells line_AB _ _ _ _ 1 (devcon_char_pack1 90) 1
              None 7 heap_granting H1 H2 H3 H4 H5)).
Defined.

(** The cells after the moving part of [devcon_line_delete]: the tail
    moved up, what is left of the old cells, and the blanks at the end. *)
Lemma delete_cells_moved (a del tail rest : list devcon_cell) attr age
    width :
  width = Z.of_nat (length a) + Z.of_nat (length del)
          + Z.of_nat (length tail) ->
  let cells := a ++ del ++ tail ++ rest in
  let nd := length del in
  let nt := length tail in
  let rem := Z.min (Z.of_nat nd) (Z.of_nat nt) in
  devcon_cell_init_n
    (cells_set_age
       (array_copy cells (Z.of_nat (length a))
          (array_sub cells (Z.of_nat (length a) + Z.of_nat nd)
             (Z.of_nat nt)))
       (Z.of_nat (length a)) (Z.of_nat nt) age)
    (width - rem) rem attr age
  = a ++ map (cell_moved age) tail
      ++ take (nd - Z.to_nat rem) (drop nt (del ++ tail))
      ++ replicate (Z.to_nat rem) (cell_blank attr age) ++ rest.
Proof.
  intros Hwidth. cbv zeta.
  set (rem := Z.min (Z.of_nat (length del)) (Z.of_nat (length tail))).
  set (D := drop (length tail) (del ++ tail)).
  assert (HD : length D = length del)
    by (subst D; rewrite length_drop, length_app; lia).
  replace (Z.of_nat (length a) + Z.of_nat (length del))
    with (Z.of_nat (length (a ++ del)))
    by (rewrite length_app; lia).
  replace (array_sub (a ++ del ++ tail ++ rest)
             (Z.of_nat (length (a ++ del))) (Z.of_nat (length tail)))
    with tail
    by (rewrite (app_assoc a del (tail ++ rest));
        by rewrite array_sub_app).
  replace (a ++ del ++ tail ++ rest)
    with (a ++ take (length tail) (del ++ tail) ++ D ++ rest)
    by (by subst D;
        rewrite (app_assoc (take _ _)), take_drop, <- app_assoc).
  rewrite array_copy_app
    by (rewrite length_take, length_app; lia).
  rewrite cells_set_age_app.
  assert (Hrem : 0 <= rem <= Z.of_nat (length del)) by (subst rem; lia).
  set (k := (length del - Z.to_nat rem)%nat).
  assert (Hk : length (drop k D) = Z.to_nat rem)
    by (rewrite length_drop; lia).
  pose proof (devcon_cell_init_n_app
                (a ++ map (cell_moved age) tail ++ take k D) (drop k D)
                rest attr age) as Hin.
  rewrite Hk, Z2Nat.id in Hin by lia.
  replace (Z.of_nat (length (a ++ map (cell_moved age) tail ++ take k D)))
    with (width - rem) in Hin
    by (rewrite !length_app, length_map, length_take; lia).
  rewrite <- !app_assoc in Hin. rewrite (app_assoc (take k D)) in Hin.
  rewrite take_drop in Hin. exact Hin.
Qed.

(** X13: [devcon_line_delete] of [num] cells at [from] removes
    them, moves the cells to their right up to the width [num] places to
    the left (with the new age), fills the [num] places freed at the right
    end with blank cells, and leaves the cells left of [from] and beyond
    the width alone; [fill] shrinks by what was deleted of the filled
    part. *)
Theorem line_delete_cells (line : devcon_line)
    (a del tail rest : list devcon_cell) (from num : Z)
    (attr : option devcon_attr) (age : Z) (h : heap)
    (Hcells : line_cells line = a ++ del ++ tail ++ rest)
    (Hfrom : from = Z.of_nat (length a))
    (Hnum : num = Z.of_nat (length del)) (Hdel : 1 <= num)
    (Hwidth : line_width line
              = Z.of_nat (length a) + Z.of_nat (length del)
                + Z.of_nat (length tail))
    (Hw : line_width line < 2 ^ 32)
    (Hfill : 0 <= line_fill line <= line_width line) :
  fst (devcon_line_delete line from num attr age h)
  = mk_line (line_width line) (line_n_cells line)
      (a ++ map (cell_moved age) tail
         ++ replicate (length del) (cell_blank attr age) ++ rest)
      (line_age line)
      (if from + num <? line_fill line then line_fill line - num
       else if from <? line_fill line then from
       else line_fill line).
Proof.
  subst from num. unfold devcon_line_delete.
  destruct (Z.leb_spec (line_width line) (Z.of_nat (length a))); [lia |].
  rewrite !(u32_small (Z.of_nat (length a) + Z.of_nat (length del)))
    by lia.
  replace ((Z.of_nat (length a) + Z.of_nat (length del)
            <? Z.of_nat (length a))
           || (line_width line
               <? Z.of_nat (length a) + Z.of_nat (length del)))
    with false
    by (symmetry; apply orb_false_intro; apply Z.ltb_ge; lia).
  destruct (Z.eqb_spec (Z.of_nat (length del)) 0); [lia |].
  rewrite (u32_small (line_width line - Z.of_nat (length a))) by lia.
  rewrite (u32_small (line_width line - Z.of_nat (length a)
                      - Z.of_nat (length del))) by lia.
  replace (line_width line - Z.of_nat (length a) - Z.of_nat (length del))
    with (Z.of_nat (length tail)) by lia.
  assert (Hfl : (if Z.of_nat (length a) + Z.of_nat (length del)
                      <? line_fill line
                 then u32 (line_fill line - Z.of_nat (length del))
                 else if Z.of_nat (length a) <? line_fill line
                      then Z.of_nat (length a) else line_fill line)
                = (if Z.of_nat (length a) + Z.of_nat (length del)
                        <? line_fill line
                   then line_fill line - Z.of_nat (length del)
                   else if Z.of_nat (length a) <? line_fill line
                        then Z.of_nat (length a) else line_fill line)).
  { destruct (Z.ltb_spec (Z.of_nat (length a) + Z.of_nat (length del))
                (line_fill line)); [| done].
    apply u32_small. lia. }
  pose proof (delete_cells_moved a del tail rest attr age
                (line_width line) Hwidth) as Hmv.
  cbv zeta in Hmv. rewrite <- Hcells in Hmv.
  unfold bind.
  destruct (Z.ltb_spec 0 (Z.min (Z.of_nat (length del))
                            (Z.of_nat (length tail)))) as [Hrem | Hrem].
  - destruct (devcon_cell_destroy_n _ _ _ h) as [u h1].
    rewrite Hmv.
    destruct (Z.ltb_spec (Z.of_nat (length tail)) (Z.of_nat (length del)))
      as [Hlt | Hge].
    + rewrite Z.min_r by lia. rewrite (u32_small (_ - _)) by lia.
      rewrite Nat2Z.id.
      set (D1 := take (length del - length tail)
                   (drop (length tail) (del ++ tail))).
      assert (HD1 : length D1 = (length del - length tail)%nat)
        by (subst D1; rewrite length_take, length_drop, length_app; lia).
      pose proof (devcon_cell_clear_n_app
                    (a ++ map (cell_moved age) tail) D1
                    (replicate (length tail) (cell_blank attr age) ++ rest)
                    attr age h1) as Hclr.
      rewrite HD1 in Hclr.
      replace (Z.of_nat (length (a ++ map (cell_moved age) tail)))
        with (Z.of_nat (length a) + Z.of_nat (length tail)) in Hclr
        by (rewrite length_app, length_map; lia).
      replace (Z.of_nat (length del - length tail))
        with (Z.of_nat (length del) - Z.of_nat (length tail)) in Hclr
        by lia.
      rewrite <- (app_assoc a) in Hclr.
      destruct (devcon_cell_clear_n _ _ _ attr age h1) as [cs h2].
      simpl in Hclr. subst cs. unfold ret. cbn [fst].
      rewrite (u32_small (Z.of_nat (length a) + _)) by lia. rewrite Hfl.
      f_equal. rewrite <- app_assoc. do 2 f_equal.
      rewrite app_assoc, <- replicate_add. do 2 f_equal. lia.
    + rewrite Z.min_l by lia. unfold ret. cbn [fst].
      rewrite (u32_small (Z.of_nat (length a) + _)) by lia. rewrite Hfl.
      f_equal. rewrite Nat2Z.id, Nat.sub_diag, take_0. done.
  - destruct tail; [| simpl in Hrem; lia].
    pose proof (devcon_cell_clear_n_app a del rest attr age h) as Hclr.
    simpl in Hcells. rewrite <- Hcells in Hclr.
    destruct (devcon_cell_clear_n _ _ _ attr age h) as [cs h2].
    simpl in Hclr. subst cs. unfold ret. cbn [fst].
    rewrite (u32_small (Z.of_nat (length a) + _)) by lia. rewrite Hfl.
    done.
Qed.

Lemma line_delete_cells_witness :
  (line_cells (line_ABCDE 1)
   = [cell_of 65 attr_zero 1]
       ++ [cell_of 66 attr_zero 1; cell_of 67 attr_protected 1]
       ++ [cell_of 68 attr_zero 1; cell_of 69 attr_zero 1] ++ [] /\
   1 = Z.of_nat (length [cell_of 65 attr_zero 1]) /\
   2 = Z.of_nat (length [cell_of 66 attr_zero 1;
                         cell_of 67 attr_protected 1]) /\
   1 <= 2 /\
   line_width (line_ABCDE 1)
   = Z.of_nat (length [cell_of 65 attr_zero 1])
     + Z.of_nat (length [cell_of 66 attr_zero 1;
                         cell_of 67 attr_protected 1])
     + Z.of_nat (length [cell_of 68 attr_zero 1; cell_of 69 attr_zero 1]) /\
   line_width (line_ABCDE 1) < 2 ^ 32 /\
   0 <= line_fill (line_ABCDE 1) <= line_width (line_ABCDE 1)) /\
  fst (devcon_line_delete (line_ABCDE 1) 1 2 None 9 heap_granting)
  = mk_line 5 5
      [cell_of 65 attr_zero 1; cell_of 68 attr_zero 9;
       cell_of 69 attr_zero 9; cell_blank None 9; cell_blank None 9]
      0 3.
Proof.
  assert (H1 : line_cells (line_ABCDE 1)
               = [cell_of 65 attr_zero 1]
                   ++ [cell_of 66 attr_zero 1; cell_of 67 attr_protected 1]
                   ++ [cell_of 68 attr_zero 1; cell_of 69 attr_zero 1]
                   ++ []) by reflexivity.
  assert (H2 : 1 = Z.of_nat (length [cell_of 65 attr_zero 1]))
    by reflexivity.
  assert (H3 : 2 = Z.of_nat (length [cell_of 66 attr_zero 1;
                                     cell_of 67 attr_protected 1]))
    by reflexivity.
  assert (H4 : 1 <= 2) by lia.
  assert (H5 : line_width (line_ABCDE 1)
               = Z.of_nat (length [cell_of 65 attr_zero 1])
                 + Z.of_nat (length [cell_of 66 attr_zero 1;
                                     cell_of 67 attr_protected 1])
                 + Z.of_nat (length [cell_of 68 attr_zero 1;
                                     cell_of 69 attr_zero 1]))
    by reflexivity.
  assert (H6 : line_width (line_ABCDE 1) < 2 ^ 32) by (simpl; lia).
  assert (H7 : 0 <= line_fill (line_ABCDE 1) <= line_width (line_ABCDE 1))
    by (simpl; lia).
  split; [exact (conj H1 (conj H2 (conj H3 (conj H4 (conj H5
                   (conj H6 H7)))))) |].
  exact (line_delete_cells (line_ABCDE 1) _ _ _ _ 1 2 None 9 heap_granting
           H1 H2 H3 H4 H5 H6 H7).
Defined.

(** The cells after the moving part of [devcon_line_place]: blanks at the
    place of insertion, then the cells that were kept, moved right. *)
Lemma insert_cells_moved (a keep gone rest : list devcon_cell) attr age :
  (1 <= length gone)%nat ->
  let cells := a ++ keep ++ gone ++ rest in
  let from := Z.of_nat (length a) in
  let num := Z.of_nat (length gone) in
  let cells :=
    cells_set_age
      (array_copy cells (from + num)
         (array_sub cells from (Z.of_nat (length keep))))
      (from + num) (Z.of_nat (length keep)) age in
  devcon_cell_init_n
    (array_set cells from
       (devcon_cell_init (array_get cell_zero cells from) DEVCON_CHAR_NULL
          0 attr age))
    (from + 1) (num - 1) attr age
  = a ++ replicate (length gone) (cell_blank attr age)
      ++ map (cell_moved age) keep ++ rest.
Proof.
  intros Hgone. cbv zeta.
  set (X := keep ++ gone).
  assert (HX : length X = (length keep + length gone)%nat)
    by (subst X; apply length_app).
  rewrite array_sub_app.
  replace (a ++ keep ++ gone ++ rest)
    with ((a ++ take (length gone) X) ++ drop (length gone) X ++ rest)
    by (subst X; rewrite <- (app_assoc a), (app_assoc (take _ _)),
          take_drop, <- app_assoc; done).
  replace (Z.of_nat (length a) + Z.of_nat (length gone))
    with (Z.of_nat (length (a ++ take (length gone) X)))
    by (rewrite length_app, length_take; lia).
  rewrite array_copy_app by (rewrite length_drop; lia).
  rewrite cells_set_age_app.
  destruct (take (length gone) X) as [|t0 T] eqn:ET.
  { apply (f_equal length) in ET. rewrite length_take in ET.
    simpl in ET. lia. }
  assert (HT : length T = (length gone - 1)%nat).
  { apply (f_equal length) in ET. rewrite length_take in ET.
    simpl in ET. lia. }
  rewrite <- (app_assoc a). rewrite <- app_comm_cons.
  rewrite array_get_app_middle, array_set_app_middle.
  unfold devcon_cell_init. fold (cell_blank attr age).
  pose proof (devcon_cell_init_n_app (a ++ [cell_blank attr age]) T
                (map (cell_moved age) keep ++ rest) attr age) as Hin.
  rewrite <- !app_assoc in Hin. simpl app in Hin.
  replace (Z.of_nat (length (a ++ [cell_blank attr age])))
    with (Z.of_nat (length a) + 1) in Hin
    by (rewrite length_app; simpl; lia).
  replace (Z.of_nat (length T)) with (Z.of_nat (length gone) - 1) in Hin
    by lia.
  rewrite Hin, HT.
  replace (length gone) with (S (length gone - 1)) at 2 by lia.
  done.
Qed.

(** X14: [devcon_line_insert] of [num] cells at [from] puts [num]
    blank cells there, moves the cells from [from] on [num] places to the
    right (with the new age), drops the [num] cells that no longer fit
    into the width, and leaves the cells left of [from] and beyond the
    width alone. *)
Theorem line_insert_cells (line : devcon_line)
    (a keep gone rest : list devcon_cell) (from num : Z)
    (attr : option devcon_attr) (age : Z) (h : heap)
    (Hcells : line_cells line = a ++ keep ++ gone ++ rest)
    (Hfrom : from = Z.of_nat (length a))
    (Hnum : num = Z.of_nat (length gone)) (Hgone : 1 <= num)
    (Hwidth : line_width line
              = Z.of_nat (length a) + Z.of_nat (length keep)
                + Z.of_nat (length gone))
    (Hw : line_width line < 2 ^ 31)
    (Hfill : 0 <= line_fill line <= line_width line) :
  fst (devcon_line_insert line from num attr age h)
  = mk_line (line_width line) (line_n_cells line)
      (a ++ replicate (length gone) (cell_blank attr age)
         ++ map (cell_moved age) keep ++ rest)
      (line_age line)
      (Z.min (line_width line)
         (Z.max (line_fill line + num) (from + num))).
Proof.
  subst from num. unfold devcon_line_insert, devcon_line_place.
  destruct (Z.leb_spec (line_width line) (Z.of_nat (length a))); [lia |].
  rewrite !(u32_small (Z.of_nat (length a) + Z.of_nat (length gone)))
    by lia.
  replace ((Z.of_nat (length a) + Z.of_nat (length gone)
            <? Z.of_nat (length a))
           || (line_width line
               <? Z.of_nat (length a) + Z.of_nat (length gone)))
    with false
    by (symmetry; apply orb_false_intro; apply Z.ltb_ge; lia).
  destruct (Z.eqb_spec (Z.of_nat (length gone)) 0); [lia |].
  rewrite (u32_small (line_width line - Z.of_nat (length a))) by lia.
  rewrite (u32_small (line_width line - Z.of_nat (length a)
                      - Z.of_nat (length gone))) by lia.
  replace (line_width line - Z.of_nat (length a)
           - Z.of_nat (length gone))
    with (Z.of_nat (length keep)) by lia.
  pose proof (insert_cells_moved a keep gone rest attr age ltac:(lia))
    as Hmv.
  cbv zeta in Hmv. rewrite <- Hcells in Hmv.
  destruct (Z.ltb_spec 0 (Z.min (Z.of_nat (length gone))
                            (Z.of_nat (length keep)))) as [Hrem | Hrem].
  - unfold bind. destruct (devcon_cell_destroy_n _ _ _ h) as [u h1].
    unfold ret. cbn [fst].
    rewrite (u32_small (Z.of_nat (length gone) - 1)) by lia.
    rewrite Hmv.
    rewrite ?(u32_small (Z.of_nat (length a) + _)) by lia.
    rewrite (u32_small (line_fill line + _)) by lia. done.
  - destruct keep; [| simpl in Hrem; lia].
    simpl in Hcells, Hwidth.
    destruct gone as [|g0 G]; [simpl in *; lia |].
    unfold bind. rewrite Hcells. rewrite <- !app_comm_cons.
    rewrite array_get_app_middle.
    pose proof (devcon_cell_set_result g0 DEVCON_CHAR_NULL 0 attr age h)
      as Hset.
    destruct (devcon_cell_set g0 DEVCON_CHAR_NULL 0 attr age h)
      as [x h1]. simpl in Hset. subst x.
    rewrite array_set_app_middle. fold (cell_blank attr age).
    pose proof (devcon_cell_clear_n_app (a ++ [cell_blank attr age]) G
                  rest attr age h1) as Hclr.
    rewrite <- !app_assoc in Hclr. simpl app in Hclr.
    replace (Z.of_nat (length (a ++ [cell_blank attr age])))
      with (Z.of_nat (length a) + 1) in Hclr
      by (rewrite length_app; simpl; lia).
    rewrite (u32_small (Z.of_nat (length (g0 :: G)) - 1)) by lia.
    replace (Z.of_nat (length (g0 :: G)) - 1) with (Z.of_nat (length G))
      by (simpl; lia).
    destruct (devcon_cell_clear_n _ _ _ attr age h1) as [cs h2].
    simpl in Hclr. subst cs. unfold ret. cbn [fst]. f_equal.
    simpl length in *. lia.
Qed.

Lemma line_insert_cells_witness :
  (line_cells (line_ABCDE 1)
   = [cell_of 65 attr_zero 1]
       ++ [cell_of 66 attr_zero 1; cell_of 67 attr_protected 1]
       ++ [cell_of 68 attr_zero 1; cell_of 69 attr_zero 1] ++ [] /\
   1 = Z.of_nat (length [cell_of 65 attr_zero 1]) /\
   2 = Z.of_nat (length [cell_of 68 attr_zero 1; cell_of 69 attr_zero 1]) /\
   1 <= 2 /\
   line_width (line_ABCDE 1)
   = Z.of_nat (length [cell_of 65 attr_zero 1])
     + Z.of_nat (length [cell_of 66 attr_zero 1;
                         cell_of 67 attr_protected 1])
     + Z.of_nat (length [cell_of 68 attr_zero 1; cell_of 69 attr_zero 1]) /\
   line_width (line_ABCDE 1) < 2 ^ 31 /\
   0 <= line_fill (line_ABCDE 1) <= line_width (line_ABCDE 1)) /\
  fst (devcon_line_insert (line_ABCDE 1) 1 2 None 9 heap_granting)
  = mk_line 5 5
      [cell_of 65 attr_zero 1; cell_blank None 9; cell_blank None 9;
       cell_of 66 attr_zero 9; cell_of 67 attr_protected 9]
      0 5.
Proof.
  assert (H1 : line_cells (line_ABCDE 1)
               = [cell_of 65 attr_zero 1]
                   ++ [cell_of 66 attr_zero 1; cell_of 67 attr_protected 1]
                   ++ [cell_of 68 attr_zero 1; cell_of 69 attr_zero 1]
                   ++ []) by reflexivity.
  assert (H2 : 1 = Z.of_nat (length [cell_of 65 attr_zero 1]))
    by reflexivity.
  assert (H3 : 2 = Z.of_nat (length [cell_of 68 attr_zero 1;
                                     cell_of 69 attr_zero 1]))
    by reflexivity.
  assert (H4 : 1 <= 2) by lia.
  assert (H5 : line_width (line_ABCDE 1)
               = Z.of_nat (length [cell_of 65 attr_zero 1])
                 + Z.of_nat (length [cell_of 66 attr_zero 1;
                                     cell_of 67 attr_protected 1])
                 + Z.of_nat (length [cell_of 68 attr_zero 1;
                                     cell_of 69 attr_zero 1]))
    by reflexivity.
  assert (H6 : line_width (line_ABCDE 1) < 2 ^ 31) by (simpl; lia).
  assert (H7 : 0 <= line_fill (line_ABCDE 1) <= line_width (line_ABCDE 1))
    by (simpl; lia).
  split; [exact (conj H1 (conj H2 (conj H3 (conj H4 (conj H5
                   (conj H6 H7)))))) |].
  exact (line_insert_cells (line_ABCDE 1) _ _ _ _ 1 2 None 9 heap_granting
           H1 H2 H3 H4 H5 H6 H7).
Defined.

(** ** Pages: scroll region, scrolling without history, lines *)

(** X15: [devcon_page_set_scroll_region] clips the region to the
    visible page: it starts on a visible line when there is one, ends no
    lower than the last visible line, never grows beyond what was asked,
    and a region that already lies inside the page is taken as it is. *)
Theorem page_set_scroll_region_clipped (p : devcon_page) (idx num : Z)
    (Hh : is_u32 (page_height p)) (Hi : is_u32 idx) (Hn : is_u32 num) :
  let p' := devcon_page_set_scroll_region p idx num in
  0 <= page_scroll_idx p' <= idx /\
  0 <= page_scroll_num p' <= num /\
  page_scroll_idx p' + page_scroll_num p' <= page_height p /\
  (1 <= page_height p -> page_scroll_idx p' < page_height p) /\
  (idx < page_height p -> idx + num <= page_height p ->
   page_scroll_idx p' = idx /\ page_scroll_num p' = num) /\
  page_lines p' = page_lines p /\ page_width p' = page_width p /\
  page_height p' = page_height p.
Proof.
  intros p'. subst p'. unfold devcon_page_set_scroll_region, is_u32 in *.
  destruct (Z.ltb_spec (page_height p) 1).
  - simpl. repeat split; lia.
  - rewrite (u32_small (page_height p - 1)) by lia.
    rewrite u32_small by lia. simpl. repeat split; lia.
Qed.

Lemma page_set_scroll_region_clipped_witness :
  (is_u32 (page_height page_A_to_E) /\ is_u32 3 /\ is_u32 7) /\
  page_scroll_idx (devcon_page_set_scroll_region page_A_to_E 3 7)
  + page_scroll_num (devcon_page_set_scroll_region page_A_to_E 3 7)
  <= page_height page_A_to_E.
Proof.
  assert (H1 : is_u32 (page_height page_A_to_E))
    by (unfold is_u32; simpl; lia).
  assert (H2 : is_u32 3) by (unfold is_u32; lia).
  assert (H3 : is_u32 7) by (unfold is_u32; lia).
  split; [exact (conj H1 (conj H2 H3)) |].
  exact (proj1 (proj2 (proj2
           (page_set_scroll_region_clipped page_A_to_E 3 7 H1 H2 H3)))).
Defined.

(** Erasing never asks the allocator for anything. *)
Lemma devcon_cell_set_grants cell ch cwidth attr age h :
  grants (snd (devcon_cell_set cell ch cwidth attr age h)) = grants h.
Proof.
  unfold devcon_cell_set, bind.
  destruct (negb (devcon_char_same ch (cell_ch cell))); [| done].
  pose proof (devcon_char_free_grants (cell_ch cell) h) as H.
  by destruct (devcon_char_free (cell_ch cell) h).
Qed.

Lemma devcon_line_erase_grants line from num attr age keep h :
  grants (snd (devcon_line_erase line from num attr age keep h))
  = grants h.
Proof.
  unfold devcon_line_erase.
  destruct (line_width line <=? from); [done |].
  match goal with |- context [if ?c =? 0 then _ else _] =>
    destruct (c =? 0); [done |] end.
  unfold bind.
  match goal with
  | |- context [for_loop ?idx ?body ?s0 h] =>
      pose proof (for_loop_snd_inv (fun h' => grants h' = grants h) idx
                    body) as Hloop
  end.
  lapply Hloop; clear Hloop.
  2: { intros i [cs lp] h0 H0.
       destruct (keep && _); [done |].
       unfold bind.
       pose proof (devcon_cell_set_grants
                     (array_get cell_zero cs (from + i)) DEVCON_CHAR_NULL 0
                     attr age h0) as Hs.
       destruct (devcon_cell_set _ _ _ _ _ h0) as [c h1].
       simpl in *. congruence. }
  intros Hloop.
  match goal with
  | |- context [for_loop ?idx ?body ?s0 h] =>
      specialize (Hloop s0 h eq_refl);
      destruct (for_loop idx body s0 h) as [[cs lp] h1]
  end.
  done.
Qed.

(** What [devcon_line_reset] leaves of an allocated line. *)
Lemma devcon_line_reset_blank line attr age h :
  line_allocated line ->
  fst (devcon_line_reset line attr age h) = line_blank attr age line.
Proof.
  intros (Hinv & Hn & Hn32). pose proof Hinv as (H0 & H1 & H2).
  unfold devcon_line_reset, line_blank.
  set (vis := take (Z.to_nat (line_width line)) (line_cells line)).
  set (hid := drop (Z.to_nat (line_width line)) (line_cells line)).
  assert (Hvis : line_width line = Z.of_nat (length vis))
    by (subst vis; rewrite length_take_le by lia; lia).
  destruct (devcon_line_erase_app line [] vis hid 0 (line_width line)
              attr age false h) as (Hc & Hwd & Hnc & Ha & Hf);
    try done; try lia.
  { subst vis hid. by rewrite take_drop. }
  specialize (Hf eq_refl).
  destruct (fst (devcon_line_erase line 0 (line_width line) attr age false
                   h)) as [w n cs ag fl].
  simpl in *. subst w n ag. f_equal.
  - rewrite Hc, map_erase_cell_unprotected. do 2 f_equal. lia.
  - rewrite Hf.
    destruct (0 <? line_fill line) eqn:E1; simpl;
      [| apply Z.ltb_ge in E1; lia].
    destruct (_ <=? _) eqn:E2; [done | apply Z.leb_gt in E2; lia].
Qed.

Lemma devcon_line_reset_grants line attr age h :
  grants (snd (devcon_line_reset line attr age h)) = grants h.
Proof. apply devcon_line_erase_grants. Qed.

Lemma array_set_take_snoc {A} (cache : list A) (i : Z) (x : A) :
  0 <= i < Z.of_nat (length cache) ->
  take (S (Z.to_nat i)) (array_set cache i x)
  = take (Z.to_nat i) cache ++ [x].
Proof.
  intros Hi. unfold array_set. destruct (Z.ltb_spec i 0); [lia |].
  rewrite (take_S_r _ _ x) by (apply list_lookup_insert_eq; lia).
  by rewrite take_insert_ge by lia.
Qed.

(** Scrolling up without a history: the top lines are reset and reused
    at the bottom, the rest moves up, nothing is allocated. *)
Lemma devcon_page_up_reuses (p : devcon_page) pre top rest post new_width
    n attr age h :
  page_lines p = pre ++ top ++ rest ++ post ->
  page_scroll_idx p = Z.of_nat (length pre) ->
  page_scroll_num p = Z.of_nat (length top) + Z.of_nat (length rest) ->
  (if page_scroll_num p <? n then page_scroll_num p else n)
  = Z.of_nat (length top) ->
  (1 <= length top)%nat ->
  Z.of_nat (length (page_lines p)) < 2 ^ 32 ->
  Forall line_allocated top ->
  fst (devcon_page_up p new_width n attr age None h)
  = (page_with_lines p
       (pre ++ map (fun l => line_with_age l age) rest
          ++ map (line_blank attr age) top ++ post)
       (u32 (page_scroll_fill p
             - Z.min (page_scroll_fill p) (Z.of_nat (length top)))),
     None) /\
  grants (snd (devcon_page_up p new_width n attr age None h)) = grants h.
Proof.
  intros HL Hidx Hnum Hm Htop Hlen Hok.
  assert (Hlen' : Z.of_nat (length pre) + Z.of_nat (length top)
                  + Z.of_nat (length rest) < 2 ^ 32).
  { rewrite HL, !length_app in Hlen. lia. }
  unfold devcon_page_up. rewrite Hm. cbv zeta.
  destruct (Z.ltb_spec (Z.of_nat (length top)) 1); [lia |].
  unfold bind.
  set (bl := line_blank attr age).
  match goal with
  | |- context [for_loop (seqZ 0 (Z.of_nat (length top))) ?b ?s0 h] =>
      pose proof (for_loop_seqZ_inv
        (fun i (st : scroll_state) (h0 : heap) =>
           let '(lines, cache, hist) := st in
           lines = pre ++ map bl (take (Z.to_nat i) top)
                     ++ drop (Z.to_nat i) top ++ rest ++ post /\
           length cache = length (page_lines p) /\
           take (Z.to_nat i) cache = map bl (take (Z.to_nat i) top) /\
           hist = None /\ grants h0 = grants h)
        b (length top) 0 s0 h) as Hloop
  end.
  lapply Hloop; clear Hloop.
  2: { intros i [[lines cache] hist] h0 Hi (-> & Hc & Hcache & -> & Hg).
       cbv beta iota.
       destruct (lookup_lt_is_Some_2 top (Z.to_nat i) ltac:(lia))
         as [t Ht].
       rewrite u32_small by lia. rewrite Hidx.
       rewrite (drop_S _ _ _ Ht).
       replace (Z.of_nat (length pre) + i)
         with (Z.of_nat (length (pre ++ map bl (take (Z.to_nat i) top))))
         by (rewrite length_app, length_map, length_take; lia).
       rewrite (app_assoc pre), <- app_comm_cons.
       rewrite array_get_app_middle.
       unfold scroll_reuse, bind.
       assert (Ht' : line_allocated t).
       { rewrite Forall_forall in Hok. apply Hok.
         by apply (list_elem_of_lookup_2 _ (Z.to_nat i)). }
       pose proof (devcon_line_reset_blank t attr age h0 Ht') as Hr.
       pose proof (devcon_line_reset_grants t attr age h0) as Hrg.
       destruct (devcon_line_reset t attr age h0) as [t' h1].
       simpl in Hr, Hrg. subst t'. unfold ret. cbn [fst snd].
       rewrite array_set_app_middle.
       replace (Z.to_nat (i + 1)) with (S (Z.to_nat i)) by lia.
       rewrite (take_S_r _ _ _ Ht), map_app. simpl map.
       split; [by rewrite <- !app_assoc |].
       split; [by rewrite array_set_length |].
       split; [| split; [done | congruence]].
       rewrite array_set_take_snoc
         by (rewrite Hc, HL, !length_app; lia).
       by rewrite Hcache. }
  intros Hloop. lapply Hloop; clear Hloop.
  2: { split; [done |]. split; [by rewrite length_replicate |]. done. }
  destruct (for_loop _ _ _ h) as [[[lines cache] hist] h'].
  cbn [fst snd]. intros (-> & Hc & Hcache & -> & Hg).
  rewrite Z.add_0_l, Nat2Z.id, firstn_all in Hcache.
  rewrite Z.add_0_l, Nat2Z.id, firstn_all, drop_all. simpl app.
  unfold ret. cbn [fst snd]. split; [| done].
  assert (Hsrc : array_sub cache 0 (Z.of_nat (length top)) = map bl top).
  { unfold array_sub. by rewrite Nat2Z.id. }
  rewrite Hsrc.
  by rewrite (move_up_lines _ pre (map bl top) rest post (map bl top)
                (page_scroll_idx p) (page_scroll_num p)
                (Z.of_nat (length top)) age eq_refl Hidx
                ltac:(by rewrite length_map) Hnum ltac:(lia) eq_refl).
Qed.

(** Scrolling down without a history: the bottom lines are reset and
    reused at the top, the rest moves down, nothing is allocated. *)
Lemma devcon_page_down_reuses (p : devcon_page) pre rest mid post new_width
    n attr age h :
  page_lines p = pre ++ rest ++ mid ++ post ->
  page_scroll_idx p = Z.of_nat (length pre) ->
  page_scroll_num p = Z.of_nat (length mid) + Z.of_nat (length rest) ->
  (if page_scroll_num p <? n then page_scroll_num p else n)
  = Z.of_nat (length mid) ->
  (1 <= length mid)%nat ->
  Z.of_nat (length (page_lines p)) < 2 ^ 32 ->
  Forall line_allocated mid ->
  fst (devcon_page_down p new_width n attr age None h)
  = (page_with_lines p
       (pre ++ map (line_blank attr age) mid
          ++ map (fun l => line_with_age l age) rest ++ post)
       (if 0 <? page_scroll_fill p
        then Z.min (page_scroll_num p)
               (u32 (page_scroll_fill p + Z.of_nat (length mid)))
        else page_scroll_fill p),
     None) /\
  grants (snd (devcon_page_down p new_width n attr age None h)) = grants h.
Proof.
  intros HL Hidx Hnum Hm Hmid Hlen Hok.
  assert (Hlen' : Z.of_nat (length pre) + Z.of_nat (length mid)
                  + Z.of_nat (length rest) < 2 ^ 32).
  { rewrite HL, !length_app in Hlen. lia. }
  unfold devcon_page_down. rewrite Hm. cbv zeta.
  destruct (Z.ltb_spec (Z.of_nat (length mid)) 1); [lia |].
  unfold bind.
  set (bl := line_blank attr age).
  match goal with
  | |- context [for_loop (seqZ 0 (Z.of_nat (length mid))) ?b ?s0 h] =>
      pose proof (for_loop_seqZ_inv
        (fun i (st : scroll_state) (h0 : heap) =>
           let '(lines, cache, hist) := st in
           lines = pre ++ rest ++ take (length mid - Z.to_nat i) mid
                     ++ map bl (drop (length mid - Z.to_nat i) mid)
                     ++ post /\
           length cache = length (page_lines p) /\
           drop (length mid - Z.to_nat i) (take (length mid) cache)
           = map bl (drop (length mid - Z.to_nat i) mid) /\
           hist = None /\ grants h0 = grants h)
        b (length mid) 0 s0 h) as Hloop
  end.
  lapply Hloop; clear Hloop.
  2: { intros i [[lines cache] hist] h0 Hi (-> & Hc & Hcache & -> & Hg).
       cbv beta iota.
       set (j := (length mid - Z.to_nat (i + 1))%nat).
       replace (length mid - Z.to_nat i)%nat with (S j) in * by lia.
       destruct (lookup_lt_is_Some_2 mid j ltac:(lia)) as [t Ht].
       rewrite Hidx, Hnum.
       rewrite (u32_small (Z.of_nat (length pre) + _)) by lia.
       rewrite (u32_small (_ - 1)) by lia.
       rewrite (u32_small (Z.of_nat (length mid) - 1)) by lia.
       rewrite !u32_small by lia.
       replace (Z.of_nat (length mid) - 1 - i) with (Z.of_nat j) by lia.
       rewrite (take_S_r _ _ _ Ht).
       replace (Z.of_nat (length pre)
                + (Z.of_nat (length mid) + Z.of_nat (length rest)) - 1 - i)
         with (Z.of_nat (length (pre ++ rest ++ take j mid)))
         by (rewrite !length_app, length_take; lia).
       assert (Hsplit : forall tl : list devcon_line,
                 pre ++ rest ++ (take j mid ++ [t]) ++ tl
                 = (pre ++ rest ++ take j mid) ++ t :: tl)
         by (intros tl; by rewrite <- !app_assoc).
       rewrite Hsplit.
       rewrite array_get_app_middle.
       unfold scroll_reuse, bind.
       assert (Ht' : line_allocated t).
       { rewrite Forall_forall in Hok. apply Hok.
         by apply (list_elem_of_lookup_2 _ j). }
       pose proof (devcon_line_reset_blank t attr age h0 Ht') as Hr.
       pose proof (devcon_line_reset_grants t attr age h0) as Hrg.
       destruct (devcon_line_reset t attr age h0) as [t' h1].
       simpl in Hr, Hrg. subst t'. unfold ret. cbn [fst snd].
       rewrite array_set_app_middle.
       assert (Hjc : (j < length cache)%nat).
       { rewrite Hc, HL, !length_app. lia. }
       rewrite (drop_S _ _ _ Ht). simpl map.
       split; [by rewrite <- !app_assoc |].
       split; [by rewrite array_set_length |].
       split; [| split; [done | congruence]].
       unfold array_set.
       destruct (Z.ltb_spec (Z.of_nat j) 0); [lia |].
       rewrite Nat2Z.id, take_insert_lt by lia.
       rewrite (drop_S _ (bl t) j)
         by (apply list_lookup_insert_eq; rewrite length_take; lia).
       rewrite drop_insert_lt by lia.
       by rewrite Hcache. }
  intros Hloop. lapply Hloop; clear Hloop.
  2: { replace (length mid - Z.to_nat 0)%nat with (length mid) by lia.
       rewrite firstn_all, drop_all. simpl.
       split; [done |]. split; [by rewrite length_replicate |].
       split; [| done].
       apply drop_ge. rewrite length_take. lia. }
  destruct (for_loop _ _ _ h) as [[[lines cache] hist] h'].
  cbn [fst snd]. intros (-> & Hc & Hcache & -> & Hg).
  rewrite Z.add_0_l, Nat2Z.id, Nat.sub_diag in Hcache.
  rewrite Z.add_0_l, Nat2Z.id, Nat.sub_diag.
  rewrite !drop_0 in Hcache. rewrite take_0, drop_0. simpl app.
  unfold ret. cbn [fst snd]. split; [| done].
  assert (Hsrc : array_sub cache 0 (Z.of_nat (length mid)) = map bl mid).
  { unfold array_sub. by rewrite Nat2Z.id. }
  rewrite Hsrc.
  by rewrite (move_down_lines _ pre rest (map bl mid) post (map bl mid)
                (page_scroll_idx p) (page_scroll_num p)
                (Z.of_nat (length mid)) age eq_refl Hidx
                ltac:(by rewrite length_map) Hnum ltac:(lia) eq_refl).
Qed.

(** The scroll region that [devcon_page_insert_lines] and
    [devcon_page_delete_lines] set up temporarily: from [pos_y] to the end
    of the scroll region, or the single line [pos_y] below it. *)
Lemma lines_region (scroll_idx scroll_num pos_y : Z) (strict : bool) :
  0 <= scroll_idx -> 0 <= scroll_num -> 0 <= pos_y ->
  scroll_idx + scroll_num < 2 ^ 32 ->
  (if u32 (scroll_idx + scroll_num) <=? pos_y then 1
   else if (if strict then scroll_idx <? pos_y else scroll_idx <=? pos_y)
        then u32 (scroll_num - u32 (pos_y - scroll_idx))
        else u32 (scroll_num + u32 (scroll_idx - pos_y)))
  = (if scroll_idx + scroll_num <=? pos_y then 1
     else scroll_idx + scroll_num - pos_y).
Proof.
  intros Hi Hn Hy He. rewrite (u32_small (scroll_idx + scroll_num)) by lia.
  destruct (Z.leb_spec (scroll_idx + scroll_num) pos_y); [done |].
  destruct strict.
  - destruct (Z.ltb_spec scroll_idx pos_y).
    + rewrite (u32_small (pos_y - scroll_idx)) by lia.
      rewrite u32_small by lia. lia.
    + rewrite (u32_small (scroll_idx - pos_y)) by lia.
      rewrite u32_small by lia. lia.
  - destruct (Z.leb_spec scroll_idx pos_y).
    + rewrite (u32_small (pos_y - scroll_idx)) by lia.
      rewrite u32_small by lia. lia.
    + rewrite (u32_small (scroll_idx - pos_y)) by lia.
      rewrite u32_small by lia. lia.
Qed.

Lemma line_of_allocated (c : Z) : line_allocated (line_of c).
Proof.
  unfold line_allocated, line_inv, line_of. simpl. repeat split; lia.
Defined.

(** X16: [devcon_page_scroll_up] without a history reuses the
    lines it scrolls out: the top lines of the scroll region come back
    blank at its bottom, the remaining lines of the region move up and
    take the new age, the lines outside the region stay, and the
    allocator is not asked for anything. *)
Theorem page_scroll_up_without_history (p : devcon_page)
    (pre top rest post : list devcon_line) (n : Z)
    (attr : option devcon_attr) (age : Z) (h : heap)
    (HL : page_lines p = pre ++ top ++ rest ++ post)
    (Hidx : page_scroll_idx p = Z.of_nat (length pre))
    (Hnum : page_scroll_num p
            = Z.of_nat (length top) + Z.of_nat (length rest))
    (Hn : Z.min n (page_scroll_num p) = Z.of_nat (length top))
    (Htop : (1 <= length top)%nat)
    (Hlen : Z.of_nat (length (page_lines p)) < 2 ^ 32)
    (Hok : Forall line_allocated top) :
  fst (devcon_page_scroll_up p n attr age None h)
  = (page_with_lines p
       (pre ++ map (fun l => line_with_age l age) rest
          ++ map (line_blank attr age) top ++ post)
       (u32 (page_scroll_fill p
             - Z.min (page_scroll_fill p) (Z.of_nat (length top)))),
     None) /\
  grants (snd (devcon_page_scroll_up p n attr age None h)) = grants h.
Proof.
  unfold devcon_page_scroll_up.
  apply devcon_page_up_reuses; try done.
  destruct (Z.ltb_spec (page_scroll_num p) n); lia.
Qed.

Lemma page_scroll_up_without_history_witness :
  (page_lines page_A_to_E
   = [line_of 65] ++ [line_of 66] ++ [line_of 67; line_of 68]
       ++ [line_of 69] /\
   page_scroll_idx page_A_to_E = Z.of_nat (length [line_of 65]) /\
   page_scroll_num page_A_to_E
   = Z.of_nat (length [line_of 66])
     + Z.of_nat (length [line_of 67; line_of 68]) /\
   Z.min 1 (page_scroll_num page_A_to_E)
   = Z.of_nat (length [line_of 66]) /\
   (1 <= length [line_of 66])%nat /\
   Z.of_nat (length (page_lines page_A_to_E)) < 2 ^ 32 /\
   Forall line_allocated [line_of 66]) /\
  page_lines
    (fst (fst (devcon_page_scroll_up page_A_to_E 1 None 9 None
                 heap_granting)))
  = [line_of 65; line_with_age (line_of 67) 9;
     line_with_age (line_of 68) 9; line_blank None 9 (line_of 66);
     line_of 69].
Proof.
  assert (H1 : page_lines page_A_to_E
               = [line_of 65] ++ [line_of 66] ++ [line_of 67; line_of 68]
                   ++ [line_of 69]) by reflexivity.
  assert (H2 : page_scroll_idx page_A_to_E
               = Z.of_nat (length [line_of 65])) by reflexivity.
  assert (H3 : page_scroll_num page_A_to_E
               = Z.of_nat (length [line_of 66])
                 + Z.of_nat (length [line_of 67; line_of 68]))
    by reflexivity.
  assert (H4 : Z.min 1 (page_scroll_num page_A_to_E)
               = Z.of_nat (length [line_of 66])) by reflexivity.
  assert (H5 : (1 <= length [line_of 66])%nat) by (simpl; lia).
  assert (H6 : Z.of_nat (length (page_lines page_A_to_E)) < 2 ^ 32)
    by (simpl; lia).
  assert (H7 : Forall line_allocated [line_of 66])
    by (constructor; [apply line_of_allocated | constructor]).
  split; [exact (conj H1 (conj H2 (conj H3 (conj H4 (conj H5
                   (conj H6 H7)))))) |].
  destruct (page_scroll_up_without_history page_A_to_E [line_of 65]
              [line_of 66] [line_of 67; line_of 68] [line_of 69] 1 None 9
              heap_granting H1 H2 H3 H4 H5 H6 H7) as [Hp _].
  rewrite Hp. reflexivity.
Defined.

(** X17: [devcon_page_scroll_down] without a history reuses the
    lines it scrolls out: the bottom lines of the scroll region come back
    blank at its top, the remaining lines of the region move down and
    take the new age, the lines outside the region stay, and the
    allocator is not asked for anything. *)
Theorem page_scroll_down_without_history (p : devcon_page)
    (pre rest mid post : list devcon_line) (n : Z)
    (attr : option devcon_attr) (age : Z) (h : heap)
    (HL : page_lines p = pre ++ rest ++ mid ++ post)
    (Hidx : page_scroll_idx p = Z.of_nat (length pre))
    (Hnum : page_scroll_num p
            = Z.of_nat (length mid) + Z.of_nat (length rest))
    (Hn : Z.min n (page_scroll_num p) = Z.of_nat (length mid))
    (Hmid : (1 <= length mid)%nat)
    (Hlen : Z.of_nat (length (page_lines p)) < 2 ^ 32)
    (Hok : Forall line_allocated mid) :
  fst (devcon_page_scroll_down p n attr age None h)
  = (page_with_lines p
       (pre ++ map (line_blank attr age) mid
          ++ map (fun l => line_with_age l age) rest ++ post)
       (if 0 <? page_scroll_fill p
        then Z.min (page_scroll_num p)
               (u32 (page_scroll_fill p + Z.of_nat (length mid)))
        else page_scroll_fill p),
     None) /\
  grants (snd (devcon_page_scroll_down p n attr age None h)) = grants h.
Proof.
  unfold devcon_page_scroll_down.
  apply devcon_page_down_reuses; try done.
  destruct (Z.ltb_spec (page_scroll_num p) n); lia.
Qed.

Lemma page_scroll_down_without_history_witness :
  (page_lines page_A_to_E
   = [line_of 65] ++ [line_of 66; line_of 67] ++ [line_of 68]
       ++ [line_of 69] /\
   page_scroll_idx page_A_to_E = Z.of_nat (length [line_of 65]) /\
   page_scroll_num page_A_to_E
   = Z.of_nat (length [line_of 68])
     + Z.of_nat (length [line_of 66; line_of 67]) /\
   Z.min 1 (page_scroll_num page_A_to_E)
   = Z.of_nat (length [line_of 68]) /\
   (1 <= length [line_of 68])%nat /\
   Z.of_nat (length (page_lines page_A_to_E)) < 2 ^ 32 /\
   Forall line_allocated [line_of 68]) /\
  page_lines
    (fst (fst (devcon_page_scroll_down page_A_to_E 1 None 9 None
                 heap_granting)))
  = [line_of 65; line_blank None 9 (line_of 68);
     line_with_age (line_of 66) 9; line_with_age (line_of 67) 9;
     line_of 69].
Proof.
  assert (H1 : page_lines page_A_to_E
               = [line_of 65] ++ [line_of 66; line_of 67] ++ [line_of 68]
                   ++ [line_of 69]) by reflexivity.
  assert (H2 : page_scroll_idx page_A_to_E
               = Z.of_nat (length [line_of 65])) by reflexivity.
  assert (H3 : page_scroll_num page_A_to_E
               = Z.of_nat (length [line_of 68])
                 + Z.of_nat (length [line_of 66; line_of 67]))
    by reflexivity.
  assert (H4 : Z.min 1 (page_scroll_num page_A_to_E)
               = Z.of_nat (length [line_of 68])) by reflexivity.
  assert (H5 : (1 <= length [line_of 68])%nat) by (simpl; lia).
  assert (H6 : Z.of_nat (length (page_lines page_A_to_E)) < 2 ^ 32)
    by (simpl; lia).
  assert (H7 : Forall line_allocated [line_of 68])
    by (constructor; [apply line_of_allocated | constructor]).
  split; [exact (conj H1 (conj H2 (conj H3 (conj H4 (conj H5
                   (conj H6 H7)))))) |].
  destruct (page_scroll_down_without_history page_A_to_E [line_of 65]
              [line_of 66; line_of 67] [line_of 68] [line_of 69] 1 None 9
              heap_granting H1 H2 H3 H4 H5 H6 H7) as [Hp _].
  rewrite Hp. reflexivity.
Defined.

(** X18: [devcon_page_delete_lines] at a visible line [pos_y]
    works on the lines from [pos_y] to the end of the scroll region (on
    the line [pos_y] alone when it lies below the region): the deleted
    lines are blanked and reused at the end, the lines after them move
    up, every other line stays, and the scroll region is what it was. *)
Theorem page_delete_lines_moves_up (p : devcon_page)
    (pre top rest post : list devcon_line) (pos_y num : Z)
    (attr : option devcon_attr) (age : Z) (h : heap)
    (HL : page_lines p = pre ++ top ++ rest ++ post)
    (Hy : pos_y = Z.of_nat (length pre))
    (Hvis : pos_y < page_height p)
    (Hi : 0 <= page_scroll_idx p) (Hs : 0 <= page_scroll_num p)
    (He : page_scroll_idx p + page_scroll_num p < 2 ^ 32)
    (Hreg : (if page_scroll_idx p + page_scroll_num p <=? pos_y then 1
             else page_scroll_idx p + page_scroll_num p - pos_y)
            = Z.of_nat (length top) + Z.of_nat (length rest))
    (Hn : Z.min (Z.min num (page_height p))
            (Z.of_nat (length top) + Z.of_nat (length rest))
          = Z.of_nat (length top))
    (Htop : (1 <= length top)%nat)
    (Hlen : Z.of_nat (length (page_lines p)) < 2 ^ 32)
    (Hok : Forall line_allocated top) :
  fst (devcon_page_delete_lines p pos_y num attr age h)
  = page_with_lines p
      (pre ++ map (fun l => line_with_age l age) rest
         ++ map (line_blank attr age) top ++ post)
      (u32 (page_scroll_fill p
            - Z.min (page_scroll_fill p) (Z.of_nat (length top)))) /\
  grants (snd (devcon_page_delete_lines p pos_y num attr age h))
  = grants h.
Proof.
  unfold devcon_page_delete_lines.
  destruct (Z.leb_spec (page_height p) pos_y); [lia |].
  cbv zeta.
  rewrite (lines_region (page_scroll_idx p) (page_scroll_num p) pos_y true)
    by lia.
  rewrite Hreg. unfold devcon_page_scroll_up, bind.
  match goal with
  | |- context [devcon_page_up ?q ?w ?n attr age None h] =>
      destruct (devcon_page_up_reuses q pre top rest post w n attr age h)
        as [Hp Hg]; try done
  end.
  { cbn [page_scroll_num page_with_scroll].
    destruct (Z.leb_spec (page_height p) num);
      destruct (Z.ltb_spec (Z.of_nat (length top)
                            + Z.of_nat (length rest)) (page_height p));
      destruct (Z.ltb_spec (Z.of_nat (length top)
                            + Z.of_nat (length rest)) num); lia. }
  destruct (devcon_page_up _ _ _ attr age None h) as [[q hist] h'].
  cbn [fst snd] in *. unfold ret. cbn [fst snd].
  split; [| done]. injection Hp as -> _.
  by destruct p.
Qed.

Lemma page_delete_lines_moves_up_witness :
  (page_lines page_A_to_E
   = [] ++ [line_of 65; line_of 66] ++ [line_of 67; line_of 68]
       ++ [line_of 69] /\
   0 = Z.of_nat (length (@nil devcon_line)) /\
   0 < page_height page_A_to_E /\
   0 <= page_scroll_idx page_A_to_E /\
   0 <= page_scroll_num page_A_to_E /\
   page_scroll_idx page_A_to_E + page_scroll_num page_A_to_E < 2 ^ 32 /\
   (if page_scroll_idx page_A_to_E + page_scroll_num page_A_to_E <=? 0
    then 1
    else page_scroll_idx page_A_to_E + page_scroll_num page_A_to_E - 0)
   = Z.of_nat (length [line_of 65; line_of 66])
     + Z.of_nat (length [line_of 67; line_of 68]) /\
   Z.min (Z.min 2 (page_height page_A_to_E))
     (Z.of_nat (length [line_of 65; line_of 66])
      + Z.of_nat (length [line_of 67; line_of 68]))
   = Z.of_nat (length [line_of 65; line_of 66]) /\
   (1 <= length [line_of 65; line_of 66])%nat /\
   Z.of_nat (length (page_lines page_A_to_E)) < 2 ^ 32 /\
   Forall line_allocated [line_of 65; line_of 66]) /\
  fst (devcon_page_delete_lines page_A_to_E 0 2 None 9 heap_granting)
  = mk_page 1
      [line_with_age (line_of 67) 9; line_with_age (line_of 68) 9;
       line_blank None 9 (line_of 65); line_blank None 9 (line_of 66);
       line_of 69]
      5 3 5 1 3 1.
Proof.
  assert (H1 : page_lines page_A_to_E
               = [] ++ [line_of 65; line_of 66] ++ [line_of 67; line_of 68]
                   ++ [line_of 69]) by reflexivity.
  assert (H2 : 0 = Z.of_nat (length (@nil devcon_line))) by reflexivity.
  assert (H3 : 0 < page_height page_A_to_E) by (simpl; lia).
  assert (H4 : 0 <= page_scroll_idx page_A_to_E) by (simpl; lia).
  assert (H5 : 0 <= page_scroll_num page_A_to_E) by (simpl; lia).
  assert (H6 : page_scroll_idx page_A_to_E + page_scroll_num page_A_to_E
               < 2 ^ 32) by (simpl; lia).
  assert (H7 : (if page_scroll_idx page_A_to_E
                   + page_scroll_num page_A_to_E <=? 0
                then 1
                else page_scroll_idx page_A_to_E
                     + page_scroll_num page_A_to_E - 0)
               = Z.of_nat (length [line_of 65; line_of 66])
                 + Z.of_nat (length [line_of 67; line_of 68]))
    by reflexivity.
  assert (H8 : Z.min (Z.min 2 (page_height page_A_to_E))
                 (Z.of_nat (length [line_of 65; line_of 66])
                  + Z.of_nat (length [line_of 67; line_of 68]))
               = Z.of_nat (length [line_of 65; line_of 66]))
    by reflexivity.
  assert (H9 : (1 <= length [line_of 65; line_of 66])%nat)
    by (simpl; lia).
  assert (H10 : Z.of_nat (length (page_lines page_A_to_E)) < 2 ^ 32)
    by (simpl; lia).
  assert (H11 : Forall line_allocated [line_of 65; line_of 66])
    by (repeat constructor; apply line_of_allocated).
  split; [exact (conj H1 (conj H2 (conj H3 (conj H4 (conj H5 (conj H6
                   (conj H7 (conj H8 (conj H9 (conj H10 H11)))))))))) |].
  destruct (page_delete_lines_moves_up page_A_to_E []
              [line_of 65; line_of 66] [line_of 67; line_of 68]
              [line_of 69] 0 2 None 9 heap_granting
              H1 H2 H3 H4 H5 H6 H7 H8 H9 H10 H11) as [Hp _].
  rewrite Hp. reflexivity.
Defined.

(** X19: [devcon_page_insert_lines] at a visible line [pos_y]
    works on the lines from [pos_y] to the end of the scroll region (on
    the line [pos_y] alone when it lies below the region): the last lines
    of that range are blanked and reused at [pos_y], the lines before
    them move down, every other line stays, and the scroll region is what
    it was. *)
Theorem page_insert_lines_moves_down (p : devcon_page)
    (pre rest mid post : list devcon_line) (pos_y num : Z)
    (attr : option devcon_attr) (age : Z) (h : heap)
    (HL : page_lines p = pre ++ rest ++ mid ++ post)
    (Hy : pos_y = Z.of_nat (length pre))
    (Hvis : pos_y < page_height p)
    (Hi : 0 <= page_scroll_idx p) (Hs : 0 <= page_scroll_num p)
    (He : page_scroll_idx p + page_scroll_num p < 2 ^ 32)
    (Hreg : (if page_scroll_idx p + page_scroll_num p <=? pos_y then 1
             else page_scroll_idx p + page_scroll_num p - pos_y)
            = Z.of_nat (length mid) + Z.of_nat (length rest))
    (Hn : Z.min (Z.min num (page_height p))
            (Z.of_nat (length mid) + Z.of_nat (length rest))
          = Z.of_nat (length mid))
    (Hmid : (1 <= length mid)%nat)
    (Hlen : Z.of_nat (length (page_lines p)) < 2 ^ 32)
    (Hok : Forall line_allocated mid) :
  fst (devcon_page_insert_lines p pos_y num attr age h)
  = page_with_lines p
      (pre ++ map (line_blank attr age) mid
         ++ map (fun l => line_with_age l age) rest ++ post)
      (if 0 <? page_scroll_fill p
       then Z.min (Z.of_nat (length mid) + Z.of_nat (length rest))
              (u32 (page_scroll_fill p + Z.of_nat (length mid)))
       else page_scroll_fill p) /\
  grants (snd (devcon_page_insert_lines p pos_y num attr age h))
  = grants h.
Proof.
  unfold devcon_page_insert_lines.
  destruct (Z.leb_spec (page_height p) pos_y); [lia |].
  cbv zeta.
  rewrite (lines_region (page_scroll_idx p) (page_scroll_num p) pos_y
             false) by lia.
  rewrite Hreg. unfold devcon_page_scroll_down, bind.
  match goal with
  | |- context [devcon_page_down ?q ?w ?n attr age None h] =>
      destruct (devcon_page_down_reuses q pre rest mid post w n attr age h)
        as [Hp Hg]; try done
  end.
  { cbn [page_scroll_num page_with_scroll].
    destruct (Z.leb_spec (page_height p) num);
      destruct (Z.ltb_spec (Z.of_nat (length mid)
                            + Z.of_nat (length rest)) (page_height p));
      destruct (Z.ltb_spec (Z.of_nat (length mid)
                            + Z.of_nat (length rest)) num); lia. }
  destruct (devcon_page_down _ _ _ attr age None h) as [[q hist] h'].
  cbn [fst snd] in *. unfold ret. cbn [fst snd].
  split; [| done]. injection Hp as -> _.
  by destruct p.
Qed.

Lemma page_insert_lines_moves_down_witness :
  (page_lines page_A_to_E
   = [line_of 65; line_of 66; line_of 67; line_of 68] ++ []
       ++ [line_of 69] ++ [] /\
   4 = Z.of_nat (length [line_of 65; line_of 66; line_of 67; line_of 68]) /\
   4 < page_height page_A_to_E /\
   0 <= page_scroll_idx page_A_to_E /\
   0 <= page_scroll_num page_A_to_E /\
   page_scroll_idx page_A_to_E + page_scroll_num page_A_to_E < 2 ^ 32 /\
   (if page_scroll_idx page_A_to_E + page_scroll_num page_A_to_E <=? 4
    then 1
    else page_scroll_idx page_A_to_E + page_scroll_num page_A_to_E - 4)
   = Z.of_nat (length [line_of 69])
     + Z.of_nat (length (@nil devcon_line)) /\
   Z.min (Z.min 3 (page_height page_A_to_E))
     (Z.of_nat (length [line_of 69])
      + Z.of_nat (length (@nil devcon_line)))
   = Z.of_nat (length [line_of 69]) /\
   (1 <= length [line_of 69])%nat /\
   Z.of_nat (length (page_lines page_A_to_E)) < 2 ^ 32 /\
   Forall line_allocated [line_of 69]) /\
  fst (devcon_page_insert_lines page_A_to_E 4 3 None 9 heap_granting)
  = mk_page 1
      [line_of 65; line_of 66; line_of 67; line_of 68;
       line_blank None 9 (line_of 69)]
      5 3 5 1 3 1.
Proof.
  assert (H1 : page_lines page_A_to_E
               = [line_of 65; line_of 66; line_of 67; line_of 68] ++ []
                   ++ [line_of 69] ++ []) by reflexivity.
  assert (H2 : 4 = Z.of_nat (length [line_of 65; line_of 66; line_of 67;
                                     line_of 68])) by reflexivity.
  assert (H3 : 4 < page_height page_A_to_E) by (simpl; lia).
  assert (H4 : 0 <= page_scroll_idx page_A_to_E) by (simpl; lia).
  assert (H5 : 0 <= page_scroll_num page_A_to_E) by (simpl; lia).
  assert (H6 : page_scroll_idx page_A_to_E + page_scroll_num page_A_to_E
               < 2 ^ 32) by (simpl; lia).
  assert (H7 : (if page_scroll_idx page_A_to_E
                   + page_scroll_num page_A_to_E <=? 4
                then 1
                else page_scroll_idx page_A_to_E
                     + page_scroll_num page_A_to_E - 4)
               = Z.of_nat (length [line_of 69])
                 + Z.of_nat (length (@nil devcon_line)))
    by reflexivity.
  assert (H8 : Z.min (Z.min 3 (page_height page_A_to_E))
                 (Z.of_nat (length [line_of 69])
                  + Z.of_nat (length (@nil devcon_line)))
               = Z.of_nat (length [line_of 69]))
    by reflexivity.
  assert (H9 : (1 <= length [line_of 69])%nat) by (simpl; lia).
  assert (H10 : Z.of_nat (length (page_lines page_A_to_E)) < 2 ^ 32)
    by (simpl; lia).
  assert (H11 : Forall line_allocated [line_of 69])
    by (repeat constructor; apply line_of_allocated).
  split; [exact (conj H1 (conj H2 (conj H3 (conj H4 (conj H5 (conj H6
                   (conj H7 (conj H8 (conj H9 (conj H10 H11)))))))))) |].
  destruct (page_insert_lines_moves_down page_A_to_E
              [line_of 65; line_of 66; line_of 67; line_of 68] []
              [line_of 69] [] 4 3 None 9 heap_granting
              H1 H2 H3 H4 H5 H6 H7 H8 H9 H10 H11) as [Hp _].
  rewrite Hp. reflexivity.
Defined.

(** ** Pages: erasing *)

(** [devcon_line_erase], cell by cell. *)
Lemma devcon_line_erase_lookup line from num attr age keep h :
  0 <= from -> 0 <= num -> from + num <= line_width line ->
  line_width line <= Z.of_nat (length (line_cells line)) ->
  line_width line < 2 ^ 32 ->
  let line' := fst (devcon_line_erase line from num attr age keep h) in
  line_width line' = line_width line /\
  line_n_cells line' = line_n_cells line /\
  length (line_cells line') = length (line_cells line) /\
  forall x : nat,
    line_cells line' !! x
    = if (from <=? Z.of_nat x) && (Z.of_nat x <? from + num)
      then erase_cell keep attr age <$> line_cells line !! x
      else line_cells line !! x.
Proof.
  intros Hf Hn Hfit Hlen Hw.
  set (cs := line_cells line) in *.
  set (f := Z.to_nat from). set (n := Z.to_nat num).
  destruct (devcon_line_erase_app line (take f cs) (take n (drop f cs))
              (drop (f + n) cs) from num attr age keep h)
    as (Hc & Hwd & Hnc & _).
  - fold cs. rewrite <- (take_drop f cs) at 1. f_equal.
    rewrite <- (take_drop n (drop f cs)) at 1. f_equal.
    rewrite drop_drop. done.
  - rewrite length_take. lia.
  - rewrite length_take, length_drop. lia.
  - done.
  - done.
  - cbv zeta. split; [done |]. split; [done |]. rewrite Hc.
    split.
    { rewrite !length_app, length_map, !length_take, !length_drop. lia. }
    intros x.
    destruct (Z.leb_spec from (Z.of_nat x));
      destruct (Z.ltb_spec (Z.of_nat x) (from + num)); cbn [andb].
    + rewrite lookup_app_r by (rewrite length_take; lia).
      rewrite length_take_le by lia.
      rewrite lookup_app_l
        by (rewrite length_map, length_take, length_drop; lia).
      rewrite list_lookup_fmap, lookup_take_lt by lia.
      rewrite lookup_drop. do 2 f_equal. lia.
    + rewrite lookup_app_r by (rewrite length_take; lia).
      rewrite length_take_le by lia.
      rewrite lookup_app_r
        by (rewrite length_map, length_take, length_drop; lia).
      rewrite length_map, length_take_le by (rewrite length_drop; lia).
      rewrite lookup_drop. f_equal. lia.
    + rewrite lookup_app_l by (rewrite length_take; lia).
      rewrite lookup_take_lt by lia. done.
    + rewrite lookup_app_l by (rewrite length_take; lia).
      rewrite lookup_take_lt by lia. done.
Qed.

Lemma page_allocated_line (p : devcon_page) (y : nat) :
  page_allocated p -> Z.of_nat y < page_height p ->
  exists l, page_lines p !! y = Some l /\ line_allocated l /\
            line_width l = page_width p.
Proof.
  intros [Hh Hok] Hy.
  destruct (lookup_lt_is_Some_2 (page_lines p) y ltac:(lia)) as [l Hl].
  exists l. split; [done |].
  rewrite Forall_forall in Hok. apply Hok.
  apply (list_elem_of_lookup_2 _ y). rewrite lookup_take_lt by lia. done.
Qed.

(** [devcon_page_erase], cell by cell. *)
Lemma devcon_page_erase_lookup (p : devcon_page) from_x from_y to_x to_y
    attr age keep h :
  page_allocated p ->
  0 <= from_x <= page_width p -> 0 <= to_x <= page_width p ->
  0 <= from_y ->
  let p' := fst (devcon_page_erase p from_x from_y to_x to_y attr age keep
                   h) in
  page_width p' = page_width p /\ page_height p' = page_height p /\
  forall (y : nat) l, page_lines p !! y = Some l ->
    exists l', page_lines p' !! y = Some l' /\
      line_width l' = line_width l /\
      forall x : nat,
        line_cells l' !! x
        = if erased_at from_x from_y to_x to_y (Z.of_nat x) (Z.of_nat y)
             && (Z.of_nat y <? page_height p)
             && (Z.of_nat x <? page_width p)
          then erase_cell keep attr age <$> line_cells l !! x
          else line_cells l !! x.
Proof.
  intros Hp Hfx Htx Hfy p'. subst p'.
  unfold devcon_page_erase, bind.
  set (len := Z.min (to_y + 1) (page_height p) - from_y).
  replace (seqZ from_y len) with (seqZ from_y (Z.of_nat (Z.to_nat len)))
    by (unfold seqZ; by rewrite Nat2Z.id).
  match goal with
  | |- context [for_loop (seqZ from_y _) ?b ?s0 h] =>
      pose proof (for_loop_seqZ_inv
        (fun i (ls : list devcon_line) (_ : heap) =>
           length ls = length (page_lines p) /\
           forall (y : nat) l, page_lines p !! y = Some l ->
             exists l', ls !! y = Some l' /\
               line_width l' = line_width l /\
               (~ (from_y <= Z.of_nat y < i) -> l' = l) /\
               forall x : nat,
                 line_cells l' !! x
                 = if (from_y <=? Z.of_nat y) && (Z.of_nat y <? i)
                      && (if Z.of_nat y =? from_y
                          then from_x <=? Z.of_nat x else true)
                      && (if Z.of_nat y =? to_y
                          then Z.of_nat x <? to_x else true)
                      && (Z.of_nat x <? page_width p)
                   then erase_cell keep attr age <$> line_cells l !! x
                   else line_cells l !! x)
        b (Z.to_nat len) from_y s0 h) as Hloop
  end.
  lapply Hloop; clear Hloop.
  2: { intros i ls h0 Hi [Hlen Hinv]. cbv beta.
       assert (Hiy : Z.of_nat (Z.to_nat i) = i) by lia.
       destruct (page_allocated_line p (Z.to_nat i) Hp ltac:(lia))
         as (l & Hl & (Hinvl & Hnc & Hn32) & Hw).
       destruct Hinvl as (_ & _ & Hwn).
       destruct (Hinv _ _ Hl) as (l0 & Hl0 & _ & Hsame & _).
       rewrite (Hsame ltac:(lia)) in Hl0. clear Hsame l0.
       assert (Hget : array_get line_zero ls i = l).
       { unfold array_get. destruct (Z.ltb_spec i 0); [lia |].
         by rewrite Hl0. }
       rewrite Hget.
       set (from := if i =? from_y then from_x else 0).
       set (to := if i =? to_y then to_x else page_width p).
       assert (Hfrom : 0 <= from <= page_width p)
         by (subst from; destruct (i =? from_y); lia).
       assert (Hto : 0 <= to <= page_width p)
         by (subst to; destruct (i =? to_y); lia).
       assert (Hless : 0 <= LESS_BY to from /\ from + LESS_BY to from
                       <= page_width p /\
                       forall x, (from <=? x) && (x <? from + LESS_BY to from)
                                 = (from <=? x) && (x <? to)).
       { unfold LESS_BY. destruct (Z.ltb_spec from to).
         - split; [lia |]. split; [lia |]. intros x. do 2 f_equal. lia.
         - split; [lia |]. split; [lia |]. intros x.
           destruct (Z.leb_spec from x); destruct (Z.ltb_spec x (from + 0));
             destruct (Z.ltb_spec x to); simpl; try done; lia. }
       destruct Hless as (Hl1 & Hl2 & Hl3).
       destruct (devcon_line_erase_lookup l from (LESS_BY to from) attr age
                   keep h0) as (Ew & _ & _ & Ec); try lia.
       destruct (devcon_line_erase l from (LESS_BY to from) attr age keep
                   h0) as [l1 h1].
       cbn [fst snd] in *. unfold ret. cbn [fst snd].
       split; [by rewrite array_set_length |].
       intros y l' Hl'. unfold array_set.
       destruct (Z.ltb_spec i 0); [lia |].
       destruct (decide (y = Z.to_nat i)) as [-> | Hne].
       - rewrite list_lookup_insert_eq by (apply lookup_lt_Some in Hl0; lia).
         assert (l' = l) by congruence. subst l'.
         exists l1. split; [done |]. split; [done |].
         split; [intros; lia |].
         intros x. rewrite Ec, Hl3, Hiy. subst from to.
         destruct (Z.leb_spec from_y i); [| lia].
         destruct (Z.ltb_spec i (i + 1)); [| lia]. cbn [andb].
         destruct (i =? from_y), (i =? to_y); cbn [andb];
           destruct (Z.leb_spec from_x (Z.of_nat x)),
             (Z.leb_spec 0 (Z.of_nat x)),
             (Z.ltb_spec (Z.of_nat x) to_x),
             (Z.ltb_spec (Z.of_nat x) (page_width p));
           cbn [andb]; try done; lia.
       - rewrite list_lookup_insert_ne by done.
         destruct (Hinv _ _ Hl') as (l2 & Hl2' & Hw2 & Hs2 & Hc2).
         exists l2. split; [done |]. split; [done |].
         split; [intros; apply Hs2; lia |].
         intros x. rewrite Hc2.
         replace (Z.of_nat y <? i + 1) with (Z.of_nat y <? i); [done |].
         destruct (Z.ltb_spec (Z.of_nat y) i),
           (Z.ltb_spec (Z.of_nat y) (i + 1)); try done; lia. }
  intros Hloop. lapply Hloop; clear Hloop.
  2: { split; [done |]. intros y l Hl. exists l.
       split; [done |]. split; [done |]. split; [done |].
       intros x. destruct (Z.leb_spec from_y (Z.of_nat y));
         destruct (Z.ltb_spec (Z.of_nat y) from_y); cbn [andb];
         try done; lia. }
  destruct (for_loop _ _ _ h) as [ls h']. cbn [fst snd].
  intros [Hlen Hinv]. unfold ret. cbn [fst].
  split; [done |]. split; [done |].
  intros y l Hl. destruct (Hinv _ _ Hl) as (l' & Hl' & Hw' & _ & Hc).
  exists l'. split; [done |]. split; [done |].
  intros x. rewrite Hc. unfold erased_at.
  assert (E : (Z.of_nat y <? from_y + Z.of_nat (Z.to_nat len))
              = (Z.of_nat y <=? to_y) && (Z.of_nat y <? page_height p)
              \/ Z.of_nat y < from_y).
  { subst len. destruct (Z.lt_ge_cases (Z.of_nat y) from_y) as [|Hge];
      [by right | left].
    destruct (Z.ltb_spec (Z.of_nat y) (from_y + Z.of_nat (Z.to_nat
                (Z.min (to_y + 1) (page_height p) - from_y))));
      destruct (Z.leb_spec (Z.of_nat y) to_y);
      destruct (Z.ltb_spec (Z.of_nat y) (page_height p)); simpl;
      try done; lia. }
  destruct E as [-> | E].
  - destruct (from_y <=? Z.of_nat y), (Z.of_nat y <=? to_y),
      (Z.of_nat y <? page_height p),
      (if Z.of_nat y =? from_y then from_x <=? Z.of_nat x else true),
      (if Z.of_nat y =? to_y then Z.of_nat x <? to_x else true),
      (Z.of_nat x <? page_width p); done.
  - destruct (Z.leb_spec from_y (Z.of_nat y)); [lia |]. done.
Qed.

Lemma devcon_page_erase_get_cell (p : devcon_page) from_x from_y to_x to_y
    attr age keep h x y :
  page_allocated p ->
  0 <= from_x <= page_width p -> 0 <= to_x <= page_width p ->
  0 <= from_y -> 0 <= x -> 0 <= y ->
  devcon_page_get_cell
    (fst (devcon_page_erase p from_x from_y to_x to_y attr age keep h)) x y
  = (fun c => if erased_at from_x from_y to_x to_y x y
              then erase_cell keep attr age c else c)
      <$> devcon_page_get_cell p x y.
Proof.
  intros Hp Hfx Htx Hfy Hx Hy.
  destruct (devcon_page_erase_lookup p from_x from_y to_x to_y attr age
              keep h Hp Hfx Htx Hfy) as (Hw & Hh & Hl).
  unfold devcon_page_get_cell. rewrite Hw, Hh.
  destruct (Z.leb_spec (page_width p) x); [done |].
  destruct (Z.leb_spec (page_height p) y); [done |].
  destruct (page_allocated_line p (Z.to_nat y) Hp ltac:(lia))
    as (l & Hly & (Hinv & Hnc & _) & Hlw).
  destruct Hinv as (_ & _ & Hwn).
  destruct (Hl _ _ Hly) as (l' & Hl' & Hw' & Hc).
  assert (Hg : forall ls : list devcon_line,
            array_get line_zero ls y = default line_zero (ls !! Z.to_nat y)).
  { intros ls. unfold array_get. by destruct (Z.ltb_spec y 0); [lia |]. }
  rewrite !Hg, Hl', Hly. cbn [default]. unfold id. rewrite Hw', Hlw.
  destruct (Z.leb_spec (page_width p) x); [lia |].
  cbn [fmap option_fmap option_map]. f_equal.
  unfold array_get. destruct (Z.ltb_spec x 0); [lia |].
  destruct (lookup_lt_is_Some_2 (line_cells l) (Z.to_nat x) ltac:(lia))
    as [c Hcx].
  rewrite Hc, Hcx, !Z2Nat.id by lia.
  destruct (Z.ltb_spec y (page_height p)); [| lia].
  destruct (Z.ltb_spec x (page_width p)); [| lia].
  rewrite !andb_true_r. by destruct (erased_at _ _ _ _ _ _).
Qed.

Lemma page_A_to_E_allocated : page_allocated page_A_to_E.
Proof.
  split; [simpl; lia |].
  repeat constructor; simpl; lia.
Defined.

(** X20: [devcon_page_erase] erases the cells from [from_x] on
    the line [from_y] up to, but not including, [to_x] on the line
    [to_y], the lines in between in full: each of them becomes blank in
    the given attributes and age, unless protected cells are kept and it
    is protected. Every other visible cell stays as it was. *)
Theorem page_erase_cells (p : devcon_page) (from_x from_y to_x to_y : Z)
    (attr : option devcon_attr) (age : Z) (keep_protected : bool)
    (h : heap) (x y : Z)
    (Hp : page_allocated p)
    (Hfx : 0 <= from_x <= page_width p) (Htx : 0 <= to_x <= page_width p)
    (Hfy : 0 <= from_y) (Hx : 0 <= x) (Hy : 0 <= y) :
  devcon_page_get_cell
    (fst (devcon_page_erase p from_x from_y to_x to_y attr age
            keep_protected h)) x y
  = (fun c => if erased_at from_x from_y to_x to_y x y
              then erase_cell keep_protected attr age c else c)
      <$> devcon_page_get_cell p x y.
Proof. by apply devcon_page_erase_get_cell. Qed.

Lemma page_erase_cells_witness :
  (page_allocated page_A_to_E /\
   0 <= 1 <= page_width page_A_to_E /\ 0 <= 2 <= page_width page_A_to_E /\
   0 <= 1 /\ 0 <= 2 /\ 0 <= 3) /\
  devcon_page_get_cell
    (fst (devcon_page_erase page_A_to_E 1 1 2 3 None 9 true heap_granting))
    2 3
  = Some (cell_of 68 attr_zero 1).
Proof.
  assert (H1 : 0 <= 1 <= page_width page_A_to_E) by (simpl; lia).
  assert (H2 : 0 <= 2 <= page_width page_A_to_E) by (simpl; lia).
  assert (H3 : 0 <= 1) by lia.
  assert (H4 : 0 <= 2) by lia.
  assert (H5 : 0 <= 3) by lia.
  split; [exact (conj page_A_to_E_allocated (conj H1 (conj H2 (conj H3
                   (conj H4 H5))))) |].
  rewrite (page_erase_cells page_A_to_E 1 1 2 3 None 9 true heap_granting
             2 3 page_A_to_E_allocated H1 H2 H3 H4 H5).
  reflexivity.
Defined.

(** X21: [devcon_page_reset] blanks every visible cell in the
    given attributes and age, except the last cell of the last visible
    line, which stays as it was. *)
Theorem page_reset_keeps_last_cell (p : devcon_page)
    (attr : option devcon_attr) (age : Z) (h : heap) (x y : Z)
    (Hp : page_allocated p) (Hh : page_height p < 2 ^ 32)
    (Hx : 0 <= x < page_width p) (Hy : 0 <= y < page_height p) :
  devcon_page_get_cell (fst (devcon_page_reset p attr age h)) x y
  = if (x =? page_width p - 1) && (y =? page_height p - 1)
    then devcon_page_get_cell p x y
    else Some (cell_blank attr age).
Proof.
  destruct (page_allocated_line p (Z.to_nat y) Hp ltac:(lia))
    as (l & Hly & (Hinv & Hnc & Hn32) & Hlw).
  destruct Hinv as (_ & _ & Hwn).
  unfold devcon_page_reset.
  rewrite (u32_small (page_width p - 1)) by lia.
  rewrite (u32_small (page_height p - 1)) by lia.
  rewrite devcon_page_erase_get_cell by (try done; lia).
  assert (Hget : devcon_page_get_cell p x y
                 = Some (array_get cell_zero (line_cells l) x)).
  { unfold devcon_page_get_cell.
    destruct (Z.leb_spec (page_width p) x); [lia |].
    destruct (Z.leb_spec (page_height p) y); [lia |].
    assert (Hg : array_get line_zero (page_lines p) y = l).
    { unfold array_get. destruct (Z.ltb_spec y 0); [lia |].
      by rewrite Hly. }
    rewrite Hg, Hlw.
    by destruct (Z.leb_spec (page_width p) x); [lia |]. }
  rewrite Hget. cbn [fmap option_fmap option_map]. unfold erased_at.
  destruct (Z.leb_spec 0 y); [| lia].
  destruct (Z.leb_spec y (page_height p - 1)); [| lia].
  destruct (Z.leb_spec 0 x); [| lia].
  destruct (Z.eqb_spec y (page_height p - 1));
    destruct (Z.eqb_spec x (page_width p - 1));
    destruct (Z.eqb_spec y 0);
    destruct (Z.ltb_spec x (page_width p - 1)); cbn [andb];
    try done; lia.
Qed.

Lemma page_reset_keeps_last_cell_witness :
  (page_allocated page_A_to_E /\ page_height page_A_to_E < 2 ^ 32 /\
   0 <= 2 < page_width page_A_to_E /\ 0 <= 4 < page_height page_A_to_E) /\
  devcon_page_get_cell (fst (devcon_page_reset page_A_to_E None 9
                               heap_granting)) 2 4
  = Some (cell_of 69 attr_zero 1).
Proof.
  assert (H1 : page_height page_A_to_E < 2 ^ 32) by (simpl; lia).
  assert (H2 : 0 <= 2 < page_width page_A_to_E) by (simpl; lia).
  assert (H3 : 0 <= 4 < page_height page_A_to_E) by (simpl; lia).
  split; [exact (conj page_A_to_E_allocated (conj H1 (conj H2 H3))) |].
  rewrite (page_reset_keeps_last_cell page_A_to_E None 9 heap_granting 2 4
             page_A_to_E_allocated H1 H2 H3).
  reflexivity.
Defined.

(** ** Pages: writing *)

(** [devcon_line_write] without insert mode, cell by cell. *)
Lemma devcon_line_write_lookup (line : devcon_line) pos_x ch cwidth attr
    age h :
  0 <= pos_x -> pos_x + Z.max 1 cwidth <= line_width line ->
  line_width line <= Z.of_nat (length (line_cells line)) ->
  line_width line < 2 ^ 32 ->
  let line' := fst (devcon_line_write line pos_x ch cwidth attr age false
                      h) in
  line_width line' = line_width line /\
  forall x : nat,
    line_cells line' !! x
    = if Z.of_nat x =? pos_x
      then Some (mk_cell ch age (attr_or_zero attr) cwidth)
      else if (pos_x <? Z.of_nat x)
              && (Z.of_nat x <? pos_x + Z.max 1 cwidth)
           then Some (cell_blank attr age)
           else line_cells line !! x.
Proof.
  intros Hp Hfit Hlen Hw.
  set (cs := line_cells line) in *.
  set (f := Z.to_nat pos_x). set (n := Z.to_nat (Z.max 1 cwidth - 1)).
  destruct (lookup_lt_is_Some_2 cs f ltac:(lia)) as [c0 Hc0].
  assert (Hcells : cs = take f cs ++ c0 :: take n (drop (S f) cs)
                          ++ drop (S f + n) cs).
  { rewrite <- (take_drop f cs) at 1. f_equal.
    rewrite (drop_S _ _ _ Hc0). f_equal.
    rewrite <- (take_drop n (drop (S f) cs)) at 1. f_equal.
    by rewrite drop_drop. }
  assert (Hn : length (take n (drop (S f) cs)) = n)
    by (rewrite length_take, length_drop; lia).
  assert (Hf : length (take f cs) = f) by (rewrite length_take; lia).
  cbv zeta.
  rewrite (devcon_line_write_app line _ _ _ _ pos_x ch cwidth attr age h
             Hcells ltac:(lia) ltac:(lia) Hfit Hw).
  cbn [line_width line_cells]. split; [done |].
  rewrite Hn. intros x.
  destruct (Z.eqb_spec (Z.of_nat x) pos_x) as [E | E].
  - replace x with (length (take f cs) + 0)%nat by lia.
    by rewrite lookup_app_r, Nat.add_comm, Nat.add_sub by lia.
  - destruct (Z.ltb_spec pos_x (Z.of_nat x)); cbn [andb].
    + rewrite lookup_app_r by lia. rewrite Hf.
      rewrite lookup_cons_ne_0 by lia.
      destruct (Z.ltb_spec (Z.of_nat x) (pos_x + Z.max 1 cwidth)).
      * rewrite lookup_app_l by (rewrite length_replicate; lia).
        apply lookup_replicate_2. lia.
      * rewrite lookup_app_r by (rewrite length_replicate; lia).
        rewrite length_replicate, lookup_drop. f_equal. lia.
    + rewrite lookup_app_l by lia. apply lookup_take_lt. lia.
Qed.

(** X22: [devcon_page_write] without insert mode, for a
    character that fits into the visible line, is read back by
    [devcon_page_get_cell]: the cell at the position holds the character
    with its width, attributes and age, the further cells a wide character
    covers are blank, and every other visible cell is as before. *)
Theorem page_write_get_cell (p : devcon_page) (pos_x pos_y : Z)
    (ch : devcon_char) (cwidth : Z) (attr : option devcon_attr) (age : Z)
    (h : heap) (x y : Z)
    (Hp : page_allocated p)
    (Hpx : 0 <= pos_x) (Hfit : pos_x + Z.max 1 cwidth <= page_width p)
    (Hpy : 0 <= pos_y < page_height p)
    (Hx : 0 <= x < page_width p) (Hy : 0 <= y < page_height p) :
  devcon_page_get_cell
    (fst (devcon_page_write p pos_x pos_y ch cwidth attr age false h)) x y
  = if (y =? pos_y) && (x =? pos_x)
    then Some (mk_cell ch age (attr_or_zero attr) cwidth)
    else if (y =? pos_y) && (pos_x <? x)
            && (x <? pos_x + Z.max 1 cwidth)
         then Some (cell_blank attr age)
         else devcon_page_get_cell p x y.
Proof.
  destruct (page_allocated_line p (Z.to_nat pos_y) Hp ltac:(lia))
    as (l & Hl & (Hinv & Hnc & Hn32) & Hlw).
  destruct Hinv as (_ & _ & Hwn).
  unfold devcon_page_write.
  destruct (Z.leb_spec (page_height p) pos_y); [lia |].
  assert (Hg : forall ls : list devcon_line,
            array_get line_zero ls pos_y
            = default line_zero (ls !! Z.to_nat pos_y)).
  { intros ls. unfold array_get. by destruct (Z.ltb_spec pos_y 0); [lia |]. }
  rewrite Hg, Hl. cbn [default]. unfold id, bind.
  destruct (devcon_line_write_lookup l pos_x ch cwidth attr age h)
    as [Hw' Hc]; try lia.
  destruct (devcon_line_write l pos_x ch cwidth attr age false h)
    as [l' h'].
  cbn [fst snd] in *. unfold ret. cbn [fst].
  unfold devcon_page_get_cell, page_with_line.
  cbn [page_width page_height page_lines page_with_lines].
  destruct (Z.leb_spec (page_width p) x); [lia |].
  destruct (Z.leb_spec (page_height p) y); [lia |].
  unfold array_set. destruct (Z.ltb_spec pos_y 0); [lia |].
  assert (Hgy : forall ls : list devcon_line,
            array_get line_zero ls y
            = default line_zero (ls !! Z.to_nat y)).
  { intros ls. unfold array_get. by destruct (Z.ltb_spec y 0); [lia |]. }
  rewrite !Hgy.
  destruct (Z.eqb_spec y pos_y) as [-> | Hne]; cbn [andb].
  - rewrite list_lookup_insert_eq by (apply lookup_lt_Some in Hl; lia).
    rewrite Hl. cbn [default]. unfold id. rewrite Hw', Hlw.
    destruct (Z.leb_spec (page_width p) x); [lia |].
    unfold array_get. destruct (Z.ltb_spec x 0); [lia |].
    rewrite Hc, Z2Nat.id by lia.
    destruct (x =? pos_x); [done |].
    destruct ((pos_x <? x) && (x <? pos_x + Z.max 1 cwidth)); done.
  - rewrite list_lookup_insert_ne by lia. done.
Qed.

Lemma page_write_get_cell_witness :
  (page_allocated page_A_to_E /\ 0 <= 0 /\
   0 + Z.max 1 2 <= page_width page_A_to_E /\
   0 <= 2 < page_height page_A_to_E /\
   0 <= 1 < page_width page_A_to_E /\ 0 <= 2 < page_height page_A_to_E) /\
  devcon_page_get_cell
    (fst (devcon_page_write page_A_to_E 0 2 (devcon_char_pack1 0x4e2d) 2
            None 9 false heap_granting)) 1 2
  = Some (cell_blank None 9).
Proof.
  assert (H1 : 0 <= 0) by lia.
  assert (H2 : 0 + Z.max 1 2 <= page_width page_A_to_E) by (simpl; lia).
  assert (H3 : 0 <= 2 < page_height page_A_to_E) by (simpl; lia).
  assert (H4 : 0 <= 1 < page_width page_A_to_E) by (simpl; lia).
  split; [exact (conj page_A_to_E_allocated (conj H1 (conj H2 (conj H3
                   (conj H4 H3))))) |].
  rewrite (page_write_get_cell page_A_to_E 0 2 (devcon_char_pack1 0x4e2d) 2
             None 9 heap_granting 1 2 page_A_to_E_allocated H1 H2 H3 H4
             H3).
  reflexivity.
Defined.

(** ** UTF-8: streams and the ISO-8859-1 fallback *)

Lemma utf8_decode_all_app p a b :
  utf8_decode_all p (a ++ b)
  = (fst (utf8_decode_all (fst (utf8_decode_all p a)) b),
     snd (utf8_decode_all p a)
       ++ snd (utf8_decode_all (fst (utf8_decode_all p a)) b)).
Proof.
  revert p. induction a as [|c a IH]; intros p; simpl.
  - by destruct (utf8_decode_all p b).
  - destruct (devcon_utf8_decode p c) as [p' out].
    rewrite IH. destruct (utf8_decode_all p' a) as [p'' outs]. simpl.
    by destruct (utf8_decode_all p'' b).
Qed.

Ltac idle_start p Hp :=
  let chars := fresh "buf" in
  let c0 := fresh "c0" in
  let Hv := fresh "Hv" in
  let Hlen := fresh "Hlen" in
  let u := fresh "u" in
  let i := fresh "i" in
  let n := fresh "n" in
  let v := fresh "v" in
  destruct p as [chars u i n v]; unfold utf8_idle in Hp;
  destruct Hp as [Hv Hlen];
  cbn [utf8_valid utf8_chars] in Hv, Hlen; subst;
  destruct chars as [|c0 chars]; [simpl in Hlen; lia |].

Lemma decode_idle_1 p a :
  utf8_idle p -> 0 <= a < 128 ->
  exists p', utf8_decode_all p [a] = (p', [[a]]) /\ utf8_idle p'.
Proof.
  intros Hp Ha. idle_start p Hp.
  unfold utf8_decode_all. decode_step.
  eexists. split; [reflexivity |].
  unfold utf8_idle. cbn [utf8_valid utf8_chars].
  split; [reflexivity |]. by rewrite !array_set_length.
Qed.

Lemma decode_idle_2 p a b :
  utf8_idle p -> 0 <= a < 32 -> 0 <= b < 64 ->
  exists p', utf8_decode_all p [192 + a; 128 + b]
             = (p', [[]; [a * 2 ^ 6 + b]]) /\ utf8_idle p'.
Proof.
  intros Hp Ha Hb. idle_start p Hp.
  unfold utf8_decode_all. do 2 decode_step.
  rewrite !Z.shiftl_mul_pow2 by lia.
  rewrite !u32_small by lia.
  change (2 ^ 0) with 1. rewrite Z.mul_1_r.
  rewrite ucs4_join by lia.
  eexists. split; [reflexivity |].
  unfold utf8_idle. cbn [utf8_valid utf8_chars].
  split; [reflexivity |]. by rewrite !array_set_length.
Qed.

Lemma decode_idle_3 p a b c :
  utf8_idle p -> 0 <= a < 16 -> 0 <= b < 64 -> 0 <= c < 64 ->
  exists p', utf8_decode_all p [224 + a; 128 + b; 128 + c]
             = (p', [[]; []; [(a * 2 ^ 6 + b) * 2 ^ 6 + c]]) /\
             utf8_idle p'.
Proof.
  intros Hp Ha Hb Hc. idle_start p Hp.
  unfold utf8_decode_all. do 3 decode_step.
  rewrite !Z.shiftl_mul_pow2 by lia.
  rewrite !u32_small by lia.
  change (2 ^ 0) with 1. rewrite Z.mul_1_r.
  rewrite ucs4_join3 by lia.
  eexists. split; [reflexivity |].
  unfold utf8_idle. cbn [utf8_valid utf8_chars].
  split; [reflexivity |]. by rewrite !array_set_length.
Qed.

Lemma decode_idle_4 p a b c d :
  utf8_idle p ->
  0 <= a < 8 -> 0 <= b < 64 -> 0 <= c < 64 -> 0 <= d < 64 ->
  exists p', utf8_decode_all p [240 + a; 128 + b; 128 + c; 128 + d]
             = (p', [[]; []; [];
                     [((a * 2 ^ 6 + b) * 2 ^ 6 + c) * 2 ^ 6 + d]]) /\
             utf8_idle p'.
Proof.
  intros Hp Ha Hb Hc Hd. idle_start p Hp.
  unfold utf8_decode_all. do 4 decode_step.
  rewrite !Z.shiftl_mul_pow2 by lia.
  rewrite !u32_small by lia.
  change (2 ^ 0) with 1. rewrite Z.mul_1_r.
  rewrite ucs4_join4 by lia.
  eexists. split; [reflexivity |].
  unfold utf8_idle. cbn [utf8_valid utf8_chars].
  split; [reflexivity |]. by rewrite !array_set_length.
Qed.

(** The bytes of one code point, decoded by a decoder that has nothing
    pending. *)
Lemma decode_encoded p g :
  utf8_idle p -> 0 <= g < 2 ^ 21 ->
  exists p' outs,
    utf8_decode_all p (devcon_utf8_encode g) = (p', outs) /\
    concat outs = [g] /\ utf8_idle p'.
Proof.
  intros Hp Hg.
  destruct (Z.lt_ge_cases g (2 ^ 7)) as [H7 | H7];
    [| destruct (Z.lt_ge_cases g (2 ^ 11)) as [H11 | H11];
       [| destruct (Z.lt_ge_cases g (2 ^ 16)) as [H16 | H16]]].
  - rewrite encode_1 by lia.
    destruct (decode_idle_1 p g Hp ltac:(lia)) as (p' & E & Hp').
    by exists p', [[g]].
  - rewrite encode_2 by lia.
    destruct (decode_idle_2 p (g / 2 ^ 6) (g mod 2 ^ 6) Hp) as (p' & E & Hp');
      [split; [apply Z.div_pos; lia | apply Z.div_lt_upper_bound; lia]
      | apply Z.mod_pos_bound; lia |].
    eexists p', _. split; [exact E |]. split; [| done].
    simpl. f_equal. rewrite (Z.div_mod g (2 ^ 6)) at 3 by lia. lia.
  - rewrite encode_3 by lia.
    destruct (decode_idle_3 p (g / 2 ^ 12) ((g / 2 ^ 6) mod 2 ^ 6)
                (g mod 2 ^ 6) Hp) as (p' & E & Hp');
      [split; [apply Z.div_pos; lia | apply Z.div_lt_upper_bound; lia]
      | apply Z.mod_pos_bound; lia | apply Z.mod_pos_bound; lia |].
    eexists p', _. split; [exact E |]. split; [| done].
    simpl. f_equal.
    pose proof (Z.div_mod g (2 ^ 6) ltac:(lia)).
    pose proof (Z.div_mod (g / 2 ^ 6) (2 ^ 6) ltac:(lia)).
    replace (g / 2 ^ 12) with (g / 2 ^ 6 / 2 ^ 6)
      by (rewrite Z.div_div by lia; f_equal).
    lia.
  - rewrite encode_4 by lia.
    destruct (decode_idle_4 p (g / 2 ^ 18) ((g / 2 ^ 12) mod 2 ^ 6)
                ((g / 2 ^ 6) mod 2 ^ 6) (g mod 2 ^ 6) Hp)
      as (p' & E & Hp');
      [split; [apply Z.div_pos; lia | apply Z.div_lt_upper_bound; lia]
      | apply Z.mod_pos_bound; lia | apply Z.mod_pos_bound; lia
      | apply Z.mod_pos_bound; lia |].
    eexists p', _. split; [exact E |]. split; [| done].
    simpl. f_equal.
    pose proof (Z.div_mod g (2 ^ 6) ltac:(lia)).
    pose proof (Z.div_mod (g / 2 ^ 6) (2 ^ 6) ltac:(lia)).
    pose proof (Z.div_mod (g / 2 ^ 6 / 2 ^ 6) (2 ^ 6) ltac:(lia)).
    replace (g / 2 ^ 12) with (g / 2 ^ 6 / 2 ^ 6) in *
      by (rewrite Z.div_div by lia; f_equal).
    replace (g / 2 ^ 18) with (g / 2 ^ 6 / 2 ^ 6 / 2 ^ 6)
      by (rewrite !Z.div_div by lia; f_equal).
    lia.
Qed.

Lemma utf8_zero_idle : utf8_idle utf8_zero.
Proof. split; reflexivity. Defined.

(** X23: a string of code points below [2^21], encoded with
    [devcon_utf8_encode] and fed byte by byte to a decoder that has
    nothing pending, comes back as the same string, and the decoder has
    again nothing pending. *)
Theorem utf8_stream_round_trip (p : devcon_utf8) (gs : list Z)
    (Hp : utf8_idle p) (Hgs : Forall (fun g => 0 <= g < 2 ^ 21) gs) :
  concat (snd (utf8_decode_all p (concat (map devcon_utf8_encode gs))))
  = gs /\
  utf8_idle (fst (utf8_decode_all p (concat (map devcon_utf8_encode gs)))).
Proof.
  revert p Hp. induction Hgs as [|g gs Hg Hgs IH]; intros p Hp.
  - by split.
  - cbn [map concat]. rewrite utf8_decode_all_app.
    destruct (decode_encoded p g Hp Hg) as (p' & outs & E & Hc & Hp').
    rewrite E. cbn [fst snd].
    destruct (IH p' Hp') as [IH1 IH2].
    rewrite concat_app, Hc, IH1. by split.
Qed.

Lemma utf8_stream_round_trip_witness :
  (utf8_idle utf8_zero /\
   Forall (fun g => 0 <= g < 2 ^ 21) sample_codepoints) /\
  concat (snd (utf8_decode_all utf8_zero
                 (concat (map devcon_utf8_encode sample_codepoints))))
  = sample_codepoints.
Proof.
  assert (H : Forall (fun g => 0 <= g < 2 ^ 21) sample_codepoints)
    by (repeat constructor; lia).
  split; [exact (conj utf8_zero_idle H) |].
  exact (proj1 (utf8_stream_round_trip utf8_zero sample_codepoints
                  utf8_zero_idle H)).
Defined.

(** *** The ISO-8859-1 fallback *)

Lemma utf8_lead_length b t n :
  0 <= b < 256 -> utf8_lead b = Some (t, n) -> 2 <= n <= 4.
Proof.
  intros Hb E.
  pose proof (forall_below
                (fun b => match utf8_lead b with
                          | Some (_, n) => (2 <=? n) && (n <=? 4)
                          | None => true
                          end) 256 ltac:(vm_compute; reflexivity) b Hb) as H.
  simpl in H. rewrite E in H. apply andb_true_iff in H as [H1 H2].
  apply Z.leb_le in H1, H2. lia.
Qed.

Lemma utf8_no_lead b :
  0 <= b < 128 \/ 248 <= b < 256 ->
  utf8_lead b = None /\ (Z.land b 0xC0 =? 0x80) = false.
Proof.
  intros Hb.
  pose proof (forall_below
                (fun b => ((128 <=? b) && (b <? 248))
                          || (match utf8_lead b with
                              | Some _ => false
                              | None => true
                              end && negb (Z.land b 0xC0 =? 0x80)))
                256 ltac:(vm_compute; reflexivity) b ltac:(lia)) as H.
  simpl in H. apply orb_true_iff in H as [H | H].
  - apply andb_true_iff in H as [H1 H2].
    apply Z.leb_le in H1. apply Z.ltb_lt in H2. lia.
  - apply andb_true_iff in H as [H1 H2].
    destruct (utf8_lead b); [done |].
    by destruct (Z.land b 0xC0 =? 0x80).
Qed.

(** A sequence that is broken off: the bytes read so far and the byte
    that broke it off are handed back as they are. *)
Lemma utf8_pending_fallback (cs : list Z) : forall chars ucs4 i n b,
  length chars = 5%nat -> 1 <= i -> i + Z.of_nat (length cs) < n -> n <= 4 ->
  Forall (fun c => 128 <= c < 192) cs ->
  0 <= b < 128 \/ 248 <= b < 256 ->
  exists p',
    utf8_decode_all (mk_utf8 chars ucs4 i n true) (cs ++ [b])
    = (p', replicate (length cs) []
             ++ [take (Z.to_nat i) chars ++ cs ++ [b]]) /\
    utf8_idle p'.
Proof.
  induction cs as [|c cs IH]; intros chars ucs4 i n b Hlen Hi Hn Hn4 Hcs Hb.
  - simpl in *. unfold devcon_utf8_decode.
    cbn [utf8_valid utf8_i_bytes utf8_n_bytes utf8_chars utf8_ucs4 negb orb].
    destruct (Z.leb_spec n i); [lia |].
    rewrite u8_small by lia.
    destruct (utf8_no_lead b Hb) as [E1 E2]. rewrite E1, E2.
    unfold utf8_finish.
    cbn [utf8_valid utf8_i_bytes utf8_n_bytes utf8_chars utf8_ucs4].
    unfold bits3. rewrite Z.mod_small by lia.
    eexists. split.
    + f_equal. f_equal. unfold array_sub. rewrite drop_0.
      replace (Z.to_nat (i + 1)) with (S (Z.to_nat i)) by lia.
      apply array_set_take_snoc. lia.
    + split; [done |]. cbn [utf8_chars]. by rewrite array_set_length.
  - inversion Hcs as [|? ? Hc Hcs']; subst.
    cbn [app utf8_decode_all length replicate].
    unfold devcon_utf8_decode at 1.
    cbn [utf8_valid utf8_i_bytes utf8_n_bytes utf8_chars utf8_ucs4 negb orb].
    cbn [length] in Hn.
    destruct (Z.leb_spec n i); [lia |].
    rewrite u8_small by lia.
    destruct (utf8_continuation (c - 128) ltac:(lia)) as [E1 E2].
    replace (128 + (c - 128)) with c in E1, E2 by lia.
    rewrite E1. cbv iota. unfold utf8_finish.
    cbn [utf8_valid utf8_i_bytes utf8_n_bytes utf8_chars utf8_ucs4].
    unfold bits3. rewrite (Z.mod_small (i + 1)) by lia.
    destruct (Z.ltb_spec (i + 1) n); [| lia].
    destruct (IH (array_set chars i c)
                (Z.lor ucs4 (u32 (Z.shiftl (Z.land c 63)
                                    (6 * (n - (i + 1))))))
                (i + 1) n b) as (p' & E & Hp'); try done; try lia.
    { by rewrite array_set_length. }
    rewrite E. exists p'. split; [| done].
    cbn [app]. do 3 f_equal.
    replace (Z.to_nat (i + 1)) with (S (Z.to_nat i)) by lia.
    rewrite array_set_take_snoc by lia.
    by rewrite <- app_assoc.
Qed.

(** X24: when a multi-byte sequence is broken off by a byte
    that is neither a continuation byte nor the start of a sequence,
    [devcon_utf8_decode] returns nothing while it reads the sequence and
    then hands back every byte read, the breaking byte included, each as
    the code point of its value. *)
Theorem utf8_broken_sequence_fallback (p : devcon_utf8) (lead t n : Z)
    (cs : list Z) (b : Z)
    (Hp : utf8_idle p)
    (Hl : 0 <= lead < 256) (Hlead : utf8_lead lead = Some (t, n))
    (Hcs : Forall (fun c => 128 <= c < 192) cs)
    (Hshort : Z.of_nat (length cs) < n - 1)
    (Hb : 0 <= b < 128 \/ 248 <= b < 256) :
  snd (utf8_decode_all p (lead :: cs ++ [b]))
  = replicate (S (length cs)) [] ++ [lead :: cs ++ [b]] /\
  utf8_idle (fst (utf8_decode_all p (lead :: cs ++ [b]))).
Proof.
  pose proof (utf8_lead_length lead t n Hl Hlead) as Hn.
  destruct p as [buf u i n0 v]. destruct Hp as [Hv Hlen].
  cbn [utf8_valid utf8_chars] in Hv, Hlen. subst v.
  destruct buf as [|c0 buf]; [simpl in Hlen; lia |].
  assert (E0 : devcon_utf8_decode (mk_utf8 (c0 :: buf) u i n0 false) lead
               = (mk_utf8 (array_set (c0 :: buf) 0 lead)
                    (u32 (Z.shiftl t (6 * (n - 1)))) 1 n true, [])).
  { unfold devcon_utf8_decode.
    cbn [utf8_valid utf8_i_bytes utf8_n_bytes utf8_chars utf8_ucs4 negb
         orb].
    rewrite u8_small by lia. rewrite Hlead. unfold utf8_finish.
    cbn [utf8_valid utf8_i_bytes utf8_n_bytes utf8_chars utf8_ucs4].
    by destruct (Z.ltb_spec 1 n); [| lia]. }
  cbn [utf8_decode_all]. rewrite E0.
  destruct (utf8_pending_fallback cs (array_set (c0 :: buf) 0 lead)
              (u32 (Z.shiftl t (6 * (n - 1)))) 1 n b)
    as (p' & E & Hp'); try done; try lia.
  rewrite E. cbn [fst snd]. split; [| done].
  cbn [replicate app]. do 2 f_equal.
Qed.

Lemma utf8_broken_sequence_fallback_witness :
  (utf8_idle utf8_zero /\ 0 <= 0xE2 < 256 /\
   utf8_lead 0xE2 = Some (2, 3) /\
   Forall (fun c => 128 <= c < 192) [0x82] /\
   Z.of_nat (length [0x82]) < 3 - 1 /\
   (0 <= 0x41 < 128 \/ 248 <= 0x41 < 256)) /\
  snd (utf8_decode_all utf8_zero (0xE2 :: [0x82] ++ [0x41]))
  = [[]; []; [0xE2; 0x82; 0x41]].
Proof.
  assert (H1 : 0 <= 0xE2 < 256) by lia.
  assert (H2 : utf8_lead 0xE2 = Some (2, 3)) by reflexivity.
  assert (H3 : Forall (fun c => 128 <= c < 192) [0x82])
    by (repeat constructor; lia).
  assert (H4 : Z.of_nat (length [0x82]) < 3 - 1) by (simpl; lia).
  assert (H5 : 0 <= 0x41 < 128 \/ 248 <= 0x41 < 256) by (left; lia).
  split; [exact (conj utf8_zero_idle (conj H1 (conj H2 (conj H3
                   (conj H4 H5))))) |].
  exact (proj1 (utf8_broken_sequence_fallback utf8_zero 0xE2 2 3 [0x82]
                  0x41 utf8_zero_idle H1 H2 H3 H4 H5)).
Defined.

(** ** The parser: what a call hands out *)

Lemma parser_transition_ret p raw st act :
  let r := parser_transition p raw st act in
  snd r = 0 \/
  (snd r = seq_type_value (seq_type (parser_seq (fst r))) /\ 0 < snd r /\
   seq_terminator (parser_seq (fst r)) = raw).
Proof.
  cbv zeta. unfold parser_transition.
  destruct act; try (left; reflexivity).
  - right. unfold parser_ignore. simpl. repeat split; lia.
  - right. unfold parser_print. simpl. repeat split; lia.
  - right. unfold parser_execute. simpl. repeat split; lia.
  - right. unfold parser_esc. cbn [seq_charset seq_dispatch].
    destruct (devcon_parse_host_escape _ _). simpl. repeat split; lia.
  - right. unfold parser_csi. simpl. repeat split; lia.
Qed.

Lemma parser_feed_to_state_ret p raw :
  let r := parser_feed_to_state p raw in
  snd r = 0 \/
  (snd r = seq_type_value (seq_type (parser_seq (fst r))) /\ 0 < snd r /\
   seq_terminator (parser_seq (fst r)) = raw) \/
  (snd r = - EINVAL /\ parser_state_ p = STATE_N).
Proof.
  cbv zeta. unfold parser_feed_to_state.
  destruct (parser_state_ p);
    repeat match goal with
           | |- context [if ?b then _ else _] => destruct b
           end;
    first [ by right; right
          | match goal with
            | |- context [parser_transition p raw ?st ?act] =>
                destruct (parser_transition_ret p raw st act) as [H | H];
                [by left | by right; left]
            end ].
Qed.

(** X25: [devcon_parser_feed] hands out a sequence exactly when
    it returns a positive value; this value is the type of the sequence,
    the sequence is the parser's own and its terminator is the value that
    was fed. Otherwise the call returns 0, or [-EINVAL] when the parser is
    in no known state. *)
Theorem parser_feed_hands_out (p : devcon_parser) (raw : Z) :
  let '(p', seq_out, r) := devcon_parser_feed p raw in
  match seq_out with
  | Some s =>
      0 < r /\ r = seq_type_value (seq_type s) /\ s = parser_seq p' /\
      seq_terminator s = raw
  | None => r = 0 \/ (r = - EINVAL /\ parser_state_ p = STATE_N)
  end.
Proof.
  unfold devcon_parser_feed.
  assert (Hout : forall e : devcon_parser * Z,
             (snd e = 0 \/
              (snd e = seq_type_value (seq_type (parser_seq (fst e))) /\
               0 < snd e /\ seq_terminator (parser_seq (fst e)) = raw) \/
              (snd e = - EINVAL /\ parser_state_ p = STATE_N)) ->
             let '(p', seq_out, r) :=
               (let (parser, ret_) := e in
                if ret_ <=? 0 then (parser, None, ret_)
                else (parser, Some (parser_seq parser), ret_)) in
             match seq_out with
             | Some s =>
                 0 < r /\ r = seq_type_value (seq_type s) /\
                 s = parser_seq p' /\ seq_terminator s = raw
             | None => r = 0 \/ (r = - EINVAL /\ parser_state_ p = STATE_N)
             end).
  { intros [q r] H. simpl in H.
    destruct (Z.leb_spec r 0).
    - destruct H as [H | [H | H]]; [by left | lia | by right].
    - destruct H as [H | [H | H]];
        [lia | by destruct H as (? & ? & ?) | unfold EINVAL in H; lia]. }
  apply Hout.
  repeat match goal with
         | |- context [if ?b then _ else _] => destruct b
         end;
    first [ apply parser_feed_to_state_ret
          | match goal with
            | |- context [parser_transition p raw ?st ?act] =>
                destruct (parser_transition_ret p raw st act) as [H | H];
                [by left | by right; left]
            end ].
Qed.

(** ** The parser: introducers and parameters *)






(** One digit of a CSI parameter. *)
Lemma parser_feed_digit p d :
  in_csi_params p -> 0 <= d <= 9 ->
  0 <= seq_n_args (parser_seq p) < DEVCON_PARSER_ARG_MAX ->
  let k := seq_n_args (parser_seq p) in
  let old := array_get 0 (seq_args (parser_seq p)) k in
  devcon_parser_feed p (48 + d)
  = (mk_parser
       (seq_with_args (parser_seq p) k
          (array_set (seq_args (parser_seq p)) k
             (Z.min 0xffff (Z.max 0 old * 10 + d))))
       (parser_st_alloc p) STATE_CSI_PARAM,
     None, 0).
Proof.
  intros Hst Hd Hk. cbv zeta.
  unfold DEVCON_PARSER_ARG_MAX in Hk.
  assert (Hparam :
            parser_param
              (mk_parser (parser_seq p) (parser_st_alloc p) STATE_CSI_PARAM)
              (48 + d)
            = mk_parser
                (seq_with_args (parser_seq p) (seq_n_args (parser_seq p))
                   (array_set (seq_args (parser_seq p))
                      (seq_n_args (parser_seq p))
                      (Z.min 0xffff
                         (Z.max 0 (array_get 0 (seq_args (parser_seq p))
                                     (seq_n_args (parser_seq p)))
                          * 10 + d))))
                (parser_st_alloc p) STATE_CSI_PARAM).
  { unfold parser_param, parser_with_seq, DEVCON_PARSER_ARG_MAX.
    cbn [parser_seq parser_st_alloc parser_state_].
    destruct (Z.eqb_spec (48 + d) 59); [lia |].
    destruct (Z.leb_spec 16 (seq_n_args (parser_seq p))); [lia |].
    destruct (Z.leb_spec 48 (48 + d)); [| lia].
    destruct (Z.leb_spec (48 + d) 57); [| lia]. cbn [andb].
    do 3 f_equal.
    set (old := array_get 0 _ _).
    destruct (Z.ltb_spec old 0);
      match goal with |- context [if 65535 <? ?x then _ else _] =>
        destruct (Z.ltb_spec 65535 x) end; lia. }
  assert (Hd' : d = 0 \/ d = 1 \/ d = 2 \/ d = 3 \/ d = 4 \/ d = 5 \/
                d = 6 \/ d = 7 \/ d = 8 \/ d = 9) by lia.
  assert (Hfeed : devcon_parser_feed p (48 + d)
                  = (parser_param
                       (mk_parser (parser_seq p) (parser_st_alloc p)
                          STATE_CSI_PARAM) (48 + d), None, 0)).
  { unfold devcon_parser_feed, parser_feed_to_state.
    destruct Hst as [Hst | Hst]; rewrite Hst;
      destruct Hd' as [-> | [-> | [-> | [-> | [-> | [-> | [-> | [-> |
                       [-> | ->]]]]]]]]];
      cbn [Z.add Pos.add Pos.succ Z.eqb Pos.eqb in_range Z.leb Z.compare
           Pos.compare Pos.compare_cont andb orb];
      unfold parser_transition; cbn [Z.leb Z.compare];
      try reflexivity;
      by destruct p as [sq al stt]; cbn in Hst; subst stt. }
  by rewrite Hfeed, Hparam.
Qed.

(** The clamped accumulation of [parser_param] is the clamped number. *)
Lemma param_saturates (ds : list Z) : forall a b,
  0 <= b -> a = Z.min 0xffff b -> Forall (fun d => 0 <= d <= 9) ds ->
  foldl (fun a d => Z.min 0xffff (a * 10 + d)) a ds
  = Z.min 0xffff (foldl (fun a d => a * 10 + d) b ds).
Proof.
  induction ds as [|d ds IH]; intros a b Hb Ha Hds; [done |].
  inversion Hds as [|? ? Hd Hds']; subst. simpl.
  apply IH; [lia | lia | done].
Qed.

Lemma parser_feed_digits (ds : list Z) : forall p d,
  in_csi_params p -> 0 <= d <= 9 -> Forall (fun d => 0 <= d <= 9) ds ->
  0 <= seq_n_args (parser_seq p) < DEVCON_PARSER_ARG_MAX ->
  length (seq_args (parser_seq p)) = 16%nat ->
  let k := seq_n_args (parser_seq p) in
  let old := array_get 0 (seq_args (parser_seq p)) k in
  parser_feed_all p (digit_chars (d :: ds))
  = (mk_parser
       (seq_with_args (parser_seq p) k
          (array_set (seq_args (parser_seq p)) k
             (foldl (fun a d => Z.min 0xffff (a * 10 + d))
                (Z.min 0xffff (Z.max 0 old * 10 + d)) ds)))
       (parser_st_alloc p) STATE_CSI_PARAM,
     replicate (S (length ds)) (None, 0)).
Proof.
  induction ds as [|d' ds IH]; intros p d Hst Hd Hds Hk Hlen; cbv zeta.
  - cbn [digit_chars map parser_feed_all].
    by rewrite (parser_feed_digit p d Hst Hd Hk).
  - inversion Hds as [|? ? Hd' Hds']; subst.
    change (digit_chars (d :: d' :: ds))
      with ((48 + d) :: digit_chars (d' :: ds)).
    cbn [parser_feed_all].
    rewrite (parser_feed_digit p d Hst Hd Hk). cbv zeta.
    unfold DEVCON_PARSER_ARG_MAX in Hk.
    set (k := seq_n_args (parser_seq p)) in *.
    set (args := seq_args (parser_seq p)) in *.
    set (v := Z.min 65535 (Z.max 0 (array_get 0 args k) * 10 + d)).
    rewrite IH; try done.
    + cbn [parser_seq parser_st_alloc seq_with_args seq_n_args seq_args].
      assert (Hget : array_get 0 (array_set args k v) k = v).
      { unfold array_get, array_set. destruct (Z.ltb_spec k 0); [lia |].
        by rewrite list_lookup_insert_eq by lia. }
      assert (Hset : forall y,
                array_set (array_set args k v) k y = array_set args k y).
      { intros y. unfold array_set. destruct (Z.ltb_spec k 0); [lia |].
        apply list_insert_insert_eq. }
      rewrite Hget, Hset. cbn [foldl length replicate].
      replace (Z.max 0 v) with v by (subst v; lia). done.
    + by right.
    + cbn [parser_seq seq_with_args seq_args].
      by rewrite array_set_length.
Qed.

(** X27: the digits of a parameter of a CSI sequence are read as a
    decimal number that saturates at 65535: after the digits the current
    parameter holds the smaller of the number and 65535, the other
    parameters and the parameter count are as before, and no call hands
    out a sequence. *)
Theorem parser_param_saturates (p : devcon_parser) (ds : list Z)
    (Hst : in_csi_params p)
    (Hk : 0 <= seq_n_args (parser_seq p) < DEVCON_PARSER_ARG_MAX)
    (Hlen : length (seq_args (parser_seq p)) = 16%nat)
    (Hnew : array_get 0 (seq_args (parser_seq p))
              (seq_n_args (parser_seq p)) <= 0)
    (Hds : Forall (fun d => 0 <= d <= 9) ds) (Hne : ds <> []) :
  let k := seq_n_args (parser_seq p) in
  let r := parser_feed_all p (digit_chars ds) in
  parser_state_ (fst r) = STATE_CSI_PARAM /\
  seq_n_args (parser_seq (fst r)) = k /\
  seq_args (parser_seq (fst r))
  = array_set (seq_args (parser_seq p)) k (Z.min 0xffff (decimal ds)) /\
  Forall (fun o => o = (None, 0)) (snd r).
Proof.
  destruct ds as [|d ds]; [done |].
  inversion Hds as [|? ? Hd Hds']; subst. cbv zeta.
  rewrite (parser_feed_digits ds p d Hst Hd Hds' Hk Hlen).
  cbn [fst snd parser_state_ parser_seq seq_with_args seq_n_args seq_args].
  split; [done |]. split; [done |]. split.
  - f_equal. unfold decimal. cbn [foldl].
    apply param_saturates; [lia | lia | done].
  - by apply Forall_replicate.
Qed.

Lemma parser_param_saturates_witness :
  (in_csi_params parser_csi_1 /\
   0 <= seq_n_args (parser_seq parser_csi_1) < DEVCON_PARSER_ARG_MAX /\
   length (seq_args (parser_seq parser_csi_1)) = 16%nat /\
   array_get 0 (seq_args (parser_seq parser_csi_1))
     (seq_n_args (parser_seq parser_csi_1)) <= 0 /\
   Forall (fun d => 0 <= d <= 9) [9; 9; 9; 9; 9; 9] /\
   [9; 9; 9; 9; 9; 9] <> []) /\
  seq_args (parser_seq
              (fst (parser_feed_all parser_csi_1
                      (digit_chars [9; 9; 9; 9; 9; 9]))))
  = [1; 65535; -1; -1; -1; -1; -1; -1; -1; -1; -1; -1; -1; -1; -1; -1].
Proof.
  assert (H1 : in_csi_params parser_csi_1) by (right; reflexivity).
  assert (H2 : 0 <= seq_n_args (parser_seq parser_csi_1)
               < DEVCON_PARSER_ARG_MAX) by (vm_compute; split; congruence).
  assert (H3 : length (seq_args (parser_seq parser_csi_1)) = 16%nat)
    by reflexivity.
  assert (H4 : array_get 0 (seq_args (parser_seq parser_csi_1))
                 (seq_n_args (parser_seq parser_csi_1)) <= 0)
    by (vm_compute; congruence).
  assert (H5 : Forall (fun d => 0 <= d <= 9) [9; 9; 9; 9; 9; 9])
    by (repeat constructor; lia).
  assert (H6 : [9; 9; 9; 9; 9; 9] <> []) by discriminate.
  split; [exact (conj H1 (conj H2 (conj H3 (conj H4 (conj H5 H6))))) |].
  destruct (parser_param_saturates parser_csi_1 [9; 9; 9; 9; 9; 9]
              H1 H2 H3 H4 H5 H6) as (_ & _ & E & _).
  rewrite E. reflexivity.
Defined.

(** ** Colours *)

Lemma argb32_lor (r g b : Z) :
  0 <= r < 256 -> 0 <= g < 256 -> 0 <= b < 256 ->
  Z.lor (Z.lor (Z.lor (u32 (Z.shiftl 0xff 24)) (u32 (Z.shiftl r 16)))
           (u32 (Z.shiftl g 8))) b
  = argb32 r g b.
Proof.
  intros Hr Hg Hb. unfold argb32.
  rewrite !Z.shiftl_mul_pow2 by lia.
  rewrite !u32_small by lia.
  replace (255 * 2 ^ 24) with ((255 * 2 ^ 8) * 2 ^ 16) by lia.
  rewrite (lor_add _ (r * 2 ^ 16) 24);
    [| lia | lia
     | replace (255 * 2 ^ 8 * 2 ^ 16) with (255 * 2 ^ 24) by lia;
       apply Z.mod_mul; lia].
  replace (255 * 2 ^ 8 * 2 ^ 16 + r * 2 ^ 16)
    with ((255 * 2 ^ 16 + r * 2 ^ 8) * 2 ^ 8) at 1 by lia.
  rewrite (lor_add _ (g * 2 ^ 8) 16);
    [| lia | lia
     | replace ((255 * 2 ^ 16 + r * 2 ^ 8) * 2 ^ 8)
         with ((255 * 2 ^ 8 + r) * 2 ^ 16) by lia;
       apply Z.mod_mul; lia].
  rewrite (lor_add _ b 8); [lia | lia | lia |].
  replace ((255 * 2 ^ 16 + r * 2 ^ 8) * 2 ^ 8 + g * 2 ^ 8)
    with ((255 * 2 ^ 16 + r * 2 ^ 8 + g) * 2 ^ 8) by lia.
  apply Z.mod_mul; lia.
Qed.

(** X28: a colour of the 256-colour mode in the 6x6x6 cube, index
    [16 + 36 r + 6 g + b], becomes the opaque ARGB32 value whose channels
    are the levels [bval] of [r], [g] and [b]; an index [232 + k] of the
    grey ramp becomes the opaque grey of level [8 + 10 k]. Neither depends
    on the palette or the attributes. *)
Theorem color_256_cube_and_ramp (r g b k cg cb : Z) (is_fg : bool)
    (attr : devcon_attr) (palette : option (list Z))
    (Hr : 0 <= r < 6) (Hg : 0 <= g < 6) (Hb : 0 <= b < 6)
    (Hk : 0 <= k < 24) :
  devcon_color_to_argb32
    (mk_color DEVCON_CCODE_256 (16 + 36 * r + 6 * g + b) cg cb)
    is_fg attr palette
  = argb32 (array_get 0 bval r) (array_get 0 bval g) (array_get 0 bval b)
  /\
  devcon_color_to_argb32 (mk_color DEVCON_CCODE_256 (232 + k) cg cb)
    is_fg attr palette
  = argb32 (8 + 10 * k) (8 + 10 * k) (8 + 10 * k).
Proof.
  assert (Hbval : forall i, 0 <= i < 6 -> 0 <= array_get 0 bval i < 256).
  { intros i Hi.
    assert (E : i = 0 \/ i = 1 \/ i = 2 \/ i = 3 \/ i = 4 \/ i = 5) by lia.
    destruct E as [-> | [-> | [-> | [-> | [-> | ->]]]]];
      vm_compute; split; congruence. }
  unfold devcon_color_to_argb32, color_c256.
  cbn [color_ccode color_red color_green color_blue].
  change (DEVCON_CCODE_256 =? DEVCON_CCODE_RGB) with false.
  change (DEVCON_CCODE_256 =? DEVCON_CCODE_256) with true. cbv iota.
  split.
  - destruct (Z.ltb_spec (16 + 36 * r + 6 * g + b) 16); [lia |].
    destruct (Z.ltb_spec (16 + 36 * r + 6 * g + b) 232); [| lia].
    rewrite (u32_small (_ - 16)) by lia.
    replace (16 + 36 * r + 6 * g + b - 16) with (b + (6 * r + g) * 6)
      by lia.
    rewrite Z.mod_add, Z.div_add, (Z.mod_small b), (Z.div_small b), Z.add_0_l
      by lia.
    replace (6 * r + g) with (g + r * 6) by lia.
    rewrite Z.mod_add, Z.div_add, (Z.mod_small g), (Z.div_small g), Z.add_0_l
      by lia.
    rewrite (Z.mod_small r) by lia.
    apply argb32_lor; by apply Hbval.
  - destruct (Z.ltb_spec (232 + k) 16); [lia |].
    destruct (Z.ltb_spec (232 + k) 232); [lia |].
    rewrite (u32_small (_ * 10 + 8)) by lia.
    replace ((232 + k - 232) * 10 + 8) with (8 + 10 * k) by lia.
    apply argb32_lor; lia.
Qed.

Lemma color_256_cube_and_ramp_witness :
  (0 <= 5 < 6 /\ 0 <= 0 < 6 /\ 0 <= 1 < 6 /\ 0 <= 23 < 24) /\
  devcon_color_to_argb32 (mk_color DEVCON_CCODE_256 197 0 0) true attr_zero
    None
  = 0xffff005f /\
  devcon_color_to_argb32 (mk_color DEVCON_CCODE_256 255 0 0) true attr_zero
    None
  = 0xffeeeeee.
Proof.
  assert (H1 : 0 <= 5 < 6) by lia.
  assert (H2 : 0 <= 0 < 6) by lia.
  assert (H3 : 0 <= 1 < 6) by lia.
  assert (H4 : 0 <= 23 < 24) by lia.
  split; [exact (conj H1 (conj H2 (conj H3 H4))) |].
  exact (color_256_cube_and_ramp 5 0 1 23 0 0 true attr_zero None
           H1 H2 H3 H4).
Defined.

(** X29: with the bold attribute a dark named foreground colour
    is shown as its light variant: [devcon_attr_to_argb32] gives the same
    pair of colours as for the light colour without bold, whatever the
    background, the palette and the inverse flag are. The background is
    never brightened. *)
Theorem attr_bold_brightens_foreground (a : devcon_attr) (t : Z)
    (palette : option (list Z)) (Ht : 0 <= t < 8) :
  devcon_attr_to_argb32
    (attr_with_fg a (color_named (DEVCON_CCODE_BLACK + t)) true) palette
  = devcon_attr_to_argb32
      (attr_with_fg a (color_named (DEVCON_CCODE_LIGHT_BLACK + t)) false)
      palette /\
  devcon_color_to_argb32 (attr_bg a) false
    (attr_with_fg a (color_named (DEVCON_CCODE_BLACK + t)) true) palette
  = devcon_color_to_argb32 (attr_bg a) false
      (attr_with_fg a (color_named (DEVCON_CCODE_BLACK + t)) false) palette.
Proof.
  assert (Hbg : forall fg fg' bold bold',
            devcon_color_to_argb32 (attr_bg a) false
              (attr_with_fg a fg bold) palette
            = devcon_color_to_argb32 (attr_bg a) false
                (attr_with_fg a fg' bold') palette).
  { intros fg fg' bold bold'. unfold devcon_color_to_argb32.
    cbn [attr_bold attr_with_fg]. by rewrite !andb_false_r. }
  split; [| apply Hbg].
  unfold devcon_attr_to_argb32.
  cbn [attr_fg attr_bg attr_inverse attr_with_fg].
  rewrite (Hbg _ (color_named (DEVCON_CCODE_LIGHT_BLACK + t)) _ false).
  assert (Hfg : devcon_color_to_argb32
                  (color_named (DEVCON_CCODE_BLACK + t)) true
                  (attr_with_fg a (color_named (DEVCON_CCODE_BLACK + t))
                     true) palette
                = devcon_color_to_argb32
                    (color_named (DEVCON_CCODE_LIGHT_BLACK + t)) true
                    (attr_with_fg a
                       (color_named (DEVCON_CCODE_LIGHT_BLACK + t)) false)
                    palette).
  { unfold devcon_color_to_argb32, color_named, DEVCON_CCODE_LIGHT_BLACK,
      DEVCON_CCODE_LIGHT_WHITE, DEVCON_CCODE_WHITE, DEVCON_CCODE_BLACK,
      DEVCON_CCODE_RGB, DEVCON_CCODE_256.
    cbn [color_ccode attr_bold attr_with_fg].
    destruct (Z.eqb_spec (3 + t) 2); [lia |].
    destruct (Z.eqb_spec (3 + t) 1); [lia |].
    destruct (Z.eqb_spec (3 + 8 + t) 2); [lia |].
    destruct (Z.eqb_spec (3 + 8 + t) 1); [lia |].
    destruct (Z.leb_spec 3 (3 + t)); [| lia].
    destruct (Z.leb_spec (3 + t) (10 + 8)); [| lia].
    destruct (Z.leb_spec 3 (3 + 8 + t)); [| lia].
    destruct (Z.leb_spec (3 + 8 + t) (10 + 8)); [| lia].
    cbn [andb].
    destruct (Z.ltb_spec (3 + t - 3) 8); [| lia].
    destruct (Z.ltb_spec (3 + 8 + t - 3) 8); [lia |].
    cbn [andb].
    replace (3 + t - 3 + 8) with (3 + 8 + t - 3) by lia. done. }
  by rewrite Hfg.
Qed.

Lemma attr_bold_brightens_foreground_witness :
  (0 <= 1 < 8) /\
  devcon_attr_to_argb32
    (attr_with_fg attr_zero (color_named DEVCON_CCODE_RED) true) None
  = (0xffff0000, 0xff000000).
Proof.
  assert (H : 0 <= 1 < 8) by lia.
  split; [exact H |].
  change DEVCON_CCODE_RED with (DEVCON_CCODE_BLACK + 1).
  rewrite (proj1 (attr_bold_brightens_foreground attr_zero 1 None H)).
  reflexivity.
Defined.

(** ** Pages: reserving memory *)

Lemma foldl_array_set_take_ge {A} (f : list A -> Z -> A) (at_ : Z)
    (k : nat) (idx : list Z) : forall cells : list A,
  Z.of_nat k <= at_ -> Forall (fun i => 0 <= i) idx ->
  take k (foldl (fun cs i => array_set cs (at_ + i) (f cs i)) cells idx)
  = take k cells.
Proof.
  induction idx as [|i idx IH]; intros cells Hk Hidx; [done |].
  inversion Hidx; subst. simpl. rewrite IH by done.
  apply array_set_take_ge. lia.
Qed.

Lemma foldl_array_set_length {A} (f : list A -> Z -> A) (at_ : Z)
    (idx : list Z) : forall cells : list A,
  length (foldl (fun cs i => array_set cs (at_ + i) (f cs i)) cells idx)
  = length cells.
Proof.
  induction idx as [|i idx IH]; intros cells; [done |].
  simpl. by rewrite IH, array_set_length.
Qed.

Lemma seqZ_nonneg (n : Z) : Forall (fun i => 0 <= i) (seqZ 0 n).
Proof. apply Forall_forall. intros i Hi. apply elem_of_seqZ in Hi. lia. Qed.

(** [devcon_line_reserve] never touches the cells below [protect_width],
    nor the width of the line, whether it succeeds or fails. *)
Lemma devcon_line_reserve_protects line width attr age pw h :
  0 <= pw <= line_n_cells line ->
  line_n_cells line = Z.of_nat (length (line_cells line)) ->
  let line' := snd (fst (devcon_line_reserve line width attr age pw h)) in
  line_width line' = line_width line /\
  take (Z.to_nat pw) (line_cells line')
  = take (Z.to_nat pw) (line_cells line) /\
  line_n_cells line <= line_n_cells line' /\
  line_n_cells line' = Z.of_nat (length (line_cells line')).
Proof.
  intros Hpw Hn. cbv zeta. unfold devcon_line_reserve, bind.
  set (mw := Z.min (line_n_cells line) width).
  assert (Hcells :
            take (Z.to_nat pw)
              (fst ((if pw <? mw
                     then devcon_cell_clear_n (line_cells line) pw
                            (u32 (mw - pw)) attr age
                     else ret (line_cells line)) h))
            = take (Z.to_nat pw) (line_cells line) /\
            length (fst ((if pw <? mw
                          then devcon_cell_clear_n (line_cells line) pw
                                 (u32 (mw - pw)) attr age
                          else ret (line_cells line)) h))
            = length (line_cells line)).
  { destruct (pw <? mw); [| done].
    apply devcon_cell_clear_n_prefix. lia. }
  destruct ((if pw <? mw
             then devcon_cell_clear_n (line_cells line) pw (u32 (mw - pw))
                    attr age
             else ret (line_cells line)) h) as [cells h1].
  cbn [fst snd] in Hcells. destruct Hcells as [Ht Hl].
  cbn [line_with_cells line_n_cells line_width line_cells line_fill
       line_age].
  destruct (Z.ltb_spec (line_n_cells line) width) as [Hlt | Hge].
  - destruct (SIZE_MAX / sizeof_cell <? width).
    { unfold ret. cbn. repeat split; try done; lia. }
    destruct (kalloc_request h1) as [[] h2]; cbn [negb].
    + unfold ret. cbn [fst snd line_width line_cells line_n_cells].
      assert (Hres : take (Z.to_nat pw)
                       (resize (Z.to_nat width) cell_zero cells)
                     = take (Z.to_nat pw) (line_cells line)).
      { rewrite take_resize_le by lia.
        by rewrite resize_le by lia. }
      split; [done |].
      destruct (bool_decide (attr = None) && (age =? 0)).
      * unfold cells_memset0.
        rewrite (foldl_array_set_take_ge (fun _ _ => cell_zero))
          by (try apply seqZ_nonneg; lia).
        split; [done |]. split; [lia |].
        rewrite (foldl_array_set_length (fun _ _ => cell_zero)).
        rewrite length_resize. lia.
      * unfold devcon_cell_init_n.
        rewrite (foldl_array_set_take_ge
                   (fun cs i =>
                      devcon_cell_init
                        (array_get cell_zero cs (line_n_cells line + i))
                        DEVCON_CHAR_NULL 0 attr age))
          by (try apply seqZ_nonneg; lia).
        split; [done |]. split; [lia |].
        rewrite (foldl_array_set_length
                   (fun cs i =>
                      devcon_cell_init
                        (array_get cell_zero cs (line_n_cells line + i))
                        DEVCON_CHAR_NULL 0 attr age)).
        rewrite length_resize. lia.
    + unfold ret. cbn. repeat split; try done; lia.
  - unfold ret. cbn. repeat split; try done; lia.
Qed.

Lemma devcon_page_get_cell_same_visible (p q : devcon_page) :
  page_width q = page_width p -> page_height q = page_height p ->
  (forall (y : nat) l, Z.of_nat y < page_height p ->
     page_lines p !! y = Some l ->
     exists l', page_lines q !! y = Some l' /\
                same_visible (page_width p) l l') ->
  page_height p <= Z.of_nat (length (page_lines p)) ->
  forall x y, 0 <= x -> 0 <= y ->
    devcon_page_get_cell q x y = devcon_page_get_cell p x y.
Proof.
  intros Hw Hh Hvis Hlen x y Hx Hy.
  unfold devcon_page_get_cell. rewrite Hw, Hh.
  destruct (Z.leb_spec (page_width p) x); [done |].
  destruct (Z.leb_spec (page_height p) y); [done |].
  destruct (lookup_lt_is_Some_2 (page_lines p) (Z.to_nat y) ltac:(lia))
    as [l Hl].
  destruct (Hvis (Z.to_nat y) l ltac:(lia) Hl) as (l' & Hl' & Hw' & Hc).
  assert (Hg : forall ls : list devcon_line,
            array_get line_zero ls y = default line_zero (ls !! Z.to_nat y)).
  { intros ls. unfold array_get. by destruct (Z.ltb_spec y 0); [lia |]. }
  rewrite !Hg, Hl, Hl'. cbn [default]. unfold id. rewrite Hw'.
  destruct (line_width l <=? x); [done |]. f_equal.
  unfold array_get. destruct (Z.ltb_spec x 0); [lia |].
  apply (f_equal (fun cs => cs !! Z.to_nat x)) in Hc.
  rewrite !lookup_take_lt in Hc by lia. by rewrite Hc.
Qed.

(** The first loop of [devcon_page_reserve]. *)
Lemma page_reserve_lines_spec (p : devcon_page) cols attr age (n : nat) :
  forall i0 lines h,
  page_allocated p -> 0 <= i0 ->
  i0 + Z.of_nat n <= Z.of_nat (length (page_lines p)) ->
  length lines = length (page_lines p) ->
  (forall y : nat, i0 <= Z.of_nat y -> lines !! y = page_lines p !! y) ->
  (forall (y : nat) l, Z.of_nat y < page_height p ->
     page_lines p !! y = Some l ->
     exists l', lines !! y = Some l' /\ same_visible (page_width p) l l') ->
  (forall (y : nat) l', Z.of_nat y < i0 -> lines !! y = Some l' ->
     cols <= line_n_cells l') ->
  let r := fst (page_reserve_lines (seqZ i0 (Z.of_nat n)) p cols attr age
                  lines h) in
  fst r <= 0 /\
  length (snd r) = length (page_lines p) /\
  (forall (y : nat) l, Z.of_nat y < page_height p ->
     page_lines p !! y = Some l ->
     exists l', snd r !! y = Some l' /\ same_visible (page_width p) l l') /\
  (fst r = 0 ->
   forall (y : nat) l', Z.of_nat y < i0 + Z.of_nat n ->
     snd r !! y = Some l' -> cols <= line_n_cells l').
Proof.
  induction n as [|n IH]; intros i0 lines h Hp Hi0 Hfit Hlen Hrest Hvis Hdone.
  - cbv zeta. change (seqZ i0 (Z.of_nat 0)) with (@nil Z).
    cbn [page_reserve_lines]. unfold ret. cbn [fst snd].
    split; [lia |]. split; [done |]. split; [done |].
    intros _ y l' Hy. apply Hdone. lia.
  - cbv zeta. rewrite seqZ_cons by lia. cbn [page_reserve_lines].
    replace (i0 + Z.of_nat (S n)) with (Z.succ i0 + Z.of_nat n) by lia.
    replace (Z.pred (Z.of_nat (S n))) with (Z.of_nat n) by lia.
    assert (Hi0n : (Z.to_nat i0 < length (page_lines p))%nat) by lia.
    destruct (lookup_lt_is_Some_2 (page_lines p) (Z.to_nat i0) Hi0n)
      as [l Hl].
    assert (Hcur : lines !! Z.to_nat i0 = Some l)
      by (rewrite Hrest by lia; done).
    assert (Hget : array_get line_zero lines i0 = l).
    { unfold array_get. destruct (Z.ltb_spec i0 0); [lia |].
      by rewrite Hcur. }
    destruct ((cols <? page_width p) && (i0 <? page_height p)) eqn:Eskip.
    + apply andb_true_iff in Eskip as [E1 E2].
      apply Z.ltb_lt in E1, E2.
      destruct (page_allocated_line p (Z.to_nat i0) Hp ltac:(lia))
        as (l0 & Hl0 & ((_ & _ & Hwn) & _) & Hlw).
      assert (l0 = l) by congruence. subst l0.
      apply (IH (Z.succ i0)); try done; try lia.
      * intros y Hy. apply Hrest. lia.
      * intros y l' Hy Hl'.
        destruct (decide (y = Z.to_nat i0)) as [-> | Hne].
        -- assert (l' = l) by congruence. subst l'. lia.
        -- apply (Hdone y); [lia | done].
    + unfold bind. rewrite Hget.
      set (pw := if i0 <? page_height p then page_width p else 0).
      pose proof (devcon_line_reserve_enough l cols attr age pw h) as Hen.
      assert (Hprot : i0 < page_height p ->
                same_visible (page_width p) l
                  (snd (fst (devcon_line_reserve l cols attr age pw h)))).
      { intros Hv.
        destruct (page_allocated_line p (Z.to_nat i0) Hp ltac:(lia))
          as (l0 & Hl0 & ((Hf0 & Hf1 & Hwn) & Hnc & _) & Hlw).
        assert (l0 = l) by congruence. subst l0.
        subst pw. destruct (Z.ltb_spec i0 (page_height p)); [| lia].
        destruct (devcon_line_reserve_protects l cols attr age (page_width p)
                    h ltac:(lia) Hnc) as (H1 & H2 & _).
        by split. }
      destruct (devcon_line_reserve l cols attr age pw h) as [[ret_ l1] h1].
      cbn [fst snd] in Hen, Hprot.
      assert (Hvis' : forall (y : nat) l0, Z.of_nat y < page_height p ->
                page_lines p !! y = Some l0 ->
                exists l', array_set lines i0 l1 !! y = Some l' /\
                           same_visible (page_width p) l0 l').
      { intros y l0 Hy Hl0. unfold array_set.
        destruct (Z.ltb_spec i0 0); [lia |].
        destruct (decide (y = Z.to_nat i0)) as [-> | Hne].
        - rewrite list_lookup_insert_eq by lia.
          assert (l0 = l) by congruence. subst l0.
          exists l1. split; [done |]. apply Hprot. lia.
        - rewrite list_lookup_insert_ne by done. by apply Hvis. }
      destruct (Z.ltb_spec ret_ 0).
      * unfold ret. cbn [fst snd]. split; [lia |].
        split; [by rewrite array_set_length |]. split; [done |]. lia.
      * apply (IH (Z.succ i0)); try done; try lia.
        -- by rewrite array_set_length.
        -- intros y Hy. unfold array_set.
           destruct (Z.ltb_spec i0 0); [lia |].
           rewrite list_lookup_insert_ne by lia. apply Hrest. lia.
        -- intros y l' Hy Hl'. unfold array_set in Hl'.
           destruct (Z.ltb_spec i0 0); [lia |].
           destruct (decide (y = Z.to_nat i0)) as [-> | Hne].
           ++ rewrite list_lookup_insert_eq in Hl' by lia.
              injection Hl' as <-. apply Hen. lia.
           ++ rewrite list_lookup_insert_ne in Hl' by done.
              apply (Hdone y); [lia | done].
Qed.

(** The second loop of [devcon_page_reserve]: lines are appended, each
    with the cells asked for. *)
Lemma page_reserve_new_spec cols attr age (n : nat) : forall lines n_lines h,
  0 <= n_lines -> n_lines + Z.of_nat n < 2 ^ 32 ->
  let r := fst (page_reserve_new n cols attr age lines n_lines h) in
  exists new,
    snd (fst r) = lines ++ new /\
    snd r = n_lines + Z.of_nat (length new) /\
    Forall (fun l => cols <= line_n_cells l) new /\
    fst (fst r) <= 0 /\
    (fst (fst r) = 0 -> length new = n).
Proof.
  induction n as [|n IH]; intros lines n_lines h Hn Hfit; cbv zeta.
  - exists []. cbn. rewrite app_nil_r. repeat split; try done; lia.
  - cbn [page_reserve_new]. unfold bind.
    destruct (devcon_line_new h) as [[fresh |] h1].
    + pose proof (devcon_line_reserve_enough fresh cols attr age 0 h1)
        as Hen.
      destruct (devcon_line_reserve fresh cols attr age 0 h1)
        as [[ret_ line] h2].
      cbn [fst snd] in Hen.
      destruct (Z.ltb_spec ret_ 0).
      * destruct (devcon_line_free line h2) as [u h3].
        exists []. unfold ret. cbn. rewrite app_nil_r.
        repeat split; try done; lia.
      * assert (Hnl : u32 (n_lines + 1) = n_lines + 1)
          by (apply u32_small; lia).
        destruct (IH (lines ++ [line]) (u32 (n_lines + 1)) h2)
          as (new & E1 & E2 & E3 & E4 & E5); [lia | lia |].
        exists (line :: new). rewrite E1, E2, <- app_assoc.
        cbn [length app].
        split; [done |]. split; [lia |].
        split; [constructor; [lia | done] |].
        split; [done |]. intros E0. by rewrite (E5 E0).
    + exists []. unfold ret, ENOMEM. cbn. rewrite app_nil_r.
      repeat split; try done; lia.
Qed.

(** X30: [devcon_page_reserve] never changes a visible cell, the
    width or the height of the page, whether it succeeds or runs out of
    memory. It returns 0 or a negative error code; when it returns 0 the
    page has at least [rows] lines and each of the first [rows] lines has
    at least [cols] cells allocated. *)
Theorem page_reserve_keeps_visible (p : devcon_page) (cols rows : Z)
    (attr : option devcon_attr) (age : Z) (h : heap)
    (Hp : page_allocated p)
    (Hn : page_n_lines p = Z.of_nat (length (page_lines p)))
    (Hrows : 0 <= rows < 2 ^ 32) :
  let r := fst (devcon_page_reserve p cols rows attr age h) in
  (forall x y, 0 <= x -> 0 <= y ->
     devcon_page_get_cell (snd r) x y = devcon_page_get_cell p x y) /\
  page_width (snd r) = page_width p /\
  page_height (snd r) = page_height p /\
  fst r <= 0 /\
  (fst r = 0 ->
   rows <= page_n_lines (snd r) /\
   page_n_lines (snd r) = Z.of_nat (length (page_lines (snd r))) /\
   Forall (fun l => cols <= line_n_cells l)
     (take (Z.to_nat rows) (page_lines (snd r)))).
Proof.
  cbv zeta. unfold devcon_page_reserve, bind.
  set (m := Z.min (page_n_lines p) rows).
  replace (seqZ 0 m) with (seqZ 0 (Z.of_nat (Z.to_nat m)))
    by (unfold seqZ; by rewrite Nat2Z.id).
  destruct (page_reserve_lines_spec p cols attr age (Z.to_nat m) 0
              (page_lines p) h Hp ltac:(lia) ltac:(lia) eq_refl
              ltac:(done))
    as (Hret & Hlen & Hvis & Hdone).
  { intros y l _ Hl. exists l. by split. }
  { intros y l' Hy. lia. }
  destruct (page_reserve_lines _ p cols attr age (page_lines p) h)
    as [[ret1 lines1] h1].
  cbn [fst snd] in Hret, Hlen, Hvis, Hdone.
  assert (Hheight : page_height p <= Z.of_nat (length (page_lines p)))
    by (destruct Hp as [Hh _]; lia).
  assert (Hcell : forall (ls : list devcon_line) nl (new : list devcon_line),
            ls = lines1 ++ new ->
            forall x y, 0 <= x -> 0 <= y ->
              devcon_page_get_cell (page_with_n_lines p ls nl) x y
              = devcon_page_get_cell p x y).
  { intros ls nl new -> x y Hx Hy.
    apply devcon_page_get_cell_same_visible; try done.
    intros y0 l Hy0 Hl. cbn [page_lines page_with_n_lines].
    destruct (Hvis y0 l Hy0 Hl) as (l' & Hl' & Hs).
    exists l'. split; [| done]. by apply lookup_app_l_Some. }
  assert (Hfirst : forall (new : list devcon_line),
            ret1 = 0 ->
            Forall (fun l => cols <= line_n_cells l) new ->
            Forall (fun l => cols <= line_n_cells l)
              (take (Z.to_nat rows) (lines1 ++ new))).
  { intros new E0 Hnew. apply Forall_lookup. intros y l Hy.
    apply lookup_take_Some in Hy as [Hy Hlt].
    destruct (decide (y < length lines1)%nat) as [Hin | Hout].
    - rewrite lookup_app_l in Hy by done.
      apply (Hdone E0 y); [subst m; lia | done].
    - rewrite lookup_app_r in Hy by lia.
      rewrite Forall_lookup in Hnew. by apply (Hnew _ _ Hy). }
  destruct (Z.ltb_spec ret1 0).
  { unfold ret. cbn [fst snd page_width page_height page_with_n_lines].
    split; [apply (Hcell _ _ []); by rewrite app_nil_r |].
    do 3 (split; [done || lia |]). lia. }
  cbn [page_n_lines page_with_n_lines].
  destruct (Z.ltb_spec (page_n_lines p) rows).
  - destruct (SIZE_MAX / sizeof_ptr <? rows).
    { unfold ret, ENOMEM.
      cbn [fst snd page_width page_height page_with_n_lines].
      split; [apply (Hcell _ _ []); by rewrite app_nil_r |].
      do 3 (split; [done || lia |]). lia. }
    destruct (kalloc_request h1) as [[] h2]; cbn [negb];
      [| unfold ret, ENOMEM;
         cbn [fst snd page_width page_height page_with_n_lines];
         split; [apply (Hcell _ _ []); by rewrite app_nil_r |];
         do 3 (split; [done || lia |]); lia].
    destruct (kalloc_request h2) as [[] h3]; cbn [negb];
      [| unfold ret, ENOMEM;
         cbn [fst snd page_width page_height page_with_n_lines];
         split; [apply (Hcell _ _ []); by rewrite app_nil_r |];
         do 3 (split; [done || lia |]); lia].
    destruct (page_reserve_new_spec cols attr age
                (Z.to_nat (rows - page_n_lines p)) lines1 (page_n_lines p)
                h3 ltac:(lia) ltac:(lia))
      as (new & E1 & E2 & E3 & E4 & E5).
    destruct (page_reserve_new _ cols attr age lines1 (page_n_lines p) h3)
      as [[[ret2 lines2] nl2] h4].
    cbn [fst snd] in E1, E2, E4, E5. subst lines2 nl2.
    unfold ret.
    cbn [fst snd page_width page_height page_lines page_n_lines
         page_with_n_lines].
    split; [by apply (Hcell _ _ new) |].
    do 3 (split; [done |]).
    intros E0. specialize (E5 E0).
    split; [lia |]. split; [rewrite length_app; lia |].
    apply Hfirst; [lia | done].
  - unfold ret.
    cbn [fst snd page_width page_height page_lines page_n_lines
         page_with_n_lines].
    split; [apply (Hcell _ _ []); by rewrite app_nil_r |].
    do 3 (split; [done || lia |]).
    intros _. split; [lia |]. split; [lia |].
    rewrite <- (app_nil_r lines1). apply Hfirst; [lia | done].
Qed.

Lemma page_reserve_keeps_visible_witness :
  (page_allocated page_A_to_E /\
   page_n_lines page_A_to_E = Z.of_nat (length (page_lines page_A_to_E)) /\
   0 <= 6 < 2 ^ 32) /\
  devcon_page_get_cell
    (snd (fst (devcon_page_reserve page_A_to_E 4 6 None 9 heap_granting)))
    2 4
  = Some (cell_of 69 attr_zero 1).
Proof.
  assert (H1 : page_n_lines page_A_to_E
               = Z.of_nat (length (page_lines page_A_to_E))) by reflexivity.
  assert (H2 : 0 <= 6 < 2 ^ 32) by lia.
  split; [exact (conj page_A_to_E_allocated (conj H1 H2)) |].
  destruct (page_reserve_keeps_visible page_A_to_E 4 6 None 9 heap_granting
              page_A_to_E_allocated H1 H2) as [Hc _].
  rewrite Hc by lia. reflexivity.
Defined.

